(* ===== verification/_CoqProject ===== *)
-Q . S2P
Prelude.v
PyStr.v
Regex.v
Segmenter.v
SegmenterWf.v
Pptx.v
Runtime.v
Package.v
Requester.v
DeckA.v
Markers.v
Patterns.v
DeckB.v
Prompt.v
Answer.v
Session.v
Frontend.v
Tabs.v
Concurrent.v
Paths.v
Boot.v
