(* ===== verification/Prelude.v ===== *)
(** * PPT_GENERATOR: a verification development

    The repository holds two Streamlit scripts, [src/PPT_GENERATOR/App.py]
    (variant A) and [src/PPT_GENERATOR/App1.py] (variant B).  Both collect a
    title and a list of topics, ask a hosted language model for one blob of
    text, cut the blob into slide-sized fragments and write a deck with
    python-pptx.  They differ in the cut: variant A cuts at a fixed length on
    a space ([split_content]); variant B cuts at "Slide <n>:" markers with a
    regular expression ([split_into_slides]) and then parses each fragment
    ([process_slide_title]).

    ** The parts of the program and the files that model them

    Each script is one module run top to bottom: it reads the credential,
    defines its functions and runs the form.  On a submit the script
    parses the topics, calls [create_presentation], which calls
    [generate_content] (the model) and the segmenter, builds the deck
    through python-pptx and puts a download button on the page.

    - [Prelude] (this file): the exceptions of the modelled paths
      ([pyexn]), the tactics ([by_compute]), the hint databases [py] and
      [take_while] / [drop_while] with their lemmas, on which [strip] and
      the matchers of the regular expressions are built.
    - [PyStr]: Python's [str] as a list of code points, and the [str]
      operations the scripts call, each as CPython defines it: [len],
      [strip] with and without an argument, [startswith], slices with
      negative indices ([norm_index], [slice_to], [slice_from]), [rfind]
      with its two bounds, [replace], [split] with [maxsplit], [join],
      [sub in s] ([contains], [containsb]) and [repr] of a list of [str]
      (what the f-string of [App.py] line 71 puts for [{topics}]).  The
      class [UnicodeDb] is the interface to the Unicode tables of the
      interpreter ([isprintable] for [repr], [isdecimal] for [\d]); its
      laws fix both on ASCII, and [ascii_db] is the instance the concrete
      runs use.
    - [Regex]: the part of Python's [re] the two patterns of [App1.py]
      are written in.  [re_compile] reads a pattern from its text;
      [exec] is a backtracking matcher in continuation-passing style,
      with the priorities of [re] (greedy and lazy repetitions,
      alternation in order, groups, lookahead, [$]); [re_match] and
      [re_findall] are [re.match] and [findall], empty matches
      included; [matches] is the language of a pattern, without
      priorities.
    - [Segmenter]: [split_content] of [App.py] (lines 40-53), the loop as
      [split_content_loop] with fuel.
    - [SegmenterWf]: the same function for limits of at least 1 as a
      recursion on the length of the text ([split_content_wf], defined
      with Equations), and the proof that the loop with fuel computes
      it.
    - [Pptx]: the part of python-pptx the scripts use, written from its
      documented behaviour (the library is not in the repository): a deck
      is a list of slides, a slide has a layout and two text frames, a
      text frame is a list of paragraphs of runs and line breaks.  The
      script holds objects ([slide], [slide.shapes.title], a paragraph)
      and mutates them; the model names a placeholder by the index of its
      slide and writes through [alter], so that every write lands in the
      one deck.
    - [Runtime]: what a run acts on.  [Env] is the credential and the
      model as a function of the prompt; [World] is the page (the list of
      Streamlit calls, [UiEvent]) and the files written, each by its
      path.  A function with effects is [M A := World -> outcome A],
      where an outcome is a return ([Done]), an exception ([Raised]) or
      no return at all ([Diverged], a loop out of fuel).  The class
      [FileSystem] is the operating system as [prs.save] (line 123 of
      [App.py]) and [open] (line 149) meet it: [lookup_path] gives, for
      a file name, the path of the file it stands for or the exception
      of the call; [save] and [open_rb] go through it.  Its one law is
      what holds everywhere: Python refuses a name with a NUL.
      [plain_names] takes every other name as it is.
    - [Requester]: [generate_content] of both scripts ([App.py] 16-30,
      [App1.py] 16-32).
    - [DeckA] (module [App]): [set_font_size], [create_presentation]
      (the deck of lines 59-119 is [assemble], the file name of line 122
      [file_name_of]) and the script of [App.py] ([main], lines
      129-155), with the deck in closed form ([deck_spec]).
    - [Markers]: [split_into_slides], [remove_double_asteris] and
      [process_slide_title] of [App1.py].  The pattern
      [(Slide \d+:.*?)(?=Slide \d+:|$)] under [re.DOTALL] is the matcher
      [slide_match] ([marker_len] for the marker, [lazy_len] for the lazy
      body up to the [lookahead]), scanned by [findall_go]; the pattern
      [Slide (\d+): (.+)] under [re.match] is [header_match].
    - [Patterns]: [slide_pattern] and [header_pattern], the two patterns
      as [re_compile] reads them from the texts of lines 40 and 74, and
      the two functions with the engine of [Regex] in the place of the
      matchers ([split_into_slides_re], [header_match_re]).
    - [DeckB] (module [App1]): [create_presentation], [generate_ppt] and
      the script of [App1.py] ([main], lines 111-143).
    - [Prompt]: what the two prompts (line 71 of [App.py], line 24 of
      [App1.py]) say of the title and the topics.  [unrepr_list] reads
      a list of [str] as [repr] prints it, in one scan with the state
      [Lex]; [read_prompt] reads a prompt of [App.py] back.
    - [Answer]: the text variant B is written for.  A [SlideText] is a
      slide as the model writes it (number, heading, whether the header
      is closed by "**", points, and the two characters that the slice
      [match[:-2]] of line 44 takes away); [answer] puts an opening, the
      slides and the end of the text together; [well_written],
      [marker_free] and [ends_well] are what the theorems ask of them,
      all decidable.
    - [Package]: the bytes below the decks.  The package format of
      python-pptx is the class [PackageFormat] ([package_bytes] for what
      [prs.save] writes, [package_load] for what opens a file, and the
      law that a deck python-pptx accepts is read back as it was
      written); [plain_format] is an instance, so the class is not
      empty.  A [Stream] is a buffer with a position, for [io.BytesIO]
      and for the reader that [open] returns, with [write], [seek],
      [read] and [getvalue] as CPython defines them; [marshall_file] is
      what Streamlit takes from the data of a download button.  On
      them: the end of [generate_ppt] ([generate_ppt_stream], [App1.py]
      105-108) and the two downloads ([download_App1], [App1.py]
      138-143; [download_App], [App.py] 149-155, over the files as
      bytes, [disk_of]).
    - [Session]: the rerun cycle of Streamlit, which is not in the
      repository: a session is a sequence of runs of a script, each from
      an empty page and the files of the runs before ([step],
      [reachable]).
    - [Frontend]: the page in the browser, which is not in the
      repository either.  A [Browser] is one tab: what the form shows
      ([typed]), the values the server has for the widgets ([sent],
      those of the last submit, since the widgets are in a form), the
      page and the files ([world]) and what the user has downloaded
      ([received]).  An [Action] is what the user can do: type in a
      field, submit, click the download button, edit a text area of
      [App1.py], reload; [act] is what each leads to, every one but the
      typing a rerun of the script, and only the submit a rerun with
      [submit] true.  [widgets] are the identities Streamlit gives the
      widgets of a page (kind and label), of which no two may be the
      same.  The class [WellServed] is what the front end needs of a
      script; [App_served] and [App1_served] are the two scripts.
    - [Tabs]: several tabs on one server, a run as one step.  [Shared]
      is the tabs and the one working directory, [shared_act] an action
      in one of the tabs; the class [Framed] is what the isolation of
      the tabs needs of a script, [App_framed] and [App1_framed] are
      the two scripts.  [same_tab] relates two browsers that differ in
      the files of their servers only; [act] and [acts] respect it
      ([act_proper], [acts_proper]).
    - [Concurrent]: several sessions of [App.py] over one working
      directory.  The script is cut between [prs.save] (line 123) and
      [open] (line 149) into [main_to_save] and [main_from_open]; the
      run of a visitor takes its turns ([visit]) in any order with the
      runs of the others ([turn], [site_step], [run_schedule]).
    - [Paths]: one file system in full, the names as Linux reads them.
      [posix_path] is [open(name)] in a tree whose only directories are
      those from the root to the working directory: the name is encoded
      ([fs_length], UTF-8 with [surrogateescape]), checked against
      [PATH_MAX], cut at the slashes and walked ([walk]: [.] stays, [..]
      goes up, the name of the next directory goes down, any other name
      is an error), and the last part is the file, of at most [NAME_MAX]
      bytes ([file_part_ok]).  [posix_names] is the instance of
      [FileSystem]; [ordinary] are the titles that name a file of the
      working directory.
    - [Boot]: lines 9-14 of both scripts ([load_dotenv], [os_getenv],
      [module_init]) and the server process, in which [os.environ]
      outlives a rerun while the [.env] file, the hosted model and the
      form are what they are at each rerun ([boot], [server_step]).

    ** What the theorems show

    - Segmenter: the loop ends for every limit of at least 1
      ([split_content_total]) and never ends for a limit below 1
      ([split_content_negative_diverges], [split_content_zero_diverges]);
      no chunk is longer than the limit; the chunks are the text with
      whitespace taken out at the cuts (the relation [rejoin]); the first
      cut is at the last space below the limit, or at the limit.
    - DeckA: [create_presentation_run] is the refinement: every run
      ends, the deck it builds is [deck_spec], one title slide and for
      each topic one slide per chunk of the same text, and it is written
      to the file the name stands for, or the run raises what the file
      system answers to the name, after the model was asked
      ([main_refused] for the script).  From it: the count of slides,
      the bound on the bodies, the deck that is still built without a
      credential, the file name, and that the script finds the file it
      opens ([main_run]; [save_then_open] of [Runtime] for every file
      system).
    - Markers: one fragment for each marker ([split_into_slides_count]);
      the matches of a text that starts with a marker are the text
      ([slide_pattern_findall_concat]); what [process_slide_title] reads
      from a fragment of the expected shape, and what a result says of
      the fragment.
    - DeckB: [generate_ppt] raises [TypeError] when a fragment is not
      read and gives one slide per fragment otherwise; the script ends on
      every input, writes no file, and shows its success message before
      the exception.
    - Prompt: what [repr] prints for a list of [str] is read back as
      the list, with the text that follows it ([unrepr_repr_list]), so
      [repr] tells lists apart ([repr_list_inj]) and the prompt of
      [App.py] gives back the title and the topics of the run
      ([read_prompt_of]); a run of [App1.py] depends on the topics only
      through their join ([main_App1_joined]), and one topic "a, b" is
      to it the two topics "a" and "b".
    - Answer: the scan gives back the fragments a text was put together
      from ([slide_pattern_findall_fragments], the converse of
      [slide_pattern_findall_concat]); on a well-written answer the run
      of variant B ends with the deck of the slides of the answer, slide
      by slide ([main_App1_answer]).  The hypotheses say what the script
      needs of the model: no marker inside a slide or in the opening, a
      heading without "*", points without "**", two characters to lose
      after every slide, and at most one newline after the last.
    - Regex and Patterns: the engine finds a match exactly when the
      language of the pattern has one, and what it returns is in the
      language ([match_at_matches]); on every text the matchers of
      [Markers] compute what the engine computes for the two patterns
      ([slide_pattern_findall_regex], [header_match_regex]), so the
      theorems on [split_into_slides] and [process_slide_title] are
      theorems on the code as it is written, with [re].
    - Pptx, DeckA and DeckB: [wf_presentation] is what python-pptx
      accepts and writes (sizes and levels in range, runs without line
      feed or vertical tab, a paragraph in every text frame).  Every
      write of the scripts keeps it ([wf_presentation_preserved]), so the
      decks of both variants have it ([create_presentation_wf],
      [generate_ppt_wf]).
    - Package: what the browser is given opens as the deck that was
      built, for the stream of variant B ([download_App1_loads]) and for
      the file of variant A ([download_App_loads]); the lemmas on
      streams say where a write lands and what a read leaves, from
      which it follows that [seek(0)] of line 107 changes nothing of
      what is downloaded ([marshall_file_seek]).
    - Session: by induction on the runs of a session, every file that
      variant A has written holds a well-formed deck
      ([session_App_files]) and variant B has written none
      ([session_App1_no_files]); a run of variant A raises only when
      the file system refuses its file name ([session_App_progress]).
    - Frontend, for every script that is [WellServed], by induction on
      the actions: the page never has two widgets that are the same,
      its buttons carry decks python-pptx accepts and every download
      opens as one ([browser_safe]); the form can always be submitted
      ([submit_enabled]); a click on the download button hands the deck
      over and leaves a page with the title only, on which a second
      click is not offered ([download_once]).  For the two scripts:
      both are [WellServed], which for [App1.py] needs that the labels
      "Slide <i>" of the text areas differ, from the injectivity of
      [str_of_nat] ([App1_widgets_NoDup]); a user who types a title and
      topics, submits and clicks the button holds the package of
      [deck_spec] ([ask_for_deck_App]), or of the slides of a
      well-written answer ([ask_for_deck_App1]); with a title whose
      file name is refused the user is shown the answer of the model
      and no button ([ask_for_deck_refused]); the files of the server
      of [App.py] stay well-formed decks whatever the user does
      ([browser_App_files]).
    - Tabs: as long as runs do not overlap, a tab goes through the
      actions of its user as if it were alone on the server, whatever
      the other users do ([tabs_isolated]); the files are what the
      tabs share ([shared_submit_App]).
    - Concurrent: in every interleaving of the runs of the visitors a
      run raises only what the file system answers to its own file name,
      and every file and every download is a well-formed deck
      ([site_safe]); but a visitor can be handed the deck of another
      whose file name stands for the same file ([race_on_file_name]),
      and a visitor whose file no other file name stands for is handed
      its own deck after two turns, in every interleaving
      ([own_deck_without_collision]); with or without a shared file,
      two turns bring a run to its end ([finished_after_two_turns]);
      the two parts of the script are the script
      ([main_in_parts_main]).
    - Paths, on Linux: a title without slash of at most 250 bytes gets
      its deck in the working directory ([title_ordinary]) and a longer
      one raises [OSError] ([title_too_long]); a title with a directory
      in front raises, after the model was asked
      ([title_with_directory]); a title that starts with [../] writes
      the deck above the working directory ([title_leaves_directory]);
      the titles [T] and [./T] give two names of one file, so the decks
      of two visitors are mixed up although their file names differ
      ([alias_race]).  [posix_path_on_linux] holds answers of [open] on
      a Linux machine, on which the definition was run against the
      system call for several hundred names.
    - Boot: the credential is the variable of the process if it is set,
      empty or not, and the last binding of the [.env] file otherwise
      ([module_init_credential]); a variable that is set keeps its value
      through all reruns ([environ_sticks]); the invariant of the files
      holds when the environment, the file and the model change between
      reruns ([served_App_files]).
    - The files end with runs on concrete inputs; the lemmas named
      [_witness] apply a theorem at one.

    ** Conventions, bounds and fuel

    A Python [str] is a [list N] of Unicode code points; [py "..."] is a
    literal; integers that index a string are [Z].  The [while] loop of
    [split_content] takes a [fuel : nat] and gives [None] when it runs
    out; [split_content] runs it with the length of the text, which is
    enough for a limit of at least 1 because every turn removes at least
    one character ([split_step_shorter]).  The scans of [replace],
    [split] and [findall] recurse on the text, with a counter for the
    characters of a match still to pass over, so they need no fuel.
    [str_of_nat] has fuel [i + 1] for the digits of [i].  A repetition
    of a pattern applies to one character ([Rep]), as in the two
    patterns of the program, so the engine recurses on the text and
    needs no fuel either; [re_compile] refuses a repetition of a group.
    A turn of a visitor in [Concurrent] is atomic: a file is written or
    read whole.  What a file name stands for depends on the name only:
    the directories do not change while the scripts run, and [open] and
    [prs.save] read a name alike (they do for every name that does not
    end with a slash, and the names of the script end with [.pptx]).
    The exceptions [ValueError] and [OSError] stand for the class or one
    of its subclasses ([UnicodeEncodeError]; [FileNotFoundError],
    [NotADirectoryError] and [IsADirectoryError] for a path that cannot
    be walked), since which of them the system raises can depend on the
    files that are there.  The lengths of [Paths] are in bytes, as
    [N].  [digits_value], the inverse of [str_of_nat], recurses
    on the digits, and so does [unrepr_go] on the text, an escape of
    several characters being a state of the scan.  The code points of a
    [str] are below 0x110000 ([valid_str]); only [Prompt] needs it, for
    the eight digits of an escape.  Bytes are [Byte.byte] of the Standard Library; a
    stream position is a [nat], since the scripts seek to 0 only.  An
    action of [Frontend] whose run does not end gives [None]; for a
    [WellServed] script there is none ([served_ends]), which for
    [App.py] rests on [split_content_total] with the limit 900 of line
    83.

    ** What is not modelled

    The import statements (lines 1-7); the syntax of a [.env] file (a
    file is the list of its bindings); the hosted model (a function of
    the key and the prompt, about which nothing is assumed: the network,
    the service and its sampling are outside the repository, and the
    theorems hold for every such function); the Open XML package format
    itself (zip archive, part names, XML of the slides: python-pptx and
    the format are not in the repository, so [PackageFormat] states the
    one law the scripts rely on, and [World] keeps a file as the deck
    written, [disk_of] giving its bytes); the layout of the page in the
    browser, the keys and session state of Streamlit beyond the
    identity of a widget, and the transport between browser and server;
    layouts, themes and shapes of python-pptx other
    than the two placeholders; the exceptions python-pptx raises outside
    the ranges of [wf_presentation], which the scripts never leave; the
    writing of the text of a run into the XML of a slide (a run of
    [Pptx] holds the text the script handed over, and the law of
    [PackageFormat] is that of a format that can hold every Python
    string: what python-pptx and the XML library under it do with a
    control character, or with a character XML has no place for, is
    not modelled, so for a text with such characters the theorems
    describe the deck the script asks for, not the file); of
    the file system, what does not depend on the name alone (a full
    disk, permissions, a directory made or removed while the server
    runs), links, file systems that fold the case of a name or reserve
    names, and in [Paths] any directory that is not on the way from the
    root to the working directory; the syntax of [re] that the two
    patterns do not use (classes in brackets, repetitions of groups,
    back references, flags other than [re.DOTALL]). *)

From Stdlib Require Export ZArith NArith Lia ZifyBool.
From stdpp Require Export base tactics numbers option gmap list.

(** ** Python exceptions as values *)

(** The exceptions the two scripts can raise on the paths that are
    modelled.  [ValueError], [OSError] and [FileNotFoundError] are what
    [open] and [prs.save] raise for a file name the file system does not
    take; [OSError] stands for its other subclasses too. *)
Inductive pyexn : Type :=
| TypeError
| IndexError
| FileNotFoundError
| ValueError
| OSError.

#[export] Instance pyexn_eq_dec : EqDecision pyexn.
Proof. solve_decision. Defined.

(** ** Tactics *)

(** [by_compute] proves a decidable proposition without variables by
    running its decision procedure. *)
Ltac by_compute :=
  lazymatch goal with
  | |- ?P => apply (bool_decide_unpack P); vm_compute; exact I
  end.

(** The rewrite database [py] holds the equations that run a script one
    call further; [Runtime] fills it. *)
Create HintDb py discriminated.
Create Rewrite HintDb py.

(** ** Longest prefix satisfying a test *)

Section while.
Context {A : Type} (p : A -> bool).

Fixpoint take_while (l : list A) : list A :=
  match l with
  | [] => []
  | x :: l' => if p x then x :: take_while l' else []
  end.

Fixpoint drop_while (l : list A) : list A :=
  match l with
  | [] => []
  | x :: l' => if p x then drop_while l' else l
  end.

Lemma take_drop_while l : take_while l ++ drop_while l = l.
Proof. induction l as [|x l IH]; simpl; [done|]. destruct (p x); simpl; congruence. Qed.

Lemma take_while_all l : Forall (fun x => p x = true) (take_while l).
Proof.
  induction l as [|x l IH]; simpl; [constructor|].
  destruct (p x) eqn:E; constructor; done.
Qed.

Lemma drop_while_head l x : head (drop_while l) = Some x -> p x = false.
Proof.
  induction l as [|y l IH]; simpl; [done|].
  destruct (p y) eqn:E; simpl; [done|]. congruence.
Qed.

Lemma drop_while_length l : length (drop_while l) <= length l.
Proof. induction l as [|x l IH]; simpl; [lia|]. destruct (p x); simpl; lia. Qed.

Lemma drop_while_suffix l : drop_while l `suffix_of` l.
Proof. exists (take_while l). by rewrite take_drop_while. Qed.

Lemma drop_while_id l x : head l = Some x -> p x = false -> drop_while l = l.
Proof. destruct l as [|y l]; simpl; [done|]. intros [= ->] ->. done. Qed.

Lemma drop_while_nil_head l : head l = None -> drop_while l = l.
Proof. by destruct l. Qed.

Lemma drop_while_idemp l : drop_while (drop_while l) = drop_while l.
Proof.
  destruct (head (drop_while l)) as [x|] eqn:E.
  - eapply drop_while_id; [done|]. by eapply drop_while_head.
  - by apply drop_while_nil_head.
Qed.

Lemma drop_while_all l : Forall (fun x => p x = true) l -> drop_while l = [].
Proof. induction 1 as [|x l Hx _ IH]; simpl; [done|]. by rewrite Hx. Qed.

Lemma drop_while_app_all l k :
  Forall (fun x => p x = true) l -> drop_while (l ++ k) = drop_while k.
Proof. induction 1 as [|x l Hx _ IH]; simpl; [done|]. by rewrite Hx. Qed.

Lemma drop_while_cons_false x l : p x = false -> drop_while (x :: l) = x :: l.
Proof. simpl. by intros ->. Qed.

(** A run of [p] followed by an element that fails it is what
    [take_while] takes. *)
Lemma take_while_app_stop l x k :
  Forall (fun x => p x = true) l -> p x = false -> take_while (l ++ x :: k) = l.
Proof.
  intros Hl Hx. induction Hl as [|y l Hy _ IH]; simpl; [by rewrite Hx|].
  by rewrite Hy, IH.
Qed.

Lemma drop_while_app_stop l x k :
  Forall (fun x => p x = true) l -> p x = false -> drop_while (l ++ x :: k) = x :: k.
Proof. intros Hl Hx. by rewrite drop_while_app_all, drop_while_cons_false. Qed.

Lemma take_while_id l : Forall (fun x => p x = true) l -> take_while l = l.
Proof. induction 1 as [|x l Hx _ IH]; simpl; [done|]. by rewrite Hx, IH. Qed.

(** The two halves by their lengths. *)
Lemma take_while_length l : length (take_while l) + length (drop_while l) = length l.
Proof. by rewrite <- length_app, take_drop_while. Qed.

Lemma drop_take_while l : drop (length (take_while l)) l = drop_while l.
Proof. rewrite <- (take_drop_while l) at 2. by rewrite drop_app_length. Qed.

Lemma take_drop_while_length l : take (length l - length (drop_while l)) l = take_while l.
Proof.
  replace (length l - length (drop_while l)) with (length (take_while l))
    by (pose proof (take_while_length l); lia).
  rewrite <- (take_drop_while l) at 2. by rewrite take_app_length.
Qed.

Lemma drop_while_lt l x : head l = Some x -> p x = true -> length (drop_while l) < length l.
Proof.
  destruct l as [|y l]; simpl; [done|]. intros [= ->] ->.
  pose proof (drop_while_length l). lia.
Qed.

Lemma drop_while_last l c :
  last l = Some c -> p c = false -> last (drop_while l) = Some c.
Proof.
  induction l as [|x l IH]; [done|]. intros Hl Hc. simpl.
  destruct (p x) eqn:E; [|done]. apply IH; [|done].
  destruct l; simplify_eq/=; [congruence|done].
Qed.

End while.

#[export] Hint Resolve take_while_all drop_while_length drop_while_suffix : py.
