(* ===== verification/PyStr.v ===== *)
(** * PyStr: Python's [str] and the methods the scripts call

    A [str] is a list of Unicode code points ([N]).  Each definition is the
    CPython behaviour of the method of the same name, for the arguments the
    call sites of [src/PPT_GENERATOR/App.py] and [src/PPT_GENERATOR/App1.py]
    pass: [strip] (both forms), [rfind] with a start and an end, slices with
    one bound, [startswith], [replace], [split] with a separator and an
    optional maximum, [join], [sub in s] and [repr] of a list of [str].
    Indices are [Z]; a negative index counts from the end, as in Python.
    What depends on the Unicode tables of the interpreter goes through
    the class [UnicodeDb]. *)

From Stdlib Require Import Ascii String.
From S2P Require Import Prelude.

#[local] Open Scope N_scope.

(** ** Characters and literals *)

Abbreviation char := N (only parsing).
Abbreviation pystr := (list N) (only parsing).

(** A string literal of the source, as code points. *)
Definition py (s : string) : pystr := N_of_ascii <$> list_ascii_of_string s.

Export StringSyntax.
Arguments py s%_string.

(** [len(s)] as a Python integer. *)
Definition len (s : pystr) : Z := Z.of_nat (length s).

(** [str.isspace] on one character: CPython's [_PyUnicode_IsWhitespace]
    (bidirectional class WS, B or S, or category Zs). *)
Definition isspace (c : char) : bool :=
  (9 <=? c) && (c <=? 13) || (28 <=? c) && (c <=? 32) || (c =? 133) || (c =? 160)
  || (c =? 5760) || (8192 <=? c) && (c <=? 8202) || (c =? 8232) || (c =? 8233)
  || (c =? 8239) || (c =? 8287) || (c =? 12288).

(** Membership of a character in the argument of [strip(chars)]. *)
Definition char_in (chars : pystr) (c : char) : bool := bool_decide (c ∈ chars).

(** ** strip *)

(** The common loop of [lstrip], [rstrip] and [strip]: [do_strip] and
    [do_xstrip] of CPython, with the test on a character as a parameter. *)
Definition lstrip_with (p : char -> bool) (s : pystr) : pystr := drop_while p s.

Definition rstrip_with (p : char -> bool) (s : pystr) : pystr :=
  reverse (drop_while p (reverse s)).

Definition strip_with (p : char -> bool) (s : pystr) : pystr :=
  rstrip_with p (lstrip_with p s).

(** [s.strip()] *)
Definition strip (s : pystr) : pystr := strip_with isspace s.

(** [s.strip(chars)] *)
Definition strip_chars (s chars : pystr) : pystr := strip_with (char_in chars) s.

(** ** startswith *)

(** [s.startswith(pre)] *)
Fixpoint startswith (s pre : pystr) {struct pre} : bool :=
  match pre, s with
  | [], _ => true
  | p :: pre', c :: s' => (c =? p) && startswith s' pre'
  | _ :: _, [] => false
  end.

(** ** Slices *)

#[local] Open Scope Z_scope.

(** A slice bound brought into [0 .. n], as [PySlice_AdjustIndices] does
    for a step of 1. *)
Definition norm_index (n i : Z) : nat :=
  Z.to_nat (if i <? 0 then Z.max 0 (n + i) else Z.min i n).

(** [s[:i]] *)
Definition slice_to (s : pystr) (i : Z) : pystr := take (norm_index (len s) i) s.

(** [s[i:]] *)
Definition slice_from (s : pystr) (i : Z) : pystr := drop (norm_index (len s) i) s.

(** ** rfind *)

(** The highest position among [lo], ..., [lo + k - 1] at which [sub]
    occurs in [s], or [-1]. *)
Fixpoint rfind_from (s sub : pystr) (lo k : nat) : Z :=
  match k with
  | O => -1
  | S k' =>
    if startswith (drop (lo + k') s) sub then Z.of_nat (lo + k')
    else rfind_from s sub lo k'
  end.

(** [s.rfind(sub, start, stop)]: the bounds are adjusted as CPython's
    [ADJUST_INDICES] does ([stop] clipped to the length, a negative bound
    counted from the end, [start] not clipped from above). *)
Definition rfind (s sub : pystr) (start stop : Z) : Z :=
  let n := len s in
  let stop' := if n <? stop then n else if stop <? 0 then Z.max 0 (stop + n) else stop in
  let start' := if start <? 0 then Z.max 0 (start + n) else start in
  rfind_from s sub (Z.to_nat start') (Z.to_nat (stop' - len sub - start' + 1)).

(** ** replace *)

(** The scan of [s.replace(old, new)] for a non-empty [old]: [skip] is the
    number of characters of the occurrence just replaced that are still to
    be passed over. *)
Fixpoint replace_go (old new : pystr) (skip : nat) (s : pystr) : pystr :=
  match s with
  | [] => []
  | c :: s' =>
    match skip with
    | S k => replace_go old new k s'
    | O =>
      if startswith s old then new ++ replace_go old new (length old - 1) s'
      else c :: replace_go old new 0 s'
    end
  end.

(** [s.replace(old, new)]: every occurrence, leftmost first, without
    overlap; an empty [old] matches before every character and at the
    end. *)
Definition replace (s old new : pystr) : pystr :=
  match old with
  | [] => new ++ (s ≫= fun c => c :: new)
  | _ :: _ => replace_go old new 0 s
  end.

(** [sub in s] *)
Definition contains (s sub : pystr) : Prop :=
  exists i, startswith (drop i s) sub = true.

(** [sub in s], as the test the interpreter runs. *)
Fixpoint containsb (s sub : pystr) : bool :=
  startswith s sub ||
  match s with
  | [] => false
  | _ :: s' => containsb s' sub
  end.

(** ** split and join *)

(** Put a character in front of the first part. *)
Definition cons_head (c : char) (parts : list pystr) : list pystr :=
  match parts with
  | [] => [[c]]
  | p :: ps => (c :: p) :: ps
  end.

(** Whether one more split is allowed. *)
Definition can_split (maxsplit : option nat) : bool :=
  match maxsplit with
  | Some O => false
  | _ => true
  end.

(** The scan of [s.split(sep, maxsplit)] for a non-empty [sep], with
    [skip] as in [replace_go]; [maxsplit] is [None] for no limit. *)
Fixpoint split_go (sep : pystr) (maxsplit : option nat) (skip : nat) (s : pystr)
    : list pystr :=
  match s with
  | [] => [[]]
  | c :: s' =>
    match skip with
    | S k => split_go sep maxsplit k s'
    | O =>
      if can_split maxsplit && startswith s sep
      then [] :: split_go sep (pred <$> maxsplit) (length sep - 1) s'
      else cons_head c (split_go sep maxsplit 0 s')
    end
  end.

(** [s.split(sep, maxsplit)] for a non-empty [sep] (Python raises
    [ValueError] on an empty one; every call site passes ["\n"]).  A
    negative [maxsplit] means no limit. *)
Definition split (s sep : pystr) (maxsplit : Z) : list pystr :=
  split_go sep (if (maxsplit <? 0)%Z then None else Some (Z.to_nat maxsplit)) 0 s.

(** [sep.join(parts)] *)
Fixpoint join (sep : pystr) (parts : list pystr) : pystr :=
  match parts with
  | [] => []
  | [p] => p
  | p :: ps => p ++ sep ++ join sep ps
  end.

(** ** The Unicode database *)

(** The two tests on a character that depend on the Unicode tables of the
    interpreter, with what every version of them says of ASCII. *)
Class UnicodeDb : Type := {
  (** [str.isprintable] on one character, used by [repr]. *)
  isprintable : char -> bool;
  (** [str.isdecimal] on one character: [\d] of a [str] pattern. *)
  isdecimal : char -> bool;
  isprintable_ascii c :
    (c < 128)%N -> isprintable c = ((32 <=? c) && (c <? 127))%N;
  isdecimal_ascii c :
    (c < 128)%N -> isdecimal c = ((48 <=? c) && (c <=? 57))%N
}.

(** The database that knows ASCII only: no other character is printable
    or a digit. *)
#[export] Program Instance ascii_db : UnicodeDb := {|
  isprintable c := ((32 <=? c) && (c <? 127))%N;
  isdecimal c := ((48 <=? c) && (c <=? 57))%N
|}.
Next Obligation. done. Qed.
Next Obligation. done. Qed.

(** ** repr *)

#[local] Open Scope N_scope.

Definition hex_digit (n : N) : char := if n <? 10 then 48 + n else 87 + n.

(** [n] in hexadecimal on [width] digits, lower case. *)
Fixpoint hex_fixed (width : nat) (n : N) : pystr :=
  match width with
  | O => []
  | S w => hex_fixed w (n / 16) ++ [hex_digit (n mod 16)]
  end.

Section repr.
Context `{UnicodeDb}.

(** One character of [repr(s)], between quotes [quote]. *)
Definition repr_char (quote c : char) : pystr :=
  if (c =? quote) || (c =? 92) then [92; c]
  else if c =? 9 then [92; 116]
  else if c =? 10 then [92; 110]
  else if c =? 13 then [92; 114]
  else if (c <? 32) || (c =? 127) then [92; 120] ++ hex_fixed 2 c
  else if c <? 127 then [c]
  else if isprintable c then [c]
  else if c <=? 255 then [92; 120] ++ hex_fixed 2 c
  else if c <=? 65535 then [92; 117] ++ hex_fixed 4 c
  else [92; 85] ++ hex_fixed 8 c.

(** The quote [repr] chooses: double when the string has a single quote
    and no double quote, single otherwise. *)
Definition repr_quote (s : pystr) : char :=
  if bool_decide (39 ∈ s) && negb (bool_decide (34 ∈ s)) then 34 else 39.

(** [repr(s)] for a [str] *)
Definition repr_str (s : pystr) : pystr :=
  let quote := repr_quote s in
  [quote] ++ (s ≫= repr_char quote) ++ [quote].

(** [repr(l)] for a list of [str], which is also [str(l)] and what an
    f-string puts for [{l}]. *)
Definition repr_list (l : list pystr) : pystr :=
  [91] ++ join [44; 32] (repr_str <$> l) ++ [93].

End repr.

(** ** Lemmas: characters *)

#[local] Open Scope N_scope.

Lemma isspace_space : isspace 32 = true.
Proof. reflexivity. Qed.

Lemma isspace_newline : isspace 10 = true.
Proof. reflexivity. Qed.

Lemma char_in_spec chars c : char_in chars c = true <-> c ∈ chars.
Proof. unfold char_in. by rewrite bool_decide_eq_true. Qed.

(** [not_in_literal] proves [c ∉ s] for a character and a text that are
    both given. *)
Ltac not_in_literal :=
  lazymatch goal with
  | |- _ ∉ _ => by_compute
  end.

(** ** Lemmas: strip *)

Section strip_lemmas.
Context (p : char -> bool).

Definition all_p (s : pystr) : Prop := Forall (fun c => p c = true) s.

Lemma lstrip_with_decompose s :
  exists lead, s = lead ++ lstrip_with p s /\ all_p lead.
Proof.
  exists (take_while p s). unfold lstrip_with.
  split; [by rewrite take_drop_while|apply take_while_all].
Qed.

Lemma rstrip_with_decompose s :
  exists trail, s = rstrip_with p s ++ trail /\ all_p trail.
Proof.
  exists (reverse (take_while p (reverse s))). split.
  - unfold rstrip_with. rewrite <- reverse_app, take_drop_while.
    by rewrite reverse_involutive.
  - apply Forall_reverse, take_while_all.
Qed.

Lemma strip_with_decompose s :
  exists lead trail,
    s = lead ++ strip_with p s ++ trail /\ all_p lead /\ all_p trail.
Proof.
  destruct (lstrip_with_decompose s) as (lead & Hs & Hlead).
  destruct (rstrip_with_decompose (lstrip_with p s)) as (trail & Ht & Htrail).
  exists lead, trail. split; [|done]. unfold strip_with. congruence.
Qed.

Lemma lstrip_with_length s : (length (lstrip_with p s) <= length s)%nat.
Proof. unfold lstrip_with. auto with py. Qed.

Lemma rstrip_with_length s : (length (rstrip_with p s) <= length s)%nat.
Proof.
  unfold rstrip_with. rewrite length_reverse.
  etrans; [apply drop_while_length|]. by rewrite length_reverse.
Qed.

Lemma strip_with_length s : (length (strip_with p s) <= length s)%nat.
Proof.
  unfold strip_with. etrans; [apply rstrip_with_length|apply lstrip_with_length].
Qed.

Lemma lstrip_with_head s c : head (lstrip_with p s) = Some c -> p c = false.
Proof. apply drop_while_head. Qed.

Lemma rstrip_with_last s c : last (rstrip_with p s) = Some c -> p c = false.
Proof. unfold rstrip_with. rewrite last_reverse. apply drop_while_head. Qed.

Lemma rstrip_with_head s c :
  head s = Some c -> p c = false -> head (rstrip_with p s) = Some c.
Proof.
  intros Hs Hc. unfold rstrip_with. rewrite head_reverse.
  apply drop_while_last; [|done]. by rewrite last_reverse.
Qed.

Lemma rstrip_with_nil_iff s : rstrip_with p s = [] <-> all_p s.
Proof.
  unfold rstrip_with, all_p. rewrite <- (Forall_reverse _ s). split.
  - intros H. apply (f_equal reverse) in H. rewrite reverse_involutive in H.
    rewrite <- (take_drop_while p (reverse s)), H, app_nil_r.
    apply take_while_all.
  - intros H. by rewrite drop_while_all.
Qed.

Lemma strip_with_head s c : head (strip_with p s) = Some c -> p c = false.
Proof.
  unfold strip_with. intros H.
  destruct (lstrip_with p s) as [|c' t] eqn:E; [done|].
  assert (p c' = false) as Hc' by (apply (lstrip_with_head s); by rewrite E).
  by rewrite (rstrip_with_head (c' :: t) c') in H; simplify_eq/=.
Qed.

Lemma strip_with_last s c : last (strip_with p s) = Some c -> p c = false.
Proof. apply rstrip_with_last. Qed.

Lemma strip_with_all s : all_p s -> strip_with p s = [].
Proof.
  intros H. unfold strip_with, lstrip_with. by rewrite drop_while_all.
Qed.

Lemma lstrip_with_fixed s :
  (forall c, head s = Some c -> p c = false) -> lstrip_with p s = s.
Proof.
  intros H. destruct s as [|c s]; [done|]. apply drop_while_cons_false. by apply H.
Qed.

Lemma rstrip_with_fixed s :
  (forall c, last s = Some c -> p c = false) -> rstrip_with p s = s.
Proof.
  intros H. unfold rstrip_with. fold (lstrip_with p (reverse s)).
  rewrite (lstrip_with_fixed (reverse s)); [apply reverse_involutive|].
  intros c. rewrite head_reverse. apply H.
Qed.

Lemma strip_with_idemp s : strip_with p (strip_with p s) = strip_with p s.
Proof.
  unfold strip_with at 1.
  rewrite lstrip_with_fixed by apply strip_with_head.
  apply rstrip_with_fixed, strip_with_last.
Qed.

Lemma strip_with_lt s c :
  head s = Some c -> p c = true -> (length (strip_with p s) < length s)%nat.
Proof.
  intros Hs Hc. unfold strip_with.
  eapply Nat.le_lt_trans; [apply rstrip_with_length|]. by eapply drop_while_lt.
Qed.

Lemma elem_of_strip_with c s : c ∈ strip_with p s -> c ∈ s.
Proof.
  destruct (strip_with_decompose s) as (lead & trail & Hs & _).
  intros Hc. rewrite Hs. set_solver.
Qed.

(** A text whose ends are kept is not changed. *)
Lemma strip_with_fixed s :
  (forall c, head s = Some c -> p c = false) ->
  (forall c, last s = Some c -> p c = false) -> strip_with p s = s.
Proof.
  intros Hh Hl. unfold strip_with. rewrite (lstrip_with_fixed s) by done.
  by apply rstrip_with_fixed.
Qed.

(** A text that ends with a character that is kept does not strip to
    nothing. *)
Lemma strip_with_nonempty s c : last s = Some c -> p c = false -> strip_with p s <> [].
Proof.
  intros Hl Hc Hs. apply rstrip_with_nil_iff in Hs. unfold lstrip_with, all_p in Hs.
  apply (drop_while_last p) in Hl; [|done]. apply last_Some in Hl as [d Hd].
  rewrite Hd, Forall_app, Forall_singleton in Hs. destruct Hs as [_ Hx]. congruence.
Qed.

End strip_lemmas.

(** ** Lemmas: startswith *)

Lemma startswith_spec s pre : startswith s pre = true <-> exists t, s = pre ++ t.
Proof.
  revert s. induction pre as [|q pre IH]; intros s; simpl.
  - split; [eauto|done].
  - destruct s as [|c s]; [split; [done|by intros [? ?]]|].
    rewrite andb_true_iff, IH, N.eqb_eq. split.
    + intros [-> [t ->]]. eauto.
    + intros [t [= -> ->]]. eauto.
Qed.

Lemma startswith_app s t : startswith (s ++ t) s = true.
Proof. apply startswith_spec. eauto. Qed.

Lemma startswith_nil s : startswith s [] = true.
Proof. by destruct s. Qed.

Lemma startswith_length s pre :
  startswith s pre = true -> (length pre <= length s)%nat.
Proof. intros [t ->]%startswith_spec. rewrite length_app. lia. Qed.

Lemma startswith_char s c : startswith s [c] = true <-> head s = Some c.
Proof.
  destruct s as [|d s]; simpl; [done|].
  rewrite andb_true_r, N.eqb_eq. split; congruence.
Qed.

(** A text that starts with [pre] and is cut inside [pre]: its first part
    is a prefix of [pre]. *)
Lemma startswith_app_take s t pre :
  startswith (s ++ t) pre = true -> startswith pre (take (length pre) s) = true.
Proof.
  revert s. induction pre as [|q pre IH]; intros [|c s]; try done.
  cbn [app startswith length take]. intros [Hc Hpre]%andb_true_iff.
  apply N.eqb_eq in Hc as ->. rewrite N.eqb_refl. by apply IH.
Qed.

(** ** Lemmas: slices *)

#[local] Open Scope Z_scope.

Lemma norm_index_le n i : (norm_index (Z.of_nat n) i <= n)%nat.
Proof. unfold norm_index. destruct (i <? 0) eqn:E; lia. Qed.

Lemma norm_index_nonneg n i : 0 <= i -> norm_index n i = Z.to_nat (Z.min i n).
Proof. unfold norm_index. intros H. destruct (i <? 0) eqn:E; [lia|done]. Qed.

(** [s[:i] + s[i:] == s] for every [i]. *)
Lemma slice_to_from s i : slice_to s i ++ slice_from s i = s.
Proof. apply take_drop. Qed.

Lemma slice_to_length s i : 0 <= i -> len (slice_to s i) = Z.min i (len s).
Proof.
  intros H. unfold slice_to, len. rewrite length_take, norm_index_nonneg by done. lia.
Qed.

Lemma slice_to_take s i : 0 <= i -> slice_to s i = take (Z.to_nat i) s.
Proof.
  intros H. unfold slice_to. rewrite norm_index_nonneg by done. unfold len.
  destruct (decide (i <= Z.of_nat (length s))).
  - by rewrite Z.min_l.
  - rewrite Z.min_r, Nat2Z.id, !take_ge by lia. done.
Qed.

Lemma slice_from_drop s i : 0 <= i -> slice_from s i = drop (Z.to_nat i) s.
Proof.
  intros H. unfold slice_from. rewrite norm_index_nonneg by done. unfold len.
  destruct (decide (i <= Z.of_nat (length s))).
  - by rewrite Z.min_l.
  - rewrite Z.min_r, Nat2Z.id, !drop_ge by lia. done.
Qed.

Lemma slice_from_length s i :
  0 <= i -> len (slice_from s i) = len s - Z.min i (len s).
Proof.
  intros H. unfold slice_from, len. rewrite length_drop, norm_index_nonneg by done.
  unfold len. lia.
Qed.

(** ** Lemmas: rfind *)

Lemma rfind_from_spec s sub lo k :
  (rfind_from s sub lo k = -1 /\
   forall i, (lo <= i < lo + k)%nat -> startswith (drop i s) sub = false) \/
  (exists r, rfind_from s sub lo k = Z.of_nat r /\ (lo <= r < lo + k)%nat /\
     startswith (drop r s) sub = true /\
     forall i, (r < i < lo + k)%nat -> startswith (drop i s) sub = false).
Proof.
  induction k as [|k IH]; simpl.
  - left. split; [done|]. intros; lia.
  - destruct (startswith (drop (lo + k) s) sub) eqn:E.
    + right. exists (lo + k)%nat. repeat split; first [done | intros; lia].
    + destruct IH as [[-> Hno]|(r & -> & Hr & Hyes & Hno)].
      * left. split; [done|]. intros i Hi.
        destruct (decide (i = lo + k)%nat) as [->|]; [done|]. apply Hno. lia.
      * right. exists r. split; [done|]. split; [lia|]. split; [done|]. intros i Hi.
        destruct (decide (i = lo + k)%nat) as [->|]; [done|]. apply Hno. lia.
Qed.

Lemma rfind_from_range s sub lo k :
  rfind_from s sub lo k = -1 \/
  Z.of_nat lo <= rfind_from s sub lo k < Z.of_nat (lo + k).
Proof.
  destruct (rfind_from_spec s sub lo k) as [[-> _]|(r & -> & Hr & _)]; [by left|].
  right. lia.
Qed.

(** With a start of 0 and a one-character [sub], as at the call site of
    [split_content]: the result is [-1] or a position below both bounds
    that holds the character, and no later position below the bounds
    does. *)
Lemma rfind_char_spec s c stop :
  0 <= stop ->
  let r := rfind s [c] 0 stop in
  (r = -1 /\ forall i, (Z.of_nat i < Z.min stop (len s)) -> s !! i <> Some c) \/
  (0 <= r < Z.min stop (len s) /\ s !! Z.to_nat r = Some c /\
   forall i, (r < Z.of_nat i < Z.min stop (len s)) -> s !! i <> Some c).
Proof.
  intros Hstop. unfold rfind. cbn zeta.
  set (stop' := if len s <? stop then len s else if stop <? 0 then _ else stop).
  assert (stop' = Z.min stop (len s)) as ->.
  { unfold stop'. destruct (len s <? stop) eqn:E1; [lia|].
    destruct (stop <? 0) eqn:E2; lia. }
  change (0 <? 0) with false. cbn iota. change (Z.to_nat 0) with 0%nat.
  change (len [c]) with 1. set (m := Z.min stop (len s)).
  assert (0 <= m) by (unfold m, len; lia).
  replace (Z.to_nat (m - 1 - 0 + 1)) with (Z.to_nat m) by lia.
  assert (forall i, startswith (drop i s) [c] = true <-> s !! i = Some c) as Hsw.
  { intros i. by rewrite startswith_char, head_lookup, lookup_drop, Nat.add_0_r. }
  destruct (rfind_from_spec s [c] 0 (Z.to_nat m)) as [[-> Hno]|(r & -> & Hr & Hyes & Hno)].
  - left. split; [done|]. intros i Hi Hc. apply Hsw in Hc.
    rewrite Hno in Hc by lia. done.
  - right. rewrite Nat2Z.id. repeat split; try lia; [by apply Hsw|].
    intros i Hi Hc. apply Hsw in Hc. rewrite Hno in Hc by lia. done.
Qed.

(** ** Lemmas: replace *)

#[local] Open Scope nat_scope.

Lemma startswith_cons_self c old t : startswith (c :: old ++ t) (c :: old) = true.
Proof. apply (startswith_app (c :: old) t). Qed.

Lemma not_contains s sub :
  ~ contains s sub <-> forall i, startswith (drop i s) sub = false.
Proof.
  unfold contains. split.
  - intros H i. destruct (startswith (drop i s) sub) eqn:E; [|done]. destruct H; eauto.
  - intros H [i Hi]. by rewrite H in Hi.
Qed.

Lemma containsb_spec s sub : containsb s sub = true <-> contains s sub.
Proof.
  unfold contains. induction s as [|c s IH]; cbn [containsb].
  - rewrite orb_false_r. split; [by exists 0%nat|]. intros [i Hi]. by rewrite drop_nil in Hi.
  - rewrite orb_true_iff, IH. split.
    + intros [H0|[i Hi]]; [by exists 0%nat|by exists (S i)].
    + intros [[|i] Hi]; [by left|right; by exists i].
Qed.

#[export] Instance contains_dec s sub : Decision (contains s sub).
Proof.
  refine (cast_if (decide (containsb s sub = true))); by rewrite <- containsb_spec.
Defined.

Lemma replace_go_skip old new k s :
  replace_go old new k s = replace_go old new 0 (drop k s).
Proof.
  revert k. induction s as [|c s IH]; intros [|k]; simpl; done.
Qed.

Lemma replace_go_hit old new t :
  old <> [] -> replace_go old new 0 (old ++ t) = new ++ replace_go old new 0 t.
Proof.
  destruct old as [|o old]; [done|]. intros _.
  cbn [app replace_go]. rewrite startswith_cons_self, replace_go_skip.
  cbn [length]. by rewrite Nat.sub_1_r, Nat.pred_succ, drop_app_length.
Qed.

Lemma replace_go_miss old new c s :
  startswith (c :: s) old = false ->
  replace_go old new 0 (c :: s) = c :: replace_go old new 0 s.
Proof. intros H. cbn [replace_go]. by rewrite H. Qed.

Lemma replace_go_absent old new s :
  ~ contains s old -> replace_go old new 0 s = s.
Proof.
  rewrite not_contains. induction s as [|c s IH]; intros H; [done|].
  rewrite replace_go_miss by apply (H 0). f_equal. apply IH. intros i. apply (H (S i)).
Qed.

Lemma replace_absent s old new : old <> [] -> ~ contains s old -> replace s old new = s.
Proof. destruct old; [done|]. intros _. apply replace_go_absent. Qed.

Lemma replace_prefix old new t :
  old <> [] -> replace (old ++ t) old new = new ++ replace t old new.
Proof.
  intros H. unfold replace. rewrite replace_go_hit by done. by destruct old.
Qed.

(** No occurrence starts in a text without the first character of
    [old]. *)
Lemma replace_fresh c old new s t :
  c ∉ s -> replace (s ++ t) (c :: old) new = s ++ replace t (c :: old) new.
Proof.
  unfold replace. induction s as [|x s IH]; [done|]. intros [Hx Hs]%not_elem_of_cons.
  cbn [app]. rewrite replace_go_miss, IH; [done..|].
  cbn [startswith]. by rewrite (proj2 (N.eqb_neq x c)).
Qed.

(** A one-character [old] and [new]: the replacement is a map. *)
Lemma replace_char s a b :
  replace s [a] [b] = (fun c => if (c =? a)%N then b else c) <$> s.
Proof.
  unfold replace. induction s as [|c s IH]; [done|].
  cbn [replace_go startswith fmap list_fmap]. rewrite andb_true_r.
  destruct (c =? a)%N; simpl; by rewrite IH.
Qed.

Lemma replace_char_absent s a b : a <> b -> a ∉ replace s [a] [b].
Proof.
  intros Hab. rewrite replace_char, list_elem_of_fmap. intros (c & Hc & _).
  destruct (N.eqb_spec c a); congruence.
Qed.

Lemma replace_char_length s a b : length (replace s [a] [b]) = length s.
Proof. by rewrite replace_char, length_fmap. Qed.

(** ** Lemmas: split and join *)

Lemma split_go_skip sep ms k s : split_go sep ms k s = split_go sep ms 0 (drop k s).
Proof.
  revert k. induction s as [|c s IH]; intros [|k]; simpl; done.
Qed.

Lemma cons_head_nonempty c parts : cons_head c parts <> [].
Proof. by destruct parts. Qed.

Lemma split_go_nonempty sep ms k s : split_go sep ms k s <> [].
Proof.
  revert ms k. induction s as [|c s IH]; intros ms [|k]; simpl; try done.
  destruct (_ && _); [done|apply cons_head_nonempty].
Qed.

Lemma cons_head_length c parts : parts <> [] -> length (cons_head c parts) = length parts.
Proof. by destruct parts. Qed.

Lemma join_cons_head sep c parts :
  parts <> [] -> join sep (cons_head c parts) = c :: join sep parts.
Proof. destruct parts as [|p [|q ps]]; done. Qed.

Lemma join_cons_nil sep parts : parts <> [] -> join sep ([] :: parts) = sep ++ join sep parts.
Proof. destruct parts; done. Qed.

Lemma join_split_go sep ms k s :
  sep <> [] -> join sep (split_go sep ms k s) = drop k s.
Proof.
  intros Hsep. revert ms k. induction s as [|c s IH]; intros ms [|k]; try done.
  - cbn [split_go drop]. destruct (can_split ms && startswith (c :: s) sep) eqn:E.
    + apply andb_true_iff in E as [_ [t Ht]%startswith_spec].
      destruct sep as [|c' sep]; [done|]. cbn [app] in Ht. injection Ht as -> ->.
      rewrite join_cons_nil by apply split_go_nonempty.
      rewrite IH. cbn [length]. by rewrite Nat.sub_1_r, Nat.pred_succ, drop_app_length.
    + rewrite join_cons_head by apply split_go_nonempty. by rewrite IH.
  - apply IH.
Qed.

(** [sep.join(s.split(sep, n)) == s] *)
Lemma join_split s sep maxsplit : sep <> [] -> join sep (split s sep maxsplit) = s.
Proof. intros H. unfold split. by rewrite join_split_go. Qed.

Lemma split_go_length sep n k s : length (split_go sep (Some n) k s) <= S n.
Proof.
  revert n k. induction s as [|c s IH]; intros n k; [destruct k; simpl; lia|].
  destruct k as [|k]; cbn [split_go]; [|apply IH].
  destruct (can_split (Some n) && startswith (c :: s) sep) eqn:E.
  - destruct n as [|n]; [done|]. cbn [length fmap option_fmap option_map].
    specialize (IH n (length sep - 1)). simpl in *. lia.
  - rewrite cons_head_length by apply split_go_nonempty. apply IH.
Qed.

Lemma split_go_zero sep s : split_go sep (Some 0) 0 s = [s].
Proof. induction s as [|c s IH]; [done|]. cbn [split_go can_split andb]. by rewrite IH. Qed.

(** A one-character separator that does not occur: one part. *)
Lemma split_go_absent c ms s : c ∉ s -> split_go [c] ms 0 s = [s].
Proof.
  induction s as [|x s IH]; [done|]. intros [Hx Hs]%not_elem_of_cons.
  cbn [split_go startswith]. rewrite andb_true_r.
  destruct (N.eqb_spec x c); [congruence|]. rewrite andb_false_r. by rewrite IH.
Qed.

(** A one-character separator and at most one split: the text is cut at
    the first occurrence. *)
Lemma split_go_first c a b : c ∉ a -> split_go [c] (Some 1) 0 (a ++ c :: b) = [a; b].
Proof.
  induction a as [|x a IH].
  - intros _. cbn [app split_go can_split startswith andb].
    rewrite N.eqb_refl. simpl. by rewrite split_go_zero.
  - intros [Hx Ha]%not_elem_of_cons. cbn [app split_go startswith]. rewrite andb_true_r.
    destruct (N.eqb_spec x c); [congruence|]. rewrite andb_false_r. by rewrite IH.
Qed.

Lemma split_one s sep : split s sep 1 = split_go sep (Some 1%nat) 0 s.
Proof. reflexivity. Qed.

Lemma split_all s sep : split s sep (-1) = split_go sep None 0 s.
Proof. reflexivity. Qed.

(** With one split allowed, the text is whole and has no separator, or it
    is cut at the first one. *)
Lemma split_go_one_cases c s :
  ((c ∉ s) /\ split_go [c] (Some 1) 0 s = [s]) \/
  (exists a b, s = a ++ c :: b /\ (c ∉ a) /\ split_go [c] (Some 1) 0 s = [a; b]).
Proof.
  destruct (decide (c ∈ s)) as [Hc|Hc]; [right|left; by rewrite split_go_absent].
  apply list_elem_of_split_l in Hc as (a & b & -> & Ha).
  exists a, b. by rewrite split_go_first.
Qed.

(** Without a limit, no part holds the one-character separator. *)
Lemma split_go_parts_clean c k s : Forall (fun p => c ∉ p) (split_go [c] None k s).
Proof.
  revert k. induction s as [|x s IH]; intros k.
  { destruct k; repeat constructor; apply not_elem_of_nil. }
  destruct k as [|k]; cbn [split_go]; [|apply IH].
  cbn [can_split startswith andb]. rewrite andb_true_r.
  destruct (N.eqb_spec x c) as [->|Hx].
  - constructor; [apply not_elem_of_nil|apply IH].
  - specialize (IH 0). pose proof (split_go_nonempty [c] None 0 s).
    destruct (split_go [c] None 0 s) as [|p ps]; [done|].
    apply Forall_cons in IH as [Hp Hps]. constructor; [|done].
    by apply not_elem_of_cons.
Qed.

(** A character of a part is a character of the parts joined, and a
    character of a part of [s.split(sep)] is a character of [s]. *)
Lemma elem_of_join (sep : pystr) parts p c : p ∈ parts -> c ∈ p -> c ∈ join sep parts.
Proof.
  intros Hp Hc. induction parts as [|q [|q' parts] IH]; [by apply elem_of_nil in Hp| |].
  - apply list_elem_of_singleton in Hp. by subst.
  - change (join sep (q :: q' :: parts)) with (q ++ sep ++ join sep (q' :: parts)).
    rewrite !elem_of_app. apply elem_of_cons in Hp as [Hq|Hp]; [left; by subst|].
    right; right. by apply IH.
Qed.

Lemma elem_of_split s (sep : pystr) maxsplit p c :
  sep <> [] -> p ∈ split s sep maxsplit -> c ∈ p -> c ∈ s.
Proof.
  intros Hsep Hp Hc. rewrite <- (join_split s sep maxsplit Hsep). by eapply elem_of_join.
Qed.
