(* ===== verification/Regex.v ===== *)
(** * Regex: the part of Python's [re] the patterns of [App1.py] use

    [App1.py] has two regular expressions: the pattern of
    [split_into_slides] (line 40, compiled with [re.DOTALL] and run with
    [findall]) and the pattern of [process_slide_title] (line 74, run with
    [re.match]).  This file is the engine for the syntax they are written
    in: literal characters, [\d], [.], the repetitions [+], [*], [+?] and
    [*?] of one character, groups, the lookahead [(?=...)], alternation
    and [$].

    The engine is a backtracking matcher in continuation-passing style,
    as [sre] is: [exec r t g k] tries the ways of matching [r] at the
    start of [t] in the order of priority of [re] and gives the first
    one the continuation [k] accepts.  A repetition applies to one
    character, so it recurses on the text and needs no fuel.  [re] is not
    in the repository; the definitions follow its documentation. *)

From S2P Require Import Prelude PyStr.

#[local] Open Scope N_scope.

(** ** Syntax *)

(** What matches one character. *)
Inductive cset : Type :=
| CLit (c : char)
| CDigit
| CDot.

(** A pattern.  [Rep cs min greedy] is [cs] repeated [min] times or more,
    as many times as possible when [greedy] and as few as possible
    otherwise; [Group i r] is the [i]-th pair of parentheses. *)
Inductive re : Type :=
| Empty
| One (cs : cset)
| Cat (r1 r2 : re)
| Alt (r1 r2 : re)
| Rep (cs : cset) (min : nat) (greedy : bool)
| Group (i : nat) (r : re)
| Ahead (r : re)
| Eos.

#[export] Instance cset_eq_dec : EqDecision cset.
Proof. solve_decision. Defined.

#[export] Instance re_eq_dec : EqDecision re.
Proof. solve_decision. Defined.

(** The pattern of a literal text [s] followed by [r], and of [s]
    alone. *)
Definition lit_then (s : pystr) (r : re) : re := foldr (fun c r => Cat (One (CLit c)) r) r s.

Definition lit (s : pystr) : re := lit_then s Empty.

(** The number of groups of a pattern. *)
Fixpoint groups (r : re) : nat :=
  match r with
  | Cat r1 r2 | Alt r1 r2 => groups r1 + groups r2
  | Group _ r' => S (groups r')
  | Ahead r' => groups r'
  | _ => 0
  end.

(** ** Reading a pattern *)

(** [re.compile(pattern)] reads the text of a pattern from left to right.
    The parentheses that are open form a stack of frames; a frame holds
    the alternatives it has closed and the items of the one it is in,
    both last first. *)
Inductive frame_kind : Type :=
| FTop
| FGroup (i : nat)
| FAhead
| FPlain.

Record frame : Type := mkFrame {
  fkind : frame_kind;
  alts : list re;
  items : list re
}.

(** What the characters read so far leave open: nothing, a backslash, a
    parenthesis, or a parenthesis and a question mark. *)
Inductive pending : Type :=
| PNone
| PEscape
| POpen
| POpenQ.

Record parser : Type := mkParser {
  stack : list frame;
  pend : pending;
  ngroups : nat
}.

(** The sequence of the items of a frame, and the alternation of its
    alternatives, in the order of the text. *)
Definition seq_of (its : list re) : re := foldl (fun acc r => Cat r acc) Empty its.

Definition alt_of (f : frame) : re :=
  foldl (fun acc a => Alt a acc) (seq_of (items f)) (alts f).

Definition waiting (pe : pending) (p : parser) : parser :=
  mkParser (stack p) pe (ngroups p).

Definition open_frame (kind : frame_kind) (n : nat) (p : parser) : parser :=
  mkParser (mkFrame kind [] [] :: stack p) PNone n.

(** The innermost frame, changed by [f]. *)
Definition on_frame (f : frame -> option frame) (p : parser) : option parser :=
  match stack p with
  | fr :: frs => fr' ← f fr; Some (mkParser (fr' :: frs) PNone (ngroups p))
  | [] => None
  end.

Definition push_item (r : re) : parser -> option parser :=
  on_frame (fun fr => Some (mkFrame (fkind fr) (alts fr) (r :: items fr))).

(** [*] and [+] repeat the item before them, which has to be one
    character. *)
Definition quantify (min : nat) : parser -> option parser :=
  on_frame (fun fr =>
    match items fr with
    | One cs :: its => Some (mkFrame (fkind fr) (alts fr) (Rep cs min true :: its))
    | _ => None
    end).

(** [?] after a repetition makes it lazy. *)
Definition make_lazy : parser -> option parser :=
  on_frame (fun fr =>
    match items fr with
    | Rep cs min true :: its => Some (mkFrame (fkind fr) (alts fr) (Rep cs min false :: its))
    | _ => None
    end).

(** [|] closes an alternative. *)
Definition branch : parser -> option parser :=
  on_frame (fun fr => Some (mkFrame (fkind fr) (seq_of (items fr) :: alts fr) [])).

(** [)] closes the innermost frame and makes it an item of the frame
    around it. *)
Definition close_frame (p : parser) : option parser :=
  match stack p with
  | fr :: frs =>
    let outer := mkParser frs PNone (ngroups p) in
    match fkind fr with
    | FTop => None
    | FGroup i => push_item (Group i (alt_of fr)) outer
    | FAhead => push_item (Ahead (alt_of fr)) outer
    | FPlain => push_item (alt_of fr) outer
    end
  | [] => None
  end.

Definition is_alnum (c : char) : bool :=
  (48 <=? c) && (c <=? 57) || (65 <=? c) && (c <=? 90) || (97 <=? c) && (c <=? 122).

(** A character with nothing pending. *)
Definition plain (c : char) (p : parser) : option parser :=
  if c =? 92 then Some (waiting PEscape p)
  else if c =? 40 then Some (waiting POpen p)
  else if c =? 41 then close_frame p
  else if c =? 124 then branch p
  else if c =? 42 then quantify 0 p
  else if c =? 43 then quantify 1 p
  else if c =? 63 then make_lazy p
  else if c =? 46 then push_item (One CDot) p
  else if c =? 36 then push_item Eos p
  else if (c =? 94) || (c =? 91) || (c =? 123) then None
  else push_item (One (CLit c)) p.

(** One character of the pattern.  After a backslash, [d] is the class of
    the digits and a character that is no letter and no digit stands for
    itself; after [(?], [=] opens a lookahead and [:] a group that is not
    numbered.  What the engine has no construct for is refused. *)
Definition read_char (p : parser) (c : char) : option parser :=
  match pend p with
  | PNone => plain c p
  | PEscape =>
    if c =? 100 then push_item (One CDigit) p
    else if is_alnum c then None
    else push_item (One (CLit c)) p
  | POpen =>
    if c =? 63 then Some (waiting POpenQ p)
    else plain c (open_frame (FGroup (S (ngroups p))) (S (ngroups p)) p)
  | POpenQ =>
    if c =? 61 then Some (open_frame FAhead (ngroups p) p)
    else if c =? 58 then Some (open_frame FPlain (ngroups p) p)
    else None
  end.

(** [re.compile(pattern)]; [None] for a pattern that is not well formed
    or is outside the syntax of this file. *)
Definition re_compile (pattern : pystr) : option re :=
  p ← foldl (fun acc c => p ← acc; read_char p c)
        (Some (mkParser [mkFrame FTop [] []] PNone 0)) pattern;
  match pend p, stack p with
  | PNone, [fr] => Some (alt_of fr)
  | _, _ => None
  end.

(** What the groups of a match hold, by their number. *)
Abbreviation captures := (gmap nat pystr) (only parsing).

(** A match: the text that is left and the groups. *)
Abbreviation matched := (pystr * gmap nat pystr)%type (only parsing).

(** [m.group(i)]; a group that took no part reads as the empty text, as
    in the results of [findall]. *)
Definition group (g : captures) (i : nat) : pystr := default [] (g !! i).

(** ** The engine *)

Section engine.
Context `{UnicodeDb}.

(** [flags & re.DOTALL] *)
Variable dotall : bool.

Definition cset_match (cs : cset) (c : char) : bool :=
  match cs with
  | CLit a => c =? a
  | CDigit => isdecimal c
  | CDot => dotall || negb (c =? 10)
  end.

(** [$] without [re.MULTILINE]: at the end of the text, or before the
    newline that ends it. *)
Definition at_end (t : pystr) : bool := bool_decide (t = []) || bool_decide (t = [10]).

(** A greedy repetition: take a character and go on; when that fails,
    stop here if [min] characters were taken. *)
Fixpoint rep_greedy {R} (p : char -> bool) (min : nat) (t : pystr)
    (k : pystr -> option R) : option R :=
  match t with
  | c :: t' =>
    if p c then
      match rep_greedy p (pred min) t' k with
      | Some m => Some m
      | None => match min with O => k t | S _ => None end
      end
    else match min with O => k t | S _ => None end
  | [] => match min with O => k t | S _ => None end
  end.

(** A lazy repetition: once [min] characters were taken, stop here; when
    that fails, take a character and go on. *)
Fixpoint rep_lazy {R} (p : char -> bool) (min : nat) (t : pystr)
    (k : pystr -> option R) {struct t} : option R :=
  match min with
  | S min' =>
    match t with
    | c :: t' => if p c then rep_lazy p min' t' k else None
    | [] => None
    end
  | O =>
    match k t with
    | Some m => Some m
    | None =>
      match t with
      | c :: t' => if p c then rep_lazy p O t' k else None
      | [] => None
      end
    end
  end.

(** [exec r t g k]: the first way of matching [r] at the start of [t],
    with the groups [g] set so far, that [k] accepts. *)
Fixpoint exec (r : re) (t : pystr) (g : captures)
    (k : pystr -> captures -> option matched) : option matched :=
  match r with
  | Empty => k t g
  | One cs =>
    match t with
    | c :: t' => if cset_match cs c then k t' g else None
    | [] => None
    end
  | Cat r1 r2 => exec r1 t g (fun t' g' => exec r2 t' g' k)
  | Alt r1 r2 =>
    match exec r1 t g k with
    | Some m => Some m
    | None => exec r2 t g k
    end
  | Rep cs min true => rep_greedy (cset_match cs) min t (fun t' => k t' g)
  | Rep cs min false => rep_lazy (cset_match cs) min t (fun t' => k t' g)
  | Group i r' =>
    exec r' t g (fun t' g' => k t' (<[i := take (length t - length t') t]> g'))
  | Ahead r' =>
    match exec r' t g (fun t' g' => Some (t', g')) with
    | Some (_, g') => k t g'
    | None => None
    end
  | Eos => if at_end t then k t g else None
  end.

(** The end of a match.  After an empty match [findall] asks the next
    one, at the same place, to advance ([must_advance] of [sre]). *)
Definition accept (must_advance : bool) (t : pystr)
    (t' : pystr) (g : captures) : option matched :=
  if must_advance && bool_decide (length t' = length t) then None else Some (t', g).

(** A match of [r] at the start of [t]. *)
Definition match_at (must_advance : bool) (r : re) (t : pystr) : option matched :=
  exec r t ∅ (accept must_advance t).

(** [re.match(r, s)]: the groups of the match, group 0 (all that was
    matched) included. *)
Definition re_match (r : re) (s : pystr) : option captures :=
  '(t', g) ← match_at false r s;
  Some (<[0%nat := take (length s - length t') s]> g).

(** The scan of [findall]: [m adv s] is the match at the start of [s], as
    its length and what [findall] keeps of it; [skip] is the number of
    characters of the last match still to be passed over.  A match is
    tried at every place that is in no earlier match, the end of the text
    included; after an empty match a second one is tried at the same
    place, which has to advance. *)
Fixpoint findall_scan {A} (m : bool -> pystr -> option (nat * A)) (skip : nat)
    (s : pystr) : list A :=
  match skip with
  | S skip' =>
    match s with
    | _ :: s' => findall_scan m skip' s'
    | [] => []
    end
  | O =>
    match m false s with
    | None =>
      match s with
      | _ :: s' => findall_scan m 0 s'
      | [] => []
      end
    | Some (S n, x) =>
      x :: match s with
           | _ :: s' => findall_scan m n s'
           | [] => []
           end
    | Some (O, x) =>
      x :: match m true s, s with
           | Some (S n, y), _ :: s' => y :: findall_scan m n s'
           | _, _ :: s' => findall_scan m 0 s'
           | _, [] => []
           end
    end
  end.

(** The match at the start of [t] as [findall_scan] takes it. *)
Definition scan_match {A} (item : pystr -> captures -> A) (r : re)
    (must_advance : bool) (t : pystr) : option (nat * A) :=
  '(t', g) ← match_at must_advance r t;
  Some ((length t - length t')%nat, item (take (length t - length t') t) g).

(** [pattern.findall(s)] for a pattern with one group: the texts of the
    group. *)
Definition re_findall (r : re) (s : pystr) : list pystr :=
  findall_scan (scan_match (fun _ g => group g 1) r) 0 s.

(** [pattern.findall(s)] for a pattern without a group: the matches. *)
Definition re_findall0 (r : re) (s : pystr) : list pystr :=
  findall_scan (scan_match (fun whole _ => whole) r) 0 s.

(** ** Patterns as languages *)

(** [matches r t t']: [r] matches at the start of [t] and leaves [t'],
    in some way, whatever the order in which the engine tries the
    ways. *)
Inductive matches : re -> pystr -> pystr -> Prop :=
| matches_Empty t : matches Empty t t
| matches_One cs c t : cset_match cs c = true -> matches (One cs) (c :: t) t
| matches_Cat r1 r2 t t1 t2 :
  matches r1 t t1 -> matches r2 t1 t2 -> matches (Cat r1 r2) t t2
| matches_Alt_l r1 r2 t t' : matches r1 t t' -> matches (Alt r1 r2) t t'
| matches_Alt_r r1 r2 t t' : matches r2 t t' -> matches (Alt r1 r2) t t'
| matches_Rep cs min greedy run t :
  Forall (fun c => cset_match cs c = true) run -> (min <= length run)%nat ->
  matches (Rep cs min greedy) (run ++ t) t
| matches_Group i r t t' : matches r t t' -> matches (Group i r) t t'
| matches_Ahead r t t' : matches r t t' -> matches (Ahead r) t t
| matches_Eos t : at_end t = true -> matches Eos t t.

(** ** Lemmas: one character and literals *)

Implicit Types (t s : pystr) (g : captures) (k : pystr -> captures -> option matched).

(** The equations of [exec], one for each construct that has a pattern
    inside. *)
Lemma exec_Cat r1 r2 t g k :
  exec (Cat r1 r2) t g k = exec r1 t g (fun t' g' => exec r2 t' g' k).
Proof. done. Qed.

Lemma exec_Group i r t g k :
  exec (Group i r) t g k =
  exec r t g (fun t' g' => k t' (<[i := take (length t - length t') t]> g')).
Proof. done. Qed.

Lemma exec_Rep cs min greedy t g k :
  exec (Rep cs min greedy) t g k =
  if greedy then rep_greedy (cset_match cs) min t (fun t' => k t' g)
  else rep_lazy (cset_match cs) min t (fun t' => k t' g).
Proof. by destruct greedy. Qed.

Lemma exec_lit_then s r t g k :
  exec (lit_then s r) t g k =
  if startswith t s then exec r (drop (length s) t) g k else None.
Proof.
  revert t. induction s as [|a s IH]; intros t; [done|].
  destruct t as [|c t]; [done|].
  cbn [lit_then foldr exec cset_match startswith length drop].
  destruct (c =? a); [apply IH|done].
Qed.

Lemma exec_lit s t g k :
  exec (lit s) t g k = if startswith t s then k (drop (length s) t) g else None.
Proof. apply exec_lit_then. Qed.

(** ** Lemmas: repetitions *)

Section rep.
Context {R : Type} (p : char -> bool).
Implicit Types (c : pystr -> option R).

(** A greedy repetition that finds fewer than [min] characters fails. *)
Lemma rep_greedy_short min t c :
  (length (take_while p t) < min)%nat -> rep_greedy p min t c = None.
Proof.
  revert min. induction t as [|x t IH]; intros min; cbn [take_while rep_greedy length].
  - by destruct min; [lia|].
  - destruct (p x); cbn [length]; [|by destruct min; [lia|]].
    intros Hlt. rewrite IH by lia. by destruct min; [lia|].
Qed.

(** When what follows accepts the text after the whole run, that is the
    match. *)
Lemma rep_greedy_max min t c :
  (min <= length (take_while p t))%nat -> is_Some (c (drop_while p t)) ->
  rep_greedy p min t c = c (drop_while p t).
Proof.
  revert min. induction t as [|x t IH]; intros min;
    cbn [take_while drop_while rep_greedy length].
  - intros Hmin _. by destruct min; [|lia].
  - destruct (p x); cbn [length]; intros Hmin Hc; [|by destruct min; [|lia]].
    rewrite IH by (done || lia). by destruct Hc as [m ->].
Qed.

(** When what follows refuses every text that starts with a character of
    the run, giving characters back cannot help: the repetition takes the
    whole run or fails. *)
Lemma rep_greedy_commit min t c :
  (forall x t', p x = true -> c (x :: t') = None) ->
  rep_greedy p min t c =
  if decide (min <= length (take_while p t))%nat then c (drop_while p t) else None.
Proof.
  intros Hc. revert min. induction t as [|x t IH]; intros min;
    cbn [take_while drop_while rep_greedy length].
  - by destruct min.
  - destruct (p x) eqn:Hx; cbn [length]; [|by destruct min].
    rewrite IH. destruct min as [|min]; cbn [pred].
    + rewrite !decide_True by lia. rewrite Hc by done. by destruct (c _).
    + destruct (decide (min <= _)%nat), (decide (S min <= _)%nat); try lia; [|done].
      by destruct (c _).
Qed.

(** A lazy repetition stops where what follows accepts. *)
Lemma rep_lazy_here t c : is_Some (c t) -> rep_lazy p 0 t c = c t.
Proof. intros [m Hm]. destruct t; cbn [rep_lazy]; by rewrite Hm. Qed.

(** It passes over the characters where what follows refuses. *)
Lemma rep_lazy_pass n t c :
  (n <= length t)%nat -> Forall (fun x => p x = true) (take n t) ->
  (forall j, (j < n)%nat -> c (drop j t) = None) ->
  rep_lazy p 0 t c = rep_lazy p 0 (drop n t) c.
Proof.
  revert t. induction n as [|n IH]; intros t Hn Hp Hc; [done|].
  destruct t as [|x t]; [simpl in Hn; lia|].
  cbn [take] in Hp. apply Forall_cons in Hp as [Hx Hp].
  pose proof (Hc 0%nat ltac:(lia)) as H0. cbn [drop] in H0.
  cbn [rep_lazy drop]. rewrite H0, Hx.
  apply IH; [simpl in Hn; lia|done|]. intros j Hj. apply (Hc (S j)). lia.
Qed.

(** A repetition that succeeds has passed over a run of at least [min]
    characters and what follows has accepted the rest; and it succeeds
    when there is such a run. *)
Lemma rep_greedy_sound min t c m :
  rep_greedy p min t c = Some m ->
  exists run t', t = run ++ t' /\ Forall (fun x => p x = true) run /\
    (min <= length run)%nat /\ c t' = Some m.
Proof.
  revert min. induction t as [|x t IH]; intros min; cbn [rep_greedy].
  - destruct min; [|done]. intros Hc. by exists [], [].
  - assert ((match min with O => c (x :: t) | S _ => None end) = Some m ->
      exists run t', x :: t = run ++ t' /\ Forall (fun x => p x = true) run /\
        (min <= length run)%nat /\ c t' = Some m) as Hstop.
    { destruct min; [|done]. intros Hc. by exists [], (x :: t). }
    destruct (p x) eqn:Hx; [|done].
    destruct (rep_greedy p (pred min) t c) as [m'|] eqn:E; [|done].
    intros [= ->]. apply IH in E as (run & t' & -> & Hrun & Hmin & Hc).
    exists (x :: run), t'. repeat split; [by constructor|simpl; lia|done].
Qed.

Lemma rep_lazy_sound min t c m :
  rep_lazy p min t c = Some m ->
  exists run t', t = run ++ t' /\ Forall (fun x => p x = true) run /\
    (min <= length run)%nat /\ c t' = Some m.
Proof.
  revert min. induction t as [|x t IH]; intros min; cbn [rep_lazy].
  - destruct min; [|done]. destruct (c []) eqn:E; [|done]. intros [= ->]. by exists [], [].
  - assert ((if p x then rep_lazy p (pred min) t c else None) = Some m ->
      exists run t', x :: t = run ++ t' /\ Forall (fun x => p x = true) run /\
        (min <= length run)%nat /\ c t' = Some m) as Hmore.
    { destruct (p x) eqn:Hx; [|done]. intros (run & t' & -> & Hrun & Hmin & Hc)%IH.
      exists (x :: run), t'. repeat split; [by constructor|simpl; lia|done]. }
    destruct min as [|min]; [|done].
    destruct (c (x :: t)) eqn:E; [|done]. intros [= ->]. by exists [], (x :: t).
Qed.

Lemma rep_greedy_complete min run t c :
  Forall (fun x => p x = true) run -> (min <= length run)%nat -> is_Some (c t) ->
  is_Some (rep_greedy p min (run ++ t) c).
Proof.
  intros Hrun. revert min. induction Hrun as [|x run Hx _ IH]; intros min Hmin Hc.
  - destruct min; [|simpl in Hmin; lia]. destruct t as [|x t]; cbn [app rep_greedy]; [done|].
    destruct (p x); [|done]. by destruct (rep_greedy p _ t c).
  - cbn [app rep_greedy]. rewrite Hx.
    destruct (IH (pred min)) as [m ->]; [simpl in Hmin; lia|done|done].
Qed.

Lemma rep_lazy_complete min run t c :
  Forall (fun x => p x = true) run -> (min <= length run)%nat -> is_Some (c t) ->
  is_Some (rep_lazy p min (run ++ t) c).
Proof.
  intros Hrun. revert min. induction Hrun as [|x run Hx _ IH]; intros min Hmin Hc.
  - destruct min; [|simpl in Hmin; lia]. destruct Hc as [m Hc].
    destruct t; cbn [app rep_lazy]; by rewrite Hc.
  - cbn [app rep_lazy]. rewrite Hx. destruct min as [|min].
    + destruct (c (x :: run ++ t)); [done|]. by apply IH; [lia|].
    + apply IH; [simpl in Hmin; lia|done].
Qed.
(** A repetition depends on what follows it only through its results. *)
#[export] Instance rep_greedy_proper min t :
  Proper (pointwise_relation pystr (=) ==> (=)) (@rep_greedy R p min t).
Proof.
  intros c c' Hc. revert min. induction t as [|x t IH]; intros min; cbn [rep_greedy].
  - by rewrite Hc.
  - by rewrite IH, Hc.
Qed.

#[export] Instance rep_lazy_proper min t :
  Proper (pointwise_relation pystr (=) ==> (=)) (@rep_lazy R p min t).
Proof.
  intros c c' Hc. revert min. induction t as [|x t IH]; intros [|min]; cbn [rep_lazy];
    by rewrite ?Hc, ?IH.
Qed.

End rep.

(** So does a pattern: continuations that agree on every text and groups
    can be exchanged. *)
#[export] Instance exec_proper r t g :
  Proper (pointwise_relation pystr (pointwise_relation captures (=)) ==> (=)) (exec r t g).
Proof.
  intros k k' Hk. revert t g k k' Hk.
  induction r as [|cs|r1 IH1 r2 IH2|r1 IH1 r2 IH2|cs min greedy|i r IH|r IH|];
    intros t g k k' Hk; cbn [exec].
  - apply Hk.
  - destruct t as [|c t]; [done|]. destruct (cset_match cs c); [apply Hk|done].
  - apply IH1. intros t' g'. by apply IH2.
  - by rewrite (IH1 _ _ k k'), (IH2 _ _ k k').
  - destruct greedy; [apply rep_greedy_proper|apply rep_lazy_proper]; intros t'; apply Hk.
  - apply IH. intros t' g'. apply Hk.
  - destruct (exec r t g _) as [[? g']|]; [apply Hk|done].
  - destruct (at_end t); [apply Hk|done].
Qed.

(** ** The engine and the languages *)

Lemma exec_sound r t g k m :
  exec r t g k = Some m ->
  exists t' g', matches r t t' /\ k t' g' = Some m.
Proof.
  revert t g k m.
  induction r as [|cs|r1 IH1 r2 IH2|r1 IH1 r2 IH2|cs min greedy|i r IH|r IH|];
    intros t g k m; cbn [exec].
  - intros Hk. exists t, g. split; [constructor|done].
  - destruct t as [|c t]; [done|]. destruct (cset_match cs c) eqn:Hc; [|done].
    intros Hk. exists t, g. split; [by constructor|done].
  - intros (t1 & g1 & H1 & (t2 & g2 & H2 & Hk)%IH2)%IH1.
    exists t2, g2. split; [by econstructor|done].
  - destruct (exec r1 t g k) eqn:E.
    + intros [= ->]. apply IH1 in E as (t' & g' & ? & ?). exists t', g'.
      split; [by apply matches_Alt_l|done].
    + intros (t' & g' & ? & ?)%IH2. exists t', g'. split; [by apply matches_Alt_r|done].
  - intros Hrep.
    assert (exists run t', t = run ++ t' /\
      Forall (fun x => cset_match cs x = true) run /\
      (min <= length run)%nat /\ k t' g = Some m) as (run & t' & -> & ? & ? & ?)
      by (destruct greedy; [by apply rep_greedy_sound in Hrep|by apply rep_lazy_sound in Hrep]).
    exists t', g. split; [by constructor|done].
  - intros (t' & g' & ? & ?)%IH. eexists t', _. split; [by constructor|done].
  - destruct (exec r t g _) as [[t' g']|] eqn:E; [|done].
    apply IH in E as (t'' & g'' & ? & _). intros Hk. exists t, g'.
    split; [by econstructor|done].
  - destruct (at_end t) eqn:E; [|done]. intros Hk. exists t, g. split; [by constructor|done].
Qed.

Lemma exec_complete r t t' g k :
  matches r t t' -> (forall g', is_Some (k t' g')) -> is_Some (exec r t g k).
Proof.
  intros Hm. revert g k.
  induction Hm as [t|cs c t Hc|r1 r2 t t1 t2 _ IH1 _ IH2|r1 r2 t t' _ IH|r1 r2 t t' _ IH
    |cs min greedy run t Hrun Hmin|i r t t' _ IH|r t t' _ IH|t Hend]; intros g k Hk; cbn [exec].
  - apply Hk.
  - rewrite Hc. apply Hk.
  - apply IH1. intros g'. by apply IH2.
  - destruct (IH g k Hk) as [m ->]. done.
  - destruct (exec r1 t g k); [done|]. by apply IH.
  - destruct greedy; [by apply rep_greedy_complete|by apply rep_lazy_complete].
  - apply IH. intros g'. apply Hk.
  - destruct (IH g (fun t' g' => Some (t', g'))) as [[? g'] ->]; [done|]. apply Hk.
  - rewrite Hend. apply Hk.
Qed.

Lemma matches_suffix r t t' : matches r t t' -> t' `suffix_of` t.
Proof.
  induction 1; try done.
  - by apply suffix_cons_r.
  - by etrans.
  - by apply suffix_app_r.
Qed.

(** C12 (refinement).  The engine implements the patterns as languages:
    what [match_at] returns is a way of matching the pattern at the start
    of the text, with what is left a suffix of the text, and whenever
    there is a way of matching, [match_at] returns one. *)
Theorem match_at_matches r s :
  (forall t' g, match_at false r s = Some (t', g) -> matches r s t' /\ t' `suffix_of` s) /\
  ((exists t', matches r s t') -> is_Some (match_at false r s)).
Proof.
  unfold match_at. split.
  - intros t' g (t'' & g'' & Hm & [= -> ->])%exec_sound. split; [done|].
    by eapply matches_suffix.
  - intros [t' Hm]. by eapply exec_complete.
Qed.
(** ** Lemmas: the scan *)

(** The scan for a pattern that matches no empty text: a match is taken
    where there is one, and the scan goes on after it. *)
Lemma findall_scan_skip {A} (m : bool -> pystr -> option (nat * A)) n s :
  (n <= length s)%nat -> findall_scan m n s = findall_scan m 0 (drop n s).
Proof.
  revert s. induction n as [|n IH]; intros s Hn; [done|].
  destruct s as [|c s]; [simpl in Hn; lia|]. cbn [findall_scan drop].
  apply IH. simpl in Hn. lia.
Qed.

End engine.
