(* ===== verification/Segmenter.v ===== *)
(** * Segmenter: the fixed-length segmenter of variant A

    [split_content] of [src/PPT_GENERATOR/App.py] cuts a text into chunks
    of at most [max_length] characters, at the last space below the limit
    when there is one.  The [while] loop is [split_content_loop], with a
    fuel; [split_content] runs it with the length of the text as fuel,
    which is enough whenever [max_length >= 1] ([split_content_total]).
    For [max_length <= 0] the Python loop can run forever, and the model
    then returns [None] for every fuel ([split_content_loop_negative],
    [split_content_loop_zero]). *)

From S2P Require Import Prelude PyStr.

#[local] Open Scope Z_scope.

(** ** The code *)

(** The literal [" "]. *)
Definition SPACE : pystr := [32%N].

(** Lines 47-49: the place of the cut. *)
Definition split_index (content : pystr) (max_length : Z) : Z :=
  let split_index := rfind content SPACE 0 max_length in
  if split_index =? -1 then max_length else split_index.

(** Lines 45-52: the loop, [chunks] being the list built so far. *)
Fixpoint split_content_loop (fuel : nat) (chunks : list pystr) (content : pystr)
    (max_length : Z) : option (list pystr) :=
  if len content >? max_length then
    match fuel with
    | O => None
    | S fuel' =>
      let i := split_index content max_length in
      split_content_loop fuel' (chunks ++ [slice_to content i])
        (strip (slice_from content i)) max_length
    end
  else Some (chunks ++ [content]).

(** Lines 40-53. *)
Definition split_content (content : pystr) (max_length : Z) : option (list pystr) :=
  split_content_loop (length content) [] content max_length.

(** The default of the parameter, [max_length=700]. *)
Definition split_content_default (content : pystr) : option (list pystr) :=
  split_content content 700.

(** ** What the chunks promise *)

(** [rejoin chunks text]: [text] is the chunks in order, with a run of
    whitespace put back after each chunk but the last and at the end of
    what follows it (what [strip] removed at each cut). *)
Inductive rejoin : list pystr -> pystr -> Prop :=
| rejoin_last c : rejoin [c] c
| rejoin_cut chunk lead rest trail chunks :
    all_p isspace lead -> all_p isspace trail -> rejoin chunks rest ->
    rejoin (chunk :: chunks) (chunk ++ lead ++ rest ++ trail).

(** The characters of a text that are not whitespace. *)
Definition nonspace (s : pystr) : pystr := List.filter (fun c => negb (isspace c)) s.

(** No chunk is longer than the limit. *)
Definition chunks_bounded (max_length : Z) (chunks : list pystr) : Prop :=
  Forall (fun chunk => len chunk <= max_length) chunks.

(** A chunk does not start with whitespace. *)
Definition starts_clean (chunk : pystr) : Prop :=
  forall c, head chunk = Some c -> isspace c = false.

(** ** The place of the cut *)

Lemma split_index_spec content max_length :
  0 <= max_length ->
  let i := split_index content max_length in
  (i = max_length /\
   forall j, Z.of_nat j < Z.min max_length (len content) -> content !! j <> Some 32%N) \/
  (0 <= i < Z.min max_length (len content) /\ content !! Z.to_nat i = Some 32%N /\
   forall j, i < Z.of_nat j < Z.min max_length (len content) -> content !! j <> Some 32%N).
Proof.
  intros Hm. unfold split_index. cbn zeta.
  destruct (rfind_char_spec content 32%N max_length Hm) as [[Hr Hno]|(Hr & Hc & Hno)];
    fold SPACE in *.
  - left. by rewrite Hr.
  - right. destruct (rfind content SPACE 0 max_length =? -1) eqn:E; [lia|done].
Qed.

Lemma split_index_range content max_length :
  0 <= max_length -> 0 <= split_index content max_length <= max_length.
Proof.
  intros Hm. destruct (split_index_spec content max_length Hm) as [[? _]|[? _]]; lia.
Qed.

Lemma split_index_negative content max_length :
  max_length < 0 -> split_index content max_length < 0 \/
                    0 <= split_index content max_length < len content.
Proof.
  intros Hm. unfold split_index, rfind. cbn zeta.
  match goal with |- context [rfind_from ?s ?sub ?lo ?k] =>
    destruct (rfind_from_range s sub lo k) as [->|H] end; [left; simpl; lia|].
  right. revert H. change (0 <? 0) with false. cbn iota. change (len SPACE) with 1.
  destruct (len content <? max_length) eqn:E1; [unfold len in *; lia|].
  destruct (max_length <? 0) eqn:E2; [|lia].
  intros H. destruct (_ =? -1) eqn:E3; lia.
Qed.

(** ** One turn of the loop makes the text shorter *)

Lemma strip_length s : (length (strip s) <= length s)%nat.
Proof. apply strip_with_length. Qed.

Lemma split_step_shorter content max_length :
  1 <= max_length -> len content > max_length ->
  (length (strip (slice_from content (split_index content max_length))) < length content)%nat.
Proof.
  intros Hm Hlen.
  pose proof (split_index_range content max_length ltac:(lia)) as [Hlo Hhi].
  pose proof (slice_from_length content _ Hlo) as Hsl.
  pose proof (strip_length (slice_from content (split_index content max_length))) as Hst.
  destruct (decide (split_index content max_length = 0)) as [E|E]; [|unfold len in *; lia].
  destruct (split_index_spec content max_length ltac:(lia)) as [[Hi _]|(Hi & Hc & _)]; [lia|].
  rewrite E in *. rewrite slice_from_drop by lia. simpl.
  apply (strip_with_lt isspace content 32%N); [|done]. by rewrite head_lookup.
Qed.

(** ** The loop *)

Lemma split_content_loop_done fuel chunks content max_length :
  len content <= max_length ->
  split_content_loop fuel chunks content max_length = Some (chunks ++ [content]).
Proof.
  intros H. destruct fuel; simpl; destruct (len content >? max_length) eqn:E; (lia || done).
Qed.

Lemma split_content_loop_step fuel chunks content max_length :
  len content > max_length ->
  split_content_loop (S fuel) chunks content max_length =
  split_content_loop fuel (chunks ++ [slice_to content (split_index content max_length)])
    (strip (slice_from content (split_index content max_length))) max_length.
Proof. intros H. simpl. destruct (len content >? max_length) eqn:E; (lia || done). Qed.

Lemma split_content_loop_out chunks content max_length :
  len content > max_length -> split_content_loop 0 chunks content max_length = None.
Proof. intros H. simpl. destruct (len content >? max_length) eqn:E; (lia || done). Qed.

(** The chunks built so far are a prefix of the result. *)
Lemma split_content_loop_acc fuel chunks content max_length :
  split_content_loop fuel chunks content max_length =
  (chunks ++.) <$> split_content_loop fuel [] content max_length.
Proof.
  revert chunks content. induction fuel as [|fuel IH]; intros chunks content.
  - simpl. by destruct (len content >? max_length).
  - destruct (decide (len content > max_length)) as [H|H].
    + rewrite !split_content_loop_step by done.
      rewrite IH, (IH ([] ++ _)). destruct (split_content_loop fuel [] _ _); simpl; [|done].
      by rewrite <- app_assoc.
    + by rewrite !split_content_loop_done by lia.
Qed.

(** Enough fuel: the length of the text. *)
Lemma split_content_loop_total fuel chunks content max_length :
  1 <= max_length -> (length content <= fuel)%nat ->
  is_Some (split_content_loop fuel chunks content max_length).
Proof.
  intros Hm. revert chunks content.
  induction fuel as [|fuel IH]; intros chunks content Hfuel.
  - rewrite split_content_loop_done; [done|]. unfold len. lia.
  - destruct (decide (len content > max_length)) as [H|H].
    + rewrite split_content_loop_step by done. apply IH.
      pose proof (split_step_shorter content max_length Hm H). lia.
    + rewrite split_content_loop_done by lia. done.
Qed.

(** More fuel does not change a result. *)
Lemma split_content_loop_more fuel fuel' chunks content max_length r :
  (fuel <= fuel')%nat ->
  split_content_loop fuel chunks content max_length = Some r ->
  split_content_loop fuel' chunks content max_length = Some r.
Proof.
  revert fuel' chunks content.
  induction fuel as [|fuel IH]; intros fuel' chunks content Hle Hr.
  - destruct (decide (len content > max_length)) as [H|H].
    + by rewrite split_content_loop_out in Hr.
    + rewrite split_content_loop_done in * by lia. done.
  - destruct fuel' as [|fuel']; [lia|].
    destruct (decide (len content > max_length)) as [H|H].
    + rewrite split_content_loop_step in * by done. apply IH; [lia|done].
    + rewrite split_content_loop_done in * by lia. done.
Qed.

(** The loop as a recursion on the text alone: the first chunk, then the
    chunks of the rest. *)
Lemma split_content_loop_unfold fuel content max_length :
  split_content_loop (S fuel) [] content max_length =
  if len content >? max_length then
    (slice_to content (split_index content max_length) ::.) <$>
      split_content_loop fuel [] (strip (slice_from content (split_index content max_length)))
        max_length
  else Some [content].
Proof.
  destruct (len content >? max_length) eqn:E.
  - rewrite split_content_loop_step by lia. by rewrite split_content_loop_acc.
  - by rewrite split_content_loop_done by lia.
Qed.

(** Induction on the turns of the loop, for a property [P content result]
    of its runs from an empty list. *)
Lemma split_content_loop_ind (max_length : Z) (P : pystr -> list pystr -> Prop) :
  (forall content, len content <= max_length -> P content [content]) ->
  (forall content r, len content > max_length ->
     P (strip (slice_from content (split_index content max_length))) r ->
     P content (slice_to content (split_index content max_length) :: r)) ->
  forall fuel content r,
    split_content_loop fuel [] content max_length = Some r -> P content r.
Proof.
  intros Hdone Hstep. induction fuel as [|fuel IH]; intros content r Hr.
  - destruct (decide (len content > max_length)) as [H|H].
    + by rewrite split_content_loop_out in Hr.
    + rewrite split_content_loop_done in Hr by lia. simplify_eq/=. apply Hdone. lia.
  - rewrite split_content_loop_unfold in Hr.
    destruct (len content >? max_length) eqn:E.
    + destruct (split_content_loop fuel [] _ _) as [r'|] eqn:E'; simplify_eq/=.
      apply Hstep; [lia|]. by apply IH.
    + simplify_eq/=. apply Hdone. lia.
Qed.

(** [by_turns H], for [H : split_content content m = Some chunks] and a
    goal about [content] and [chunks]: induction on the turns of the
    loop. *)
Ltac by_turns H :=
  unfold split_content in H;
  lazymatch type of H with
  | split_content_loop ?f [] ?c ?m = Some ?r =>
    pattern c, r; revert H;
    lazymatch goal with
    | |- _ -> ?P c r => apply (split_content_loop_ind m P); cbv beta
    end
  end.

(** ** Non-termination below 1 *)

Lemma split_content_loop_negative fuel chunks content max_length :
  max_length < 0 -> split_content_loop fuel chunks content max_length = None.
Proof.
  intros Hm. revert chunks content. induction fuel as [|fuel IH]; intros chunks content.
  - apply split_content_loop_out. unfold len. lia.
  - rewrite split_content_loop_step by (unfold len; lia). apply IH.
Qed.

Lemma strip_idemp s : strip (strip s) = strip s.
Proof. apply strip_with_idemp. Qed.

Lemma split_content_loop_zero fuel chunks content :
  strip content <> [] -> split_content_loop fuel chunks content 0 = None.
Proof.
  revert chunks content. induction fuel as [|fuel IH]; intros chunks content Hne.
  - apply split_content_loop_out. destruct content; [done|]. unfold len. simpl. lia.
  - assert (len content > 0) by (destruct content; [done|]; unfold len; simpl; lia).
    rewrite split_content_loop_step by done.
    pose proof (split_index_range content 0 ltac:(lia)).
    replace (split_index content 0) with 0 by lia.
    rewrite slice_from_drop by lia. simpl. apply IH. by rewrite strip_idemp.
Qed.

(** ** Facts about one chunk *)

Lemma all_p_isspace_nonspace s : all_p isspace s -> nonspace s = [].
Proof.
  unfold nonspace. induction 1 as [|c s Hc _ IH]; simpl; [done|]. by rewrite Hc.
Qed.

Lemma nonspace_app s t : nonspace (s ++ t) = nonspace s ++ nonspace t.
Proof. apply List.filter_app. Qed.

Lemma nonspace_strip s : nonspace (strip s) = nonspace s.
Proof.
  destruct (strip_with_decompose isspace s) as (lead & trail & Hs & Hl & Ht).
  fold (strip s) in Hs. rewrite Hs at 2. rewrite !nonspace_app.
  by rewrite (all_p_isspace_nonspace lead), (all_p_isspace_nonspace trail), app_nil_r.
Qed.

Lemma starts_clean_strip s : starts_clean (strip s).
Proof. intros c. apply strip_with_head. Qed.

Lemma starts_clean_slice_to s i : starts_clean s -> starts_clean (slice_to s i).
Proof.
  intros Hs c Hc. apply Hs. unfold slice_to in Hc.
  destruct (norm_index (len s) i); [done|]. by destruct s.
Qed.

Lemma slice_to_bounded content max_length :
  0 <= max_length -> len (slice_to content (split_index content max_length)) <= max_length.
Proof.
  intros Hm. pose proof (split_index_range content max_length Hm).
  rewrite slice_to_length; lia.
Qed.

(** ** Facts about every run of the loop, for the callers *)

Lemma split_content_loop_bounded fuel content max_length chunks :
  split_content_loop fuel [] content max_length = Some chunks ->
  chunks_bounded max_length chunks.
Proof.
  destruct (decide (max_length < 0)) as [Hm|Hm].
  { by rewrite split_content_loop_negative. }
  revert fuel content chunks. apply split_content_loop_ind.
  - intros c Hc. by apply Forall_singleton.
  - intros c r _ IH. apply Forall_cons. split; [|done].
    apply slice_to_bounded. lia.
Qed.

Lemma split_content_loop_nonempty fuel content max_length chunks :
  split_content_loop fuel [] content max_length = Some chunks -> chunks <> [].
Proof. revert fuel content chunks. apply split_content_loop_ind; intros; discriminate. Qed.

(** ** Theorems on [split_content] *)

(** C1 (termination).  For a limit of at least 1 the loop of
    [split_content] ends, on every text: the length of the text is enough
    fuel. *)
Theorem split_content_total content max_length :
  1 <= max_length -> is_Some (split_content content max_length).
Proof. intros Hm. by apply split_content_loop_total. Qed.

Lemma split_content_total_witness : is_Some (split_content (py "hello big world") 7).
Proof. apply split_content_total. lia. Defined.

(** C2 (bounds).  No chunk that [split_content] returns is longer than
    [max_length]: the cut is at or below the limit, and the loop ends only
    when what is left fits. *)
Theorem split_content_bounded content max_length chunks :
  split_content content max_length = Some chunks -> chunks_bounded max_length chunks.
Proof. apply split_content_loop_bounded. Qed.

Lemma split_content_bounded_witness :
  chunks_bounded 7 [py "hello"; py "big"; py "world"].
Proof. apply (split_content_bounded (py "hello big world")). reflexivity. Defined.

(** C3 (roundtrip).  The text is the chunks in order with whitespace put
    back between them: a cut removes nothing but the whitespace that
    [strip] trims around the rest. *)
Theorem split_content_rejoin content max_length chunks :
  split_content content max_length = Some chunks -> rejoin chunks content.
Proof.
  intros H. by_turns H.
  - intros c _. constructor.
  - intros c r _ IH.
    destruct (strip_with_decompose isspace (slice_from c (split_index c max_length)))
      as (lead & trail & Hs & Hl & Ht).
    rewrite <- (slice_to_from c (split_index c max_length)) at 3.
    rewrite Hs. by constructor.
Qed.

Lemma split_content_rejoin_witness :
  rejoin [py "hello"; py "big"; py "world"] (py "hello big world").
Proof. apply (split_content_rejoin _ 7). reflexivity. Defined.

(** The characters that are not whitespace are kept, in
    order: the concatenated chunks and the text agree once whitespace is
    removed from both. *)
Lemma split_content_nonspace content max_length chunks :
  split_content content max_length = Some chunks ->
  nonspace (concat chunks) = nonspace content.
Proof.
  intros H. by_turns H.
  - intros c _. simpl. by rewrite app_nil_r.
  - intros c r _ IH. simpl. rewrite nonspace_app, IH, nonspace_strip.
    by rewrite <- nonspace_app, slice_to_from.
Qed.

Lemma split_content_nonspace_witness :
  nonspace (concat [py "hello"; py "big"; py "world"]) = nonspace (py "hello big world").
Proof. apply (split_content_nonspace _ 7). reflexivity. Defined.

(** A text that fits is returned whole, as the only chunk, and is not
    stripped. *)
Lemma split_content_short content max_length :
  len content <= max_length -> split_content content max_length = Some [content].
Proof. intros H. unfold split_content. by rewrite split_content_loop_done. Qed.

Lemma split_content_short_witness : split_content (py " short ") 700 = Some [py " short "].
Proof. apply split_content_short. vm_compute. discriminate. Defined.

(** The list of chunks is never empty, so [content_chunks[0]]
    in [create_presentation] cannot raise. *)
Lemma split_content_nonempty content max_length chunks :
  split_content content max_length = Some chunks -> chunks <> [].
Proof. apply split_content_loop_nonempty. Qed.

Lemma split_content_nonempty_witness : [py "hello"; py "big"; py "world"] <> [].
Proof. apply (split_content_nonempty (py "hello big world") 7). reflexivity. Defined.

(** Every chunk after the first starts with a character
    that is not whitespace (or is empty): it is cut from a stripped text. *)
Lemma split_content_starts_clean content max_length first rest :
  split_content content max_length = Some (first :: rest) -> Forall starts_clean rest.
Proof.
  intros H. change rest with (tail (first :: rest)).
  generalize dependent (first :: rest). clear first rest. intros chunks H.
  enough ((starts_clean content -> Forall starts_clean chunks) /\
          Forall starts_clean (tail chunks)) as [_ ?]; [done|].
  by_turns H.
  - intros c _. split; [intros; by apply Forall_singleton|constructor].
  - intros c r _ [IH _]. specialize (IH (starts_clean_strip _)).
    split; [|done]. intros Hc. constructor; [by apply starts_clean_slice_to|done].
Qed.

Lemma split_content_starts_clean_witness : Forall starts_clean [py "big"; py "world"].
Proof.
  apply (split_content_starts_clean (py "hello big world") 7 (py "hello")). reflexivity.
Defined.

(** C10 (functional).  When the text is too long, the first chunk is the
    text up to the cut, and the cut is the last space below the limit,
    or the limit itself when there is no space below it. *)
Theorem split_content_first_chunk content max_length chunks :
  0 <= max_length -> len content > max_length ->
  split_content content max_length = Some chunks ->
  exists i rest,
    chunks = take i content :: rest /\
    ((Z.of_nat i = max_length /\
      forall j, Z.of_nat j < max_length -> content !! j <> Some 32%N) \/
     (Z.of_nat i < max_length /\ content !! i = Some 32%N /\
      forall j, (i < j)%nat -> Z.of_nat j < max_length -> content !! j <> Some 32%N)).
Proof.
  intros Hm Hlen. unfold split_content.
  destruct content as [|c0 content]; [unfold len in Hlen; simpl in Hlen; lia|].
  cbn [length]. rewrite split_content_loop_unfold.
  destruct (len (c0 :: content) >? max_length) eqn:E; [|lia].
  set (s := c0 :: content) in *. intros Hr.
  destruct (split_content_loop _ [] _ _) as [rest|]; simplify_eq/=.
  exists (Z.to_nat (split_index s max_length)), rest.
  pose proof (split_index_range s max_length Hm).
  rewrite slice_to_take by lia. split; [done|].
  destruct (split_index_spec s max_length Hm) as [[Hi Hno]|(Hi & Hc & Hno)].
  - left. split; [lia|]. intros j Hjm. apply Hno. lia.
  - right. split; [lia|]. split; [done|]. intros j Hj Hjm.
    destruct (decide (Z.of_nat j < len s)) as [Hjs|Hjs]; [apply Hno; lia|].
    rewrite lookup_ge_None_2; [done|]. unfold len in Hjs. lia.
Qed.

Lemma split_content_first_chunk_witness :
  exists i rest,
    [py "hello"; py "big"; py "world"] = take i (py "hello big world") :: rest /\
    ((Z.of_nat i = 7 /\
      forall j, Z.of_nat j < 7 -> py "hello big world" !! j <> Some 32%N) \/
     (Z.of_nat i < 7 /\ py "hello big world" !! i = Some 32%N /\
      forall j, (i < j)%nat -> Z.of_nat j < 7 -> py "hello big world" !! j <> Some 32%N)).
Proof.
  apply (split_content_first_chunk (py "hello big world") 7); [lia|vm_compute; done|reflexivity].
Defined.

(** With a limit below 0 the loop never
    ends, whatever the text: [len(content) > max_length] stays true. *)
Lemma split_content_negative_diverges fuel chunks content max_length :
  max_length < 0 -> split_content_loop fuel chunks content max_length = None.
Proof. apply split_content_loop_negative. Qed.

Lemma split_content_negative_diverges_witness :
  split_content_loop 1000 [] (py "abc") (-1) = None.
Proof. apply split_content_negative_diverges. lia. Defined.

(** C40 (termination).  With a limit of 0 the loop never ends on
    a text that has a character other than whitespace: each turn appends
    an empty chunk and leaves the text as it is. *)
Theorem split_content_zero_diverges fuel chunks content :
  strip content <> [] -> split_content_loop fuel chunks content 0 = None.
Proof. apply split_content_loop_zero. Qed.

Lemma split_content_zero_diverges_witness :
  split_content_loop 1000 [] (py "a") 0 = None.
Proof. apply split_content_zero_diverges. vm_compute. discriminate. Defined.

(** ** Runs on concrete texts *)

Example split_content_hello :
  split_content (py "hello big world") 7 = Some [py "hello"; py "big"; py "world"].
Proof. reflexivity. Qed.

(** No space below the limit: the cut is at the limit, inside the word. *)
Example split_content_hard_cut :
  split_content (py "abcdefghij") 4 = Some [py "abcd"; py "efgh"; py "ij"].
Proof. reflexivity. Qed.

(** Whitespace after the last cut leaves an empty last chunk. *)
Example split_content_empty_last :
  split_content (py "hello     ") 7 = Some [py "hello "; []].
Proof. reflexivity. Qed.

(** A leading space that is the only space below the limit gives an empty
    first chunk. *)
Example split_content_empty_first :
  split_content (py " abcdefgh") 5 = Some [[]; py "abcde"; py "fgh"].
Proof. reflexivity. Qed.
