(* ===== verification/SegmenterWf.v ===== *)
(** * SegmenterWf: [split_content] without fuel

    For a limit of at least 1 every turn of the loop of [split_content]
    makes the text shorter, so the loop is a recursion on the length of
    the text.  [split_content_wf] is that recursion, a total function
    defined with Equations; [split_content_wf_agrees] shows that the loop
    with fuel of [Segmenter] computes it.  It is the reference for the
    loop: what holds of [split_content_wf] holds of every run of
    [split_content] with a limit of at least 1. *)

From Equations Require Import Equations.
From S2P Require Import Prelude PyStr Segmenter.

#[local] Open Scope Z_scope.

(** A value with the proof that it is what was computed. *)
Definition inspect {A} (a : A) : {b | a = b} := exist _ a eq_refl.

(** [split_content(content, max_length)] of [App.py], lines 40-53, for
    [max_length >= 1]: the first chunk, then the chunks of the rest. *)
Equations? split_content_wf (max_length : Z) (Hm : 1 <= max_length) (content : pystr)
    : list pystr by wf (length content) lt :=
  split_content_wf max_length Hm content with inspect (len content >? max_length) := {
    | exist _ true E =>
      slice_to content (split_index content max_length)
        :: split_content_wf max_length Hm
             (strip (slice_from content (split_index content max_length)));
    | exist _ false E => [content] }.
Proof. apply split_step_shorter; lia. Qed.

(** ** The loop with fuel, one turn at a time *)

Lemma split_content_unfold content max_length :
  1 <= max_length -> len content > max_length ->
  split_content content max_length =
  (slice_to content (split_index content max_length) ::.) <$>
    split_content (strip (slice_from content (split_index content max_length))) max_length.
Proof.
  intros Hm Hlen. pose proof (split_step_shorter content max_length Hm Hlen) as Hshort.
  unfold split_content. destruct content as [|c content]; [simpl in Hshort; lia|].
  cbn [length] in *. rewrite split_content_loop_unfold.
  destruct (len (c :: content) >? max_length) eqn:E; [|lia]. f_equal.
  set (rest := strip _) in *.
  destruct (split_content_loop_total (length rest) [] rest max_length Hm) as [r Hr]; [done|].
  rewrite Hr. apply (split_content_loop_more (length rest)); [lia|done].
Qed.

(** ** The loop computes the recursion *)

(** For a limit of at least 1, [split_content] with
    the length of the text as fuel returns what the recursion on the
    text gives: the fuel never runs out and the chunks are the same. *)
Lemma split_content_wf_agrees max_length (Hm : 1 <= max_length) content :
  split_content content max_length = Some (split_content_wf max_length Hm content).
Proof.
  funelim (split_content_wf max_length Hm content).
  - rewrite split_content_unfold, H by lia. done.
  - unfold split_content. by rewrite split_content_loop_done by lia.
Qed.

Lemma split_content_wf_agrees_witness :
  split_content (py "hello big world") 7 =
  Some (split_content_wf 7 ltac:(done) (py "hello big world")).
Proof. apply split_content_wf_agrees. Defined.

(** The recursion on a concrete text. *)
Example split_content_wf_hello :
  split_content_wf 7 ltac:(done) (py "hello big world") =
  [py "hello"; py "big"; py "world"].
Proof.
  apply (inj Some). rewrite <- split_content_wf_agrees. reflexivity.
Qed.
