(* ===== verification/Pptx.v ===== *)
(** * Pptx: the python-pptx objects the scripts touch

    python-pptx is a library the scripts only call, so this file is a model
    of its documented behaviour, kept to what [App.py] and [App1.py] use:
    a presentation is the list of its slides; a slide made from layout 0
    ("Title Slide") or 1 ("Title and Content") of the default template has
    two placeholders, the title and the one at index 1; a placeholder is
    its text frame, a list of paragraphs; a paragraph is a list of runs and
    line breaks with a level and an alignment.

    Python holds these objects by reference: [slide] and
    [slide.shapes.title] are names for parts of [prs].  Here a slide is
    named by its index in the presentation ([add_slide] returns it) and a
    placeholder by the slide's index and [PhTitle] or [PhBody]; a write
    through a name is [alter] on the presentation.

    A run holds the text it was given, character by character; how that
    text is written into the XML of the slide is not part of this
    model. *)

From S2P Require Import Prelude PyStr.

(** ** Data *)

(** [Pt(points)]: a length in English Metric Units. *)
Definition Pt (points : Z) : Z := (points * 12700)%Z.

(** [PP_ALIGN] *)
Inductive PP_ALIGN : Type :=
| PP_ALIGN_LEFT
| PP_ALIGN_CENTER
| PP_ALIGN_RIGHT.

(** A run of text with the size of its font, when one was set. *)
Record Run : Type := mkRun {
  run_text : pystr;
  font_size : option Z
}.

(** The children of a paragraph: runs and line breaks. *)
Inductive PElem : Type :=
| ElemRun (r : Run)
| ElemBreak.

Record Paragraph : Type := mkParagraph {
  elems : list PElem;
  level : Z;
  alignment : option PP_ALIGN
}.

(** [text_frame.paragraphs] *)
Abbreviation TextFrame := (list Paragraph) (only parsing).

Record Slide : Type := mkSlide {
  slide_layout : nat;
  title_frame : TextFrame;
  body_frame : TextFrame
}.

(** [prs.slides] *)
Abbreviation Presentation := (list Slide) (only parsing).

(** The two placeholders of a slide: [slide.shapes.title] and
    [slide.placeholders[1]]. *)
Inductive PhName : Type :=
| PhTitle
| PhBody.

(** A placeholder object: the slide it belongs to and which one it is. *)
Abbreviation PlaceholderRef := (nat * PhName)%type (only parsing).

#[export] Instance PP_ALIGN_eq_dec : EqDecision PP_ALIGN.
Proof. solve_decision. Defined.

#[export] Instance Run_eq_dec : EqDecision Run.
Proof. solve_decision. Defined.

#[export] Instance PElem_eq_dec : EqDecision PElem.
Proof. solve_decision. Defined.

#[export] Instance Paragraph_eq_dec : EqDecision Paragraph.
Proof. solve_decision. Defined.

#[export] Instance Slide_eq_dec : EqDecision Slide.
Proof. solve_decision. Defined.

#[export] Instance PhName_eq_dec : EqDecision PhName.
Proof. solve_decision. Defined.

(** ** Text of a placeholder *)

Definition NEWLINE : pystr := [10%N].
Definition VTAB : pystr := [11%N].

(** A run for a piece of text; an empty piece gets no run. *)
Definition run_of (r_str : pystr) : list PElem :=
  match r_str with
  | [] => []
  | _ :: _ => [ElemRun (mkRun r_str None)]
  end.

(** [CT_TextParagraph.append_text] on an empty paragraph: the pieces
    between vertical tabs become runs, with a line break between them. *)
Definition append_text (text : pystr) : list PElem :=
  match split text VTAB (-1) with
  | [] => []
  | p :: ps => run_of p ++ (ps ≫= fun q => ElemBreak :: run_of q)
  end.

(** The paragraphs that [shape.text = text] leaves in the text frame: one
    per line, at level 0 with no alignment of their own. *)
Definition text_setter (text : pystr) : TextFrame :=
  (fun p_str => mkParagraph (append_text p_str) 0 None) <$> split text NEWLINE (-1).

Definition elem_text (e : PElem) : pystr :=
  match e with
  | ElemRun r => run_text r
  | ElemBreak => VTAB
  end.

(** [paragraph.text] *)
Definition paragraph_text (p : Paragraph) : pystr := elems p ≫= elem_text.

(** [shape.text] read back. *)
Definition text_getter (tf : TextFrame) : pystr := join NEWLINE (paragraph_text <$> tf).

(** [paragraph.runs] *)
Definition runs (p : Paragraph) : list Run :=
  elems p ≫= fun e => match e with ElemRun r => [r] | ElemBreak => [] end.

(** ** Slides *)

Definition empty_paragraph : Paragraph := mkParagraph [] 0 None.

(** A slide as [add_slide] makes it: each placeholder holds one empty
    paragraph. *)
Definition new_slide (layout : nat) : Slide :=
  mkSlide layout [empty_paragraph] [empty_paragraph].

(** [Presentation()] *)
Definition new_presentation : Presentation := [].

(** [prs.slides.add_slide(prs.slide_layouts[layout])]: the presentation
    with the slide appended, and the new slide's name. *)
Definition add_slide (prs : Presentation) (layout : nat) : Presentation * nat :=
  (prs ++ [new_slide layout], length prs).

(** The text frame of a placeholder of a slide. *)
Definition frame_of (name : PhName) (s : Slide) : TextFrame :=
  match name with
  | PhTitle => title_frame s
  | PhBody => body_frame s
  end.

Definition alter_frame (name : PhName) (f : TextFrame -> TextFrame) (s : Slide) : Slide :=
  match name with
  | PhTitle => mkSlide (slide_layout s) (f (title_frame s)) (body_frame s)
  | PhBody => mkSlide (slide_layout s) (title_frame s) (f (body_frame s))
  end.

(** A write to the text frame of the placeholder [ph] of [prs]. *)
Definition alter_placeholder (prs : Presentation) (ph : PlaceholderRef)
    (f : TextFrame -> TextFrame) : Presentation :=
  alter (alter_frame ph.2 f) ph.1 prs.

(** [placeholder.text = text] *)
Definition set_text (prs : Presentation) (ph : PlaceholderRef) (text : pystr)
    : Presentation :=
  alter_placeholder prs ph (fun _ => text_setter text).

(** [for paragraph in placeholder.text_frame.paragraphs: body], the body
    being a write to the paragraph. *)
Definition for_paragraphs (prs : Presentation) (ph : PlaceholderRef)
    (body : Paragraph -> Paragraph) : Presentation :=
  alter_placeholder prs ph (fmap body).

(** [paragraph.level = n] *)
Definition set_level (n : Z) (p : Paragraph) : Paragraph :=
  mkParagraph (elems p) n (alignment p).

(** [paragraph.alignment = a] *)
Definition set_alignment (a : PP_ALIGN) (p : Paragraph) : Paragraph :=
  mkParagraph (elems p) (level p) (Some a).

(** [paragraph.bullet = None]: python-pptx paragraphs have no [bullet]
    property, so the assignment only puts an attribute on the Python proxy
    object and leaves the paragraph of the deck as it is. *)
Definition set_bullet_none (p : Paragraph) : Paragraph := p.

(** [for run in paragraph.runs: body] *)
Definition for_runs (body : Run -> Run) (p : Paragraph) : Paragraph :=
  mkParagraph
    ((fun e => match e with ElemRun r => ElemRun (body r) | ElemBreak => ElemBreak end)
       <$> elems p)
    (level p) (alignment p).

(** [run.font.size = size] *)
Definition set_run_size (size : Z) (r : Run) : Run := mkRun (run_text r) (Some size).

(** ** Reading a deck *)

(** The text of a placeholder of the slide at [i]. *)
Definition slide_text (prs : Presentation) (i : nat) (name : PhName) : option pystr :=
  (fun s => text_getter (frame_of name s)) <$> prs !! i.

(** [slide.shapes.title.text] and [slide.placeholders[1].text], read. *)
Definition title_text (s : Slide) : pystr := text_getter (title_frame s).
Definition body_text (s : Slide) : pystr := text_getter (body_frame s).

(** Every run of a text frame has the font size [size]. *)
Definition frame_sized (size : Z) (tf : TextFrame) : Prop :=
  Forall (fun p => Forall (fun r => font_size r = Some size) (runs p)) tf.

(** Every paragraph of a text frame is at level [n]. *)
Definition frame_level (n : Z) (tf : TextFrame) : Prop :=
  Forall (fun p => level p = n) tf.

(** ** Well-formed decks *)

(** What python-pptx writes and accepts.  A run is not empty and has no
    line feed and no vertical tab (they end a paragraph or a line); a
    font size is between 1 and 4000 points and the level of a paragraph
    between 0 and 8 (the setters of python-pptx raise [ValueError]
    outside these ranges); a text frame has a paragraph; a slide is made
    from layout 0 or 1. *)
Definition wf_size (size : option Z) : Prop :=
  match size with
  | Some emu => (Pt 1 <= emu <= Pt 4000)%Z
  | None => True
  end.

Definition wf_run (r : Run) : Prop :=
  run_text r <> [] /\ (10%N ∉ run_text r) /\ (11%N ∉ run_text r) /\ wf_size (font_size r).

Definition wf_elem (e : PElem) : Prop :=
  match e with
  | ElemRun r => wf_run r
  | ElemBreak => True
  end.

Definition wf_paragraph (p : Paragraph) : Prop :=
  Forall wf_elem (elems p) /\ (0 <= level p <= 8)%Z.

Definition wf_frame (tf : TextFrame) : Prop := tf <> [] /\ Forall wf_paragraph tf.

Definition wf_slide (s : Slide) : Prop :=
  (slide_layout s < 2)%nat /\ wf_frame (title_frame s) /\ wf_frame (body_frame s).

Definition wf_presentation (prs : Presentation) : Prop := Forall wf_slide prs.

#[export] Instance wf_size_dec size : Decision (wf_size size).
Proof. destruct size; apply _. Defined.

#[export] Instance wf_run_dec r : Decision (wf_run r).
Proof. apply _. Defined.

#[export] Instance wf_elem_dec e : Decision (wf_elem e).
Proof. destruct e; apply _. Defined.

#[export] Instance wf_paragraph_dec p : Decision (wf_paragraph p).
Proof. apply _. Defined.

#[export] Instance wf_frame_dec tf : Decision (wf_frame tf).
Proof. apply _. Defined.

#[export] Instance wf_slide_dec s : Decision (wf_slide s).
Proof. apply _. Defined.

#[export] Instance wf_presentation_dec prs : Decision (wf_presentation prs).
Proof. apply _. Defined.

(** ** Lemmas *)

Lemma run_of_text q : run_of q ≫= elem_text = q.
Proof. destruct q; [done|]. simpl. by rewrite app_nil_r. Qed.

Lemma pieces_text p ps :
  (run_of p ++ (ps ≫= fun q => ElemBreak :: run_of q)) ≫= elem_text = join VTAB (p :: ps).
Proof.
  revert p. induction ps as [|q ps IH]; intros p.
  - cbn [mbind list_bind]. rewrite app_nil_r. apply run_of_text.
  - rewrite bind_app, run_of_text, bind_cons. cbn [app]. rewrite bind_cons, IH. done.
Qed.

Lemma paragraph_text_append_text p_str level align :
  paragraph_text (mkParagraph (append_text p_str) level align) = p_str.
Proof.
  unfold paragraph_text, append_text. cbn [elems].
  rewrite <- (join_split p_str VTAB (-1)) at 2 by done.
  destruct (split p_str VTAB (-1)) as [|p ps]; [done|]. apply pieces_text.
Qed.

(** What was written to a placeholder is what is read back. *)
Lemma text_getter_setter text : text_getter (text_setter text) = text.
Proof.
  unfold text_getter, text_setter. rewrite <- list_fmap_compose.
  rewrite (list_fmap_ext _ id); [by rewrite list_fmap_id, join_split|].
  intros i p_str _. apply paragraph_text_append_text.
Qed.

Lemma text_setter_nonempty text : text_setter text <> [].
Proof.
  unfold text_setter, split. intros H%fmap_nil_inv. by apply split_go_nonempty in H.
Qed.

Lemma text_setter_level text : frame_level 0 (text_setter text).
Proof. unfold frame_level, text_setter. by apply Forall_fmap, Forall_true. Qed.

Lemma runs_for_runs body p : runs (for_runs body p) = body <$> runs p.
Proof.
  unfold runs, for_runs. cbn [elems].
  induction (elems p) as [|e es IH]; [done|].
  rewrite fmap_cons, !bind_cons, IH, fmap_app. by destruct e.
Qed.

Lemma paragraph_text_for_runs body p :
  (forall r, run_text (body r) = run_text r) ->
  paragraph_text (for_runs body p) = paragraph_text p.
Proof.
  intros Hbody. unfold paragraph_text, for_runs. cbn [elems].
  induction (elems p) as [|e es IH]; [done|].
  rewrite fmap_cons, !bind_cons, IH. destruct e; simpl; by rewrite ?Hbody.
Qed.

Lemma frame_sized_for_runs size tf :
  frame_sized size (for_runs (set_run_size size) <$> tf).
Proof.
  unfold frame_sized. apply Forall_fmap, Forall_true. intros p. simpl.
  rewrite runs_for_runs. by apply Forall_fmap, Forall_true.
Qed.

Lemma text_getter_fmap (f : Paragraph -> Paragraph) tf :
  (forall p, paragraph_text (f p) = paragraph_text p) ->
  text_getter (f <$> tf) = text_getter tf.
Proof.
  intros Hf. unfold text_getter. rewrite <- list_fmap_compose. f_equal.
  apply list_fmap_ext. intros i p _. apply Hf.
Qed.

Lemma text_getter_for_runs body tf :
  (forall r, run_text (body r) = run_text r) ->
  text_getter (for_runs body <$> tf) = text_getter tf.
Proof. intros Hbody. apply text_getter_fmap. intros p. by apply paragraph_text_for_runs. Qed.

Lemma frame_level_fmap (f : Paragraph -> Paragraph) n tf :
  (forall p, level (f p) = n) -> frame_level n (f <$> tf).
Proof. intros Hf. unfold frame_level. by apply Forall_fmap, Forall_true. Qed.

Lemma frame_level_for_runs body n tf :
  frame_level n tf -> frame_level n (for_runs body <$> tf).
Proof.
  unfold frame_level. rewrite Forall_fmap. intros H. by eapply Forall_impl.
Qed.

(** A write through the name of the slide just added. *)
Lemma alter_added (prs : Presentation) s (f : Slide -> Slide) :
  alter f (length prs) (prs ++ [s]) = prs ++ [f s].
Proof. by rewrite <- (Nat.add_0_r (length prs)), alter_app_r. Qed.

Lemma add_slide_length prs layout : length (add_slide prs layout).1 = S (length prs).
Proof. unfold add_slide. simpl. rewrite length_app. simpl. lia. Qed.

(** ** Lemmas: well-formed decks *)

Lemma wf_run_of q : (10%N ∉ q) -> (11%N ∉ q) -> Forall wf_elem (run_of q).
Proof. intros. destruct q; repeat constructor; done. Qed.

Lemma wf_breaks qs :
  Forall (fun q => (10%N ∉ q) /\ (11%N ∉ q)) qs ->
  Forall wf_elem (qs ≫= fun q => ElemBreak :: run_of q).
Proof.
  induction 1 as [|q qs [? ?] _ IH]; [constructor|]. rewrite bind_cons.
  apply Forall_app. split; [constructor; [done|by apply wf_run_of]|done].
Qed.

Lemma wf_append_text p_str : (10%N ∉ p_str) -> Forall wf_elem (append_text p_str).
Proof.
  intros Hnl. unfold append_text.
  assert (Forall (fun q => (10%N ∉ q) /\ (11%N ∉ q)) (split p_str VTAB (-1))) as Hq.
  { apply Forall_and. split; [|apply split_go_parts_clean].
    apply Forall_forall. intros q Hq Hc. apply Hnl. by eapply (elem_of_split _ VTAB). }
  destruct Hq as [|q qs [? ?] Hqs]; [constructor|].
  apply Forall_app. split; [by apply wf_run_of|by apply wf_breaks].
Qed.

(** [placeholder.text = text] leaves a well-formed text frame, whatever
    the text. *)
Lemma wf_text_setter text : wf_frame (text_setter text).
Proof.
  split; [apply text_setter_nonempty|]. unfold text_setter.
  apply Forall_fmap. pose proof (split_go_parts_clean 10 0 text) as Hlf.
  rewrite <- split_all in Hlf. eapply Forall_impl; [exact Hlf|].
  intros p_str Hp. split; [by apply wf_append_text|done].
Qed.

Lemma wf_frame_fmap (f : Paragraph -> Paragraph) tf :
  (forall p, wf_paragraph p -> wf_paragraph (f p)) -> wf_frame tf -> wf_frame (f <$> tf).
Proof.
  intros Hf [Hne Hall]. split; [by intros ?%fmap_nil_inv|].
  apply Forall_fmap. by eapply Forall_impl.
Qed.

Lemma wf_set_level n p : (0 <= n <= 8)%Z -> wf_paragraph p -> wf_paragraph (set_level n p).
Proof. by intros Hn [He _]. Qed.

Lemma wf_set_alignment a p : wf_paragraph p -> wf_paragraph (set_alignment a p).
Proof. done. Qed.

Lemma wf_for_runs body p :
  (forall r, wf_run r -> wf_run (body r)) -> wf_paragraph p -> wf_paragraph (for_runs body p).
Proof.
  intros Hbody [He Hl]. split; [|done]. cbn [for_runs elems]. apply Forall_fmap.
  eapply Forall_impl; [exact He|]. intros [r|]; [apply Hbody|done].
Qed.

Lemma wf_set_run_size size r :
  (Pt 1 <= size <= Pt 4000)%Z -> wf_run r -> wf_run (set_run_size size r).
Proof. by intros Hsize (? & ? & ? & _). Qed.

Lemma wf_new_slide layout : (layout < 2)%nat -> wf_slide (new_slide layout).
Proof.
  intros Hl. assert (wf_frame [empty_paragraph]) by by_compute.
  unfold wf_slide, new_slide. simpl. auto.
Qed.

Lemma wf_alter_frame name f s :
  (forall tf, wf_frame tf -> wf_frame (f tf)) -> wf_slide s -> wf_slide (alter_frame name f s).
Proof.
  intros Hf (? & ? & ?). destruct name; (split; [done|split]); simpl; auto.
Qed.

Lemma wf_alter_placeholder prs ph f :
  (forall tf, wf_frame tf -> wf_frame (f tf)) ->
  wf_presentation prs -> wf_presentation (alter_placeholder prs ph f).
Proof.
  intros Hf Hprs. unfold alter_placeholder. apply Forall_alter; [done|].
  intros s _. by apply wf_alter_frame.
Qed.

Lemma wf_add_slide prs layout :
  (layout < 2)%nat -> wf_presentation prs -> wf_presentation (add_slide prs layout).1.
Proof.
  intros Hl Hprs. apply Forall_app. split; [done|].
  apply Forall_singleton. by apply wf_new_slide.
Qed.

Lemma wf_for_paragraphs prs ph body :
  (forall p, wf_paragraph p -> wf_paragraph (body p)) ->
  wf_presentation prs -> wf_presentation (for_paragraphs prs ph body).
Proof. intros Hbody. apply wf_alter_placeholder. intros tf. by apply wf_frame_fmap. Qed.

Lemma wf_set_text prs ph text :
  wf_presentation prs -> wf_presentation (set_text prs ph text).
Proof. apply wf_alter_placeholder. intros tf _. apply wf_text_setter. Qed.

(** C17 (type).  Every write the scripts make to a deck keeps it well
    formed: adding a slide of layout 0 or 1, setting the text of a
    placeholder to any text, and setting the level (0 to 8), the
    alignment, the bullet or the font size (1 to 4000 points) of its
    paragraphs. *)
Theorem wf_presentation_preserved prs ph text layout n a size :
  wf_presentation prs ->
  (layout < 2)%nat -> (0 <= n <= 8)%Z -> (1 <= size <= 4000)%Z ->
  wf_presentation (add_slide prs layout).1 /\
  wf_presentation (set_text prs ph text) /\
  wf_presentation (for_paragraphs prs ph (set_level n)) /\
  wf_presentation (for_paragraphs prs ph (set_alignment a)) /\
  wf_presentation (for_paragraphs prs ph set_bullet_none) /\
  wf_presentation (for_paragraphs prs ph (for_runs (set_run_size (Pt size)))).
Proof.
  intros Hprs Hl Hn Hsize. assert (Pt 1 <= Pt size <= Pt 4000)%Z by (unfold Pt; lia).
  repeat split;
    eauto 6 using wf_add_slide, wf_set_text, wf_for_paragraphs, wf_set_level,
      wf_set_alignment, wf_for_runs, wf_set_run_size.
Qed.

Lemma wf_presentation_preserved_witness :
  let prs := set_text (add_slide [] 1).1 (0%nat, PhBody) (py "a" ++ [10%N; 11%N] ++ py "b") in
  wf_presentation (add_slide prs 0).1 /\
  wf_presentation (set_text prs (0%nat, PhTitle) []) /\
  wf_presentation (for_paragraphs prs (0%nat, PhTitle) (set_level 3)) /\
  wf_presentation (for_paragraphs prs (0%nat, PhTitle) (set_alignment PP_ALIGN_LEFT)) /\
  wf_presentation (for_paragraphs prs (0%nat, PhTitle) set_bullet_none) /\
  wf_presentation (for_paragraphs prs (0%nat, PhTitle) (for_runs (set_run_size (Pt 18)))).
Proof.
  apply wf_presentation_preserved; [by_compute|lia|lia|lia].
Defined.
