(* ===== verification/Runtime.v ===== *)
(** * Runtime: what a run of a script acts on

    A run of [App.py] or [App1.py] reads the credential and calls the
    hosted model ([Env]), and writes to the page Streamlit renders and to
    the working directory ([World]).  A function of a script that has such
    effects is a value of [M A]: from the world before the call to one of
    three outcomes, a return, an exception, or no return at all (a loop
    that does not end).  The files are reached through the file system
    ([FileSystem]): [prs.save] and [open] are given a name, the file
    system says which file that is, or refuses the name. *)


From S2P Require Import Prelude PyStr Pptx.

(** ** The environment *)

(** What [model.generate_content(prompt)] followed by [response.text]
    does: it gives a text, or raises an exception [e], of which the script
    uses [str(e)]. *)
Inductive Response : Type :=
| ResponseText (text : pystr)
| ResponseRaises (message : pystr).

Record Env : Type := mkEnv {
  (** [os.getenv("GOOGLE_API_KEY")]: [None] when the variable is not set. *)
  GEMINI_API_KEY : option pystr;
  (** The hosted model, as a function of the prompt. *)
  model_generate_content : pystr -> Response
}.

(** ** The world *)

(** A call to Streamlit that puts something on the page. *)
Inductive UiEvent : Type :=
| StTitle (body : pystr)
| StError (body : pystr)
| StInfo (body : pystr)
| StSuccess (body : pystr)
| StWrite (body : pystr)
| StSubheader (body : pystr)
| StTextArea (label value : pystr) (height : Z)
| StDownloadButton (label : pystr) (data : Presentation) (file_name mime : pystr).

Record World : Type := mkWorld {
  (** The page, in the order of the calls. *)
  ui : list UiEvent;
  (** The files that hold a deck, by their path from the working
      directory. *)
  fs : gmap (list N) (list Slide)
}.

Definition empty_world : World := mkWorld [] ∅.

(** ** The file system *)

(** What the operating system makes of a file name handed to [open] or to
    [prs.save]: the file it names, as a path from the working directory,
    or the exception of the call.  The answer depends on the name only:
    the directories do not change while the scripts run.  Python itself
    refuses a name with a NUL character, before the system sees it. *)
Class FileSystem : Type := {
  lookup_path : pystr -> pyexn + pystr;
  lookup_path_nul file_name :
    0%N ∈ file_name -> lookup_path file_name = inl ValueError
}.

(** The file system takes the name. *)
Definition accepted `{FileSystem} (file_name : pystr) : Prop :=
  match lookup_path file_name with
  | inr _ => True
  | inl _ => False
  end.

#[export] Instance accepted_dec `{FileSystem} file_name : Decision (accepted file_name).
Proof. unfold accepted. destruct (lookup_path file_name); apply _. Defined.

(** The file system that takes every name Python passes on, as the path
    of a file of the working directory. *)
Definition plain_path (file_name : pystr) : pyexn + pystr :=
  if decide (0%N ∈ file_name) then inl ValueError else inr file_name.

(** ** Outcomes and the monad *)

Inductive outcome (A : Type) : Type :=
| Done (a : A) (w : World)
| Raised (e : pyexn) (w : World)
| Diverged.

Arguments Done {A} a w.
Arguments Raised {A} e w.
Arguments Diverged {A}.

Definition M (A : Type) : Type := World -> outcome A.

#[export] Instance M_ret : MRet M := fun A a w => Done a w.

#[export] Instance M_bind : MBind M := fun A B k m w =>
  match m w with
  | Done a w' => k a w'
  | Raised e w' => Raised e w'
  | Diverged => Diverged
  end.

(** [raise e] *)
Definition raise {A} (e : pyexn) : M A := fun w => Raised e w.

(** A computation that may run out of fuel, as a call that may not
    return. *)
Definition lift_option {A} (o : option A) : M A :=
  match o with
  | Some a => mret a
  | None => fun _ => Diverged
  end.

(** A Streamlit call. *)
Definition emit (e : UiEvent) : M unit :=
  fun w => Done tt (mkWorld (ui w ++ [e]) (fs w)).

(** [prs.save(file_name)] with a file name: the file is made, or made
    anew, when the file system takes the name. *)
Definition save `{FileSystem} (prs : Presentation) (file_name : pystr) : M unit :=
  fun w =>
    match lookup_path file_name with
    | inr path => Done tt (mkWorld (ui w) (<[path := prs]> (fs w)))
    | inl e => Raised e w
    end.

(** [open(file_name, "rb")], read whole. *)
Definition open_rb `{FileSystem} (file_name : pystr) : M Presentation :=
  fun w =>
    match lookup_path file_name with
    | inr path =>
      match fs w !! path with
      | Some prs => Done prs w
      | None => Raised FileNotFoundError w
      end
    | inl e => Raised e w
    end.

(** [for x in l: s = body(s, x)] *)
Fixpoint for_each {A S : Type} (body : S -> A -> M S) (s : S) (l : list A) : M S :=
  match l with
  | [] => mret s
  | x :: l' => s' ← body s x; for_each body s' l'
  end.

(** [l[0]] *)
Definition index0 {A} (l : list A) : M A :=
  match l with
  | [] => raise IndexError
  | x :: _ => mret x
  end.

(** The truth value of an optional string: [None] and [""] are false. *)
Definition truthy (o : option pystr) : bool :=
  match o with
  | Some (_ :: _) => true
  | _ => false
  end.

(** The world with more on the page. *)
Definition say (w : World) (events : list UiEvent) : World :=
  mkWorld (ui w ++ events) (fs w).

(** ** Lemmas *)

Lemma say_nil w : say w [] = w.
Proof. destruct w. unfold say. simpl. by rewrite app_nil_r. Qed.

Lemma say_say w events events' : say (say w events) events' = say w (events ++ events').
Proof. unfold say. simpl. by rewrite app_assoc. Qed.

Lemma bind_emit_say {B} e (k : unit -> M B) w : (emit e ≫= k) w = k tt (say w [e]).
Proof. done. Qed.

Lemma emit_say e w : emit e w = Done tt (say w [e]).
Proof. done. Qed.

#[export] Hint Rewrite say_nil say_say @bind_emit_say emit_say : py.

Lemma bind_run {A B} (m : M A) (k : A -> M B) w :
  (m ≫= k) w =
  match m w with
  | Done a w' => k a w'
  | Raised e w' => Raised e w'
  | Diverged => Diverged
  end.
Proof. done. Qed.

Lemma bind_Done {A B} (m : M A) (k : A -> M B) w a w' :
  m w = Done a w' -> (m ≫= k) w = k a w'.
Proof. unfold mbind, M_bind. by intros ->. Qed.

Lemma bind_Raised {A B} (m : M A) (k : A -> M B) w e w' :
  m w = Raised e w' -> (m ≫= k) w = Raised e w'.
Proof. unfold mbind, M_bind. by intros ->. Qed.

Lemma bind_Diverged {A B} (m : M A) (k : A -> M B) w :
  m w = Diverged -> (m ≫= k) w = Diverged.
Proof. unfold mbind, M_bind. by intros ->. Qed.

Lemma bind_emit {B} e (k : unit -> M B) w :
  (emit e ≫= k) w = k tt (mkWorld (ui w ++ [e]) (fs w)).
Proof. done. Qed.

Lemma bind_ret {A B} (a : A) (k : A -> M B) w : (mret a ≫= k) w = k a w.
Proof. done. Qed.

(** The laws of the monad. *)
Lemma bind_ret_r {A} (m : M A) w : (m ≫= mret) w = m w.
Proof. rewrite bind_run. by destruct (m w). Qed.

Lemma bind_assoc {A B C} (m : M A) (k : A -> M B) (h : B -> M C) w :
  ((m ≫= k) ≫= h) w = (m ≫= fun a => k a ≫= h) w.
Proof. rewrite !bind_run. by destruct (m w). Qed.

(** A loop whose body always returns, returns. *)
Lemma for_each_pure {A S} (body : S -> A -> M S) (f : S -> A -> S)
    (g : World -> A -> World) s l w :
  (forall s x w, body s x w = Done (f s x) (g w x)) ->
  for_each body s l w = Done (foldl f s l) (foldl g w l).
Proof.
  intros Hbody. revert s w. induction l as [|x l IH]; intros s w; [done|].
  cbn [for_each foldl]. erewrite bind_Done by apply Hbody. apply IH.
Qed.

(** ** The files *)

Lemma plain_path_nul file_name : 0%N ∈ file_name -> plain_path file_name = inl ValueError.
Proof. intros Hnul. unfold plain_path. by rewrite decide_True. Qed.

(** The runs on concrete inputs are in this file system, taken as the
    instance where they are stated. *)
Definition plain_names : FileSystem :=
  {| lookup_path := plain_path; lookup_path_nul := plain_path_nul |}.

Section files.
Context `{FileSystem}.

Lemma accepted_path file_name :
  accepted file_name <-> exists path, lookup_path file_name = inr path.
Proof.
  unfold accepted. destruct (lookup_path file_name) as [e|path].
  - split; [done|]. by intros [path ?].
  - split; [by eauto|done].
Qed.

Lemma accepted_inl file_name e : lookup_path file_name = inl e -> ~ accepted file_name.
Proof. unfold accepted. by intros -> []. Qed.

Lemma bind_save {B} prs file_name path (k : unit -> M B) w :
  lookup_path file_name = inr path ->
  (save prs file_name ≫= k) w = k tt (mkWorld (ui w) (<[path := prs]> (fs w))).
Proof. unfold mbind, M_bind, save. by intros ->. Qed.

Lemma bind_save_refused {B} prs file_name e (k : unit -> M B) w :
  lookup_path file_name = inl e -> (save prs file_name ≫= k) w = Raised e w.
Proof. unfold mbind, M_bind, save. by intros ->. Qed.

Lemma open_rb_saved prs file_name path w :
  lookup_path file_name = inr path -> fs w !! path = Some prs ->
  open_rb file_name w = Done prs w.
Proof. unfold open_rb. by intros -> ->. Qed.

Lemma open_rb_refused file_name e w :
  lookup_path file_name = inl e -> open_rb file_name w = Raised e w.
Proof. unfold open_rb. by intros ->. Qed.

(** [open] after [prs.save] under the same name reads what was saved,
    whatever file the name stands for; a name that [prs.save] is refused
    is never opened. *)
Lemma save_then_open prs file_name w :
  (save prs file_name;; open_rb file_name) w =
  match lookup_path file_name with
  | inr path => Done prs (mkWorld (ui w) (<[path := prs]> (fs w)))
  | inl e => Raised e w
  end.
Proof.
  destruct (lookup_path file_name) as [e|path] eqn:Hpath.
  - by apply bind_save_refused.
  - erewrite bind_save by done. apply (open_rb_saved _ _ path); [done|].
    apply lookup_insert_eq.
Qed.

(** A name with a NUL character is refused by [prs.save] and by [open],
    in every file system. *)
Lemma save_nul prs file_name w :
  0%N ∈ file_name -> save prs file_name w = Raised ValueError w.
Proof. intros Hnul. unfold save. by rewrite lookup_path_nul. Qed.

End files.
