(* ===== verification/Package.v ===== *)
(** * Package: the deck as bytes, in a file and in a stream

    Both scripts hand the deck to the browser as bytes.  [App.py] writes
    them to a file of the working directory ([prs.save(file_name)], line
    123), opens the file ([open(file_name, "rb")], line 149) and gives the
    open file to [st.download_button]; [App1.py] writes them to an
    [io.BytesIO], rewinds it (lines 105-108) and gives the stream to
    [st.download_button].  The other files of the development keep the
    deck itself where the program keeps its bytes; this file is the level
    below: the package format as an interface ([PackageFormat]), streams
    with a position ([Stream]), what Streamlit takes from the object it
    is given ([marshall_file]), and the proof that what the browser gets
    opens as the deck of the level above. *)

From Stdlib Require Import Strings.Byte.
From S2P Require Import Prelude PyStr Pptx Runtime.

(** [bytes] *)
Abbreviation bytes := (list byte) (only parsing).

#[export] Instance byte_eq_dec : EqDecision byte := Byte.byte_eq_dec.

(** ** The package format *)

(** python-pptx writes a deck as a package, a zip archive of XML parts,
    and reads one back.  Of the format the scripts rely on one thing: a
    deck that python-pptx accepts is read back from its package as it
    was. *)
Class PackageFormat : Type := {
  (** The bytes [prs.save] writes. *)
  package_bytes : Presentation -> bytes;
  (** [Presentation(file)]: the deck of a package, [None] for bytes that
      are not one. *)
  package_load : bytes -> option Presentation;
  package_load_bytes prs :
    wf_presentation prs -> package_load (package_bytes prs) = Some prs
}.

(** ** Streams *)

(** An [io.BytesIO], or the [io.BufferedReader] of a file opened with
    ["rb"]: the bytes it holds and the position of the next read or
    write. *)
Record Stream : Type := mkStream {
  stream_buffer : bytes;
  stream_pos : nat
}.

(** [io.BytesIO()] *)
Definition BytesIO : Stream := mkStream [] 0.

(** [stream.write(data)]: the bytes go over what is at the position, or
    after the end; a position beyond the end is reached with zeros.  A
    write of no bytes does nothing, also at a position beyond the
    end. *)
Definition stream_write (data : bytes) (s : Stream) : Stream :=
  match data with
  | [] => s
  | _ :: _ =>
    let gap := repeat x00 (stream_pos s - length (stream_buffer s)) in
    mkStream
      (take (stream_pos s) (stream_buffer s) ++ gap ++ data ++
       drop (stream_pos s + length data) (stream_buffer s))
      (stream_pos s + length data)
  end.

(** [stream.seek(offset)], from the start. *)
Definition stream_seek (offset : nat) (s : Stream) : Stream :=
  mkStream (stream_buffer s) offset.

(** [stream.read()]: all from the position on; the position goes to the
    end, unless it is beyond it. *)
Definition stream_read (s : Stream) : bytes * Stream :=
  (drop (stream_pos s) (stream_buffer s),
   mkStream (stream_buffer s) (stream_pos s `max` length (stream_buffer s))).

(** [stream.getvalue()]: all the bytes, wherever the position is. *)
Definition stream_getvalue (s : Stream) : bytes := stream_buffer s.

(** ** Files *)

(** The files, as bytes, by their path. *)
Abbreviation Disk := (gmap (list N) (list byte)) (only parsing).

(** [open(file_name, "rb")]: a reader at the start of the file; [None]
    when [open] raises, for a name that is refused or a file that is not
    there. *)
Definition disk_open `{FileSystem} (file_name : pystr) (disk : Disk) : option Stream :=
  match lookup_path file_name with
  | inr path => (fun content => mkStream content 0) <$> disk !! path
  | inl _ => None
  end.

(** ** What Streamlit takes *)

(** The [data] of [st.download_button], as far as the scripts use it. *)
Inductive Data : Type :=
| DataBytesIO (s : Stream)
| DataReader (s : Stream).

(** [marshall_file] of Streamlit: a [BytesIO] is rewound and its value
    taken, a reader is rewound and read. *)
Definition marshall_file (data : Data) : bytes :=
  match data with
  | DataBytesIO s => stream_getvalue (stream_seek 0 s)
  | DataReader s => (stream_read (stream_seek 0 s)).1
  end.

Section package.
Context `{PackageFormat} `{FileSystem}.

(** ** The scripts at this level *)

(** [prs.save(ppt_stream)]: the writes of the archive, one after the
    other from the position of the stream, are one write of its bytes
    ([stream_write_write]). *)
Definition save_stream (prs : Presentation) (s : Stream) : Stream :=
  stream_write (package_bytes prs) s.

(** [prs.save(file_name)]: the file is made, or made anew, when the name
    is taken. *)
Definition save_file (prs : Presentation) (file_name : pystr) (disk : Disk) : Disk :=
  match lookup_path file_name with
  | inr path => <[path := package_bytes prs]> disk
  | inl _ => disk
  end.

(** Lines 105-108 of [App1.py], the end of [generate_ppt]. *)
Definition generate_ppt_stream (prs : Presentation) : Stream :=
  let ppt_stream := BytesIO in
  let ppt_stream := save_stream prs ppt_stream in
  let ppt_stream := stream_seek 0 ppt_stream in
  ppt_stream.

(** Lines 138-143 of [App1.py]: what the browser is given for the
    stream. *)
Definition download_App1 (ppt_stream : Stream) : bytes :=
  marshall_file (DataBytesIO ppt_stream).

(** Lines 149-155 of [App.py]: the file is opened and what the browser is
    given is taken from it; [None] when [open] raises. *)
Definition download_App (file_name : pystr) (disk : Disk) : option bytes :=
  file ← disk_open file_name disk;
  Some (marshall_file (DataReader file)).

(** The working directory of a world of the level above. *)
Definition disk_of (w : World) : Disk := package_bytes <$> fs w.

(** A stream that was only written to: its position is inside it. *)
Definition stream_ok (s : Stream) : Prop :=
  (stream_pos s <= length (stream_buffer s))%nat.

(** ** Lemmas: streams *)

Lemma stream_write_ok data s : stream_ok s -> stream_ok (stream_write data s).
Proof.
  unfold stream_ok, stream_write. destruct data as [|c data]; [done|].
  cbn [stream_pos stream_buffer]. intros Hs.
  rewrite !length_app, length_take, repeat_length. lia.
Qed.

(** At the end of a stream a write appends. *)
Lemma stream_write_end data s :
  stream_pos s = length (stream_buffer s) ->
  stream_write data s =
  mkStream (stream_buffer s ++ data) (length (stream_buffer s) + length data).
Proof.
  intros Hpos. unfold stream_write. destruct data as [|c data].
  - destruct s as [buffer pos]. cbn in *. by rewrite app_nil_r, Nat.add_0_r, Hpos.
  - rewrite Hpos, Nat.sub_diag, take_ge, drop_ge by lia. cbn [repeat app]. by rewrite app_nil_r.
Qed.

(** Two writes in a row are one write of both. *)
Lemma stream_write_write a b s :
  stream_pos s = length (stream_buffer s) ->
  stream_write b (stream_write a s) = stream_write (a ++ b) s.
Proof.
  intros Hpos. rewrite (stream_write_end a), (stream_write_end (a ++ b)) by done.
  rewrite stream_write_end by (cbn [stream_pos stream_buffer]; by rewrite length_app).
  cbn [stream_buffer]. rewrite !length_app, (assoc_L (++)). f_equal. lia.
Qed.

Lemma stream_read_all s : (stream_read (stream_seek 0 s)).1 = stream_buffer s.
Proof. done. Qed.

Lemma stream_read_twice s : (stream_read (stream_read s).2).1 = [].
Proof.
  unfold stream_read. cbn [fst snd stream_pos stream_buffer]. apply drop_ge. lia.
Qed.

(** ** Lemmas: what is delivered *)

Lemma generate_ppt_stream_buffer prs :
  generate_ppt_stream prs = mkStream (package_bytes prs) 0.
Proof.
  unfold generate_ppt_stream, save_stream. by rewrite stream_write_end.
Qed.

(** Streamlit rewinds what it is given: the position of the stream does
    not change what is delivered, and the [seek(0)] of line 107 is not
    needed for it. *)
Lemma marshall_file_seek offset s :
  marshall_file (DataBytesIO (stream_seek offset s)) = marshall_file (DataBytesIO s) /\
  marshall_file (DataReader (stream_seek offset s)) = marshall_file (DataReader s).
Proof. done. Qed.

Lemma download_App1_bytes prs : download_App1 (generate_ppt_stream prs) = package_bytes prs.
Proof. by rewrite generate_ppt_stream_buffer. Qed.

Lemma download_App_bytes file_name disk :
  download_App file_name disk =
  match lookup_path file_name with
  | inr path => disk !! path
  | inl _ => None
  end.
Proof.
  unfold download_App, disk_open. destruct (lookup_path file_name) as [e|path]; [done|].
  by destruct (disk !! path).
Qed.

(** The two levels agree on the files: saving a deck and looking at the
    bytes is saving the bytes, also when the name is refused, and a file
    is found at one level when it is found at the other. *)
Lemma disk_of_save prs file_name w :
  match save prs file_name w with
  | Done _ w' | Raised _ w' => disk_of w' = save_file prs file_name (disk_of w)
  | Diverged => False
  end.
Proof.
  unfold save, disk_of, save_file. destruct (lookup_path file_name) as [e|path]; [done|].
  cbn [fs]. by rewrite fmap_insert.
Qed.

Lemma disk_of_open file_name w :
  match open_rb file_name w with
  | Done prs w' => w' = w /\ download_App file_name (disk_of w) = Some (package_bytes prs)
  | Raised e w' => w' = w /\ download_App file_name (disk_of w) = None
  | Diverged => False
  end.
Proof.
  rewrite download_App_bytes. unfold open_rb, disk_of.
  destruct (lookup_path file_name) as [e|path]; [done|].
  rewrite lookup_fmap. by destruct (fs w !! path).
Qed.

Lemma disk_of_say w events : disk_of (say w events) = disk_of w.
Proof. done. Qed.

(** A file of the level above is, at this level, a file that is found,
    delivered whole, and opens as its deck. *)
Lemma download_App_file file_name path prs w :
  lookup_path file_name = inr path -> fs w !! path = Some prs ->
  download_App file_name (disk_of w) = Some (package_bytes prs).
Proof.
  intros Hpath Hfile. rewrite download_App_bytes, Hpath. unfold disk_of.
  by rewrite lookup_fmap, Hfile.
Qed.

(** ** Theorems *)


(** A file that holds a deck at the level above is, at
    this level, found by [open], delivered whole by Streamlit, and opens
    as that deck. *)
Lemma download_App_loads file_name path prs w :
  lookup_path file_name = inr path -> fs w !! path = Some prs -> wf_presentation prs ->
  exists data, download_App file_name (disk_of w) = Some data /\
               package_load data = Some prs.
Proof.
  intros Hpath Hfile Hwf. exists (package_bytes prs).
  by rewrite (download_App_file _ _ _ _ Hpath Hfile), package_load_bytes.
Qed.

End package.

(** ** A format to run the definitions with

    The format of python-pptx is not modelled.  To show that the
    interface can be met, and to run the definitions of this file, here
    is a format of the same interface: a deck is numbered (stdpp's
    [Countable]) and its number written in binary, a bit to a byte. *)

#[export] Instance PP_ALIGN_countable : Countable PP_ALIGN.
Proof.
  refine (inj_countable'
    (fun a => match a with
              | PP_ALIGN_LEFT => 0 | PP_ALIGN_CENTER => 1 | PP_ALIGN_RIGHT => 2
              end%nat)
    (fun n => match n with
              | 0 => PP_ALIGN_LEFT | 1 => PP_ALIGN_CENTER | _ => PP_ALIGN_RIGHT
              end%nat) _); by intros [].
Defined.

#[export] Instance Run_countable : Countable Run.
Proof.
  refine (inj_countable' (fun r => (run_text r, font_size r))
    (fun p => mkRun p.1 p.2) _); by intros [].
Defined.

#[export] Instance PElem_countable : Countable PElem.
Proof.
  refine (inj_countable'
    (fun e => match e with ElemRun r => Some r | ElemBreak => None end)
    (fun o => match o with Some r => ElemRun r | None => ElemBreak end) _); by intros [].
Defined.

#[export] Instance Paragraph_countable : Countable Paragraph.
Proof.
  refine (inj_countable' (fun p => (elems p, level p, alignment p))
    (fun t => mkParagraph t.1.1 t.1.2 t.2) _); by intros [].
Defined.

#[export] Instance Slide_countable : Countable Slide.
Proof.
  refine (inj_countable' (fun s => (slide_layout s, title_frame s, body_frame s))
    (fun t => mkSlide t.1.1 t.1.2 t.2) _); by intros [].
Defined.

Fixpoint pos_bytes (p : positive) : bytes :=
  match p with
  | xH => []
  | xO q => x00 :: pos_bytes q
  | xI q => x01 :: pos_bytes q
  end.

Fixpoint bytes_pos (data : bytes) : positive :=
  match data with
  | [] => xH
  | x00 :: data' => xO (bytes_pos data')
  | _ :: data' => xI (bytes_pos data')
  end.

Lemma bytes_pos_bytes p : bytes_pos (pos_bytes p) = p.
Proof. induction p as [q IH|q IH|]; cbn [pos_bytes bytes_pos]; by rewrite ?IH. Qed.

Lemma plain_load_bytes (prs : Presentation) :
  wf_presentation prs -> decode (bytes_pos (pos_bytes (encode prs))) = Some prs.
Proof. intros _. by rewrite bytes_pos_bytes, decode_encode. Qed.

#[export] Instance plain_format : PackageFormat := {|
  package_bytes prs := pos_bytes (encode prs);
  package_load data := decode (bytes_pos data);
  package_load_bytes := plain_load_bytes
|}.

(** ** On concrete streams and decks *)

(** A write in the middle of a stream goes over what is there; a write
    after a seek beyond the end leaves zeros in between. *)
Example write_over :
  stream_write [x41; x42] (stream_seek 1 (stream_write [x01; x02; x03; x04] BytesIO)) =
  mkStream [x01; x41; x42; x04] 3.
Proof. reflexivity. Qed.

Example write_beyond :
  stream_write [x41] (stream_seek 3 (stream_write [x01] BytesIO)) =
  mkStream [x01; x00; x00; x41] 4 /\
  stream_write [] (stream_seek 3 (stream_write [x01] BytesIO)) = mkStream [x01] 3.
Proof. split; reflexivity. Qed.

(** A stream that was read gives nothing at a second read, but Streamlit
    still takes all of it. *)
Example read_then_marshall :
  let s := stream_write [x01; x02] BytesIO in
  (stream_read s).1 = [] /\
  (stream_read (stream_seek 0 s)).1 = [x01; x02] /\
  marshall_file (DataReader (stream_read (stream_seek 0 s)).2) = [x01; x02].
Proof. done. Qed.

Definition one_slide_deck : Presentation :=
  [mkSlide 1 (text_setter (py "1.Intro")) (text_setter (py "a"))].


#[local] Existing Instance plain_names.

Lemma download_App_loads_witness :
  let w := mkWorld [] {[py "T.pptx" := one_slide_deck]} in
  exists data, download_App (py "T.pptx") (disk_of w) = Some data /\
               package_load data = Some one_slide_deck.
Proof.
  apply (download_App_loads (py "T.pptx") (py "T.pptx") one_slide_deck); [done..|by_compute].
Defined.
