(* ===== verification/Requester.v ===== *)
(** * Requester: the call to the hosted model

    [generate_content] of both scripts.  The credential and the model are
    the [Env] of the run; the model is a function of the prompt.  Both
    variants signal a failure by returning a string that starts with
    "Error" after putting a message on the page; neither raises.  Variant
    A ([App.generate_content]) takes the prompt, variant B
    ([App1.generate_content]) builds it from the title and the topics. *)

From S2P Require Import Prelude PyStr Pptx Runtime.

(** The literals of the two functions. *)
Definition MSG_KEY_NOT_FOUND : pystr :=
  py "Gemini API key not found. Please set it in the .env file.".
Definition ERROR_MISSING_KEY : pystr := py "Error: Missing API key.".
Definition ERROR_GENERATING : pystr := py "Error generating content.".
Definition ERROR_PREFIX : pystr := py "Error: ".

(** [try: ... return response.text  except Exception as e: ...], the part
    the two variants share (lines 24-30 of [App.py], 26-32 of [App1.py]). *)
Definition try_generate (env : Env) (prompt : pystr) : M pystr :=
  match model_generate_content env prompt with
  | ResponseText text => mret text
  | ResponseRaises message =>
    emit (StError (ERROR_PREFIX ++ message));;
    mret ERROR_GENERATING
  end.

Module App.

(** [generate_content(prompt)] of [App.py], lines 16-30. *)
Definition generate_content (env : Env) (prompt : pystr) : M pystr :=
  if negb (truthy (GEMINI_API_KEY env)) then
    emit (StError MSG_KEY_NOT_FOUND);;
    mret ERROR_MISSING_KEY
  else try_generate env prompt.

End App.

Module App1.

(** The prompt of line 24. *)
Definition prompt_of (title : pystr) (topics : list pystr) : pystr :=
  py "Generate ppt for the topic: " ++ join (py ", ") topics
    ++ py " under title " ++ title.

(** [generate_content(title, topics)] of [App1.py], lines 16-32. *)
Definition generate_content (env : Env) (title : pystr) (topics : list pystr) : M pystr :=
  if negb (truthy (GEMINI_API_KEY env)) then
    emit (StError MSG_KEY_NOT_FOUND);;
    mret ERROR_MISSING_KEY
  else try_generate env (prompt_of title topics).

End App1.

(** ** What a call can do *)

(** The result of a call and the message it puts on the page, if any. *)
Definition requested (env : Env) (prompt : pystr) : pystr * list UiEvent :=
  if negb (truthy (GEMINI_API_KEY env)) then
    (ERROR_MISSING_KEY, [StError MSG_KEY_NOT_FOUND])
  else
    match model_generate_content env prompt with
    | ResponseText text => (text, [])
    | ResponseRaises message => (ERROR_GENERATING, [StError (ERROR_PREFIX ++ message)])
    end.

(** ** Lemmas *)

Lemma try_generate_run env prompt w :
  try_generate env prompt w =
  match model_generate_content env prompt with
  | ResponseText text => Done text w
  | ResponseRaises message =>
    Done ERROR_GENERATING (mkWorld (ui w ++ [StError (ERROR_PREFIX ++ message)]) (fs w))
  end.
Proof. unfold try_generate. by destruct (model_generate_content env prompt). Qed.

Lemma world_app_nil w : w = mkWorld (ui w ++ []) (fs w).
Proof. destruct w. simpl. by rewrite app_nil_r. Qed.

(** A call always returns; it changes the page only, by at most one error
    message. *)
Lemma App_generate_content_run env prompt w :
  App.generate_content env prompt w =
  Done (requested env prompt).1 (mkWorld (ui w ++ (requested env prompt).2) (fs w)).
Proof.
  unfold App.generate_content, requested.
  destruct (negb (truthy (GEMINI_API_KEY env))); [done|].
  rewrite try_generate_run.
  destruct (model_generate_content env prompt); simpl; [|done].
  by rewrite <- world_app_nil.
Qed.

Lemma App1_generate_content_run env title topics w :
  App1.generate_content env title topics w =
  Done (requested env (App1.prompt_of title topics)).1
       (mkWorld (ui w ++ (requested env (App1.prompt_of title topics)).2) (fs w)).
Proof.
  unfold App1.generate_content, requested.
  destruct (negb (truthy (GEMINI_API_KEY env))); [done|].
  rewrite try_generate_run.
  destruct (model_generate_content env _); simpl; [|done].
  by rewrite <- world_app_nil.
Qed.

(** Without a credential (the variable unset or empty) the
    call returns the sentinel "Error: Missing API key." and puts one
    error message on the page, for both variants; the model is not
    called. *)
Lemma generate_content_missing_key env prompt title topics w :
  truthy (GEMINI_API_KEY env) = false ->
  App.generate_content env prompt w =
    Done ERROR_MISSING_KEY (mkWorld (ui w ++ [StError MSG_KEY_NOT_FOUND]) (fs w)) /\
  App1.generate_content env title topics w =
    Done ERROR_MISSING_KEY (mkWorld (ui w ++ [StError MSG_KEY_NOT_FOUND]) (fs w)).
Proof.
  intros Hkey. unfold App.generate_content, App1.generate_content. by rewrite Hkey.
Qed.

Lemma generate_content_missing_key_witness :
  let env := mkEnv (Some []) (fun _ => ResponseText (py "unused")) in
  App.generate_content env (py "p") empty_world =
    Done ERROR_MISSING_KEY (mkWorld [StError MSG_KEY_NOT_FOUND] ∅) /\
  App1.generate_content env (py "t") [py "a"] empty_world =
    Done ERROR_MISSING_KEY (mkWorld [StError MSG_KEY_NOT_FOUND] ∅).
Proof.
  exact (generate_content_missing_key (mkEnv (Some []) (fun _ => ResponseText (py "unused")))
           (py "p") (py "t") [py "a"] empty_world eq_refl).
Defined.

(** A failure comes back as a string that starts with "Error". *)
Lemma requested_failure env prompt :
  (requested env prompt).2 = [] \/
  exists message,
    (requested env prompt).2 = [StError message] /\
    startswith (requested env prompt).1 (py "Error") = true.
Proof.
  unfold requested. destruct (negb (truthy (GEMINI_API_KEY env))); [right; by eexists|].
  destruct (model_generate_content env prompt); [by left|right; by eexists].
Qed.

(** A call of [generate_content], of either script, never
    raises and touches no file.  It puts nothing on the page, or one
    error message; when it puts the message, what it returns starts with
    "Error", so the test of variant B ([content.startswith("Error")])
    catches every failure. *)
Lemma generate_content_failure_prefixed env prompt title topics w :
  let ends (o : outcome pystr) :=
    exists content w', o = Done content w' /\ fs w' = fs w /\
      (ui w' = ui w \/
       exists message, ui w' = ui w ++ [StError message] /\
                       startswith content (py "Error") = true) in
  ends (App.generate_content env prompt w) /\
  ends (App1.generate_content env title topics w).
Proof.
  cbv zeta. rewrite App_generate_content_run, App1_generate_content_run.
  split; eexists _, _; (split; [done|]); (split; [done|]); cbn [ui].
  - destruct (requested_failure env prompt) as [->|(m & -> & ?)];
      [left; apply app_nil_r|right; by exists m].
  - destruct (requested_failure env (App1.prompt_of title topics)) as [->|(m & -> & ?)];
      [left; apply app_nil_r|right; by exists m].
Qed.
