(* ===== verification/DeckA.v ===== *)
(** * DeckA: the deck assembler and the page of variant A

    [set_font_size], [create_presentation] and the script body of
    [src/PPT_GENERATOR/App.py].  [create_presentation] builds the deck
    slide by slide through the names python-pptx hands out
    ([Pptx.add_slide], [Pptx.set_text]); [deck_spec] says what deck that
    is, as a list of slides given in closed form, and
    [create_presentation_run] proves that the code builds exactly it and
    writes it to the file named after the title, or raises what the file
    system answers to that name, with the deck built and not written. *)

From S2P Require Import Prelude PyStr Pptx Runtime Segmenter Requester.

#[local] Open Scope Z_scope.

Module App.

(** ** The code *)

(** [set_font_size(placeholder, size)], lines 32-38. *)
Definition set_font_size (prs : Presentation) (placeholder : PlaceholderRef) (size : Z)
    : Presentation :=
  for_paragraphs prs placeholder (for_runs (set_run_size (Pt size))).

(** Lines 62-70: the title slide. *)
Definition add_title_slide (prs : Presentation) (title : pystr) : Presentation :=
  let '(prs, slide) := add_slide prs 0 in
  let title_placeholder := (slide, PhTitle) in
  let prs := set_text prs title_placeholder title in
  let subtitle_placeholder := (slide, PhBody) in
  let prs := set_text prs subtitle_placeholder (py "Generated by AI") in
  let prs := set_font_size prs title_placeholder 32 in
  set_font_size prs subtitle_placeholder 20.

(** Lines 86-101 with [lvl = 0] and lines 105-119 with [lvl = 3]: the two
    blocks are the same statements but for the level of the paragraphs. *)
Definition add_content_slide (prs : Presentation) (topic chunk : pystr) (lvl : Z)
    : Presentation :=
  let '(prs, slide) := add_slide prs 1 in
  let slide_title := (slide, PhTitle) in
  let prs := set_text prs slide_title topic in
  let content_placeholder := (slide, PhBody) in
  let prs := set_text prs content_placeholder chunk in
  let prs := for_paragraphs prs content_placeholder (fun paragraph =>
    set_alignment PP_ALIGN_LEFT (set_bullet_none (set_level lvl paragraph))) in
  let prs := set_font_size prs slide_title 24 in
  set_font_size prs content_placeholder 18.

(** Lines 73-119: the body of [for topic in topics]. *)
Definition topic_body (content : pystr) (prs : Presentation) (topic : pystr)
    : M Presentation :=
  emit (StWrite (py "### " ++ topic));;
  emit (StWrite content);;
  content_chunks ← lift_option (split_content content 900);
  chunk0 ← index0 content_chunks;
  let prs := add_content_slide prs topic chunk0 0 in
  mret (foldl (fun prs chunk => add_content_slide prs topic chunk 3) prs
          (drop 1 content_chunks)).

(** The prompt of line 71: the f-string puts [repr(topics)] for
    [{topics}]. *)
Definition prompt_of `{UnicodeDb} (title : pystr) (topics : list pystr) : pystr :=
  py "Generate ppt for the topic:" ++ repr_list topics ++ py " under title " ++ title.

(** Line 122. *)
Definition file_name_of (title : pystr) : pystr :=
  replace title (py " ") (py "_") ++ py ".pptx".

(** Lines 59-119: the deck, as it is when line 123 saves it. *)
Definition assemble `{UnicodeDb} (env : Env) (title : pystr) (topics : list pystr)
    : M Presentation :=
  let prs := new_presentation in
  let prs := add_title_slide prs title in
  content ← Requester.App.generate_content env (prompt_of title topics);
  for_each (topic_body content) prs topics.

(** [create_presentation(title, topics)], lines 55-126. *)
Definition create_presentation `{UnicodeDb} `{FileSystem} (env : Env) (title : pystr)
    (topics : list pystr) : M pystr :=
  prs ← assemble env title topics;
  let file_name := file_name_of title in
  save prs file_name;;
  mret file_name.

(** Line 139: the topics of the text area. *)
Definition parse_topics (topics_input : pystr) : list pystr :=
  strip <$> List.filter (fun topic => bool_decide (strip topic <> []))
              (split topics_input NEWLINE (-1)).

Definition MIME : pystr :=
  py "application/vnd.openxmlformats-officedocument.presentationml.presentation".

(** Lines 129-155: one run of the script, with the values of the form. *)
Definition main `{UnicodeDb} `{FileSystem} (env : Env) (title topics_input : pystr)
    (submit : bool) : M unit :=
  emit (StTitle (py "AI-Powered Presentation Creator"));;
  if submit then
    let topics := parse_topics topics_input in
    match topics with
    | [] => emit (StError (py "Please enter at least one topic."))
    | _ :: _ =>
      emit (StInfo (py "Generating your presentation. Please wait..."));;
      file_name ← create_presentation env title topics;
      emit (StSuccess (py "Presentation '" ++ file_name ++ py "' created successfully!"));;
      file ← open_rb file_name;
      emit (StDownloadButton (py "Download Presentation") file file_name MIME)
    end
  else mret tt.

(** ** The deck in closed form *)

(** A text frame with every run at [size] points. *)
Definition sized (size : Z) (tf : TextFrame) : TextFrame :=
  for_runs (set_run_size (Pt size)) <$> tf.

(** A text frame with every paragraph at level [lvl], aligned left. *)
Definition formatted (lvl : Z) (tf : TextFrame) : TextFrame :=
  (fun p => set_alignment PP_ALIGN_LEFT (set_level lvl p)) <$> tf.

Definition title_slide_spec (title : pystr) : Slide :=
  mkSlide 0 (sized 32 (text_setter title)) (sized 20 (text_setter (py "Generated by AI"))).

Definition content_slide_spec (topic chunk : pystr) (lvl : Z) : Slide :=
  mkSlide 1 (sized 24 (text_setter topic)) (sized 18 (formatted lvl (text_setter chunk))).

(** The slides of one topic: the first chunk at level 0, the others at
    level 3. *)
Definition topic_slides_spec (chunks : list pystr) (topic : pystr) : list Slide :=
  match chunks with
  | [] => []
  | chunk0 :: rest =>
    content_slide_spec topic chunk0 0 :: ((fun chunk => content_slide_spec topic chunk 3) <$> rest)
  end.

Definition deck_spec (title : pystr) (topics chunks : list pystr) : Presentation :=
  title_slide_spec title :: (topics ≫= topic_slides_spec chunks).

(** What the loop over the topics puts on the page. *)
Definition topic_events (content : pystr) (topics : list pystr) : list UiEvent :=
  topics ≫= fun topic => [StWrite (py "### " ++ topic); StWrite content].

(** ** The slides built by the code are the slides of the closed form *)

Lemma add_title_slide_spec prs title :
  add_title_slide prs title = prs ++ [title_slide_spec title].
Proof.
  unfold add_title_slide, add_slide, set_font_size, for_paragraphs, set_text,
    alter_placeholder. cbn [fst snd]. by rewrite !alter_added.
Qed.

Lemma add_content_slide_spec prs topic chunk lvl :
  add_content_slide prs topic chunk lvl = prs ++ [content_slide_spec topic chunk lvl].
Proof.
  unfold add_content_slide, add_slide, set_font_size, for_paragraphs, set_text,
    alter_placeholder. cbn [fst snd]. rewrite !alter_added.
  unfold content_slide_spec, sized, formatted, alter_frame, set_bullet_none. cbn.
  by rewrite <- !list_fmap_compose.
Qed.

Lemma foldl_add_content_slide prs topic rest :
  foldl (fun prs chunk => add_content_slide prs topic chunk 3) prs rest =
  prs ++ ((fun chunk => content_slide_spec topic chunk 3) <$> rest).
Proof.
  revert prs. induction rest as [|chunk rest IH]; intros prs; simpl.
  - by rewrite app_nil_r.
  - by rewrite IH, add_content_slide_spec, <- app_assoc.
Qed.

Lemma topic_body_run content chunks prs topic w :
  split_content content 900 = Some chunks ->
  topic_body content prs topic w =
  Done (prs ++ topic_slides_spec chunks topic)
       (mkWorld (ui w ++ [StWrite (py "### " ++ topic); StWrite content]) (fs w)).
Proof.
  intros Hchunks. pose proof (split_content_loop_nonempty _ _ _ _ Hchunks) as Hne.
  unfold topic_body. rewrite !bind_emit, Hchunks. cbn [lift_option].
  rewrite bind_ret. destruct chunks as [|chunk0 rest]; [done|].
  cbn [index0]. rewrite bind_ret. cbn [drop topic_slides_spec ui fs].
  rewrite foldl_add_content_slide, add_content_slide_spec, <- !app_assoc. done.
Qed.

Lemma for_each_topic_body content chunks prs topics w :
  split_content content 900 = Some chunks ->
  for_each (topic_body content) prs topics w =
  Done (prs ++ (topics ≫= topic_slides_spec chunks))
       (mkWorld (ui w ++ topic_events content topics) (fs w)).
Proof.
  intros Hchunks. revert prs w. induction topics as [|topic topics IH]; intros prs w.
  - cbn. rewrite !app_nil_r. by destruct w.
  - cbn [for_each]. erewrite bind_Done by by apply topic_body_run.
    rewrite IH. unfold topic_events. rewrite !bind_cons. cbn [ui fs].
    by rewrite <- !app_assoc.
Qed.

(** ** Reading the slides of the closed form *)

Lemma text_getter_sized size tf : text_getter (sized size tf) = text_getter tf.
Proof. by apply text_getter_for_runs. Qed.

Lemma text_getter_formatted lvl tf : text_getter (formatted lvl tf) = text_getter tf.
Proof. by apply text_getter_fmap. Qed.

Lemma content_slide_spec_texts topic chunk lvl :
  title_text (content_slide_spec topic chunk lvl) = topic /\
  body_text (content_slide_spec topic chunk lvl) = chunk.
Proof.
  unfold title_text, body_text. cbn [content_slide_spec title_frame body_frame].
  by rewrite !text_getter_sized, text_getter_formatted, !text_getter_setter.
Qed.

Lemma topic_slides_spec_length chunks topic :
  length (topic_slides_spec chunks topic) = length chunks.
Proof. destruct chunks; [done|]. simpl. by rewrite length_fmap. Qed.

Lemma topic_slides_spec_bodies chunks topic :
  body_text <$> topic_slides_spec chunks topic = chunks.
Proof.
  destruct chunks as [|chunk0 rest]; [done|]. cbn [topic_slides_spec fmap list_fmap].
  rewrite (proj2 (content_slide_spec_texts _ _ _)). f_equal.
  rewrite <- list_fmap_compose. rewrite <- (list_fmap_id rest) at 2.
  apply list_fmap_ext. intros i chunk _. apply content_slide_spec_texts.
Qed.

Lemma topic_slides_spec_titles chunks topic :
  Forall (fun s => title_text s = topic) (topic_slides_spec chunks topic).
Proof.
  destruct chunks as [|chunk0 rest]; [constructor|].
  constructor; [apply content_slide_spec_texts|].
  apply Forall_fmap, Forall_true. intros chunk. apply content_slide_spec_texts.
Qed.

Lemma bind_length_const {A B} (f : A -> list B) n (l : list A) :
  (forall x, length (f x) = n) -> length (l ≫= f) = (length l * n)%nat.
Proof.
  intros Hf. induction l as [|x l IH]; [done|].
  rewrite bind_cons, length_app, Hf, IH. simpl. lia.
Qed.

Lemma deck_spec_length title topics chunks :
  length (deck_spec title topics chunks) = S (length topics * length chunks).
Proof.
  unfold deck_spec. cbn [length]. f_equal.
  apply bind_length_const. intros topic. apply topic_slides_spec_length.
Qed.

(** ** The slides of the closed form are well formed *)

Lemma wf_sized size tf : 1 <= size <= 4000 -> wf_frame tf -> wf_frame (sized size tf).
Proof.
  intros Hsize. assert (Pt 1 <= Pt size <= Pt 4000) by (unfold Pt; lia).
  unfold sized. eauto using wf_frame_fmap, wf_for_runs, wf_set_run_size.
Qed.

Lemma wf_formatted lvl tf : 0 <= lvl <= 8 -> wf_frame tf -> wf_frame (formatted lvl tf).
Proof.
  intros Hlvl. unfold formatted. eauto using wf_frame_fmap, wf_set_alignment, wf_set_level.
Qed.

Lemma wf_content_slide_spec topic chunk lvl :
  0 <= lvl <= 8 -> wf_slide (content_slide_spec topic chunk lvl).
Proof.
  intros Hlvl. split; [simpl; lia|].
  split; cbn [content_slide_spec title_frame body_frame];
    repeat first [apply wf_sized|apply wf_formatted|apply wf_text_setter|lia].
Qed.

Lemma wf_title_slide_spec title : wf_slide (title_slide_spec title).
Proof.
  split; [simpl; lia|].
  split; cbn [title_slide_spec title_frame body_frame]; apply wf_sized;
    first [lia|apply wf_text_setter].
Qed.

Lemma wf_deck_spec title topics chunks : wf_presentation (deck_spec title topics chunks).
Proof.
  constructor; [apply wf_title_slide_spec|].
  apply Forall_bind, Forall_true. intros topic.
  destruct chunks as [|chunk0 rest]; [constructor|]. constructor.
  - by apply wf_content_slide_spec.
  - apply Forall_fmap, Forall_true. intros chunk. by apply wf_content_slide_spec.
Qed.

(** ** Theorems on [create_presentation] *)

Section theorems.
Context `{UnicodeDb} `{FileSystem}.
Implicit Types (env : Env) (title : pystr) (topics : list pystr) (w : World).

(** The text the model gave for the run, or the sentinel of a failure. *)
Definition content_of env title topics : pystr :=
  (requested env (prompt_of title topics)).1.

(** The chunks of that text, as [create_presentation] cuts it. *)
Definition chunks_of env title topics : list pystr :=
  default [] (split_content (content_of env title topics) 900).

Lemma chunks_of_spec env title topics :
  split_content (content_of env title topics) 900 = Some (chunks_of env title topics).
Proof.
  unfold chunks_of, split_content.
  by destruct (split_content_loop_total (length (content_of env title topics)) []
    (content_of env title topics) 900) as [chunks ->]; [lia|lia|].
Qed.

(** What building the deck puts on the page: the error of the call to
    the model, if any, and for each topic its heading and the whole
    text. *)
Definition assemble_events env title topics : list UiEvent :=
  (requested env (prompt_of title topics)).2
  ++ topic_events (content_of env title topics) topics.

Lemma assemble_steps env title topics w :
  assemble env title topics w =
  Done (deck_spec title topics (chunks_of env title topics))
       (say w (assemble_events env title topics)).
Proof.
  unfold assemble. rewrite add_title_slide_spec.
  erewrite bind_Done by apply App_generate_content_run.
  rewrite (for_each_topic_body _ (chunks_of env title topics)) by apply chunks_of_spec.
  unfold say, assemble_events. cbn [ui fs]. by rewrite <- (app_assoc (ui w)).
Qed.

(** The world after a run of [create_presentation] that wrote the file at
    [path]. *)
Definition world_after env title topics (path : pystr) w : World :=
  mkWorld (ui w ++ assemble_events env title topics)
    (<[path := deck_spec title topics (chunks_of env title topics)]> (fs w)).

Lemma create_presentation_steps env title topics w :
  create_presentation env title topics w =
  match lookup_path (file_name_of title) with
  | inr path => Done (file_name_of title) (world_after env title topics path w)
  | inl e => Raised e (say w (assemble_events env title topics))
  end.
Proof.
  unfold create_presentation. erewrite bind_Done by apply assemble_steps.
  destruct (lookup_path (file_name_of title)) as [e|path] eqn:Hpath.
  - by erewrite bind_save_refused.
  - by erewrite bind_save.
Qed.

(** C4 (refinement).  [create_presentation] always ends, whatever the
    model answers.  It puts on the page the model's error (if any)
    followed, for each topic, by its heading and the whole text.  When
    the file system takes the name made from the title, it writes the
    deck [deck_spec] to the file of that name and returns the name;
    otherwise it raises what [prs.save] raises, with the model asked, the
    page written and no file changed.  The chunks are those of
    [split_content] at 900. *)
Theorem create_presentation_run env title topics w :
  exists chunks,
    split_content (content_of env title topics) 900 = Some chunks /\
    let page := ui w ++ (requested env (prompt_of title topics)).2
                     ++ topic_events (content_of env title topics) topics in
    create_presentation env title topics w =
    match lookup_path (file_name_of title) with
    | inr path =>
      Done (file_name_of title)
        (mkWorld page (<[path := deck_spec title topics chunks]> (fs w)))
    | inl e => Raised e (mkWorld page (fs w))
    end.
Proof.
  exists (chunks_of env title topics).
  split; [apply chunks_of_spec|apply create_presentation_steps].
Qed.

(** The deck a run builds, and hands to [prs.save]. *)
Definition deck_of env title topics : option Presentation :=
  match assemble env title topics empty_world with
  | Done prs _ => Some prs
  | _ => None
  end.

Lemma deck_of_chunks env title topics :
  deck_of env title topics =
  Some (deck_spec title topics (chunks_of env title topics)).
Proof. unfold deck_of. by rewrite assemble_steps. Qed.

Lemma deck_of_spec env title topics :
  exists chunks,
    split_content (content_of env title topics) 900 = Some chunks /\
    deck_of env title topics = Some (deck_spec title topics chunks).
Proof. eauto using chunks_of_spec, deck_of_chunks. Qed.

(** [deck_facts env title topics P]: [P deck chunks] holds of the deck of a
    run and the chunks of its text. *)
Lemma deck_of_ind env title topics (P : Presentation -> list pystr -> Prop) :
  (forall chunks, split_content (content_of env title topics) 900 = Some chunks ->
     P (deck_spec title topics chunks) chunks) ->
  exists deck chunks,
    deck_of env title topics = Some deck /\
    split_content (content_of env title topics) 900 = Some chunks /\ P deck chunks.
Proof.
  intros HP. destruct (deck_of_spec env title topics) as (chunks & Hc & Hd). eauto 6.
Qed.

(** The deck that [create_presentation] writes is well
    formed, whatever the title, the topics and the answer of the model:
    every text frame has a paragraph, no run holds a line feed or a
    vertical tab, and the sizes (32, 20, 24 and 18 points) and the levels
    (0 and 3) it sets are in the ranges python-pptx accepts. *)
Lemma create_presentation_wf env title topics :
  exists deck, deck_of env title topics = Some deck /\ wf_presentation deck.
Proof. eexists. split; [apply deck_of_chunks|apply wf_deck_spec]. Qed.

(** The deck has one title slide and, for each topic,
    as many slides as [split_content] gives chunks: 1 + topics * chunks
    slides in all. *)
Lemma create_presentation_slide_count env title topics :
  exists deck chunks,
    deck_of env title topics = Some deck /\
    split_content (content_of env title topics) 900 = Some chunks /\
    length deck = S (length topics * length chunks).
Proof. apply deck_of_ind. intros chunks _. apply deck_spec_length. Qed.

(** The first slide is the title slide; the body of every
    other slide is one chunk, so it has at most 900 characters. *)
Lemma create_presentation_bodies_bounded env title topics :
  exists deck chunks,
    deck_of env title topics = Some deck /\
    split_content (content_of env title topics) 900 = Some chunks /\
    head deck = Some (title_slide_spec title) /\
    Forall (fun s => len (body_text s) <= 900) (tail deck).
Proof.
  apply deck_of_ind. intros chunks Hchunks. split; [done|].
  cbn [deck_spec tail]. apply Forall_bind, Forall_true. intros topic.
  apply split_content_loop_bounded in Hchunks.
  rewrite <- (topic_slides_spec_bodies chunks topic) in Hchunks.
  unfold chunks_bounded in Hchunks. by rewrite Forall_fmap in Hchunks.
Qed.

(** Every topic gets the same text: the bodies of the
    slides of any topic are the chunks of the one text the model gave for
    all topics together, and their titles are the topic. *)
Lemma create_presentation_same_content env title topics :
  exists deck chunks,
    deck_of env title topics = Some deck /\
    split_content (content_of env title topics) 900 = Some chunks /\
    tail deck = topics ≫= topic_slides_spec chunks /\
    forall topic,
      body_text <$> topic_slides_spec chunks topic = chunks /\
      Forall (fun s => title_text s = topic) (topic_slides_spec chunks topic).
Proof.
  apply deck_of_ind. intros chunks _. split; [done|]. intros topic.
  split; [apply topic_slides_spec_bodies|apply topic_slides_spec_titles].
Qed.

(** C8 (error).  Without a credential a deck is still built and handed
    to [prs.save]: each topic gets one slide whose body is the sentinel
    "Error: Missing API key.".  [create_presentation] of variant A does
    not look at what [generate_content] returned. *)
Theorem create_presentation_missing_key env title topics :
  truthy (GEMINI_API_KEY env) = false ->
  deck_of env title topics = Some (deck_spec title topics [ERROR_MISSING_KEY]).
Proof.
  intros Hkey. rewrite deck_of_chunks. unfold chunks_of.
  assert (content_of env title topics = ERROR_MISSING_KEY) as ->.
  { unfold content_of, requested. by rewrite Hkey. }
  done.
Qed.

(** What a run with topics puts on the page up to the call of
    [prs.save], and in all when the file is written. *)
Definition main_events_to_save env title topics : list UiEvent :=
  [StTitle (py "AI-Powered Presentation Creator");
   StInfo (py "Generating your presentation. Please wait...")]
  ++ assemble_events env title topics.

Definition main_events env title topics : list UiEvent :=
  main_events_to_save env title topics
  ++ [StSuccess (py "Presentation '" ++ file_name_of title ++ py "' created successfully!");
      StDownloadButton (py "Download Presentation")
        (deck_spec title topics (chunks_of env title topics)) (file_name_of title) MIME].

(** A run of the script with the form submitted, case by case. *)
Lemma main_App_steps env title topics_input w :
  main env title topics_input true w =
  match parse_topics topics_input with
  | [] =>
    Done tt (say w [StTitle (py "AI-Powered Presentation Creator");
                    StError (py "Please enter at least one topic.")])
  | topics =>
    match lookup_path (file_name_of title) with
    | inr path =>
      Done tt (mkWorld (ui w ++ main_events env title topics)
        (<[path := deck_spec title topics (chunks_of env title topics)]> (fs w)))
    | inl e => Raised e (say w (main_events_to_save env title topics))
    end
  end.
Proof.
  unfold main. rewrite bind_emit_say.
  destruct (parse_topics topics_input) as [|topic topics]; [by autorewrite with py|].
  rewrite bind_emit_say, bind_run, create_presentation_steps.
  destruct (lookup_path (file_name_of title)) as [e|path] eqn:Hpath.
  { by rewrite !say_say. }
  rewrite bind_emit_say.
  erewrite bind_Done
    by (eapply open_rb_saved; [done|cbn [world_after say fs]; apply lookup_insert_eq]).
  rewrite emit_say. unfold say, world_after, main_events, main_events_to_save. cbn [ui fs].
  by rewrite <- !app_assoc.
Qed.

(** A run of the script with the form submitted never hangs, and never
    raises when the file system takes the file name.  With no topic left
    after parsing it shows one error and writes no file; otherwise it
    writes the deck of [create_presentation] and the download button
    carries that deck under the name of the file: the [open] of line 149
    finds what line 123 saved. *)
Lemma main_run env title topics_input path w :
  lookup_path (file_name_of title) = inr path ->
  exists events,
    main env title topics_input true w =
    Done tt (mkWorld (ui w ++ StTitle (py "AI-Powered Presentation Creator") :: events)
      (match parse_topics topics_input with
       | [] => fs w
       | topics => <[path := default [] (deck_of env title topics)]> (fs w)
       end)) /\
    match parse_topics topics_input with
    | [] => events = [StError (py "Please enter at least one topic.")]
    | topics =>
      last events = Some (StDownloadButton (py "Download Presentation")
        (default [] (deck_of env title topics)) (file_name_of title) MIME)
    end.
Proof.
  intros Hpath. rewrite main_App_steps, Hpath.
  destruct (parse_topics topics_input) as [|topic topics] eqn:Ht.
  { by eexists. }
  rewrite deck_of_chunks. unfold main_events, main_events_to_save. cbn [default app].
  eexists. split; [done|]. by rewrite last_cons, !last_app.
Qed.

(** A file name the file system refuses: the run ends with the
    exception of [prs.save], after the model was asked; the page shows
    the texts and neither the success message nor the download button,
    and no file is changed. *)
Lemma main_refused env title topics_input e w :
  lookup_path (file_name_of title) = inl e -> parse_topics topics_input <> [] ->
  main env title topics_input true w =
  Raised e (say w (main_events_to_save env title (parse_topics topics_input))).
Proof.
  intros Hpath Htopics. rewrite main_App_steps, Hpath.
  by destruct (parse_topics topics_input).
Qed.

End theorems.

(** ** The name of the file *)

(** The file name has no space, whatever the title. *)
Lemma file_name_no_space title : 32%N ∉ file_name_of title.
Proof.
  unfold file_name_of. apply not_elem_of_app. split; [|not_in_literal].
  by apply replace_char_absent.
Qed.

(** Titles that differ only by a space against an
    underscore give the same file name, so the later run overwrites the
    deck of the earlier one. *)
Lemma file_name_underscore title :
  file_name_of (replace title (py " ") (py "_")) = file_name_of title.
Proof.
  unfold file_name_of. f_equal. change (py " ") with [32%N].
  change (py "_") with [95%N]. rewrite !replace_char, <- list_fmap_compose.
  apply list_fmap_ext. intros i c _. simpl.
  destruct (N.eqb_spec c 32); [done|]. by destruct (N.eqb_spec c 32).
Qed.

Lemma file_name_collision `{UnicodeDb} `{FileSystem} env1 env2 title topics1 topics2 path w :
  lookup_path (file_name_of title) = inr path ->
  let title' := replace title (py " ") (py "_") in
  match create_presentation env1 title topics1 w with
  | Done name1 w1 =>
    match create_presentation env2 title' topics2 w1 with
    | Done name2 w2 =>
      name1 = name2 /\ fs w2 !! path = deck_of env2 title' topics2
    | _ => False
    end
  | _ => False
  end.
Proof.
  intros Hpath title'. rewrite create_presentation_steps, Hpath.
  rewrite create_presentation_steps, deck_of_chunks. unfold title'.
  rewrite file_name_underscore, Hpath.
  split; [done|]. unfold world_after at 1. cbn [fs]. by rewrite lookup_insert_eq.
Qed.

(** ** The topics of the form *)

(** Every topic the script passes on is non-empty, has
    no whitespace at either end and holds no newline. *)
Lemma parse_topics_clean topics_input :
  Forall (fun topic => topic <> [] /\ strip topic = topic /\ 10%N ∉ topic)
    (parse_topics topics_input).
Proof.
  unfold parse_topics. apply Forall_fmap, Forall_forall. intros line Hline.
  apply list_elem_of_In, List.filter_In in Hline as [Hline Hne].
  apply bool_decide_eq_true in Hne. cbn. split; [done|]. split; [apply strip_idemp|].
  intros Hc%elem_of_strip_with. apply list_elem_of_In in Hline.
  pose proof (split_go_parts_clean 10%N 0 topics_input) as Hclean.
  rewrite Forall_forall in Hclean. by apply (Hclean line).
Qed.

(** ** One content slide *)

(** The block that adds a content slide appends one
    slide and leaves the others as they are; the new slide has layout 1,
    the topic as title in 24 points and the chunk as body in 18 points,
    its paragraphs at the level asked for and aligned left. *)
Lemma add_content_slide_slide prs topic chunk lvl :
  exists s,
    add_content_slide prs topic chunk lvl = prs ++ [s] /\
    slide_layout s = 1%nat /\ title_text s = topic /\ body_text s = chunk /\
    frame_sized (Pt 24) (title_frame s) /\ frame_sized (Pt 18) (body_frame s) /\
    frame_level lvl (body_frame s) /\
    Forall (fun p => alignment p = Some PP_ALIGN_LEFT) (body_frame s).
Proof.
  exists (content_slide_spec topic chunk lvl).
  split; [apply add_content_slide_spec|]. split; [done|].
  split; [apply content_slide_spec_texts|]. split; [apply content_slide_spec_texts|].
  cbn [content_slide_spec title_frame body_frame]. unfold sized.
  split; [apply frame_sized_for_runs|]. split; [apply frame_sized_for_runs|].
  split; [by apply frame_level_for_runs, frame_level_fmap|].
  unfold formatted. rewrite <- list_fmap_compose. by apply Forall_fmap, Forall_true.
Qed.

(** ** Runs on concrete inputs *)

#[local] Existing Instance plain_names.

Definition demo_env : Env :=
  mkEnv (Some (py "k")) (fun _ => ResponseText (py "hello world")).

Example create_presentation_demo :
  create_presentation demo_env (py "Gen AI") [py "A"; py "B"] empty_world =
  Done (py "Gen_AI.pptx")
    (mkWorld
       [StWrite (py "### A"); StWrite (py "hello world");
        StWrite (py "### B"); StWrite (py "hello world")]
       (<[ py "Gen_AI.pptx" :=
            [title_slide_spec (py "Gen AI");
             content_slide_spec (py "A") (py "hello world") 0;
             content_slide_spec (py "B") (py "hello world") 0] ]> ∅)).
Proof. by rewrite create_presentation_steps. Qed.

Lemma create_presentation_missing_key_witness :
  deck_of (mkEnv None (fun _ => ResponseText [])) (py "T") [py "A"] =
  Some (deck_spec (py "T") [py "A"] [ERROR_MISSING_KEY]).
Proof. by apply create_presentation_missing_key. Defined.

End App.
