(* ===== verification/Markers.v ===== *)
(** * Markers: the marker-based segmenter of [App1.py]

    [split_into_slides] cuts the text of the model at the markers
    "Slide <n>:" with one regular expression, [remove_double_asteris]
    deletes every "**", and [process_slide_title] reads one fragment back
    as a number, a title and a list of points.

    The regular expressions are modelled by matchers written for them:
    [slide_match] for [(Slide \d+:.*?)(?=Slide \d+:|$)] under [re.DOTALL]
    and [header_match] for [Slide (\d+): (.+)] under [re.match].  The scan
    of [findall] is [findall_go], for any matcher.  [\d] is the
    [isdecimal] of the Unicode database.  [Patterns] shows that the
    matchers compute what the engine of [Regex] computes for the two
    patterns. *)

From S2P Require Import Prelude PyStr.

#[local] Open Scope N_scope.

Section markers.
Context `{UnicodeDb}.

(** ** The scan of [pattern.findall] *)

(** [findall_go match_at skip s]: the matches of a pattern in [s], leftmost
    first, without overlap.  [match_at t] is the length of the match of
    the pattern at the start of [t], if there is one; [skip] is the
    number of characters of the last match still to be passed over.  The
    patterns of the program match no empty string; an empty match is
    passed over. *)
Fixpoint findall_go (match_at : pystr -> option nat) (skip : nat) (s : pystr)
    : list pystr :=
  match s with
  | [] => []
  | _ :: s' =>
    match skip with
    | S k => findall_go match_at k s'
    | O =>
      match match_at s with
      | Some (S n) => take (S n) s :: findall_go match_at n s'
      | _ => findall_go match_at 0 s'
      end
    end
  end.

(** ** The pattern of [split_into_slides] *)

(** [Slide \d+:] at the start of [s]: the length of what it matches.  The
    digits are taken greedily; giving one back cannot help, as a digit is
    not a colon. *)
Definition marker_len (s : pystr) : option nat :=
  if startswith s (py "Slide ") then
    let digits := take_while isdecimal (drop 6 s) in
    match digits, head (drop_while isdecimal (drop 6 s)) with
    | _ :: _, Some 58 => Some (6 + length digits + 1)%nat
    | _, _ => None
    end
  else None.

Definition marker_at (s : pystr) : bool := bool_decide (is_Some (marker_len s)).

(** [(?=Slide \d+:|$)] at the start of [s]: a marker, the end of the text,
    or the newline that ends the text. *)
Definition lookahead (s : pystr) : bool :=
  marker_at s || bool_decide (s = []) || bool_decide (s = [10]).

(** [.*?] before the lookahead: the least number of characters to pass
    over for the lookahead to hold. *)
Fixpoint lazy_len (s : pystr) : nat :=
  match s with
  | [] => 0
  | _ :: s' => if lookahead s then 0 else S (lazy_len s')
  end.

(** The whole pattern at the start of [s]. *)
Definition slide_match (s : pystr) : option nat :=
  h ← marker_len s; Some (h + lazy_len (drop h s))%nat.

(** [slide_pattern.findall(content)], lines 40-41: the pattern has one
    group, around all it consumes, so the results are the matches. *)
Definition slide_pattern_findall (content : pystr) : list pystr :=
  findall_go slide_match 0 content.

(** [split_into_slides(content)], lines 34-47. *)
Definition split_into_slides (content : pystr) : list pystr :=
  (fun m => py "**" ++ slice_to m (-2)) <$> slide_pattern_findall content.

(** [remove_double_asteris(input_list)], lines 49-52. *)
Definition remove_double_asteris (input_list : list pystr) : list pystr :=
  (fun item => replace item (py "**") []) <$> input_list.

(** ** The pattern of [process_slide_title] *)

(** [re.match(r"Slide (\d+): (.+)", slide_header)]: the two groups.  [.]
    is any character but a newline; [.+] takes all it can, and nothing
    follows it. *)
Definition header_match (slide_header : pystr) : option (pystr * pystr) :=
  if startswith slide_header (py "Slide ") then
    let number := take_while isdecimal (drop 6 slide_header) in
    let rest := drop_while isdecimal (drop 6 slide_header) in
    if bool_decide (number <> []) && startswith rest (py ": ") then
      let title := take_while (fun c => negb (c =? 10)) (drop 2 rest) in
      if bool_decide (title <> []) then Some (number, title) else None
    else None
  else None.

(** Line 84: the points of a fragment, one per line that is not blank,
    without their bullets. *)
Definition points_list_of (points : pystr) : list pystr :=
  (fun point => strip (strip_chars point (py "* "))) <$>
    List.filter (fun point => bool_decide (strip point <> []))
      (split points [10] (-1)).

(** [process_slide_title(slide)], lines 66-91: [None] is Python's
    [None]. *)
Definition process_slide_title (slide : pystr) : option (pystr * pystr * pystr) :=
  let parts := split slide [10] 1 in
  match parts with
  | [part0; part1] =>
    let slide_header := strip part0 in
    match header_match slide_header with
    | Some (slide_number, title) =>
      let title := strip title in
      let points := strip part1 in
      let points_list := points_list_of points in
      let points_string := join (py ", ") points_list in
      Some (slide_number, title, points_string)
    | None => None
    end
  | _ => None
  end.

(** ** Counting markers *)

(** The number of places of [s] where a marker starts. *)
Fixpoint count_markers (s : pystr) : nat :=
  match s with
  | [] => 0
  | _ :: s' => (if marker_at s then 1 else 0) + count_markers s'
  end.

(** The text from its first marker on. *)
Fixpoint skip_to_marker (s : pystr) : pystr :=
  match s with
  | [] => []
  | _ :: s' => if marker_at s then s else skip_to_marker s'
  end.

(** [x] with its last two characters removed, as a slice of a text of
    at least two characters gives it. *)
Definition trimmed (x : pystr) : pystr := take (length x - 2) x.

(** ** Lemmas: the scan *)

Implicit Types (s t content : pystr) (match_at : pystr -> option nat).

Lemma findall_go_skip match_at k s :
  findall_go match_at k s = findall_go match_at 0 (drop k s).
Proof.
  revert k. induction s as [|c s IH]; intros [|k]; simpl; done.
Qed.

Lemma findall_go_hit match_at s n :
  match_at s = Some (S n) -> s <> [] ->
  findall_go match_at 0 s = take (S n) s :: findall_go match_at 0 (drop (S n) s).
Proof.
  intros Hm Hs. destruct s as [|c s]; [done|]. cbn [findall_go]. rewrite Hm.
  by rewrite findall_go_skip.
Qed.

Lemma findall_go_miss match_at c s :
  match_at (c :: s) = None ->
  findall_go match_at 0 (c :: s) = findall_go match_at 0 s.
Proof. intros Hm. cbn [findall_go]. by rewrite Hm. Qed.

(** ** Lemmas: markers *)

(** What a marker looks like. *)
Lemma marker_len_spec s h :
  marker_len s = Some h <->
  exists digits rest,
    s = py "Slide " ++ digits ++ 58 :: rest /\ digits <> [] /\
    Forall (fun c => isdecimal c = true) digits /\ h = (7 + length digits)%nat.
Proof.
  unfold marker_len. split.
  - destruct (startswith s (py "Slide ")) eqn:Hs; [|done].
    apply startswith_spec in Hs as [t ->]. rewrite drop_app_length'; [|done].
    pose proof (take_drop_while isdecimal t) as Ht.
    pose proof (take_while_all isdecimal t) as Hd.
    destruct (take_while isdecimal t) as [|d digits] eqn:E; [done|].
    destruct (drop_while isdecimal t) as [|c rest]; [done|]. cbn [head].
    destruct (decide (c = 58)) as [->|Hc].
    + intros [= <-]. exists (d :: digits), rest. rewrite <- Ht.
      split; [done|]. split; [done|]. split; [done|]. cbn [length]. lia.
    + clear -Hc. destruct c as [|p]; [done|].
      by repeat (destruct p as [p|p|]; try done).
  - intros (digits & rest & -> & Hne & Hd & ->).
    rewrite startswith_app, drop_app_length' by done.
    assert (isdecimal 58 = false) as H58 by (by rewrite isdecimal_ascii).
    rewrite take_while_app_stop, drop_while_app_stop by done.
    destruct digits; [done|]. cbn [head length]. f_equal. lia.
Qed.

Lemma marker_at_true s : marker_at s = true <-> is_Some (marker_len s).
Proof. apply bool_decide_eq_true. Qed.

Lemma marker_at_false s : marker_at s = false <-> marker_len s = None.
Proof. unfold marker_at. by rewrite bool_decide_eq_false, eq_None_not_Some. Qed.

Lemma marker_at_head s : marker_at s = true -> head s = Some 83.
Proof.
  intros [h Hh]%marker_at_true. by apply marker_len_spec in Hh as (? & ? & -> & _).
Qed.

Lemma marker_len_bounds s h : marker_len s = Some h -> (8 <= h <= length s)%nat.
Proof.
  intros (digits & rest & -> & Hne & _ & ->)%marker_len_spec.
  rewrite !length_app. cbn [length]. destruct digits; [done|]. simpl. lia.
Qed.

(** No marker starts inside a marker: none of its characters after the
    first is an S. *)
Lemma marker_len_interior s h j :
  marker_len s = Some h -> (0 < j < h)%nat -> marker_at (drop j s) = false.
Proof.
  intros (digits & rest & -> & Hne & Hd & ->)%marker_len_spec Hj.
  destruct (marker_at (drop j _)) eqn:Hm; [|done]. apply marker_at_head in Hm.
  destruct j as [|j]; [lia|]. rewrite head_lookup, lookup_drop, Nat.add_0_r in Hm.
  change ((py "Slide " ++ digits ++ 58 :: rest) !! S j)
    with ((py "lide " ++ digits ++ 58 :: rest) !! j) in Hm.
  rewrite (assoc_L (++) _ digits), (cons_middle 58), (assoc_L (++)) in Hm.
  rewrite lookup_app_l in Hm
    by (rewrite !length_app; change (length (py "lide ")) with 5%nat; simpl; lia).
  assert (Forall (fun c => c <> 83) ((py "lide " ++ digits) ++ [58])) as Hall.
  { apply Forall_app. split; [apply Forall_app; split|by repeat constructor].
    - by repeat constructor.
    - eapply Forall_impl; [exact Hd|]. intros c Hc ->.
      by rewrite isdecimal_ascii in Hc. }
  by eapply Forall_lookup_1 in Hall.
Qed.

(** ** Lemmas: the lazy body *)

Lemma lazy_len_le t : (lazy_len t <= length t)%nat.
Proof. induction t as [|c t IH]; simpl; [done|]. destruct (lookahead _); lia. Qed.

Lemma lazy_len_stop t : lookahead (drop (lazy_len t) t) = true.
Proof.
  induction t as [|c t IH]; [done|]. cbn [lazy_len].
  by destruct (lookahead (c :: t)) eqn:E.
Qed.

Lemma lazy_len_before t j : (j < lazy_len t)%nat -> lookahead (drop j t) = false.
Proof.
  revert j. induction t as [|c t IH]; intros j; cbn [lazy_len]; [lia|].
  destruct (lookahead (c :: t)) eqn:E; [lia|]. destruct j as [|j]; [done|].
  intros Hj. apply IH. lia.
Qed.

Lemma lookahead_cases t :
  lookahead t = true <-> marker_at t = true \/ t = [] \/ t = [10].
Proof.
  unfold lookahead. rewrite !orb_true_iff, !bool_decide_eq_true. tauto.
Qed.

Lemma lookahead_false_marker t : lookahead t = false -> marker_at t = false.
Proof. unfold lookahead. by intros [[? ?]%orb_false_iff ?]%orb_false_iff. Qed.

(** ** Lemmas: one match of the pattern *)

Lemma slide_match_spec s n :
  slide_match s = Some n <->
  exists h, marker_len s = Some h /\ n = (h + lazy_len (drop h s))%nat.
Proof.
  unfold slide_match. destruct (marker_len s) as [h|]; simpl.
  - split; [intros [= <-]; eauto|]. by intros (? & [= <-] & ->).
  - split; [done|]. by intros (? & ? & ?).
Qed.

Lemma slide_match_None s : slide_match s = None <-> marker_at s = false.
Proof.
  rewrite marker_at_false. unfold slide_match. by destruct (marker_len s).
Qed.

Lemma slide_match_marker s n : slide_match s = Some n -> marker_at s = true.
Proof. intros (h & Hh & _)%slide_match_spec. apply marker_at_true. eauto. Qed.

Lemma slide_match_bounds s n : slide_match s = Some n -> (8 <= n <= length s)%nat.
Proof.
  intros (h & Hh & ->)%slide_match_spec. pose proof (marker_len_bounds _ _ Hh).
  pose proof (lazy_len_le (drop h s)) as Hl. rewrite length_drop in Hl. lia.
Qed.

Lemma slide_match_rest s n : slide_match s = Some n -> lookahead (drop n s) = true.
Proof.
  intros (h & Hh & ->)%slide_match_spec. rewrite <- drop_drop.
  apply lazy_len_stop.
Qed.

(** No marker starts inside a match. *)
Lemma slide_match_interior s n j :
  slide_match s = Some n -> (0 < j < n)%nat -> marker_at (drop j s) = false.
Proof.
  intros (h & Hh & ->)%slide_match_spec Hj.
  destruct (decide (j < h)%nat) as [Hjh|Hjh];
    [apply (marker_len_interior s h); [done|lia]|].
  apply lookahead_false_marker. replace j with (h + (j - h))%nat by lia.
  rewrite <- drop_drop. apply lazy_len_before. lia.
Qed.

Lemma marker_len_take s h n :
  marker_len s = Some h -> (h <= n)%nat -> marker_len (take n s) = Some h.
Proof.
  intros (digits & rest & -> & Hne & Hd & ->)%marker_len_spec Hn.
  apply marker_len_spec. exists digits, (take (n - (7 + length digits)) rest).
  split; [|done]. rewrite !take_app_ge by (done || simpl; lia). do 2 f_equal.
  change (length (py "Slide ")) with 6%nat.
  destruct (n - 6 - length digits)%nat as [|k] eqn:E; [lia|].
  cbn [take]. do 2 f_equal. lia.
Qed.

(** ** Induction on the scan *)

(** Induction on the matches of [slide_pattern_findall], for a property
    [P content matches]: the text is empty, or no marker starts at its
    first character, or a match starts there. *)
Lemma slide_pattern_findall_ind (P : pystr -> list pystr -> Prop) :
  P [] [] ->
  (forall c s r, marker_at (c :: s) = false -> P s r -> P (c :: s) r) ->
  (forall s n r, slide_match s = Some n -> P (drop n s) r -> P s (take n s :: r)) ->
  forall content, P content (slide_pattern_findall content).
Proof.
  intros Hnil Hmiss Hhit content. unfold slide_pattern_findall.
  remember (length content) as k eqn:Hk. revert content Hk.
  induction k as [k IH] using lt_wf_ind. intros [|c s] ->; [done|].
  destruct (slide_match (c :: s)) as [n|] eqn:Hm.
  - pose proof (slide_match_bounds _ _ Hm) as Hb. destruct n as [|n]; [lia|].
    rewrite (findall_go_hit _ _ _ Hm) by done. apply Hhit; [done|].
    eapply IH; [|done]. rewrite length_drop. lia.
  - rewrite findall_go_miss by done. apply Hmiss; [by apply slide_match_None|].
    eapply IH; [|done]. simpl. lia.
Qed.

(** ** Lemmas: counting *)

Lemma count_markers_drop s k :
  (forall j, (j < k)%nat -> marker_at (drop j s) = false) ->
  count_markers s = count_markers (drop k s).
Proof.
  revert s. induction k as [|k IH]; intros [|c s] Hj; try done.
  pose proof (Hj 0%nat ltac:(lia)) as H0. cbn [drop] in H0.
  cbn [count_markers drop]. rewrite H0, <- IH; [done|].
  intros j Hjk. apply (Hj (S j)). lia.
Qed.

Lemma skip_to_marker_id s : marker_at s = true -> skip_to_marker s = s.
Proof. destruct s; [done|]. simpl. by intros ->. Qed.

Lemma skip_to_marker_suffix s : skip_to_marker s `suffix_of` s.
Proof.
  induction s as [|c s IH]; [done|]. simpl. destruct (marker_at _); [done|].
  by apply suffix_cons_r.
Qed.

Lemma slice_to_trimmed x : slice_to x (-2) = trimmed x.
Proof.
  unfold slice_to, trimmed, norm_index, len. f_equal.
  change (-2 <? 0)%Z with true. lia.
Qed.

(** Taking the wrapping away gives back what was wrapped, less its own
    "**". *)
Lemma remove_wrapped x : replace (py "**" ++ x) (py "**") [] = replace x (py "**") [].
Proof. by rewrite replace_prefix. Qed.

(** One match for each marker. *)
Lemma slide_pattern_findall_length content :
  length (slide_pattern_findall content) = count_markers content.
Proof.
  apply (slide_pattern_findall_ind (fun s r => length r = count_markers s)).
  - done.
  - intros c s r Hc IH. cbn [count_markers]. by rewrite Hc.
  - intros s n r Hm IH. pose proof (slide_match_bounds _ _ Hm) as Hb.
    destruct s as [|c s]; [simpl in Hb; lia|]. destruct n as [|n]; [lia|].
    cbn [count_markers length]. rewrite (slide_match_marker _ _ Hm), IH.
    cbn [drop]. f_equal. symmetry. apply count_markers_drop.
    intros j Hj. apply (slide_match_interior (c :: s) (S n) (S j)); [done|lia].
Qed.

(** ** Theorems on [split_into_slides] *)

(** C5 (functional).  [split_into_slides] gives one fragment for each
    marker "Slide <n>:" of the text: a marker is "Slide ", one or more
    decimal digits and a colon, wherever it stands. *)
Theorem split_into_slides_count content :
  length (split_into_slides content) = count_markers content.
Proof.
  unfold split_into_slides. rewrite length_fmap. apply slide_pattern_findall_length.
Qed.

(** Every match of the pattern starts with a marker. *)
Lemma slide_pattern_findall_markers content :
  Forall (fun m => marker_at m = true) (slide_pattern_findall content).
Proof.
  apply (slide_pattern_findall_ind (fun _ r => Forall (fun m => marker_at m = true) r));
    [done..|].
  intros s n r (h & Hh & ->)%slide_match_spec IH. constructor; [|done].
  apply marker_at_true. exists h. apply marker_len_take; [done|lia].
Qed.

(** From its first marker on, the text is the matches in order, followed
    by nothing or by the newline that ends the text: what comes before
    the first marker, and that newline, are in no match. *)
Lemma slide_pattern_findall_join content :
  exists tail,
    skip_to_marker content = concat (slide_pattern_findall content) ++ tail /\
    (tail = [] \/ tail = [10]).
Proof.
  apply (slide_pattern_findall_ind (fun s r =>
    exists tail, skip_to_marker s = concat r ++ tail /\ (tail = [] \/ tail = [10]))).
  - exists []. by split; [|left].
  - intros c s r Hc IH. cbn [skip_to_marker]. by rewrite Hc.
  - intros s n r Hm (tail & IH & Htail).
    rewrite skip_to_marker_id by (by apply slide_match_marker in Hm).
    assert (exists tail', drop n s = concat r ++ tail' /\ (tail' = [] \/ tail' = [10]))
      as (tail' & Hr & Htail').
    { apply slide_match_rest, lookahead_cases in Hm as [Hr|[Hr|Hr]].
      - exists tail. by rewrite <- IH, skip_to_marker_id.
      - exists tail. by rewrite Hr in IH |- *.
      - rewrite Hr in IH |- *. symmetry in IH. apply app_eq_nil in IH as [-> ->].
        exists [10]. eauto. }
    exists tail'. split; [|done].
    by rewrite <- (take_drop n s) at 1; rewrite Hr; cbn [concat]; rewrite (assoc_L (++)).
Qed.

(** C7 (roundtrip).  A text that starts with a marker is its matches in
    order, followed by nothing or by the newline that ends the text:
    nothing else is left out, and nothing is in two matches. *)
Theorem slide_pattern_findall_concat content :
  marker_at content = true ->
  exists tail,
    content = concat (slide_pattern_findall content) ++ tail /\
    (tail = [] \/ tail = [10]).
Proof.
  intros Hm. destruct (slide_pattern_findall_join content) as (tail & Hc & Ht).
  rewrite skip_to_marker_id in Hc by done. eauto.
Qed.

(** C39 (functional).  A text with one marker, at its start, that does not
    end with a newline gives one slide: the text without its last two
    characters, whatever they are, after "**". *)
Theorem split_into_slides_single content :
  marker_at content = true -> count_markers content = 1%nat ->
  last content <> Some 10 ->
  split_into_slides content = [py "**" ++ trimmed content].
Proof.
  intros Hm Hcount Hlast.
  destruct (slide_pattern_findall_join content) as (tail & Hc & Ht).
  rewrite skip_to_marker_id in Hc by done.
  pose proof (slide_pattern_findall_length content) as Hlen. rewrite Hcount in Hlen.
  unfold split_into_slides. destruct (slide_pattern_findall content) as [|m [|? ?]]; try done.
  cbn [concat] in Hc. rewrite app_nil_r in Hc. cbn [fmap list_fmap].
  destruct Ht as [->| ->].
  - rewrite app_nil_r in Hc. by rewrite slice_to_trimmed, Hc.
  - contradict Hlast. by rewrite Hc, last_snoc.
Qed.

(** The slides that [create_presentation] gets are the matches without
    their last two characters and without any "**": the "**" that
    [split_into_slides] puts in front is the first that
    [remove_double_asteris] takes away. *)
Lemma remove_split_into_slides content :
  remove_double_asteris (split_into_slides content) =
  (fun m => replace (trimmed m) (py "**") []) <$> slide_pattern_findall content.
Proof.
  unfold remove_double_asteris, split_into_slides. rewrite <- list_fmap_compose.
  apply list_fmap_ext. intros i m _. unfold compose.
  by rewrite slice_to_trimmed, remove_wrapped.
Qed.

(** Taking away the wrapping of a text that has no
    "**" gives the text back. *)
Lemma remove_double_asteris_wrapped (l : list pystr) :
  Forall (fun x => ~ contains x (py "**")) l ->
  remove_double_asteris ((fun x => py "**" ++ x) <$> l) = l.
Proof.
  intros Hl. unfold remove_double_asteris. rewrite <- list_fmap_compose.
  rewrite <- (list_fmap_id l) at 2. apply Forall_fmap_ext_1.
  eapply Forall_impl; [exact Hl|]. intros x Hx. unfold compose.
  by rewrite remove_wrapped, replace_absent.
Qed.

(** ** Lemmas: the header of a fragment *)

Lemma header_match_Some slide_header number title :
  header_match slide_header = Some (number, title) ->
  exists rest,
    slide_header = py "Slide " ++ number ++ py ": " ++ title ++ rest /\
    number <> [] /\ Forall (fun c => isdecimal c = true) number /\
    title <> [] /\ (10 ∉ title) /\ (rest <> [] -> head rest = Some 10).
Proof.
  unfold header_match.
  destruct (startswith slide_header (py "Slide ")) eqn:Hs; [|done].
  apply startswith_spec in Hs as [u ->]. rewrite drop_app_length' by done.
  pose proof (take_drop_while isdecimal u) as Hu.
  pose proof (take_while_all isdecimal u) as Hd.
  destruct (bool_decide (take_while isdecimal u <> [])) eqn:Hne; [|done].
  apply bool_decide_eq_true in Hne.
  destruct (startswith (drop_while isdecimal u) (py ": ")) eqn:Hc; [|done].
  apply startswith_spec in Hc as [v Hv]. rewrite Hv, drop_app_length' by done.
  set (dot := fun c => negb (c =? 10)).
  pose proof (take_drop_while dot v) as Hvv.
  pose proof (take_while_all dot v) as Hdot.
  destruct (bool_decide (take_while dot v <> [])) eqn:Hne'; [|done].
  apply bool_decide_eq_true in Hne'. cbn [andb]. intros [= <- <-].
  exists (drop_while dot v). rewrite Hvv, <- Hv, Hu.
  split; [done|]. split; [done|]. split; [done|]. split; [done|]. split.
  - intros Hin. eapply Forall_forall in Hdot; [|exact Hin]. by unfold dot in Hdot.
  - intros Hr. destruct (drop_while dot v) as [|c r] eqn:E; [done|].
    pose proof (drop_while_head dot v c) as Hh. rewrite E in Hh.
    specialize (Hh eq_refl). unfold dot in Hh. cbn [head]. f_equal.
    destruct (N.eqb_spec c 10); done.
Qed.

Lemma header_match_intro number title :
  number <> [] -> Forall (fun c => isdecimal c = true) number ->
  title <> [] -> 10 ∉ title ->
  header_match (py "Slide " ++ number ++ py ": " ++ title) = Some (number, title).
Proof.
  intros Hn Hd Ht H10. unfold header_match.
  rewrite startswith_app, drop_app_length' by done.
  assert (isdecimal 58 = false) as H58 by (by rewrite isdecimal_ascii).
  change (py ": " ++ title) with (58 :: 32 :: title).
  rewrite take_while_app_stop, drop_while_app_stop by done.
  rewrite bool_decide_eq_true_2 by done. cbn [andb startswith N.eqb Pos.eqb drop].
  rewrite take_while_id, bool_decide_eq_true_2; [done..|].
  apply Forall_forall. intros c Hc. destruct (N.eqb_spec c 10); [by subst|done].
Qed.

Lemma last_app_nonempty {A} (l k : list A) : k <> [] -> last (l ++ k) = last k.
Proof.
  intros Hk. rewrite last_app. destruct (last k) eqn:E; [done|].
  by apply last_None in E.
Qed.

(** ** Theorems on [process_slide_title] *)

(** A fragment without a newline gives [None]: there is no
    second part. *)
Lemma process_slide_title_no_newline slide :
  10 ∉ slide -> process_slide_title slide = None.
Proof.
  intros H10. unfold process_slide_title. by rewrite split_one, split_go_absent.
Qed.

(** The header line of a fragment of the expected shape is found and
    read. *)
Lemma process_slide_title_reads number title points :
  number <> [] -> Forall (fun c => isdecimal c = true) number ->
  title <> [] -> strip title = title -> 10 ∉ title ->
  process_slide_title (py "Slide " ++ number ++ py ": " ++ title ++ 10 :: points) =
  Some (number, title, join (py ", ") (points_list_of (strip points))).
Proof.
  intros Hn Hd Ht Hstrip H10. unfold process_slide_title. rewrite split_one.
  assert (10 ∉ py "Slide " ++ number ++ py ": " ++ title) as Ha.
  { rewrite !not_elem_of_app. split; [not_in_literal|].
    split; [|split; [not_in_literal|done]].
    intros Hin. eapply Forall_forall in Hd; [|exact Hin].
    by rewrite isdecimal_ascii in Hd. }
  replace (py "Slide " ++ number ++ py ": " ++ title ++ 10 :: points)
    with ((py "Slide " ++ number ++ py ": " ++ title) ++ 10 :: points)
    by (by rewrite <- !(assoc_L (++))).
  rewrite split_go_first by done.
  assert (strip (py "Slide " ++ number ++ py ": " ++ title) =
          py "Slide " ++ number ++ py ": " ++ title) as ->.
  { apply strip_with_fixed; [by intros c [= <-]|].
    rewrite !(assoc_L (++)), last_app_nonempty by done. rewrite <- Hstrip.
    apply strip_with_last. }
  by rewrite header_match_intro, Hstrip.
Qed.

(** C9 (functional).  A fragment of the expected shape, "Slide <n>:
    <heading>", a newline and the points, is read back as the number, the
    heading and the points joined with ", ". *)
Theorem process_slide_title_well_formed number title points :
  number <> [] -> Forall (fun c => isdecimal c = true) number ->
  title <> [] -> strip title = title -> 10 ∉ title ->
  process_slide_title (py "Slide " ++ number ++ py ": " ++ title ++ 10 :: points) =
  Some (number, title, join (py ", ") (points_list_of (strip points))).
Proof. apply process_slide_title_reads. Qed.

(** What [process_slide_title] returns: the number is
    one or more decimal digits, and the title is not empty, has no
    whitespace at either end and no newline; and the fragment had a
    newline. *)
Lemma process_slide_title_fields slide number title points :
  process_slide_title slide = Some (number, title, points) ->
  number <> [] /\ Forall (fun c => isdecimal c = true) number /\
  title <> [] /\ strip title = title /\ (10 ∉ title) /\ 10 ∈ slide.
Proof.
  unfold process_slide_title. rewrite split_one.
  destruct (split_go_one_cases 10 slide) as [[_ ->]|(a & b & -> & Ha & ->)]; [done|].
  destruct (header_match (strip a)) as [[number' title0]|] eqn:Hm; [|done].
  intros [= -> <- <-].
  apply header_match_Some in Hm as (rest & Hh & Hn & Hd & Ht & H10 & Hrest).
  assert (10 ∉ strip a) as Hsa by (by intros ?%elem_of_strip_with).
  assert (rest = []) as ->.
  { destruct rest as [|c rest]; [done|]. specialize (Hrest ltac:(done)).
    injection Hrest as ->. contradict Hsa. rewrite Hh. set_solver. }
  rewrite app_nil_r in Hh.
  split; [done|]. split; [done|]. split; [|split; [apply strip_with_idemp|split]].
  - destruct (last title0) as [c|] eqn:Hl; [|by apply last_None in Hl].
    apply (strip_with_nonempty _ _ c); [done|].
    apply (strip_with_last _ a). unfold strip in Hh.
    by rewrite Hh, !(assoc_L (++)), last_app_nonempty.
  - by intros ?%elem_of_strip_with.
  - set_solver.
Qed.

End markers.

(** ** The theorems on concrete texts

    The database is [ascii_db]. *)

Lemma slide_pattern_findall_concat_witness :
  exists tail,
    py "Slide 1: A" ++ [10] =
      concat (slide_pattern_findall (py "Slide 1: A" ++ [10])) ++ tail /\
    (tail = [] \/ tail = [10]).
Proof. by apply slide_pattern_findall_concat. Defined.

Lemma split_into_slides_single_witness :
  split_into_slides (py "Slide 1: A" ++ [10] ++ py "bc") =
  [py "**" ++ trimmed (py "Slide 1: A" ++ [10] ++ py "bc")].
Proof. by apply split_into_slides_single. Defined.

Lemma remove_double_asteris_wrapped_witness :
  remove_double_asteris ((fun x => py "**" ++ x) <$> [py "Slide 1: A"; py "*b"]) =
  [py "Slide 1: A"; py "*b"].
Proof.
  apply remove_double_asteris_wrapped.
  repeat constructor; intros Hc%containsb_spec; by vm_compute in Hc.
Defined.

Lemma process_slide_title_no_newline_witness :
  process_slide_title (py "Slide 1: Intr") = None.
Proof. apply process_slide_title_no_newline. not_in_literal. Defined.

Lemma process_slide_title_well_formed_witness :
  process_slide_title
    (py "Slide " ++ py "12" ++ py ": " ++ py "Uses of AI" ++ 10 :: py "* one") =
  Some (py "12", py "Uses of AI", join (py ", ") (points_list_of (strip (py "* one")))).
Proof.
  apply process_slide_title_well_formed;
    [done|by repeat constructor|done|by vm_compute|not_in_literal].
Defined.

Lemma process_slide_title_fields_witness :
  py "3" <> [] /\ Forall (fun c => isdecimal c = true) (py "3") /\
  py "Plan" <> [] /\ strip (py "Plan") = py "Plan" /\ (10 ∉ py "Plan") /\
  10 ∈ py "Slide 3: Plan  " ++ [10] ++ py "* a".
Proof.
  apply (process_slide_title_fields
    (py "Slide 3: Plan  " ++ [10] ++ py "* a") (py "3") (py "Plan") (py "a")).
  by vm_compute.
Defined.

(** The text after the last marker loses its last two characters: here
    they are all of the body. *)
Example last_fragment_loses_text :
  remove_double_asteris (split_into_slides (py "Slide 1: A" ++ [10] ++ py "bc")) =
    [py "Slide 1: A" ++ [10]] /\
  process_slide_title (py "Slide 1: A" ++ [10]) = Some (py "1", py "A", []).
Proof. by vm_compute. Qed.

(** A marker needs its colon, not the space after it: "Slide 3:x" is cut
    out as a fragment, and [process_slide_title] does not read it. *)
Example fragment_without_space :
  remove_double_asteris
    (split_into_slides (py "Slide 3:x" ++ [10] ++ py "p" ++ [10; 10; 10])) =
    [py "Slide 3:x" ++ [10] ++ py "p"] /\
  process_slide_title (py "Slide 3:x" ++ [10] ++ py "p") = None.
Proof. by vm_compute. Qed.
