(* ===== verification/Patterns.v ===== *)
(** * Patterns: the two regular expressions of [App1.py], run by the engine

    [slide_pattern] and [header_pattern] are what [re.compile] reads from
    the pattern texts of lines 40 and 74.  The theorems of this file show
    that the matchers written by hand in [Markers] ([slide_match] with
    the scan [findall_go], and [header_match]) compute, on every text,
    what the backtracking engine of [Regex] computes for the patterns:
    the order in which the engine tries the ways to match never shows,
    because a digit is no colon and the lazy body stops at the first
    place the lookahead holds. *)

From S2P Require Import Prelude PyStr Regex Markers.

#[local] Open Scope N_scope.

(** ** The patterns *)

(** [Slide \d+:] followed by [r], and alone. *)
Definition marker_then (r : re) : re :=
  lit_then (py "Slide ") (Cat (Rep CDigit 1 true) (Cat (One (CLit 58)) r)).

Definition marker_re : re := marker_then Empty.

(** The pattern of line 40, as [re.compile] reads it: the group, then
    the lookahead. *)
Definition slide_pattern : re :=
  Cat (Group 1 (marker_then (Cat (Rep CDot 0 false) Empty)))
  (Cat (Ahead (Alt marker_re (Cat Eos Empty))) Empty).

(** The pattern of line 74. *)
Definition header_pattern : re :=
  lit_then (py "Slide ")
    (Cat (Group 1 (Cat (Rep CDigit 1 true) Empty))
    (lit_then (py ": ")
    (Cat (Group 2 (Cat (Rep CDot 1 true) Empty)) Empty))).

(** [split_into_slides] and [process_slide_title] with the engine in the
    place of the matchers: lines 40-47 and lines 74-78. *)
Definition split_into_slides_re `{UnicodeDb} (content : pystr) : list pystr :=
  (fun m => py "**" ++ slice_to m (-2)) <$> re_findall true slide_pattern content.

Definition header_match_re `{UnicodeDb} (slide_header : pystr) : option (pystr * pystr) :=
  (fun g => (group g 1, group g 2)) <$> re_match false header_pattern slide_header.

(** ** The patterns are what the texts of the source compile to *)

Lemma slide_pattern_compiled :
  re_compile (py "(Slide \d+:.*?)(?=Slide \d+:|$)") = Some slide_pattern.
Proof. reflexivity. Qed.

Lemma header_pattern_compiled :
  re_compile (py "Slide (\d+): (.+)") = Some header_pattern.
Proof. reflexivity. Qed.

Section patterns.
Context `{UnicodeDb}.

Implicit Types (t s : pystr) (g : gmap nat pystr)
  (k : pystr -> gmap nat pystr -> option (pystr * gmap nat pystr)).

(** ** The marker *)

Lemma digit_not_colon x : isdecimal x = true -> (x =? 58) = false.
Proof.
  intros Hx. apply N.eqb_neq. intros ->. by rewrite isdecimal_ascii in Hx.
Qed.

(** The engine on [Slide \d+:] is [marker_len]: giving a digit back
    cannot make the colon match. *)
Lemma exec_marker_then dotall r t g k :
  exec dotall (marker_then r) t g k =
  match marker_len t with
  | Some h => exec dotall r (drop h t) g k
  | None => None
  end.
Proof.
  unfold marker_then, marker_len. rewrite exec_lit_then, exec_Cat, exec_Rep.
  destruct (startswith t (py "Slide ")); [|done].
  change (length (py "Slide ")) with 6%nat.
  change (cset_match dotall CDigit) with isdecimal.
  rewrite rep_greedy_commit
    by (intros x t' Hx; cbn [exec cset_match]; by rewrite digit_not_colon).
  pose proof (drop_take_while isdecimal (drop 6 t)) as Hd.
  destruct (take_while isdecimal (drop 6 t)) as [|d ds]; [done|].
  rewrite decide_True by (simpl; lia).
  rewrite drop_drop in Hd.
  destruct (drop_while isdecimal (drop 6 t)) as [|c rest]; [done|].
  cbn [head exec cset_match].
  destruct (decide (c = 58)) as [->|Hc].
  - change (58 =? 58) with true. cbn iota. f_equal. by rewrite <- drop_drop, Hd.
  - apply N.eqb_neq in Hc as Hc'. rewrite Hc'. clear -Hc.
    destruct c as [|p]; [done|]. by repeat (destruct p as [p|p|]; try done).
Qed.

(** The engine on [(?=Slide \d+:|$)] is [lookahead]. *)
Lemma exec_lookahead dotall t g k :
  exec dotall (Ahead (Alt marker_re (Cat Eos Empty))) t g k =
  if lookahead t then k t g else None.
Proof.
  cbn [exec]. unfold marker_re. rewrite exec_marker_then.
  unfold lookahead, at_end, marker_at. cbn [exec].
  destruct (marker_len t) as [h|]; [by rewrite bool_decide_eq_true_2 by done|].
  rewrite (bool_decide_eq_false_2 (is_Some None)) by apply is_Some_None.
  cbn [orb exec].
  by destruct (bool_decide (t = []) || bool_decide (t = [10])).
Qed.

(** The engine on the whole pattern is [slide_match]; a match is never
    empty, so it makes no difference whether it has to advance. *)
Lemma match_at_slide adv t :
  match_at true adv slide_pattern t =
  h ← slide_match t; Some (drop h t, {[1%nat := take h t]}).
Proof.
  unfold match_at, slide_pattern, slide_match.
  rewrite exec_Cat, exec_Group, exec_marker_then.
  destruct (marker_len t) as [h|] eqn:Hh; [|done]. cbn [mbind option_bind].
  rewrite exec_Cat, exec_Rep. 
  setoid_rewrite exec_Cat. setoid_rewrite exec_lookahead. cbn [exec].
  pose proof (marker_len_bounds _ _ Hh) as Hb.
  pose proof (lazy_len_le (drop h t)) as Hle. rewrite length_drop in Hle.
  set (n := lazy_len (drop h t)) in *.
  rewrite (rep_lazy_pass _ n); cbn beta.
  - assert (lookahead (drop n (drop h t)) = true) as Hstop by apply lazy_len_stop.
    rewrite rep_lazy_here; rewrite Hstop; unfold accept;
      rewrite !length_drop, bool_decide_eq_false_2, andb_false_r by lia; [|done].
    rewrite drop_drop, insert_empty.
    by replace (length t - (length t - h - n))%nat with (h + n)%nat by lia.
  - rewrite length_drop. lia.
  - by apply Forall_true.
  - intros j Hj. by rewrite lazy_len_before.
Qed.

(** What [findall] takes of a match of the pattern: its length and the
    text of the group, which is all of it. *)
Lemma scan_match_slide adv t :
  scan_match true (fun _ g => group g 1) slide_pattern adv t =
  h ← slide_match t; Some (h, take h t).
Proof.
  unfold scan_match. rewrite match_at_slide.
  destruct (slide_match t) as [h|] eqn:Hh; [|done]. cbn [mbind option_bind].
  apply slide_match_bounds in Hh as Hb. rewrite length_drop.
  replace (length t - (length t - h))%nat with h by lia.
  unfold group. by rewrite lookup_singleton.
Qed.


(** ** The scan *)

(** For a pattern that matches no empty text, the scan of [findall] is
    the scan of [Markers]. *)
Lemma findall_scan_go (m : bool -> pystr -> option (nat * pystr))
    (match_at : pystr -> option nat) skip s :
  (forall adv t, m adv t = n ← match_at t; Some (n, take n t)) ->
  (forall t, match_at t <> Some 0%nat) -> match_at [] = None ->
  findall_scan m skip s = findall_go match_at skip s.
Proof.
  intros Hm Hpos Hnil. revert skip. induction s as [|c s IH]; intros skip.
  - destruct skip; cbn [findall_scan findall_go]; [|done]. by rewrite Hm, Hnil.
  - destruct skip as [|skip]; cbn [findall_scan findall_go]; [|apply IH].
    rewrite Hm. specialize (Hpos (c :: s)).
    destruct (match_at (c :: s)) as [[|n]|]; cbn [mbind option_bind]; [done| |apply IH].
    by rewrite IH.
Qed.

(** C11 (equivalence).  On every text, [findall] with the pattern of line
    40, run by the backtracking engine under [re.DOTALL], gives the
    matches that the scan of [Markers] gives with [slide_match]. *)
Theorem slide_pattern_findall_regex content :
  re_findall true slide_pattern content = slide_pattern_findall content.
Proof.
  apply findall_scan_go.
  - apply scan_match_slide.
  - intros t Ht. apply slide_match_bounds in Ht. lia.
  - done.
Qed.

Lemma split_into_slides_regex content :
  split_into_slides_re content = split_into_slides content.
Proof. unfold split_into_slides_re. by rewrite slide_pattern_findall_regex. Qed.


(** ** The header *)

Lemma cset_dot_line : cset_match false CDot = fun c => negb (c =? 10).
Proof. done. Qed.

(** On every header, [re.match] with the pattern of
    line 74, run by the backtracking engine, gives the two groups that
    [header_match] gives, and fails when it fails. *)
Lemma header_match_regex slide_header :
  header_match_re slide_header = header_match slide_header.
Proof.
  unfold header_match_re, re_match, match_at, header_pattern, header_match.
  rewrite exec_lit_then. destruct (startswith slide_header (py "Slide ")); [|done].
  change (length (py "Slide ")) with 6%nat. set (t := drop 6 slide_header).
  rewrite exec_Cat, exec_Group, exec_Cat, exec_Rep.
  change (cset_match false CDigit) with isdecimal.
  rewrite rep_greedy_commit.
  2:{ intros x t' Hx. cbn [exec]. rewrite exec_lit_then.
      change (py ": ") with [58; 32]. cbn [startswith]. by rewrite digit_not_colon. }
  destruct (take_while isdecimal t) as [|d ds] eqn:Hnum; [done|].
  rewrite decide_True by (simpl; lia). rewrite bool_decide_eq_true_2 by done.
  cbn [andb exec]. rewrite exec_lit_then, take_drop_while_length, Hnum.
  set (rest := drop_while isdecimal t). destruct (startswith rest (py ": ")); [|done].
  change (length (py ": ")) with 2%nat. set (t2 := drop 2 rest).
  rewrite exec_Cat, exec_Group, exec_Cat, exec_Rep, cset_dot_line.
  set (p := fun c => negb (c =? 10)).
  pose proof (take_drop_while_length p t2) as Hcut.
  destruct (take_while p t2) as [|x title] eqn:Ht.
  - rewrite rep_greedy_short by (rewrite Ht; simpl; lia).
    by rewrite bool_decide_eq_false_2 by (by intros ?).
  - rewrite rep_greedy_max by (by rewrite ?Ht; simpl; try lia).
    cbn [exec]. unfold accept, group. cbn [andb mbind option_bind fmap option_fmap option_map].
    rewrite Hcut, bool_decide_eq_true_2 by done. by simplify_map_eq.
Qed.
End patterns.

(** ** Runs of the engine *)

(** The pattern of line 40 has one group, so [findall] gives the texts of
    the group; the pattern of line 74 has the two groups the code
    reads. *)
Example patterns_groups : groups slide_pattern = 1%nat /\ groups header_pattern = 2%nat.
Proof. done. Qed.

Example slide_pattern_findall_two :
  re_findall true slide_pattern (py "intro Slide 1: A" ++ [10] ++ py "Slide 22:B") =
  [py "Slide 1: A" ++ [10]; py "Slide 22:B"].
Proof. by vm_compute. Qed.

Example header_pattern_groups :
  re_match false header_pattern (py "Slide 12: Uses of AI") =
  Some {[0%nat := py "Slide 12: Uses of AI"; 1%nat := py "12"; 2%nat := py "Uses of AI"]}.
Proof. by vm_compute. Qed.

(** The digits are taken greedily and given back when what follows asks
    for one: [\d+1] on "121". *)
Example greedy_gives_back :
  re_findall0 false (Cat (Rep CDigit 1 true) (Cat (One (CLit 49)) Empty)) (py "121 7") =
  [py "121"].
Proof. by vm_compute. Qed.

(** An empty match is followed by a match that advances: [\d*] on "a1"
    gives the empty text, "1" and the empty text at the end. *)
Example findall_empty_matches :
  re_findall0 false (Rep CDigit 0 true) (py "a1") = [[]; py "1"; []].
Proof. by vm_compute. Qed.
