(* ===== verification/DeckB.v ===== *)
(** * DeckB: the deck assembler and the script of [App1.py]

    [create_presentation] asks the model once, gives the text back when it
    starts with "Error" and the cleaned fragments otherwise;
    [generate_ppt] makes one slide for each fragment, from what
    [process_slide_title] reads in it, and raises [TypeError] at the first
    fragment that [process_slide_title] does not read; the script shows
    the fragments and offers the deck for download. *)

From S2P Require Import Prelude PyStr Pptx Runtime Requester Markers.

Module App1.

(** What [create_presentation] returns: a [str] or a [list] of [str]. *)
Inductive StrOrList : Type :=
| Str (content : pystr)
| List (slides : list pystr).

(** [create_presentation(title, topics)], lines 55-64. *)
Definition create_presentation `{UnicodeDb} (env : Env) (title : pystr)
    (topics : list pystr) : M StrOrList :=
  content ← Requester.App1.generate_content env title topics;
  if startswith content (py "Error") then mret (Str content)
  else
    let slides := split_into_slides content in
    let filtered_slides := remove_double_asteris slides in
    emit (StTextArea (py "raw content") content 200);;
    mret (List filtered_slides).

(** Lines 96-103: the body of the loop of [generate_ppt].  Unpacking
    [None] into three names raises [TypeError]. *)
Definition add_fragment_slide `{UnicodeDb} (prs : Presentation) (slide_content : pystr)
    : M Presentation :=
  match process_slide_title slide_content with
  | None => raise TypeError
  | Some (no, title, content) =>
    let '(prs, slide) := add_slide prs 1 in
    let prs := set_text prs (slide, PhTitle) (no ++ py "." ++ title) in
    let prs := set_text prs (slide, PhBody) content in
    mret prs
  end.

(** [generate_ppt(slides)], lines 93-108: the stream it returns holds the
    deck. *)
Definition generate_ppt `{UnicodeDb} (slides : list pystr) : M Presentation :=
  let prs := new_presentation in
  prs ← for_each add_fragment_slide prs slides;
  let ppt_stream := prs in
  mret ppt_stream.

(** What a [for] loop over the value goes through: the items of a list,
    the characters of a [str]. *)
Definition items (slides : StrOrList) : list pystr :=
  match slides with
  | Str content => (fun c => [c]) <$> content
  | List slides => slides
  end.

(** Line 128: [isinstance(slides, str) and slides.startswith("Error")]. *)
Definition is_error (slides : StrOrList) : bool :=
  match slides with
  | Str content => startswith content (py "Error")
  | List _ => false
  end.

(** Line 120: the topics of the text area. *)
Definition parse_topics (topics_input : pystr) : list pystr :=
  strip <$> List.filter (fun topic => bool_decide (strip topic <> []))
              (split topics_input NEWLINE (-1)).

(** Line 141. *)
Definition file_name_of (title : pystr) : pystr :=
  replace title (py " ") (py "_") ++ py "_presentation.pptx".

(** Line 142. *)
Definition MIME : pystr :=
  py "application/vnd.openxmlformats-officedocument.presentationml.presentation".

(** [str(i)] for the numbers of the slides, from 1: the decimal digits. *)
Fixpoint digits_fuel (fuel : nat) (n : N) (acc : pystr) : pystr :=
  match fuel with
  | O => acc
  | S fuel' =>
    let acc := (48 + n mod 10)%N :: acc in
    if (n <? 10)%N then acc else digits_fuel fuel' (n / 10)%N acc
  end.

Definition str_of_nat (i : nat) : pystr := digits_fuel (S i) (N.of_nat i) [].

(** Lines 135-137: the fragments on the page. *)
Definition show_slides (slides : list pystr) : M unit :=
  for_each (fun i slide =>
      emit (StSubheader (py "Slide " ++ str_of_nat i));;
      emit (StTextArea (py "Slide " ++ str_of_nat i ++ py " Content") slide 200);;
      mret (S i))
    1%nat slides ≫= fun _ => mret tt.

(** Lines 111-143: one run of the script, with the values of the form. *)
Definition main `{UnicodeDb} (env : Env) (title topics_input : pystr) (submit : bool)
    : M unit :=
  emit (StTitle (py "AI-Powered Presentation Creator"));;
  if submit then
    let topics := parse_topics topics_input in
    match topics with
    | [] => emit (StError (py "Please enter at least one topic."))
    | _ :: _ =>
      emit (StInfo (py "Generating your presentation. Please wait..."));;
      slides ← create_presentation env title topics;
      if is_error slides then
        match slides with
        | Str content => emit (StError content)
        | List _ => mret tt
        end
      else
        emit (StSuccess (py "Presentation content generated successfully!"));;
        ppt_stream ← generate_ppt (items slides);
        show_slides (items slides);;
        emit (StDownloadButton (py "Download PowerPoint Presentation") ppt_stream
                (file_name_of title) MIME)
    end
  else mret tt.

(** ** The run in closed form *)

(** The slide of a fragment read as number, title and points. *)
Definition fragment_slide_spec (row : pystr * pystr * pystr) : Slide :=
  mkSlide 1 (text_setter (row.1.1 ++ py "." ++ row.1.2)) (text_setter row.2).

(** The fragments [create_presentation] returns for a text. *)
Definition cleaned `{UnicodeDb} (content : pystr) : list pystr :=
  (fun m => replace (trimmed m) (py "**") []) <$> slide_pattern_findall content.

(** What [show_slides] puts on the page, counting from [i]. *)
Fixpoint slide_events (i : nat) (slides : list pystr) : list UiEvent :=
  match slides with
  | [] => []
  | slide :: slides' =>
    StSubheader (py "Slide " ++ str_of_nat i)
      :: StTextArea (py "Slide " ++ str_of_nat i ++ py " Content") slide 200
      :: slide_events (S i) slides'
  end.

(** The text of the model for a run, or the sentinel of a failure, and
    the message of the failure. *)
Definition content_of (env : Env) (title : pystr) (topics : list pystr) : pystr :=
  (requested env (Requester.App1.prompt_of title topics)).1.

Definition failure_of (env : Env) (title : pystr) (topics : list pystr) : list UiEvent :=
  (requested env (Requester.App1.prompt_of title topics)).2.

(** What a run puts on the page up to the call of [generate_ppt], when
    the text does not start with "Error". *)
Definition events_before_deck (env : Env) (title : pystr) (topics : list pystr)
    : list UiEvent :=
  [StTitle (py "AI-Powered Presentation Creator");
   StInfo (py "Generating your presentation. Please wait...")]
  ++ failure_of env title topics
  ++ [StTextArea (py "raw content") (content_of env title topics) 200;
      StSuccess (py "Presentation content generated successfully!")].

(** ** Lemmas: the steps of a run *)

Section steps.
Context `{UnicodeDb}.
Implicit Types (env : Env) (title : pystr) (topics : list pystr) (w : World).

Lemma create_presentation_App1_steps env title topics w :
  create_presentation env title topics w =
  let content := content_of env title topics in
  let w' := say w (failure_of env title topics) in
  if startswith content (py "Error") then Done (Str content) w'
  else Done (List (cleaned content)) (say w' [StTextArea (py "raw content") content 200]).
Proof.
  unfold create_presentation.
  erewrite bind_Done by apply App1_generate_content_run.
  fold (content_of env title topics) (failure_of env title topics). cbv zeta.
  destruct (startswith _ _); [done|].
  by rewrite bind_emit_say, remove_split_into_slides.
Qed.

Lemma add_fragment_slide_steps prs slide_content w :
  add_fragment_slide prs slide_content w =
  match process_slide_title slide_content with
  | Some row => Done (prs ++ [fragment_slide_spec row]) w
  | None => Raised TypeError w
  end.
Proof.
  unfold add_fragment_slide.
  destruct (process_slide_title slide_content) as [[[no title] content]|]; [|done].
  unfold add_slide, set_text, alter_placeholder. cbn [fst snd].
  by rewrite !alter_added.
Qed.

Lemma for_each_add_fragment_slide prs slides w :
  for_each add_fragment_slide prs slides w =
  match mapM process_slide_title slides with
  | Some rows => Done (prs ++ (fragment_slide_spec <$> rows)) w
  | None => Raised TypeError w
  end.
Proof.
  revert prs. induction slides as [|slide slides IH]; intros prs.
  { cbn. by rewrite app_nil_r. }
  cbn [for_each mapM]. unfold mbind at 1, M_bind. rewrite add_fragment_slide_steps.
  destruct (process_slide_title slide) as [row|]; [|done]. rewrite IH. cbn.
  destruct (mapM process_slide_title slides) as [rows|]; [|done]. cbn.
  by rewrite <- app_assoc.
Qed.

Lemma generate_ppt_steps slides w :
  generate_ppt slides w =
  match mapM process_slide_title slides with
  | Some rows => Done (fragment_slide_spec <$> rows) w
  | None => Raised TypeError w
  end.
Proof.
  unfold generate_ppt, mbind at 1, M_bind. rewrite for_each_add_fragment_slide.
  by destruct (mapM process_slide_title slides).
Qed.

Lemma show_slides_from i slides w :
  for_each (fun i slide =>
      emit (StSubheader (py "Slide " ++ str_of_nat i));;
      emit (StTextArea (py "Slide " ++ str_of_nat i ++ py " Content") slide 200);;
      mret (S i)) i slides w =
  Done (i + length slides)%nat (say w (slide_events i slides)).
Proof.
  revert i w. induction slides as [|slide slides IH]; intros i w.
  { cbn. by rewrite say_nil, Nat.add_0_r. }
  cbn [for_each slide_events length]. erewrite bind_Done by reflexivity.
  rewrite IH. unfold say. cbn [ui fs]. rewrite <- !app_assoc. f_equal. lia.
Qed.

Lemma show_slides_steps slides w :
  show_slides slides w = Done tt (say w (slide_events 1 slides)).
Proof. unfold show_slides. by erewrite bind_Done by apply show_slides_from. Qed.

(** A run of the script with the form submitted, case by case. *)
Lemma main_App1_steps env title topics_input w :
  main env title topics_input true w =
  match parse_topics topics_input with
  | [] =>
    Done tt (say w [StTitle (py "AI-Powered Presentation Creator");
                    StError (py "Please enter at least one topic.")])
  | topics =>
    let content := content_of env title topics in
    if startswith content (py "Error") then
      Done tt (say w ([StTitle (py "AI-Powered Presentation Creator");
                       StInfo (py "Generating your presentation. Please wait...")]
                      ++ failure_of env title topics ++ [StError content]))
    else
      let w' := say w (events_before_deck env title topics) in
      match mapM process_slide_title (cleaned content) with
      | None => Raised TypeError w'
      | Some rows =>
        Done tt (say w' (slide_events 1 (cleaned content) ++
          [StDownloadButton (py "Download PowerPoint Presentation")
             (fragment_slide_spec <$> rows) (file_name_of title) MIME]))
      end
  end.
Proof.
  unfold main. rewrite bind_emit_say.
  destruct (parse_topics topics_input) as [|topic topics]; [by autorewrite with py|].
  rewrite bind_emit_say, bind_run, create_presentation_App1_steps. cbv zeta.
  destruct (startswith (content_of env title (topic :: topics)) (py "Error")) eqn:E.
  { cbn [is_error]. rewrite E. by autorewrite with py. }
  cbn [is_error items]. rewrite bind_emit_say, bind_run, generate_ppt_steps.
  unfold events_before_deck. autorewrite with py.
  destruct (mapM process_slide_title _) as [rows|]; rewrite <- ?app_assoc; [|done].
  erewrite bind_Done by apply show_slides_steps.
  autorewrite with py. by rewrite <- !app_assoc.
Qed.

(** A run ends, with a return or with [TypeError], and leaves the files
    as they were. *)
Lemma main_App1_outcome env title topics_input submit w :
  exists w', fs w' = fs w /\
    (main env title topics_input submit w = Done tt w' \/
     main env title topics_input submit w = Raised TypeError w').
Proof.
  assert (forall o : outcome unit,
    (exists w', o = Done tt w' /\ fs w' = fs w) \/
    (exists w', o = Raised TypeError w' /\ fs w' = fs w) ->
    exists w', fs w' = fs w /\ (o = Done tt w' \/ o = Raised TypeError w')) as Hends
    by (intros o [(w' & -> & ?)|(w' & -> & ?)]; eauto).
  apply Hends. destruct submit; [|left; by eexists]. rewrite main_App1_steps.
  destruct (parse_topics topics_input) as [|topic topics]; [left; by eexists|].
  cbv zeta. destruct (startswith _ _); [left; by eexists|].
  destruct (mapM process_slide_title _); [left|right]; by eexists.
Qed.

Lemma cleaned_length content : length (cleaned content) = count_markers content.
Proof. unfold cleaned. by rewrite length_fmap, slide_pattern_findall_length. Qed.

Lemma fragment_slide_spec_texts no title points :
  title_text (fragment_slide_spec (no, title, points)) = no ++ py "." ++ title /\
  body_text (fragment_slide_spec (no, title, points)) = points.
Proof.
  unfold title_text, body_text, fragment_slide_spec. cbn [title_frame body_frame fst snd].
  by rewrite !text_getter_setter.
Qed.

(** ** Theorems on [generate_ppt] *)

(** C6 (error).  [generate_ppt] raises [TypeError] when
    [process_slide_title] returns [None] for one of the fragments: the
    fragment is not passed over, and no deck is made. *)
Theorem generate_ppt_raises slides w :
  Exists (fun slide => process_slide_title slide = None) slides ->
  generate_ppt slides w = Raised TypeError w.
Proof. intros Hs%mapM_None_2. by rewrite generate_ppt_steps, Hs. Qed.

(** C36 (functional).  When [process_slide_title] reads every fragment,
    [generate_ppt] returns a deck with one slide per fragment, in order,
    all of layout 1 (there is no title slide); the title of a slide is
    the number, a dot and the heading, its body the points. *)
Theorem generate_ppt_slides slides w :
  Forall (fun slide => is_Some (process_slide_title slide)) slides ->
  exists deck,
    generate_ppt slides w = Done deck w /\
    Forall (fun s => slide_layout s = 1%nat) deck /\
    Forall2 (fun slide s => exists no title points,
               process_slide_title slide = Some (no, title, points) /\
               title_text s = no ++ py "." ++ title /\ body_text s = points)
      slides deck.
Proof.
  intros [rows Hrows]%mapM_is_Some_2. exists (fragment_slide_spec <$> rows).
  rewrite generate_ppt_steps, Hrows. split; [done|].
  split; [by apply Forall_fmap, Forall_true|].
  apply mapM_Some_1 in Hrows. apply Forall2_fmap_r.
  eapply Forall2_impl; [exact Hrows|]. intros slide [[no title] points] Hrow.
  exists no, title, points. split; [done|]. apply fragment_slide_spec_texts.
Qed.

Lemma wf_fragment_slide_spec row : wf_slide (fragment_slide_spec row).
Proof. split; [simpl; lia|]. split; apply wf_text_setter. Qed.

(** A deck that [generate_ppt] returns is well formed,
    whatever the fragments hold: the texts it sets are cut into
    paragraphs and runs by python-pptx, and it sets nothing else. *)
Lemma generate_ppt_wf slides w :
  match generate_ppt slides w with
  | Done deck _ => wf_presentation deck
  | _ => True
  end.
Proof.
  rewrite generate_ppt_steps. destruct (mapM process_slide_title slides); [|done].
  apply Forall_fmap, Forall_true, wf_fragment_slide_spec.
Qed.

(** ** Theorems on the script *)

(** C35 (safety).  A run of the script of variant B always ends; it writes
    no file; and the one exception it can end with is the [TypeError] of
    [generate_ppt]. *)
Theorem main_App1_safe env title topics_input submit w :
  match main env title topics_input submit w with
  | Done _ w' => fs w' = fs w
  | Raised e w' => e = TypeError /\ fs w' = fs w
  | Diverged => False
  end.
Proof.
  by destruct (main_App1_outcome env title topics_input submit w) as (w' & ? & [-> | ->]).
Qed.

(** Without a credential no deck is made: the page gets the
    two error messages and no download button. *)
Lemma main_App1_missing_key env title topics_input w :
  truthy (GEMINI_API_KEY env) = false -> parse_topics topics_input <> [] ->
  main env title topics_input true w =
  Done tt (say w [StTitle (py "AI-Powered Presentation Creator");
                  StInfo (py "Generating your presentation. Please wait...");
                  StError MSG_KEY_NOT_FOUND; StError ERROR_MISSING_KEY]).
Proof.
  intros Hkey Ht. rewrite main_App1_steps.
  destruct (parse_topics topics_input) as [|topic topics]; [done|].
  unfold content_of, failure_of, requested. by rewrite Hkey.
Qed.

(** C38 (error).  A text of the model that starts with "Error" is taken
    for a failure: it is shown as an error and no deck is made, although
    the call succeeded. *)
Theorem main_App1_error_text env title topics_input text w :
  truthy (GEMINI_API_KEY env) = true -> parse_topics topics_input <> [] ->
  model_generate_content env
    (Requester.App1.prompt_of title (parse_topics topics_input)) = ResponseText text ->
  startswith text (py "Error") = true ->
  main env title topics_input true w =
  Done tt (say w [StTitle (py "AI-Powered Presentation Creator");
                  StInfo (py "Generating your presentation. Please wait...");
                  StError text]).
Proof.
  intros Hkey Ht Hmodel Htext. rewrite main_App1_steps.
  destruct (parse_topics topics_input) as [|topic topics]; [done|].
  unfold content_of, failure_of, requested. rewrite Hkey, Hmodel. cbn [negb fst snd].
  by rewrite Htext.
Qed.

(** C34 (error).  When the text of the model has a fragment that
    [process_slide_title] does not read, the run ends with [TypeError],
    after the page has said that the content was generated
    successfully. *)
Theorem main_App1_raises env title topics_input text w :
  truthy (GEMINI_API_KEY env) = true -> parse_topics topics_input <> [] ->
  model_generate_content env
    (Requester.App1.prompt_of title (parse_topics topics_input)) = ResponseText text ->
  startswith text (py "Error") = false ->
  Exists (fun slide => process_slide_title slide = None) (cleaned text) ->
  main env title topics_input true w =
  Raised TypeError
    (say w [StTitle (py "AI-Powered Presentation Creator");
            StInfo (py "Generating your presentation. Please wait...");
            StTextArea (py "raw content") text 200;
            StSuccess (py "Presentation content generated successfully!")]).
Proof.
  intros Hkey Ht Hmodel Htext Hbad%mapM_None_2. rewrite main_App1_steps.
  destruct (parse_topics topics_input) as [|topic topics]; [done|].
  unfold events_before_deck, content_of, failure_of, requested.
  rewrite Hkey, Hmodel. cbn [negb fst snd]. by rewrite Htext, Hbad.
Qed.

(** When [process_slide_title] reads every fragment
    of the text of the model, the run ends with a download button that
    carries a deck of as many slides as the text has markers, under the
    name made from the title. *)
Lemma main_App1_deck env title topics_input text w :
  truthy (GEMINI_API_KEY env) = true -> parse_topics topics_input <> [] ->
  model_generate_content env
    (Requester.App1.prompt_of title (parse_topics topics_input)) = ResponseText text ->
  startswith text (py "Error") = false ->
  Forall (fun slide => is_Some (process_slide_title slide)) (cleaned text) ->
  exists events deck,
    main env title topics_input true w =
    Done tt (say w (events ++
      [StDownloadButton (py "Download PowerPoint Presentation") deck
         (file_name_of title) MIME])) /\
    length deck = count_markers text.
Proof.
  intros Hkey Ht Hmodel Htext [rows Hrows]%mapM_is_Some_2. rewrite main_App1_steps.
  destruct (parse_topics topics_input) as [|topic topics]; [done|].
  unfold events_before_deck, content_of, failure_of, requested.
  rewrite Hkey, Hmodel. cbn [negb fst snd]. rewrite Htext, Hrows. cbv zeta.
  rewrite say_say, (assoc_L (++)). eexists _, _. split; [done|].
  by rewrite length_fmap, <- (length_mapM _ _ _ Hrows), cleaned_length.
Qed.

End steps.

(** ** The theorems on concrete runs

    The database is [ascii_db]; the model answers every prompt with the
    same text. *)

Definition env_with (text : pystr) : Env := mkEnv (Some (py "key")) (fun _ => ResponseText text).

(** Two slides on one line: no fragment has a newline. *)
Definition one_line_text : pystr := py "Slide 1: Intro Slide 2: More".

(** Two slides as the prompt asks for them. *)
Definition two_slide_text : pystr :=
  py "Slide 1: Intro" ++ [10%N] ++ py "* a" ++ [10%N; 10%N] ++
  py "Slide 2: More" ++ [10%N] ++ py "* b" ++ [10%N; 10%N; 10%N].

Lemma generate_ppt_raises_witness :
  generate_ppt [py "Slide 1: Intr"] empty_world = Raised TypeError empty_world.
Proof. apply generate_ppt_raises. apply Exists_cons_hd. by vm_compute. Defined.

Lemma generate_ppt_slides_witness :
  exists deck,
    generate_ppt (cleaned two_slide_text) empty_world = Done deck empty_world /\
    Forall (fun s => slide_layout s = 1%nat) deck /\
    Forall2 (fun slide s => exists no title points,
               process_slide_title slide = Some (no, title, points) /\
               title_text s = no ++ py "." ++ title /\ body_text s = points)
      (cleaned two_slide_text) deck.
Proof. apply generate_ppt_slides. by_compute. Defined.

Lemma main_App1_missing_key_witness :
  main (mkEnv None (fun _ => ResponseText [])) (py "T") (py "a") true empty_world =
  Done tt (say empty_world [StTitle (py "AI-Powered Presentation Creator");
                  StInfo (py "Generating your presentation. Please wait...");
                  StError MSG_KEY_NOT_FOUND; StError ERROR_MISSING_KEY]).
Proof. apply main_App1_missing_key; [done|by vm_compute]. Defined.

Lemma main_App1_error_text_witness :
  main (env_with (py "Errors are common")) (py "T") (py "a") true empty_world =
  Done tt (say empty_world [StTitle (py "AI-Powered Presentation Creator");
                  StInfo (py "Generating your presentation. Please wait...");
                  StError (py "Errors are common")]).
Proof. apply main_App1_error_text; [done|by vm_compute|done|done]. Defined.

Lemma main_App1_raises_witness :
  main (env_with one_line_text) (py "T") (py "a") true empty_world =
  Raised TypeError
    (say empty_world [StTitle (py "AI-Powered Presentation Creator");
            StInfo (py "Generating your presentation. Please wait...");
            StTextArea (py "raw content") one_line_text 200;
            StSuccess (py "Presentation content generated successfully!")]).
Proof.
  apply main_App1_raises; [done|by vm_compute|done|done|by_compute].
Defined.

Lemma main_App1_deck_witness :
  exists events deck,
    main (env_with two_slide_text) (py "T") (py "a") true empty_world =
    Done tt (say empty_world (events ++
      [StDownloadButton (py "Download PowerPoint Presentation") deck
         (file_name_of (py "T")) MIME])) /\
    length deck = count_markers two_slide_text.
Proof.
  apply main_App1_deck; [done|by vm_compute|done|done|by_compute].
Defined.

(** The deck of the two slides. *)
Example generate_ppt_two_slides :
  generate_ppt (cleaned two_slide_text) empty_world =
  Done [fragment_slide_spec (py "1", py "Intro", py "a");
        fragment_slide_spec (py "2", py "More", py "b")] empty_world.
Proof. by vm_compute. Qed.

End App1.
