(* ===== verification/Prompt.v ===== *)
(** * Prompt: what the model is told of the title and the topics

    [App.py] puts the list of topics into its prompt with an f-string
    (line 71), that is as [repr(topics)]: every topic between quotes,
    quotes and backslashes inside it escaped.  [App1.py] joins the topics
    with a comma and a space (line 24).  This file shows what that means
    for the model: the prompt of [App.py] can be read back, title and
    topics ([read_prompt]), so two requests that differ give two prompts
    that differ; the prompt of [App1.py] cannot, and a run of [App1.py]
    depends on the topics only through their join.

    [unrepr_go] reads a printed list of [str] back.  It is one scan of
    the text with the state [Lex]; it reads what [repr] writes and is
    not the whole syntax of Python's literals. *)

From S2P Require Import Prelude PyStr Pptx Runtime Requester DeckA Markers DeckB.

#[local] Open Scope N_scope.

(** ** Reading a printed list *)

(** The value of a hexadecimal digit in lower case. *)
Definition hex_val (c : char) : option N :=
  if (48 <=? c) && (c <=? 57) then Some (c - 48)
  else if (97 <=? c) && (c <=? 102) then Some (c - 87)
  else None.

(** Where the scan is: before the first item, before another item, in a
    string between quotes [quote], after a backslash, in the digits of
    an escape with [more] digits to come, after a string, after a
    comma. *)
Inductive Lex : Type :=
| LexFirst
| LexItem
| LexPlain (quote : char)
| LexEscape (quote : char)
| LexHex (quote : char) (more : nat) (value : N)
| LexNext
| LexSpace.

(** The scan: the strings read so far, the string being read, the text.
    The result is the list and the text after its closing bracket. *)
Fixpoint unrepr_go (st : Lex) (items : list pystr) (acc s : pystr)
    : option (list pystr * pystr) :=
  match s with
  | [] => None
  | c :: s' =>
    match st with
    | LexFirst =>
      if c =? 93 then Some (items, s')
      else if (c =? 39) || (c =? 34) then unrepr_go (LexPlain c) items [] s'
      else None
    | LexItem =>
      if (c =? 39) || (c =? 34) then unrepr_go (LexPlain c) items [] s' else None
    | LexPlain quote =>
      if c =? quote then unrepr_go LexNext (items ++ [acc]) [] s'
      else if c =? 92 then unrepr_go (LexEscape quote) items acc s'
      else unrepr_go (LexPlain quote) items (acc ++ [c]) s'
    | LexEscape quote =>
      if c =? 120 then unrepr_go (LexHex quote 2 0) items acc s'
      else if c =? 117 then unrepr_go (LexHex quote 4 0) items acc s'
      else if c =? 85 then unrepr_go (LexHex quote 8 0) items acc s'
      else if c =? 116 then unrepr_go (LexPlain quote) items (acc ++ [9]) s'
      else if c =? 110 then unrepr_go (LexPlain quote) items (acc ++ [10]) s'
      else if c =? 114 then unrepr_go (LexPlain quote) items (acc ++ [13]) s'
      else if (c =? 92) || (c =? 39) || (c =? 34) then
        unrepr_go (LexPlain quote) items (acc ++ [c]) s'
      else None
    | LexHex quote more value =>
      match hex_val c, more with
      | Some d, 1%nat => unrepr_go (LexPlain quote) items (acc ++ [value * 16 + d]) s'
      | Some d, S more' => unrepr_go (LexHex quote more' (value * 16 + d)) items acc s'
      | _, _ => None
      end
    | LexNext =>
      if c =? 93 then Some (items, s')
      else if c =? 44 then unrepr_go LexSpace items [] s'
      else None
    | LexSpace => if c =? 32 then unrepr_go LexItem items [] s' else None
    end
  end.

(** The list of [str] at the start of a text, and the text after it. *)
Definition unrepr_list (s : pystr) : option (list pystr * pystr) :=
  match s with
  | [] => None
  | c :: s' => if c =? 91 then unrepr_go LexFirst [] [] s' else None
  end.

(** A [str] of Python holds code points, which are below 0x110000. *)
Definition valid_str (s : pystr) : Prop := Forall (fun c => c < 1114112) s.

#[export] Instance valid_str_dec s : Decision (valid_str s).
Proof. unfold valid_str. apply _. Defined.

(** ** The prompt of [App.py], read back *)

Definition PROMPT_HEAD : pystr := py "Generate ppt for the topic:".
Definition PROMPT_MID : pystr := py " under title ".

(** The title and the topics of a prompt of line 71. *)
Definition read_prompt (prompt : pystr) : option (pystr * list pystr) :=
  if startswith prompt PROMPT_HEAD then
    '(topics, rest) ← unrepr_list (drop (length PROMPT_HEAD) prompt);
    if startswith rest PROMPT_MID then Some (drop (length PROMPT_MID) rest, topics)
    else None
  else None.

(** ** Lemmas: the digits of an escape *)

(** Case analysis on the comparisons of a goal. *)
Ltac N_cases :=
  repeat match goal with
  | |- context [?a <=? ?b] => destruct (N.leb_spec a b)
  | |- context [?a <? ?b] => destruct (N.ltb_spec a b)
  | |- context [?a =? ?b] => destruct (N.eqb_spec a b)
  end; cbn [andb orb negb]; try done; try lia.

Lemma hex_val_digit d : d < 16 -> hex_val (hex_digit d) = Some d.
Proof. intros Hd. unfold hex_val, hex_digit. N_cases; f_equal; lia. Qed.

Lemma pow16_succ w : 16 ^ N.of_nat (S w) = 16 * 16 ^ N.of_nat w.
Proof. by rewrite Nat2N.inj_succ, N.pow_succ_r'. Qed.

(** The quotient and the remainder by 16, for [lia]. *)
Lemma div16 m :
  exists q r, m / 16 = q /\ m mod 16 = r /\ m = 16 * q + r /\ r < 16.
Proof.
  exists (m / 16), (m mod 16). repeat split; [by apply N.div_mod|by apply N.mod_lt].
Qed.

Lemma unrepr_go_hex q w k v m items acc r :
  m < 16 ^ N.of_nat w ->
  unrepr_go (LexHex q (w + S k) v) items acc (hex_fixed w m ++ r) =
  unrepr_go (LexHex q (S k) (v * 16 ^ N.of_nat w + m)) items acc r.
Proof.
  revert k m r. induction w as [|w IH]; intros k m r Hm.
  - cbn in *. do 3 f_equal. lia.
  - rewrite pow16_succ in *. destruct (div16 m) as (d & e & Hd & He & -> & ?).
    cbn [hex_fixed]. rewrite Hd, He, <- (assoc_L (++)).
    replace (S w + S k)%nat with (w + S (S k))%nat by lia.
    rewrite IH by lia. cbn [app unrepr_go]. rewrite hex_val_digit by done.
    clear Hd He. by replace ((v * 16 ^ N.of_nat w + d) * 16 + e)
      with (v * (16 * 16 ^ N.of_nat w) + (16 * d + e)) by lia.
Qed.

(** An escape of [S w] digits is read as the number it writes. *)
Lemma unrepr_go_escape q w c items acc r :
  c < 16 ^ N.of_nat (S w) ->
  unrepr_go (LexHex q (S w) 0) items acc (hex_fixed (S w) c ++ r) =
  unrepr_go (LexPlain q) items (acc ++ [c]) r.
Proof.
  rewrite pow16_succ. intros Hc. destruct (div16 c) as (d & e & Hd & He & -> & ?).
  cbn [hex_fixed]. rewrite Hd, He, <- (assoc_L (++)).
  replace (S w) with (w + 1)%nat at 1 by lia.
  rewrite unrepr_go_hex by lia. cbn [app unrepr_go]. rewrite hex_val_digit by done.
  clear Hd He. by replace ((0 * 16 ^ N.of_nat w + d) * 16 + e) with (16 * d + e) by lia.
Qed.

(** ** Lemmas: characters, strings and lists *)

Section unrepr.
Context `{UnicodeDb}.

Implicit Types (c q : char) (s r acc : pystr) (l items : list pystr).

Definition is_quote q : Prop := q = 39 \/ q = 34.

Lemma repr_quote_quote s : is_quote (repr_quote s).
Proof. unfold repr_quote, is_quote. destruct (_ && _); auto. Qed.

(** A character that is no quote and no backslash is read as it is. *)
Lemma unrepr_go_raw q c items acc r :
  (c =? q) || (c =? 92) = false ->
  unrepr_go (LexPlain q) items acc (c :: r) = unrepr_go (LexPlain q) items (acc ++ [c]) r.
Proof. intros [Hq Hb]%orb_false_iff. cbn [unrepr_go]. by rewrite Hq, Hb. Qed.

(** After a backslash the scan is in an escape. *)
Lemma unrepr_go_backslash q e items acc r :
  is_quote q ->
  unrepr_go (LexPlain q) items acc (92 :: e :: r) = unrepr_go (LexEscape q) items acc (e :: r).
Proof. by intros [-> | ->]. Qed.

(** What [repr] writes for a character is read as the character. *)
Lemma unrepr_go_char q c items acc r :
  is_quote q -> c < 1114112 ->
  unrepr_go (LexPlain q) items acc (repr_char q c ++ r) =
  unrepr_go (LexPlain q) items (acc ++ [c]) r.
Proof.
  intros Hq Hc. unfold repr_char. repeat case_match; cbn [app];
    rewrite ?unrepr_go_backslash by done.
  - assert (c = 39 \/ c = 34 \/ c = 92) as [->|[->| ->]] by (destruct Hq; lia); done.
  - by replace c with 9 by lia.
  - by replace c with 10 by lia.
  - by replace c with 13 by lia.
  - by rewrite <- (unrepr_go_escape q 1 c items acc r)
      by (change (16 ^ N.of_nat 2) with 256; lia).
  - by apply unrepr_go_raw.
  - by apply unrepr_go_raw.
  - by rewrite <- (unrepr_go_escape q 1 c items acc r)
      by (change (16 ^ N.of_nat 2) with 256; lia).
  - by rewrite <- (unrepr_go_escape q 3 c items acc r)
      by (change (16 ^ N.of_nat 4) with 65536; lia).
  - by rewrite <- (unrepr_go_escape q 7 c items acc r)
      by (change (16 ^ N.of_nat 8) with 4294967296; lia).
Qed.

Lemma unrepr_go_body q s items acc r :
  is_quote q -> valid_str s ->
  unrepr_go (LexPlain q) items acc ((s ≫= repr_char q) ++ r) =
  unrepr_go (LexPlain q) items (acc ++ s) r.
Proof.
  intros Hq Hs. revert acc. induction Hs as [|c s Hc _ IH]; intros acc.
  - by rewrite app_nil_r.
  - cbn [mbind list_bind]. rewrite <- (assoc_L (++)), unrepr_go_char, IH by done.
    by rewrite <- (assoc_L (++)).
Qed.

(** A printed string, where an item is expected. *)
Lemma unrepr_go_str st s items acc r :
  st = LexFirst \/ st = LexItem -> valid_str s ->
  unrepr_go st items acc (repr_str s ++ r) = unrepr_go LexNext (items ++ [s]) [] r.
Proof.
  intros Hst Hs. unfold repr_str. pose proof (repr_quote_quote s) as Hq.
  set (q := repr_quote s) in *. cbn [app].
  transitivity (unrepr_go (LexPlain q) items [] (((s ≫= repr_char q) ++ [q]) ++ r)).
  { cbn [unrepr_go]. by destruct Hst as [->| ->], Hq as [->| ->]. }
  rewrite <- (assoc_L (++)), unrepr_go_body by done. cbn [app unrepr_go].
  by rewrite N.eqb_refl.
Qed.

(** The items of a printed list, up to the bracket. *)
Lemma unrepr_go_items st l items acc r :
  st = LexFirst \/ st = LexItem -> l <> [] -> Forall valid_str l ->
  unrepr_go st items acc (join [44; 32] (repr_str <$> l) ++ [93] ++ r) =
  Some (items ++ l, r).
Proof.
  intros Hst Hl Hvalid. revert st items acc Hst.
  induction Hvalid as [|s l Hs Hvalid IH]; intros st items acc Hst; [done|].
  destruct l as [|s' l].
  - cbn [fmap list_fmap join]. by rewrite unrepr_go_str.
  - change (join [44; 32] (repr_str <$> s :: s' :: l))
      with (repr_str s ++ [44; 32] ++ join [44; 32] (repr_str <$> s' :: l)).
    rewrite <- !(assoc_L (++)), unrepr_go_str by done. cbn [app unrepr_go N.eqb Pos.eqb].
    rewrite (IH ltac:(done)) by auto. by rewrite <- (assoc_L (++)).
Qed.

Lemma unrepr_repr_list l r :
  Forall valid_str l -> unrepr_list (repr_list l ++ r) = Some (l, r).
Proof.
  intros Hl. unfold repr_list. destruct l as [|s l]; [done|].
  cbn [app unrepr_list N.eqb Pos.eqb]. rewrite <- (assoc_L (++)).
  by rewrite unrepr_go_items by auto.
Qed.

(** [repr] of a list of [str] tells the lists apart. *)
Lemma repr_list_inj l1 l2 :
  Forall valid_str l1 -> Forall valid_str l2 -> repr_list l1 = repr_list l2 -> l1 = l2.
Proof.
  intros H1 H2 Heq. pose proof (unrepr_repr_list l1 [] H1) as E1.
  rewrite Heq, unrepr_repr_list in E1 by done. congruence.
Qed.

Lemma read_prompt_App title topics :
  Forall valid_str topics ->
  read_prompt (DeckA.App.prompt_of title topics) = Some (title, topics).
Proof.
  intros Hvalid. unfold read_prompt, DeckA.App.prompt_of.
  change (py "Generate ppt for the topic:") with PROMPT_HEAD.
  change (py " under title ") with PROMPT_MID.
  rewrite startswith_app, drop_app_length, unrepr_repr_list by done.
  cbn [mbind option_bind]. by rewrite startswith_app, drop_app_length.
Qed.

(** The topics of the form are made of characters of what was typed. *)
Lemma parse_topics_valid topics_input :
  valid_str topics_input -> Forall valid_str (DeckA.App.parse_topics topics_input).
Proof.
  intros Hvalid. unfold DeckA.App.parse_topics. apply Forall_fmap, Forall_forall.
  intros topic [Htopic%list_elem_of_In _]%list_elem_of_In%List.filter_In.
  apply Forall_forall. intros c Hc%elem_of_strip_with.
  unfold valid_str in Hvalid. rewrite Forall_forall in Hvalid.
  apply Hvalid. by eapply (elem_of_split _ NEWLINE); [by_compute| |].
Qed.

(** ** Lemmas: the prompt of [App1.py] *)

Lemma generate_content_App1_prompt env title1 topics1 title2 topics2 :
  Requester.App1.prompt_of title1 topics1 = Requester.App1.prompt_of title2 topics2 ->
  Requester.App1.generate_content env title1 topics1 =
  Requester.App1.generate_content env title2 topics2.
Proof. unfold Requester.App1.generate_content. by intros ->. Qed.

Lemma create_presentation_App1_prompt env title1 topics1 title2 topics2 :
  Requester.App1.prompt_of title1 topics1 = Requester.App1.prompt_of title2 topics2 ->
  DeckB.App1.create_presentation env title1 topics1 =
  DeckB.App1.create_presentation env title2 topics2.
Proof.
  intros Heq. unfold DeckB.App1.create_presentation.
  by rewrite (generate_content_App1_prompt _ _ _ _ _ Heq).
Qed.

(** ** Theorems *)

(** C26 (roundtrip).  The prompt of [App.py] says what was asked: the
    title and the topics of a run are read back from the prompt that
    the run sends, whatever characters the user typed. *)
Theorem read_prompt_of title topics_input :
  valid_str topics_input ->
  read_prompt (DeckA.App.prompt_of title (DeckA.App.parse_topics topics_input)) =
  Some (title, DeckA.App.parse_topics topics_input).
Proof. intros Hvalid. by apply read_prompt_App, parse_topics_valid. Qed.

(** C27 (equivalence).  A run of [App1.py] depends on the topics only
    through their join: two lists of topics with the same join, for one
    title, give the same page and the same deck, since the model is
    sent the same prompt. *)
Theorem main_App1_joined env title input1 input2 w :
  DeckB.App1.parse_topics input1 <> [] -> DeckB.App1.parse_topics input2 <> [] ->
  join (py ", ") (DeckB.App1.parse_topics input1) =
  join (py ", ") (DeckB.App1.parse_topics input2) ->
  DeckB.App1.main env title input1 true w = DeckB.App1.main env title input2 true w.
Proof.
  intros H1 H2 Hjoin. unfold DeckB.App1.main.
  destruct (DeckB.App1.parse_topics input1) as [|t1 l1] eqn:E1; [done|].
  destruct (DeckB.App1.parse_topics input2) as [|t2 l2] eqn:E2; [done|].
  rewrite (create_presentation_App1_prompt env title (t1 :: l1) title (t2 :: l2)); [done|].
  unfold Requester.App1.prompt_of. by rewrite Hjoin.
Qed.

End unrepr.

(** ** On concrete prompts *)

Example prompt_of_App_quotes :
  DeckA.App.prompt_of (py "T") [py "it's"; py "a\b"; [10]; [233; 8364]] =
  py "Generate ppt for the topic:[" ++ [34] ++ py "it's" ++ [34] ++ py ", 'a\\b', '\n', '\xe9\u20ac'] under title T".
Proof. reflexivity. Qed.

Example unrepr_list_rest :
  unrepr_list (py "['a, b', 'c'] and more") = Some ([py "a, b"; py "c"], py " and more") /\
  unrepr_list (py "[] x") = Some ([], py " x") /\
  unrepr_list (py "['a' 'b']") = None.
Proof. done. Qed.

Lemma read_prompt_of_witness :
  read_prompt (DeckA.App.prompt_of (py "T") (DeckA.App.parse_topics (py "it's, a" ++ [10] ++ py "b"))) =
  Some (py "T", [py "it's, a"; py "b"]).
Proof. apply (read_prompt_of (py "T") (py "it's, a" ++ [10] ++ py "b")). by_compute. Defined.

(** One topic with a comma and two topics cannot be told apart in the
    prompt of [App1.py]. *)
Lemma main_App1_joined_witness :
  DeckB.App1.main DeckA.App.demo_env (py "T") (py "a, b") true empty_world =
  DeckB.App1.main DeckA.App.demo_env (py "T") (py "a" ++ [10] ++ py "b") true empty_world.
Proof. by apply main_App1_joined. Defined.

Example prompt_of_App1_same :
  DeckB.App1.parse_topics (py "a, b") = [py "a, b"] /\
  DeckB.App1.parse_topics (py "a" ++ [10] ++ py "b") = [py "a"; py "b"] /\
  Requester.App1.prompt_of (py "T") [py "a, b"] =
  Requester.App1.prompt_of (py "T") [py "a"; py "b"] /\
  DeckA.App.prompt_of (py "T") [py "a, b"] <> DeckA.App.prompt_of (py "T") [py "a"; py "b"].
Proof. done. Qed.
