(* ===== verification/Answer.v ===== *)
(** * Answer: from a well-written answer of the model to the deck

    The theorems of [Markers] and [DeckB] say what variant B does with any
    text.  This file says what it does with the text it is written for: an
    opening, then for each slide "Slide <n>: <heading>", possibly closed by
    "**", a newline, the points, and two characters that the slice
    [match[:-2]] of [split_into_slides] takes away (the "**" that opens
    the next header, or the blank lines at the end).  [SlideText] is one
    such slide and [answer] the text; the scan of [split_into_slides]
    finds the slides of the text, [process_slide_title] reads each, and a
    run of the script ends with the deck of the rows [slide_row]. *)

From S2P Require Import Prelude PyStr Pptx Runtime Requester Markers DeckB.

#[local] Open Scope N_scope.

(** A slide as the answer writes it. *)
Record SlideText : Type := mkSlideText {
  slide_number : pystr;
  slide_heading : pystr;
  slide_bold : bool;
  slide_points : pystr;
  slide_closing : pystr
}.

(** The header line of a slide, without its emphasis. *)
Definition slide_header (s : SlideText) : pystr :=
  py "Slide " ++ slide_number s ++ py ": " ++ slide_heading s.

(** The slide in the answer, from its marker to the marker of the next. *)
Definition slide_source (s : SlideText) : pystr :=
  slide_header s ++ (if slide_bold s then py "**" else []) ++
  10 :: slide_points s ++ slide_closing s.

(** The slide after the slice and the removal of "**": what
    [create_presentation] returns for it. *)
Definition slide_clean (s : SlideText) : pystr :=
  slide_header s ++ 10 :: slide_points s.

(** The answer: what comes before the first marker, the slides, and the
    newline that ends the text, if any. *)
Definition answer (opening : pystr) (slides : list SlideText) (ending : pystr) : pystr :=
  opening ++ concat (slide_source <$> slides) ++ ending.

Section answer.
Context `{UnicodeDb}.

Implicit Types (f s t rest opening ending : pystr) (frags : list pystr).

(** The row of a slide: its number, its heading and its points, without
    their bullets, joined with ", ". *)
Definition slide_row (s : SlideText) : pystr * pystr * pystr :=
  (slide_number s, slide_heading s,
   join (py ", ") (points_list_of (strip (slide_points s)))).

(** A fragment of an answer: it starts with a marker and no marker starts
    inside it. *)
Definition fragment (f : pystr) : Prop :=
  marker_at f = true /\
  Forall (fun j => marker_at (drop j f) = false) (seq 1 (length f - 1)).

(** An opening in which no marker can start: at none of its positions
    does it go on as "Slide " does, as far as it goes. *)
Definition marker_free (opening : pystr) : Prop :=
  Forall (fun j => startswith (py "Slide ") (take 6 (drop j opening)) = false)
    (seq 0 (length opening)).

(** The end of the text: the newline that [$] passes over, or nothing
    after a character that is not a newline. *)
Definition ends_well (body ending : pystr) : Prop :=
  ending = [10] \/ ending = [] /\ last body <> Some 10.

(** A slide that the script reads as it was meant. *)
Definition well_written (s : SlideText) : Prop :=
  slide_number s <> [] /\ Forall (fun c => isdecimal c = true) (slide_number s) /\
  slide_heading s <> [] /\ strip (slide_heading s) = slide_heading s /\
  (10 ∉ slide_heading s) /\ (42 ∉ slide_heading s) /\
  ~ contains (slide_points s) (py "**") /\
  length (slide_closing s) = 2%nat /\
  fragment (slide_source s).

#[export] Instance fragment_dec f : Decision (fragment f).
Proof. apply _. Defined.

#[export] Instance marker_free_dec opening : Decision (marker_free opening).
Proof. apply _. Defined.

#[export] Instance ends_well_dec body ending : Decision (ends_well body ending).
Proof. apply _. Defined.

#[export] Instance well_written_dec (s : SlideText) : Decision (well_written s).
Proof. apply _. Defined.

(** ** Lemmas: fragments *)

Lemma fragment_interior f j : fragment f -> (0 < j)%nat -> marker_at (drop j f) = false.
Proof.
  intros [_ Hin] Hj. destruct (decide (j < length f)%nat) as [Hlt|Hge].
  - rewrite Forall_forall in Hin. apply Hin, elem_of_seq. lia.
  - by rewrite drop_ge by lia.
Qed.

Lemma fragment_nonempty f : fragment f -> (8 <= length f)%nat.
Proof. intros [[h Hh]%marker_at_true _]. apply marker_len_bounds in Hh. lia. Qed.

Lemma marker_len_app s rest h : marker_len s = Some h -> marker_len (s ++ rest) = Some h.
Proof.
  intros (digits & t & -> & ? & ? & ->)%marker_len_spec. apply marker_len_spec.
  exists digits, (t ++ rest). by rewrite <- !(assoc_L (++)).
Qed.

Lemma marker_at_app s rest : marker_at s = true -> marker_at (s ++ rest) = true.
Proof. intros [h Hh]%marker_at_true. apply marker_at_true. eauto using marker_len_app. Qed.

(** A marker ends with its colon. *)
Lemma marker_len_last s h : marker_len s = Some h -> last (take h s) = Some 58.
Proof.
  intros (digits & t & -> & ? & ? & ->)%marker_len_spec.
  rewrite (cons_middle 58), !(assoc_L (++)), take_app_length'; [by rewrite last_snoc|].
  rewrite !length_app. simpl. lia.
Qed.

(** A marker that starts inside a text, before a rest at which the
    lookahead holds, ends inside it too. *)
Lemma marker_at_app_inv f rest j :
  (j < length f)%nat -> lookahead rest = true ->
  marker_at (drop j (f ++ rest)) = true -> marker_at (drop j f) = true.
Proof.
  intros Hj Hrest [h Hh]%marker_at_true. rewrite drop_app_le in Hh by lia.
  set (x := drop j f) in *. assert (0 < length x)%nat by (unfold x; rewrite length_drop; lia).
  destruct (decide (h <= length x)%nat) as [Hin|Hout].
  { apply marker_at_true. exists h.
    rewrite <- (take_app_length x rest). by apply marker_len_take. }
  pose proof (marker_len_interior _ _ (length x) Hh ltac:(lia)) as Hno.
  rewrite drop_app_length in Hno. pose proof (marker_len_bounds _ _ Hh) as Hb.
  apply lookahead_cases in Hrest as [Hm|[->| ->]]; [congruence|rewrite app_nil_r in Hb; lia|].
  apply marker_len_last in Hh. rewrite length_app in Hb. simpl in Hb.
  rewrite take_ge, last_snoc in Hh by (rewrite length_app; simpl; lia). done.
Qed.

Lemma lazy_len_eq t n :
  (n <= length t)%nat -> (forall j, (j < n)%nat -> lookahead (drop j t) = false) ->
  lookahead (drop n t) = true -> lazy_len t = n.
Proof.
  revert n. induction t as [|c t IH]; intros n Hn Hbefore Hstop.
  { simpl in Hn. by destruct n; [|lia]. }
  cbn [lazy_len]. destruct n as [|n].
  - cbn [drop] in Hstop. by rewrite Hstop.
  - pose proof (Hbefore 0%nat ltac:(lia)) as H0. cbn [drop] in H0. rewrite H0.
    f_equal. apply IH; [simpl in Hn; lia| |done].
    intros j Hj. apply (Hbefore (S j)). lia.
Qed.

(** The lookahead does not hold inside a fragment, after its marker. *)
Lemma lookahead_inside f rest j :
  fragment f -> lookahead rest = true -> (rest = [] -> last f <> Some 10) ->
  (0 < j < length f)%nat -> lookahead (drop j (f ++ rest)) = false.
Proof.
  intros Hf Hrest Hlast Hj. destruct (lookahead (drop j (f ++ rest))) eqn:E; [|done].
  apply lookahead_cases in E as [Hm|[Hnil|Hnl]].
  - apply marker_at_app_inv in Hm; [|lia|done].
    rewrite fragment_interior in Hm by (done || lia). done.
  - apply (f_equal length) in Hnil. rewrite length_drop, length_app in Hnil.
    simpl in Hnil. lia.
  - apply (f_equal length) in Hnl as Hlen. rewrite length_drop, length_app in Hlen.
    simpl in Hlen. assert (rest = []) as -> by (apply length_zero_iff_nil; lia).
    rewrite app_nil_r in Hnl. destruct Hlast; [done|].
    by rewrite <- (take_drop j f), Hnl, last_snoc.
Qed.

(** The match at the start of a fragment is the fragment. *)
Lemma slide_match_fragment f rest :
  fragment f -> lookahead rest = true -> (rest = [] -> last f <> Some 10) ->
  slide_match (f ++ rest) = Some (length f).
Proof.
  intros Hf Hrest Hlast. pose proof Hf as [[h Hh]%marker_at_true _].
  pose proof (marker_len_bounds _ _ Hh) as Hb.
  apply slide_match_spec. exists h. split; [by apply marker_len_app|].
  rewrite (lazy_len_eq _ (length f - h)); [lia|rewrite length_drop, length_app; lia| |].
  - intros j Hj. rewrite drop_drop. apply lookahead_inside; [done..|lia].
  - rewrite drop_drop. replace (h + (length f - h))%nat with (length f) by lia.
    by rewrite drop_app_length.
Qed.

Lemma lookahead_rest frags ending :
  Forall fragment frags -> ends_well (concat frags) ending ->
  lookahead (concat frags ++ ending) = true.
Proof.
  intros Hf He. apply lookahead_cases. destruct Hf as [|f frags' [Hf _] _].
  - destruct He as [->|[-> _]]; auto.
  - left. cbn [concat]. rewrite <- (assoc_L (++)). by apply marker_at_app.
Qed.

Lemma ends_well_tail f frags ending :
  Forall fragment frags -> ends_well (f ++ concat frags) ending ->
  ends_well (concat frags) ending /\ (concat frags ++ ending = [] -> last f <> Some 10).
Proof.
  intros Hf [->|[-> Hlast]]; [split; [by left|by intros [_ ?]%app_eq_nil]|]. split.
  - right. split; [done|]. destruct Hf as [|f' frags' Hf' _]; [done|].
    rewrite last_app_nonempty in Hlast; [done|]. cbn [concat].
    apply fragment_nonempty in Hf'. intros Hnil%(f_equal length).
    rewrite length_app in Hnil. simpl in Hnil. lia.
  - rewrite app_nil_r. intros Hnil. by rewrite Hnil, app_nil_r in Hlast.
Qed.

(** ** Lemmas: the opening *)

Lemma marker_free_no_marker opening rest j :
  marker_free opening -> (j < length opening)%nat ->
  marker_at (drop j (opening ++ rest)) = false.
Proof.
  intros Hfree Hj. apply marker_at_false. unfold marker_len.
  rewrite drop_app_le by lia.
  destruct (startswith (drop j opening ++ rest) (py "Slide ")) eqn:E; [|done].
  apply startswith_app_take in E. unfold marker_free in Hfree.
  rewrite Forall_forall in Hfree. rewrite Hfree in E; [done|]. apply elem_of_seq. lia.
Qed.

Lemma slide_pattern_findall_opening opening rest :
  marker_free opening ->
  slide_pattern_findall (opening ++ rest) = slide_pattern_findall rest.
Proof.
  intros Hfree. unfold slide_pattern_findall.
  assert (forall j, (j <= length opening)%nat ->
    findall_go slide_match 0 (drop j (opening ++ rest)) =
    findall_go slide_match 0 (drop (length opening) (opening ++ rest))) as Hskip.
  { intros j Hj. remember (length opening - j)%nat as d eqn:Hd. revert j Hj Hd.
    induction d as [|d IH]; intros j Hj Hd; [by replace j with (length opening) by lia|].
    pose proof (marker_free_no_marker opening rest j Hfree ltac:(lia)) as Hno.
    destruct (drop j (opening ++ rest)) as [|c t] eqn:E.
    { apply (f_equal length) in E. rewrite length_drop, length_app in E. simpl in E. lia. }
    rewrite findall_go_miss by (by apply slide_match_None).
    replace t with (drop (S j) (opening ++ rest)); [apply IH; lia|].
    replace (S j) with (j + 1)%nat by lia. by rewrite <- drop_drop, E. }
  pose proof (Hskip 0%nat ltac:(lia)) as H0. by rewrite drop_app_length in H0.
Qed.

(** ** Theorems on the scan *)

Lemma slide_pattern_findall_concat_fragments frags ending :
  Forall fragment frags -> ends_well (concat frags) ending ->
  slide_pattern_findall (concat frags ++ ending) = frags.
Proof.
  induction 1 as [|f frags Hf Hfrags IH]; intros Hend.
  { by destruct Hend as [->|[-> _]]. }
  cbn [concat] in *. rewrite <- (assoc_L (++)).
  pose proof (fragment_nonempty f Hf) as Hlen.
  destruct (ends_well_tail f frags ending Hfrags Hend) as [Hend' Hlast].
  pose proof (lookahead_rest frags ending Hfrags Hend') as Hrest.
  pose proof (slide_match_fragment f _ Hf Hrest Hlast) as Hm.
  unfold slide_pattern_findall in *. destruct (length f) as [|n] eqn:En; [lia|].
  rewrite (findall_go_hit _ _ _ Hm) by (intros Hnil; apply (f_equal length) in Hnil;
    rewrite length_app in Hnil; simpl in Hnil; lia).
  rewrite <- En, take_app_length, drop_app_length. f_equal. by apply IH.
Qed.

(** C19 (roundtrip).  The scan finds the fragments a text was put
    together from: after an opening in which no marker can start, the
    matches of the pattern in the fragments written one after the other
    are the fragments, when the text ends with a newline or with a
    character that is not one. *)
Theorem slide_pattern_findall_fragments opening frags ending :
  marker_free opening -> Forall fragment frags -> ends_well (concat frags) ending ->
  slide_pattern_findall (opening ++ concat frags ++ ending) = frags.
Proof.
  intros Ho Hf He. rewrite slide_pattern_findall_opening by done.
  by apply slide_pattern_findall_concat_fragments.
Qed.

(** ** Lemmas: the slice and the removal of "**" *)

Lemma well_written_fragment (s : SlideText) : well_written s -> fragment (slide_source s).
Proof. by intros (_ & _ & _ & _ & _ & _ & _ & _ & Hf). Qed.

Lemma slide_header_plain (s : SlideText) : well_written s -> 42 ∉ slide_header s.
Proof.
  intros (_ & Hd & _ & _ & _ & Hh & _). unfold slide_header.
  rewrite !not_elem_of_app. split; [by_compute|]. split; [|by split; [by_compute|]].
  rewrite Forall_forall in Hd. intros Hin%Hd. by rewrite isdecimal_ascii in Hin.
Qed.

Lemma trimmed_slide_source (s : SlideText) :
  length (slide_closing s) = 2%nat ->
  trimmed (slide_source s) =
  slide_header s ++ (if slide_bold s then py "**" else []) ++ 10 :: slide_points s.
Proof.
  intros Hc. unfold trimmed, slide_source.
  rewrite (app_comm_cons (slide_points s)), !(assoc_L (++)), length_app, Hc.
  by rewrite Nat.add_sub, take_app_length.
Qed.

Lemma cleaned_slide (s : SlideText) :
  well_written s -> replace (trimmed (slide_source s)) (py "**") [] = slide_clean s.
Proof.
  intros Hs. pose proof (slide_header_plain s Hs) as Hplain.
  destruct Hs as (_ & _ & _ & _ & _ & _ & Hp & Hc & _).
  rewrite trimmed_slide_source by done. unfold slide_clean.
  change (py "**") with [42; 42] in *. rewrite replace_fresh by done. f_equal.
  assert (replace (10 :: slide_points s) [42; 42] [] = 10 :: slide_points s) as Hrest.
  { rewrite <- (replace_absent (slide_points s) [42; 42] []) at 2 by done.
    apply (replace_fresh 42 [42] [] [10]). by_compute. }
  destruct (slide_bold s); [|done]. by rewrite replace_prefix.
Qed.

Lemma process_slide_title_clean (s : SlideText) :
  well_written s -> process_slide_title (slide_clean s) = Some (slide_row s).
Proof.
  intros (Hn & Hd & Hh & Hstrip & H10 & _). unfold slide_clean, slide_header.
  rewrite <- !(assoc_L (++)). by apply process_slide_title_reads.
Qed.

(** ** From the answer to the rows *)

(** The fragments [create_presentation] returns for an answer are its
    slides, each without its emphasis and its closing. *)
Lemma cleaned_answer opening slides ending :
  marker_free opening -> Forall well_written slides ->
  ends_well (concat (slide_source <$> slides)) ending ->
  DeckB.App1.cleaned (answer opening slides ending) = slide_clean <$> slides.
Proof.
  intros Ho Hs He. unfold DeckB.App1.cleaned, answer.
  rewrite slide_pattern_findall_opening, slide_pattern_findall_concat_fragments;
    [|by apply Forall_fmap; eapply Forall_impl; [exact Hs|apply well_written_fragment]
     |done..].
  rewrite <- list_fmap_compose. apply Forall_fmap_ext_1.
  eapply Forall_impl; [exact Hs|]. intros s. apply cleaned_slide.
Qed.

Lemma rows_of_slides slides :
  Forall well_written slides ->
  mapM process_slide_title (slide_clean <$> slides) = Some (slide_row <$> slides).
Proof.
  intros Hs. apply mapM_Some_2, Forall2_fmap_2, Forall_Forall2_diag.
  eapply Forall_impl; [exact Hs|]. intros s. apply process_slide_title_clean.
Qed.

(** The model gives a run with [title] and [topics_input] a well-written
    answer, and the run takes it for one. *)
Definition answered (env : Env) (title topics_input opening : pystr)
    (slides : list SlideText) (ending : pystr) : Prop :=
  truthy (GEMINI_API_KEY env) = true /\ DeckB.App1.parse_topics topics_input <> [] /\
  model_generate_content env
    (Requester.App1.prompt_of title (DeckB.App1.parse_topics topics_input)) =
    ResponseText (answer opening slides ending) /\
  startswith (answer opening slides ending) (py "Error") = false /\
  marker_free opening /\ Forall well_written slides /\
  ends_well (concat (slide_source <$> slides)) ending.

(** The page of the run on such an answer, and its deck. *)
Definition answer_deck (slides : list SlideText) : Presentation :=
  DeckB.App1.fragment_slide_spec <$> (slide_row <$> slides).

Definition answer_events (title opening : pystr) (slides : list SlideText)
    (ending : pystr) : list UiEvent :=
  [StTitle (py "AI-Powered Presentation Creator");
   StInfo (py "Generating your presentation. Please wait...");
   StTextArea (py "raw content") (answer opening slides ending) 200;
   StSuccess (py "Presentation content generated successfully!")]
  ++ DeckB.App1.slide_events 1 (slide_clean <$> slides)
  ++ [StDownloadButton (py "Download PowerPoint Presentation") (answer_deck slides)
        (DeckB.App1.file_name_of title) DeckB.App1.MIME].

Lemma main_App1_answered env title topics_input opening slides ending w :
  answered env title topics_input opening slides ending ->
  DeckB.App1.main env title topics_input true w =
  Done tt (say w (answer_events title opening slides ending)).
Proof.
  intros (Hkey & Ht & Hmodel & Htext & Ho & Hs & He). rewrite DeckB.App1.main_App1_steps.
  destruct (DeckB.App1.parse_topics topics_input) as [|topic topics]; [done|].
  unfold DeckB.App1.events_before_deck, DeckB.App1.content_of, DeckB.App1.failure_of, requested.
  rewrite Hkey, Hmodel. cbn [negb fst snd]. rewrite Htext.
  rewrite cleaned_answer, rows_of_slides by done. cbv zeta. by rewrite say_say.
Qed.

(** C18 (refinement).  A run of the script of variant B on a well-written
    answer of the model ends with a download button that carries the deck
    of the slides of the answer: one slide per slide of the answer, in
    order, with the number, a dot and the heading as its title and the
    points, without their bullets and joined with ", ", as its body; the
    page shows the answer and each slide as it was read. *)
Theorem main_App1_answer env title topics_input opening slides ending w :
  truthy (GEMINI_API_KEY env) = true -> DeckB.App1.parse_topics topics_input <> [] ->
  model_generate_content env
    (Requester.App1.prompt_of title (DeckB.App1.parse_topics topics_input)) =
    ResponseText (answer opening slides ending) ->
  startswith (answer opening slides ending) (py "Error") = false ->
  marker_free opening -> Forall well_written slides ->
  ends_well (concat (slide_source <$> slides)) ending ->
  DeckB.App1.main env title topics_input true w =
  Done tt (say w
    ([StTitle (py "AI-Powered Presentation Creator");
      StInfo (py "Generating your presentation. Please wait...");
      StTextArea (py "raw content") (answer opening slides ending) 200;
      StSuccess (py "Presentation content generated successfully!")]
     ++ DeckB.App1.slide_events 1 (slide_clean <$> slides)
     ++ [StDownloadButton (py "Download PowerPoint Presentation")
           (DeckB.App1.fragment_slide_spec <$> (slide_row <$> slides))
           (DeckB.App1.file_name_of title) DeckB.App1.MIME])).
Proof. intros. by apply main_App1_answered. Qed.

End answer.

(** ** The theorems on a concrete answer

    The database is [ascii_db].  The answer is two slides with their
    headers in bold, "**Slide 1: Intro**", "* a", a blank line, "**Slide
    2: More**", "* b" and two blank lines: the closing of the first slide
    is the "**" that opens the header of the second. *)

Definition two_slides : list SlideText :=
  [mkSlideText (py "1") (py "Intro") true (py "* a" ++ [10; 10]) (py "**");
   mkSlideText (py "2") (py "More") true (py "* b") [10; 10]].

Lemma slide_pattern_findall_fragments_witness :
  slide_pattern_findall (py "**" ++ concat (slide_source <$> two_slides) ++ [10]) =
  slide_source <$> two_slides.
Proof. apply slide_pattern_findall_fragments; by_compute. Defined.

Lemma main_App1_answer_witness :
  DeckB.App1.main (DeckB.App1.env_with (answer (py "**") two_slides [10]))
    (py "T") (py "a") true empty_world =
  Done tt (say empty_world
    ([StTitle (py "AI-Powered Presentation Creator");
      StInfo (py "Generating your presentation. Please wait...");
      StTextArea (py "raw content") (answer (py "**") two_slides [10]) 200;
      StSuccess (py "Presentation content generated successfully!")]
     ++ DeckB.App1.slide_events 1 (slide_clean <$> two_slides)
     ++ [StDownloadButton (py "Download PowerPoint Presentation")
           (DeckB.App1.fragment_slide_spec <$> (slide_row <$> two_slides))
           (DeckB.App1.file_name_of (py "T")) DeckB.App1.MIME])).
Proof.
  apply main_App1_answer; [done|by vm_compute|done|done|by_compute..].
Defined.

(** The text of the answer and the rows read from it. *)
Example two_slides_answer :
  answer (py "**") two_slides [10] =
  py "**Slide 1: Intro**" ++ [10] ++ py "* a" ++ [10; 10] ++
  py "**Slide 2: More**" ++ [10] ++ py "* b" ++ [10; 10; 10].
Proof. reflexivity. Qed.

Example two_slides_rows :
  slide_row <$> two_slides = [(py "1", py "Intro", py "a"); (py "2", py "More", py "b")].
Proof. by vm_compute. Qed.

(** Without the character that the slice takes from the last slide, it
    takes one of the text: an answer that ends with its last point loses
    the end of that point. *)
Example answer_cut_short :
  DeckB.App1.cleaned (py "Slide 1: Intro" ++ [10] ++ py "* first point") =
  [py "Slide 1: Intro" ++ [10] ++ py "* first poi"].
Proof. by vm_compute. Qed.
