(* ===== verification/Session.v ===== *)
(** * Session: the rerun cycle of a Streamlit script

    Streamlit runs the script again, from its first line, each time the
    user acts on the page: the page is built anew, the files written by
    earlier runs stay.  A session is a sequence of such runs, each with
    the values the form holds at that time; a run that raises shows the
    trace and the session goes on.  [step] is one run, for either script;
    the theorems are invariants of the worlds a session can reach:
    variant A keeps only well-formed decks in its files, variant B never
    writes a file.  A run of variant A raises when the file system
    refuses the file name made from the title, and then only. *)

From S2P Require Import Prelude PyStr Segmenter Pptx Runtime Requester DeckA Markers DeckB.

(** The values of the form (lines 133-136 of [App.py], 114-117 of
    [App1.py]). *)
Record Form : Type := mkForm {
  form_title : pystr;
  form_topics_input : pystr;
  form_submit : bool
}.

(** The form when the page is first loaded: the defaults of the widgets,
    and no submit. *)
Definition initial_form : Form :=
  mkForm (py "Gen AI")
    (py "Introduction to GenAI" ++ [10%N] ++ py "Applications of GenAI") false.

(** The world at the start of a run: an empty page, the same files. *)
Definition fresh_page (w : World) : World := mkWorld [] (fs w).

(** A script, as a function of the values of the form. *)
Definition Script : Type := Env -> pystr -> pystr -> bool -> M unit.

Definition rerun (script : Script) (env : Env) (w : World) (f : Form) : outcome unit :=
  script env (form_title f) (form_topics_input f) (form_submit f) (fresh_page w).

(** One run of the script in a session. *)
Inductive step (script : Script) (env : Env) : World -> World -> Prop :=
| step_done w f w' : rerun script env w f = Done tt w' -> step script env w w'
| step_raised w f e w' : rerun script env w f = Raised e w' -> step script env w w'.

(** The worlds a session can be in. *)
Definition reachable (script : Script) (env : Env) (w : World) : Prop :=
  rtc (step script env) empty_world w.

(** A file that a run of [App.py] can have written: the deck of some
    title and topics, cut in chunks of at most 900 characters, at the
    path that the name made from the title stands for. *)
Definition file_ok `{FileSystem} (path : pystr) (deck : Presentation) : Prop :=
  exists title topics chunks,
    lookup_path (DeckA.App.file_name_of title) = inr path /\
    deck = DeckA.App.deck_spec title topics chunks /\
    topics <> [] /\ chunks <> [] /\ chunks_bounded 900 chunks /\
    wf_presentation deck.

Section session.
Context `{UnicodeDb} `{FileSystem} (env : Env).

(** ** Lemmas: what one run does to the files *)

(** The files after a run of [App.py]. *)
Definition files_after (title topics_input : pystr) (submit : bool)
    (files : gmap (list N) (list Slide)) : gmap (list N) (list Slide) :=
  match submit, DeckA.App.parse_topics topics_input,
        lookup_path (DeckA.App.file_name_of title) with
  | true, (_ :: _) as topics, inr path =>
    <[path := DeckA.App.deck_spec title topics (DeckA.App.chunks_of env title topics)]> files
  | _, _, _ => files
  end.

(** A run ends; it ends with an exception when it has a deck to save and
    the file system refuses the name, and then only. *)
Lemma main_App_files title topics_input submit w :
  exists events,
    let w' := mkWorld events (files_after title topics_input submit (fs w)) in
    match submit, DeckA.App.parse_topics topics_input,
          lookup_path (DeckA.App.file_name_of title) with
    | true, _ :: _, inl e => DeckA.App.main env title topics_input submit w = Raised e w'
    | _, _, _ => DeckA.App.main env title topics_input submit w = Done tt w'
    end.
Proof.
  unfold files_after. destruct submit; [|by eexists]. rewrite DeckA.App.main_App_steps.
  destruct (DeckA.App.parse_topics topics_input); [by eexists|].
  destruct (lookup_path _); by eexists.
Qed.

Lemma chunks_of_ok title topics :
  DeckA.App.chunks_of env title topics <> [] /\
  chunks_bounded 900 (DeckA.App.chunks_of env title topics).
Proof.
  pose proof (DeckA.App.chunks_of_spec env title topics) as Hc.
  split; [by eapply split_content_loop_nonempty|by eapply split_content_loop_bounded].
Qed.

Lemma rerun_App_files w f :
  exists events,
    let w' := mkWorld events
      (files_after (form_title f) (form_topics_input f) (form_submit f) (fs w)) in
    rerun DeckA.App.main env w f = Done tt w' \/
    exists e, lookup_path (DeckA.App.file_name_of (form_title f)) = inl e /\
              rerun DeckA.App.main env w f = Raised e w'.
Proof.
  destruct (main_App_files (form_title f) (form_topics_input f) (form_submit f)
              (fresh_page w)) as [events Hmain].
  exists events. unfold rerun. cbn [fs fresh_page] in *.
  destruct (form_submit f); [|by left].
  destruct (DeckA.App.parse_topics (form_topics_input f)); [by left|].
  destruct (lookup_path _) as [e|path]; [right; by exists e|by left].
Qed.

Lemma step_App_files w w' :
  step DeckA.App.main env w w' ->
  exists f, fs w' = files_after (form_title f) (form_topics_input f) (form_submit f) (fs w).
Proof.
  intros [w0 f w1 Hrun|w0 f e w1 Hrun]; exists f;
    destruct (rerun_App_files w0 f) as (events & [Hmain|(e' & _ & Hmain)]);
    rewrite Hmain in Hrun; by simplify_eq.
Qed.

Lemma files_after_ok title topics_input submit files :
  map_Forall file_ok files ->
  map_Forall file_ok (files_after title topics_input submit files).
Proof.
  intros Hok. unfold files_after. destruct submit; [|done].
  destruct (DeckA.App.parse_topics topics_input) as [|topic topics]; [done|].
  destruct (lookup_path _) as [e|path] eqn:Hpath; [done|].
  apply map_Forall_insert_2; [|done].
  destruct (chunks_of_ok title (topic :: topics)) as [Hne Hb].
  exists title, (topic :: topics), (DeckA.App.chunks_of env title (topic :: topics)).
  auto 8 using DeckA.App.wf_deck_spec.
Qed.

(** A run of [App.py] keeps the files well formed, and a run of
    [App1.py] keeps the files. *)
Lemma step_App_file_ok w w' :
  step DeckA.App.main env w w' -> map_Forall file_ok (fs w) -> map_Forall file_ok (fs w').
Proof. intros [f ->]%step_App_files. apply files_after_ok. Qed.

Lemma step_App1_files w w' : step DeckB.App1.main env w w' -> fs w' = fs w.
Proof.
  intros [w0 f w1 Hrun|w0 f e w1 Hrun]; unfold rerun in Hrun;
    destruct (DeckB.App1.main_App1_outcome env (form_title f) (form_topics_input f)
                (form_submit f) (fresh_page w0)) as (w2 & Hfs & [Hm|Hm]);
    rewrite Hm in Hrun; by simplify_eq.
Qed.

(** ** Theorems *)

(** In a session of [App.py] every run ends, whatever the form holds and
    whatever the model answers, and ends without an exception when the
    file system takes the file name of the title. *)
Lemma session_App_progress w f :
  exists w', step DeckA.App.main env w w' /\
    (accepted (DeckA.App.file_name_of (form_title f)) ->
     rerun DeckA.App.main env w f = Done tt w').
Proof.
  destruct (rerun_App_files w f) as (events & [Hmain|(e & Hpath & Hmain)]); eexists.
  - split; [by eapply step_done|done].
  - split; [by eapply step_raised|]. by intros []%(accepted_inl _ e).
Qed.

(** In a session of [App.py] every file holds a
    well-formed deck: the deck of some title and topics, with a title
    slide first and bodies of at most 900 characters, under the name made
    from that title. *)
Lemma session_App_files w :
  reachable DeckA.App.main env w -> map_Forall file_ok (fs w).
Proof.
  unfold reachable. revert w. apply rtc_ind_r; [apply map_Forall_empty|].
  intros w w' Hreach Hstep IH. by eapply step_App_file_ok.
Qed.

(** In a session of [App1.py] no file is ever written,
    also when a run ends with an exception. *)
Lemma session_App1_no_files w :
  reachable DeckB.App1.main env w -> fs w = ∅.
Proof.
  unfold reachable. revert w. apply rtc_ind_r; [done|].
  intros w w' Hreach Hstep IH. rewrite <- IH. by apply step_App1_files.
Qed.

End session.

(** ** On concrete sessions *)

#[local] Existing Instance plain_names.

(** The first load of the page of [App.py]: the title only, no file. *)
Example first_load :
  rerun DeckA.App.main (mkEnv None (fun _ => ResponseText [])) empty_world initial_form =
  Done tt (mkWorld [StTitle (py "AI-Powered Presentation Creator")] ∅).
Proof. reflexivity. Qed.

(** A session of [App.py] with one submit, then the world it is in. *)
Definition one_submit : Form := mkForm (py "T") (py "a") true.

Definition after_one_submit (env : Env) : World :=
  mkWorld (DeckA.App.main_events env (py "T") [py "a"])
    (<[DeckA.App.file_name_of (py "T") :=
         DeckA.App.deck_spec (py "T") [py "a"] (DeckA.App.chunks_of env (py "T") [py "a"])]> ∅).

Lemma after_one_submit_reachable env :
  reachable DeckA.App.main env (after_one_submit env).
Proof.
  apply rtc_once, (step_done _ _ _ one_submit). unfold rerun.
  by rewrite DeckA.App.main_App_steps.
Qed.

Lemma session_App_files_witness :
  map_Forall file_ok (fs (after_one_submit DeckA.App.demo_env)).
Proof. apply (session_App_files DeckA.App.demo_env), after_one_submit_reachable. Defined.

(** A session of [App1.py] with one submit that ends in [TypeError]. *)
Definition after_one_crash : World :=
  mkWorld [StTitle (py "AI-Powered Presentation Creator");
           StInfo (py "Generating your presentation. Please wait...");
           StTextArea (py "raw content") DeckB.App1.one_line_text 200;
           StSuccess (py "Presentation content generated successfully!")] ∅.

Lemma after_one_crash_reachable :
  reachable DeckB.App1.main (DeckB.App1.env_with DeckB.App1.one_line_text) after_one_crash.
Proof.
  apply rtc_once, (step_raised _ _ _ one_submit TypeError). unfold rerun.
  rewrite DeckB.App1.main_App1_steps. by vm_compute.
Qed.

Lemma session_App1_no_files_witness : fs after_one_crash = ∅.
Proof.
  apply (session_App1_no_files (DeckB.App1.env_with DeckB.App1.one_line_text)),
    after_one_crash_reachable.
Defined.
