(* ===== verification/Frontend.v ===== *)
(** * Frontend: the page in the browser and what the user does with it

    Streamlit runs a script again on every action of the user that it
    hears of, and it does not hear of all of them: what is typed into the
    widgets of a form (lines 133-136 of [App.py], 114-117 of [App1.py])
    stays in the browser until the form is submitted; a click on the
    download button gives the user the bytes the button was made with,
    and then runs the script again, with [submit] false.  [Session] takes
    a run with any values of the form as a step; this file says where the
    values come from.  [Browser] is the state of one tab, [Action] what
    the user can do, [act] what it leads to.  A script is seen through
    the interface [WellServed]; the theorems of the front end hold for every
    script that meets it, and both scripts do. *)

From S2P Require Import Prelude PyStr Pptx Runtime Requester DeckA Markers DeckB Answer.
From S2P Require Import Session Package.

#[local] Open Scope N_scope.

(** ** Widgets *)

(** The widgets the scripts make. *)
Inductive WidgetKind : Type :=
| TextInput
| TextArea
| FormSubmitButton
| DownloadButton.

#[export] Instance WidgetKind_eq_dec : EqDecision WidgetKind.
Proof. solve_decision. Defined.

(** What tells two widgets of a page apart when no [key] is given: the
    kind and the arguments.  The label is one of the arguments, so two
    widgets that differ here differ for Streamlit. *)
Abbreviation WidgetId := (WidgetKind * pystr)%type (only parsing).

(** The widgets of the form, lines 133-136 of [App.py] and 114-117 of
    [App1.py]. *)
Definition form_widgets : list WidgetId :=
  [(TextInput, py "Enter the presentation title");
   (TextArea, py "Enter topics (one per line)");
   (FormSubmitButton, py "Generate Presentation")].

Definition widget_of (e : UiEvent) : option WidgetId :=
  match e with
  | StTextArea label _ _ => Some (TextArea, label)
  | StDownloadButton label _ _ _ => Some (DownloadButton, label)
  | _ => None
  end.

(** The widgets of a page: Streamlit raises [DuplicateWidgetID] when two
    of them are the same. *)
Definition widgets (page : list UiEvent) : list WidgetId :=
  form_widgets ++ omap widget_of page.

(** [int(s)] for a text of decimal digits, after [acc]. *)
Definition digits_value (s : pystr) (acc : N) : N :=
  foldl (fun acc c => acc * 10 + (c - 48)) acc s.

(** ** The browser *)

(** The values of the two fields of the form. *)
Record Fields : Type := mkFields {
  title_field : pystr;
  topics_field : pystr
}.

(** The values the widgets are made with. *)
Definition default_fields : Fields :=
  mkFields (py "Gen AI")
    (py "Introduction to GenAI" ++ [10] ++ py "Applications of GenAI").

Definition form_of (f : Fields) (submit : bool) : Form :=
  mkForm (title_field f) (topics_field f) submit.

(** One tab: what the form shows, the values the server has for its
    widgets (those of the last submit), the page of the last run with the
    files of the server, and what the user has downloaded, the oldest
    first. *)
Record Browser : Type := mkBrowser {
  typed : Fields;
  sent : Fields;
  world : World;
  received : list (pystr * bytes)
}.

Inductive Action : Type :=
| TypeTitle (text : pystr)
| TypeTopics (text : pystr)
| ClickSubmit
| ClickDownload
| EditTextArea (label value : pystr)
| Reload.

(** The deck and the file name of a download button. *)
Definition deck_on (e : UiEvent) : option (Presentation * pystr) :=
  match e with
  | StDownloadButton _ data file_name _ => Some (data, file_name)
  | _ => None
  end.

(** The download button of a page. *)
Definition the_download (page : list UiEvent) : option (Presentation * pystr) :=
  head (omap deck_on page).

Definition has_text_area (label : pystr) (page : list UiEvent) : bool :=
  bool_decide ((TextArea, label) ∈ omap widget_of page).

(** A download button carries a deck that python-pptx accepts. *)
Definition button_ok (e : UiEvent) : Prop :=
  match e with
  | StDownloadButton _ data _ _ => wf_presentation data
  | _ => True
  end.

Definition page_ok (page : list UiEvent) : Prop := Forall button_ok page.

(** The title that every run starts the page with. *)
Definition HEADING : UiEvent := StTitle (py "AI-Powered Presentation Creator").

Section frontend.
Context `{UnicodeDb} `{PackageFormat} `{FileSystem}.

(** One run for the tab: the page it leaves, with the trace when it
    raised; [None] when it does not end. *)
Definition run_again (script : Script) (env : Env) (f : Form) (b : Browser)
    : option World :=
  match rerun script env (world b) f with
  | Done _ w' | Raised _ w' => Some w'
  | Diverged => None
  end.

(** What an action leads to; [None] when the page does not offer it, or
    when the run it starts does not end. *)
Definition act (script : Script) (env : Env) (a : Action) (b : Browser)
    : option Browser :=
  match a with
  | TypeTitle text =>
    Some (mkBrowser (mkFields text (topics_field (typed b))) (sent b) (world b) (received b))
  | TypeTopics text =>
    Some (mkBrowser (mkFields (title_field (typed b)) text) (sent b) (world b) (received b))
  | ClickSubmit =>
    w' ← run_again script env (form_of (typed b) true) b;
    Some (mkBrowser (typed b) (typed b) w' (received b))
  | ClickDownload =>
    '(data, file_name) ← the_download (ui (world b));
    w' ← run_again script env (form_of (sent b) false) b;
    Some (mkBrowser (typed b) (sent b) w' (received b ++ [(file_name, package_bytes data)]))
  | EditTextArea label value =>
    if has_text_area label (ui (world b)) then
      w' ← run_again script env (form_of (sent b) false) b;
      Some (mkBrowser (typed b) (sent b) w' (received b))
    else None
  | Reload =>
    w' ← run_again script env (form_of default_fields false) b;
    Some (mkBrowser default_fields default_fields w' (received b))
  end.

Inductive browser_step (script : Script) (env : Env) : Browser -> Browser -> Prop :=
| browser_act a b b' : act script env a b = Some b' -> browser_step script env b b'.

(** The tab when the page is first loaded on a server with the files of
    [w]. *)
Definition landing (w : World) : Browser :=
  mkBrowser default_fields default_fields (mkWorld [HEADING] (fs w)) [].

(** What a script promises to the front end: every run ends, with a
    return or an exception; the download buttons it leaves carry decks
    that python-pptx accepts; and a run that is not the run of a submit
    leaves the title on the page and the files as they were. *)
Class WellServed (script : Script) : Prop := {
  served_ends env w f :
    exists w', (page_ok (ui w') /\ NoDup (widgets (ui w'))) /\
      (rerun script env w f = Done tt w' \/ exists e, rerun script env w f = Raised e w');
  served_idle env w f :
    form_submit f = false ->
    rerun script env w f = Done tt (mkWorld [HEADING] (fs w))
}.

(** The actions of a list, one after the other. *)
Fixpoint acts (script : Script) (env : Env) (l : list Action) (b : Browser)
    : option Browser :=
  match l with
  | [] => Some b
  | a :: l' => b' ← act script env a b; acts script env l' b'
  end.

(** What holds of a tab at every moment: the buttons of its page carry
    decks that python-pptx accepts, no two widgets of the page are the
    same, and every download opens as a deck that python-pptx
    accepts. *)
Definition browser_ok (b : Browser) : Prop :=
  page_ok (ui (world b)) /\ NoDup (widgets (ui (world b))) /\
  Forall (fun item => exists data, wf_presentation data /\ package_load item.2 = Some data)
    (received b).

(** ** Lemmas: the front end of a served script *)

Section served.
Context (script : Script) `{!WellServed script} (env : Env).

Implicit Types (b : Browser) (a : Action) (f : Form).

Lemma run_again_ends f b :
  exists w', run_again script env f b = Some w' /\
             page_ok (ui w') /\ NoDup (widgets (ui w')) /\
             step script env (world b) w'.
Proof.
  destruct (served_ends env (world b) f) as (w' & [Hpage Hw] & [Hrun|[e Hrun]]);
    exists w'; unfold run_again; rewrite Hrun; eauto 6 using step_done, step_raised.
Qed.

Lemma run_again_Done f b w' :
  rerun script env (world b) f = Done tt w' -> run_again script env f b = Some w'.
Proof. unfold run_again. by intros ->. Qed.

Lemma run_again_idle f b :
  form_submit f = false ->
  run_again script env f b = Some (mkWorld [HEADING] (fs (world b))).
Proof. intros Hf. unfold run_again. by rewrite served_idle. Qed.

Lemma page_ok_download page data file_name :
  page_ok page -> the_download page = Some (data, file_name) -> wf_presentation data.
Proof.
  unfold the_download. induction 1 as [|e page He _ IH]; [done|].
  cbn [omap list_omap]. destruct e; cbn [deck_on head]; try done.
  by intros [= <- <-].
Qed.

(** An action leaves the tab in order, and the server where a run of the
    script leaves it. *)
Lemma act_ok a b b' :
  act script env a b = Some b' -> browser_ok b ->
  browser_ok b' /\ (world b' = world b \/ step script env (world b) (world b')).
Proof.
  intros Hact (Hpage & Hwidgets & Hreceived).
  assert (forall f items, Forall (fun item => exists data, wf_presentation data /\
            package_load item.2 = Some data) items ->
          exists w', run_again script env f b = Some w' /\
            browser_ok (mkBrowser (typed b') (sent b') w' items) /\
            step script env (world b) w') as Hrun.
  { intros f items Hitems. destruct (run_again_ends f b) as (w' & -> & ? & ? & ?).
    by exists w'. }
  destruct a; cbn [act] in Hact.
  - injection Hact as <-. by split; [|left].
  - injection Hact as <-. by split; [|left].
  - destruct (Hrun (form_of (typed b) true) (received b) Hreceived) as (w' & Hw & Hok & Hstep).
    rewrite Hw in Hact. injection Hact as <-. cbn in *. by split; [|right].
  - destruct (the_download (ui (world b))) as [[data file_name]|] eqn:Hd; [|done].
    cbn [mbind option_bind] in Hact.
    destruct (Hrun (form_of (sent b) false) (received b ++ [(file_name, package_bytes data)]))
      as (w' & Hw & Hok & Hstep).
    { apply Forall_app. split; [done|]. constructor; [|done]. exists data.
      pose proof (page_ok_download _ _ _ Hpage Hd). split; [done|].
      by apply package_load_bytes. }
    rewrite Hw in Hact. injection Hact as <-. cbn in *. by split; [|right].
  - destruct (has_text_area label (ui (world b))); [|done].
    destruct (Hrun (form_of (sent b) false) (received b) Hreceived) as (w' & Hw & Hok & Hstep).
    rewrite Hw in Hact. injection Hact as <-. cbn in *. by split; [|right].
  - destruct (Hrun (form_of default_fields false) (received b) Hreceived)
      as (w' & Hw & Hok & Hstep).
    rewrite Hw in Hact. injection Hact as <-. cbn in *. by split; [|right].
Qed.

Lemma landing_ok w : browser_ok (landing w).
Proof.
  split; [by repeat constructor|]. split; [by_compute|constructor].
Qed.

(** The worlds of a tab are worlds of a session. *)
Lemma browser_steps_session b b' :
  rtc (browser_step script env) b b' -> browser_ok b ->
  browser_ok b' /\ rtc (step script env) (world b) (world b').
Proof.
  induction 1 as [b|b1 b2 b3 [a ? ? Hact] _ IH]; intros Hok; [done|].
  destruct (act_ok _ _ _ Hact Hok) as [Hok2 Hw]. destruct (IH Hok2) as [Hok3 Hsteps].
  split; [done|]. destruct Hw as [<-|Hstep]; [done|]. by eapply rtc_l.
Qed.

Lemma acts_steps l b b' :
  acts script env l b = Some b' -> rtc (browser_step script env) b b'.
Proof.
  revert b. induction l as [|a l IH]; intros b; cbn [acts]; [by intros [= ->]|].
  destruct (act script env a b) as [b1|] eqn:Hact; [|done]. cbn [mbind option_bind].
  intros Hacts. eapply rtc_l; [by econstructor|by apply IH].
Qed.

(** An action that is not the submit of the form, and that the server
    hears of, leaves the title on the page and nothing else. *)
Lemma act_idle a b b' :
  act script env a b = Some b' ->
  match a with
  | ClickDownload | EditTextArea _ _ | Reload =>
    world b' = mkWorld [HEADING] (fs (world b))
  | TypeTitle _ | TypeTopics _ => world b' = world b
  | ClickSubmit => True
  end.
Proof.
  destruct a; cbn [act]; try done; try by intros [= <-].
  - destruct (the_download _) as [[data file_name]|]; [|done]. cbn [mbind option_bind].
    rewrite run_again_idle by done. by intros [= <-].
  - destruct (has_text_area _ _); [|done]. rewrite run_again_idle by done. by intros [= <-].
  - rewrite run_again_idle by done. by intros [= <-].
Qed.

(** ** Theorems on a served script *)



(** The form can always be submitted: the run it starts
    ends, and the tab shows its page. *)
Lemma submit_enabled b : is_Some (act script env ClickSubmit b).
Proof.
  cbn [act]. destruct (run_again_ends (form_of (typed b) true) b) as (w' & -> & _).
  by eexists.
Qed.

End served.

(** ** Lemmas: the widgets of the two scripts *)

(** An event that is no widget. *)
Definition no_widget (e : UiEvent) : Prop := widget_of e = None.

Lemma plain_page l : Forall no_widget l -> page_ok l /\ omap widget_of l = [].
Proof.
  induction 1 as [|e l He _ [IHp IHw]]; [by split; [constructor|]|]. unfold no_widget in He.
  cbn [omap list_omap]. rewrite He. split; [|done]. constructor; [|done]. by destruct e.
Qed.

Lemma plain_buttons l : Forall no_widget l -> omap deck_on l = [].
Proof.
  induction 1 as [|e l He _ IH]; [done|]. cbn [omap list_omap]. rewrite IH.
  by destruct e.
Qed.

Lemma requested_plain env prompt : Forall no_widget (requested env prompt).2.
Proof.
  unfold requested. destruct (negb _); [by repeat constructor|].
  destruct (model_generate_content env prompt); by repeat constructor.
Qed.

Lemma topic_events_plain content topics :
  Forall no_widget (DeckA.App.topic_events content topics).
Proof.
  unfold DeckA.App.topic_events. induction topics as [|topic topics IH]; [done|].
  rewrite bind_cons. by repeat constructor.
Qed.

(** [int(str(i))] is [i]: the decimal digits of a number give it back. *)
Lemma digits_value_fuel fuel n acc :
  n < N.of_nat fuel ->
  digits_value (DeckB.App1.digits_fuel fuel n acc) 0 = digits_value acc n.
Proof.
  revert n acc. induction fuel as [|fuel IH]; intros n acc Hn; [lia|].
  cbn [DeckB.App1.digits_fuel]. destruct (n <? 10) eqn:E.
  - unfold digits_value. cbn [foldl]. f_equal. rewrite N.mod_small by lia. lia.
  - rewrite IH by (assert (n / 10 < n) by (apply N.div_lt; lia); lia).
    unfold digits_value. cbn [foldl]. f_equal.
    generalize (N.div_mod n 10 ltac:(lia)). generalize (n / 10) (n mod 10). lia.
Qed.

Lemma digits_value_str_of_nat i : digits_value (DeckB.App1.str_of_nat i) 0 = N.of_nat i.
Proof. unfold DeckB.App1.str_of_nat. rewrite digits_value_fuel by lia. done. Qed.

#[export] Instance str_of_nat_inj : Inj (=) (=) DeckB.App1.str_of_nat.
Proof.
  intros i j Hij. apply Nat2N.inj. by rewrite <- !digits_value_str_of_nat, Hij.
Qed.

(** The text area of the slide [i], lines 136-137 of [App1.py]. *)
Definition slide_area (i : nat) : WidgetId :=
  (TextArea, py "Slide " ++ DeckB.App1.str_of_nat i ++ py " Content").

#[export] Instance slide_area_inj : Inj (=) (=) slide_area.
Proof.
  intros i j [= Hij%app_inv_tail]. by apply (inj _).
Qed.

Lemma slide_events_page i slides :
  page_ok (DeckB.App1.slide_events i slides) /\
  omap widget_of (DeckB.App1.slide_events i slides) = slide_area <$> seq i (length slides).
Proof.
  revert i. induction slides as [|slide slides IH]; intros i; [by split; [constructor|]|].
  destruct (IH (S i)) as [IHp IHw]. cbn [DeckB.App1.slide_events omap list_omap widget_of].
  rewrite IHw. split; [by repeat constructor|done].
Qed.

Lemma slide_events_buttons i slides : omap deck_on (DeckB.App1.slide_events i slides) = [].
Proof. revert i. induction slides as [|slide slides IH]; intros i; [done|]. apply IH. Qed.

(** The widgets of a page of [App1.py] with [n] slides. *)
Lemma App1_widgets_NoDup n :
  NoDup (form_widgets ++ (TextArea, py "raw content") :: (slide_area <$> seq 1 n) ++
         [(DownloadButton, py "Download PowerPoint Presentation")]).
Proof.
  set (fixed := form_widgets ++ [(TextArea, py "raw content");
                                 (DownloadButton, py "Download PowerPoint Presentation")]).
  assert (Forall (fun x => x.1 <> TextArea \/ head x.2 <> Some 83) fixed) as Hfixed
    by by_compute.
  apply (NoDup_Permutation_proper (fixed ++ (slide_area <$> seq 1 n))).
  { unfold fixed. rewrite <- (assoc_L (++)). f_equiv. cbn [app]. f_equiv.
    by rewrite (comm (++)). }
  apply NoDup_app. split; [by_compute|]. split; [|apply (NoDup_fmap_2 _), NoDup_seq].
  intros x Hx (i & -> & _)%list_elem_of_fmap. rewrite Forall_forall in Hfixed.
  by destruct (Hfixed _ Hx).
Qed.

(** ** Both scripts are served *)

(** A run that ends with a page without variables. *)
Ltac concrete_page :=
  eexists; (split; [|by left]); split; [by repeat constructor|by_compute].

(** The pages of [App.py]: up to [prs.save] no widget, then the download
    button. *)
Lemma App_page_to_save env title topics :
  Forall no_widget (DeckA.App.main_events_to_save env title topics).
Proof.
  unfold DeckA.App.main_events_to_save, DeckA.App.assemble_events.
  repeat apply Forall_app_2;
    [by repeat constructor|apply requested_plain|apply topic_events_plain].
Qed.

Lemma App_page_refused env title topics :
  page_ok (DeckA.App.main_events_to_save env title topics) /\
  NoDup (widgets (DeckA.App.main_events_to_save env title topics)) /\
  the_download (DeckA.App.main_events_to_save env title topics) = None.
Proof.
  destruct (plain_page _ (App_page_to_save env title topics)) as [Hp Hw].
  unfold widgets, the_download. rewrite Hw, (plain_buttons _ (App_page_to_save _ _ _)).
  split; [done|]. split; [by_compute|done].
Qed.

Lemma App_page env title topics :
  page_ok (DeckA.App.main_events env title topics) /\
  NoDup (widgets (DeckA.App.main_events env title topics)) /\
  the_download (DeckA.App.main_events env title topics) =
  Some (DeckA.App.deck_spec title topics (DeckA.App.chunks_of env title topics),
        DeckA.App.file_name_of title).
Proof.
  destruct (plain_page _ (App_page_to_save env title topics)) as [Hp Hw].
  unfold DeckA.App.main_events, widgets, the_download. split; [|split].
  - apply Forall_app_2; [done|]. apply Forall_cons; split; [done|].
    apply Forall_cons; split; [|done]. apply DeckA.App.wf_deck_spec.
  - rewrite omap_app, Hw. by_compute.
  - by rewrite omap_app, (plain_buttons _ (App_page_to_save _ _ _)).
Qed.

#[export] Instance App_served : WellServed DeckA.App.main.
Proof.
  split.
  - intros env w [title topics_input [|]]; unfold rerun; cbn [form_title form_topics_input
      form_submit]; [|concrete_page].
    rewrite DeckA.App.main_App_steps.
    destruct (DeckA.App.parse_topics topics_input) as [|topic topics] eqn:Ht.
    { concrete_page. }
    destruct (lookup_path _) as [e|path].
    + eexists. split; [|right; by eexists]. cbn [ui fresh_page say app].
      by destruct (App_page_refused env title (topic :: topics)) as (? & ? & _).
    + eexists. split; [|by left]. cbn [ui fresh_page app].
      by destruct (App_page env title (topic :: topics)) as (? & ? & _).
  - intros env w [title topics_input submit] Hf. cbn in Hf. by subst submit.
Qed.

(** The pages of [App1.py]. *)
Lemma App1_page env title topics slides rows :
  let page :=
    DeckB.App1.events_before_deck env title topics ++
    DeckB.App1.slide_events 1 slides ++
    [StDownloadButton (py "Download PowerPoint Presentation")
       (DeckB.App1.fragment_slide_spec <$> rows) (DeckB.App1.file_name_of title)
       DeckB.App1.MIME] in
  page_ok page /\ NoDup (widgets page) /\
  the_download page =
  Some (DeckB.App1.fragment_slide_spec <$> rows, DeckB.App1.file_name_of title).
Proof.
  destruct (plain_page _ (requested_plain env (Requester.App1.prompt_of title topics)))
    as [Hrp Hrw].
  destruct (slide_events_page 1 slides) as [Hsp Hsw].
  cbv zeta. unfold DeckB.App1.events_before_deck, DeckB.App1.failure_of, widgets, the_download.
  split; [|split].
  - apply Forall_app; split; [|apply Forall_app; split; [done|]].
    + repeat (apply Forall_app; split; [done || by repeat constructor|]).
      by repeat constructor.
    + apply Forall_cons; split; [|done].
      apply Forall_fmap, Forall_true, DeckB.App1.wf_fragment_slide_spec.
  - rewrite !omap_app, Hrw, Hsw. apply App1_widgets_NoDup.
  - rewrite !omap_app, (plain_buttons _ (requested_plain _ _)), slide_events_buttons. done.
Qed.

#[export] Instance App1_served : WellServed DeckB.App1.main.
Proof.
  split.
  - intros env w [title topics_input [|]]; unfold rerun; cbn [form_title form_topics_input
      form_submit]; [|concrete_page].
    rewrite DeckB.App1.main_App1_steps.
    destruct (DeckB.App1.parse_topics topics_input) as [|topic topics] eqn:Ht.
    { concrete_page. }
    destruct (plain_page _ (requested_plain env
      (Requester.App1.prompt_of title (topic :: topics)))) as [Hrp Hrw].
    cbv zeta. destruct (startswith _ _).
    { eexists. split; [|by left]. cbn [ui fresh_page say app]. unfold widgets.
      unfold DeckB.App1.failure_of.
      split; [by repeat first [constructor|apply Forall_app; split]|].
      cbn [app omap list_omap widget_of]. rewrite omap_app, Hrw. by_compute. }
    destruct (mapM _ _) as [rows|].
    + eexists. split; [|by left]. rewrite say_say. cbn [ui fresh_page say app].
      by destruct (App1_page env title (topic :: topics)
        (DeckB.App1.cleaned (DeckB.App1.content_of env title (topic :: topics))) rows)
        as (? & ? & _).
    + eexists. split; [|right; by eexists]. cbn [ui fresh_page say app]. unfold widgets.
      unfold DeckB.App1.events_before_deck, DeckB.App1.failure_of.
      split; [by repeat first [constructor|apply Forall_app; split]|].
      cbn [app omap list_omap widget_of]. rewrite omap_app, Hrw. by_compute.
  - intros env w [title topics_input submit] Hf. cbn in Hf. by subst submit.
Qed.

(** ** Lemmas: asking for a deck *)

(** What a user does to get a deck: the two fields, the submit, the
    download. *)
Definition ask_for (title topics_input : pystr) : list Action :=
  [TypeTitle title; TypeTopics topics_input; ClickSubmit; ClickDownload].

(** The tab after [ask_for], when the run of the submit leaves the page
    [page] and the files [files]. *)
Lemma ask_for_steps script `{!WellServed script} env title topics_input b page files
    data file_name :
  rerun script env (world b) (mkForm title topics_input true) = Done tt (mkWorld page files) ->
  the_download page = Some (data, file_name) ->
  acts script env (ask_for title topics_input) b =
  Some (mkBrowser (mkFields title topics_input) (mkFields title topics_input)
          (mkWorld [HEADING] files) (received b ++ [(file_name, package_bytes data)])).
Proof.
  intros Hrun Hd. unfold ask_for. cbn [acts mbind option_bind act typed sent world
    received title_field topics_field].
  unfold form_of at 1. cbn [title_field topics_field].
  erewrite run_again_Done by (cbn [world]; exact Hrun).
  cbn [mbind option_bind act typed sent world received ui]. rewrite Hd.
  cbn [mbind option_bind]. by rewrite run_again_idle.
Qed.

Lemma steps_App_files env w w' :
  rtc (step DeckA.App.main env) w w' ->
  map_Forall file_ok (fs w) -> map_Forall file_ok (fs w').
Proof. induction 1; eauto using step_App_file_ok. Qed.

(** ** Theorems on the two scripts *)

(** C20 (functional).  A user of [App.py] who fills in the form with at
    least one topic and a title whose file name the file system takes,
    submits it and clicks on the download button gets one file more: it
    has the name made from the title, it is what [open] finds under that
    name on the server, and it opens as the deck of the title and the
    topics that were typed.  After the click the page shows the title
    only. *)
Theorem ask_for_deck_App env b title topics_input :
  DeckA.App.parse_topics topics_input <> [] ->
  accepted (DeckA.App.file_name_of title) ->
  let topics := DeckA.App.parse_topics topics_input in
  let deck := DeckA.App.deck_spec title topics (DeckA.App.chunks_of env title topics) in
  exists b' data,
    acts DeckA.App.main env (ask_for title topics_input) b = Some b' /\
    received b' = received b ++ [(DeckA.App.file_name_of title, data)] /\
    download_App (DeckA.App.file_name_of title) (disk_of (world b')) = Some data /\
    package_load data = Some deck /\
    ui (world b') = [HEADING].
Proof.
  intros Ht [path Hpath]%accepted_path topics deck. subst deck topics.
  destruct (DeckA.App.parse_topics topics_input) as [|topic topics'] eqn:E; [done|].
  set (topics := topic :: topics').
  set (deck := DeckA.App.deck_spec title topics (DeckA.App.chunks_of env title topics)).
  assert (rerun DeckA.App.main env (world b) (mkForm title topics_input true) =
          Done tt (mkWorld (DeckA.App.main_events env title topics)
                     (<[path := deck]> (fs (world b))))) as Hrun.
  { unfold rerun. cbn [form_title form_topics_input form_submit].
    by rewrite DeckA.App.main_App_steps, E, Hpath. }
  destruct (App_page env title topics) as (_ & _ & Hd).
  eexists _, (package_bytes deck). split; [exact (ask_for_steps _ _ _ _ _ _ _ _ _ Hrun Hd)|].
  cbn [received world ui fs]. split; [done|]. split; [|split; [|done]].
  - apply (download_App_file _ path); [done|]. cbn [fs]. apply lookup_insert_eq.
  - apply package_load_bytes, DeckA.App.wf_deck_spec.
Qed.

(** C22 (error).  A user of [App.py] whose title gives a file name that
    the file system refuses gets no deck.  The submit asks the model and
    shows what it answered; the run ends in the exception of
    [prs.save], the page has no download button, no file is written, and
    the click on the download button is not offered. *)
Theorem ask_for_deck_refused env b title topics_input e :
  DeckA.App.parse_topics topics_input <> [] ->
  lookup_path (DeckA.App.file_name_of title) = inl e ->
  let topics := DeckA.App.parse_topics topics_input in
  acts DeckA.App.main env [TypeTitle title; TypeTopics topics_input; ClickSubmit] b =
    Some (mkBrowser (mkFields title topics_input) (mkFields title topics_input)
            (mkWorld (DeckA.App.main_events_to_save env title topics) (fs (world b)))
            (received b)) /\
  rerun DeckA.App.main env (world b) (mkForm title topics_input true) =
    Raised e (mkWorld (DeckA.App.main_events_to_save env title topics) (fs (world b))) /\
  acts DeckA.App.main env (ask_for title topics_input) b = None.
Proof.
  intros Ht Hpath topics.
  assert (rerun DeckA.App.main env (world b) (mkForm title topics_input true) =
          Raised e (mkWorld (DeckA.App.main_events_to_save env title topics)
                      (fs (world b)))) as Hrun.
  { unfold rerun. cbn [form_title form_topics_input form_submit].
    by rewrite (DeckA.App.main_refused _ _ _ e). }
  unfold ask_for. cbn [acts mbind option_bind act typed sent world received title_field
    topics_field]. unfold form_of, run_again. cbn [title_field topics_field world].
  rewrite Hrun. cbn [mbind option_bind act world ui].
  destruct (App_page_refused env title topics) as (_ & _ & ->). by split.
Qed.

(** C21 (functional).  A user of [App1.py] whom the model gives a
    well-written answer gets, with the same four actions, one file more:
    what Streamlit takes from the stream of [generate_ppt], which opens
    as the deck of the slides of the answer.  No file is written on the
    server, and after the click the page shows the title only. *)
Theorem ask_for_deck_App1 env b title topics_input opening slides ending :
  answered env title topics_input opening slides ending ->
  exists b',
    acts DeckB.App1.main env (ask_for title topics_input) b = Some b' /\
    received b' = received b ++
      [(DeckB.App1.file_name_of title, download_App1 (generate_ppt_stream (answer_deck slides)))] /\
    package_load (download_App1 (generate_ppt_stream (answer_deck slides))) =
      Some (answer_deck slides) /\
    fs (world b') = fs (world b) /\
    ui (world b') = [HEADING].
Proof.
  intros Ha.
  assert (rerun DeckB.App1.main env (world b) (mkForm title topics_input true) =
          Done tt (mkWorld (answer_events title opening slides ending) (fs (world b))))
    as Hrun by (unfold rerun; by rewrite (main_App1_answered _ _ _ _ _ _ _ Ha)).
  assert (the_download (answer_events title opening slides ending) =
          Some (answer_deck slides, DeckB.App1.file_name_of title)) as Hd.
  { unfold answer_events, the_download.
    by rewrite (omap_app _ [_; _; _; _]), omap_app, slide_events_buttons. }
  eexists. split; [exact (ask_for_steps _ _ _ _ _ _ _ _ _ Hrun Hd)|].
  cbn [received world ui fs]. rewrite download_App1_bytes. split; [done|].
  split; [|done]. apply package_load_bytes, Forall_fmap, Forall_true,
    DeckB.App1.wf_fragment_slide_spec.
Qed.

(** On a server of [App.py] whose files hold decks a
    run has written, whatever the user does in the tab, the files of the
    server still do. *)
Lemma browser_App_files env b b' :
  rtc (browser_step DeckA.App.main env) b b' ->
  browser_ok b -> map_Forall file_ok (fs (world b)) ->
  map_Forall file_ok (fs (world b')).
Proof.
  intros Hsteps Hok. destruct (browser_steps_session DeckA.App.main env b b' Hsteps Hok).
  by apply (steps_App_files env).
Qed.

End frontend.

(** ** The theorems on concrete tabs

    The database is [ascii_db] and the format [plain_format]; the model
    answers "hello world" to every prompt of [App.py], and the two slides
    of [Answer] to every prompt of [App1.py]. *)

#[local] Existing Instance plain_names.

(** The tab of a user of [App.py] who asked for the deck "T" with the
    topic "a", before and after the click on the download button. *)
Definition T_deck : Presentation :=
  DeckA.App.deck_spec (py "T") [py "a"] (DeckA.App.chunks_of DeckA.App.demo_env (py "T") [py "a"]).

Definition T_submitted : Browser :=
  mkBrowser (mkFields (py "T") (py "a")) (mkFields (py "T") (py "a"))
    (mkWorld (DeckA.App.main_events DeckA.App.demo_env (py "T") [py "a"])
       {[py "T.pptx" := T_deck]}) [].

Definition T_downloaded : Browser :=
  mkBrowser (mkFields (py "T") (py "a")) (mkFields (py "T") (py "a"))
    (mkWorld [HEADING] {[py "T.pptx" := T_deck]})
    [(py "T.pptx", package_bytes T_deck)].

Lemma T_asked :
  acts DeckA.App.main DeckA.App.demo_env (ask_for (py "T") (py "a")) (landing empty_world) =
  Some T_downloaded.
Proof.
  refine (ask_for_steps DeckA.App.main _ _ _ (landing empty_world)
            (DeckA.App.main_events DeckA.App.demo_env (py "T") [py "a"])
            {[py "T.pptx" := T_deck]} T_deck (py "T.pptx") _ _).
  - unfold rerun. by rewrite DeckA.App.main_App_steps.
  - by destruct (App_page DeckA.App.demo_env (py "T") [py "a"]) as (_ & _ & ->).
Qed.

Lemma T_clicked :
  act DeckA.App.main DeckA.App.demo_env ClickDownload T_submitted = Some T_downloaded.
Proof.
  cbn [act T_submitted world ui].
  destruct (App_page DeckA.App.demo_env (py "T") [py "a"]) as (_ & _ & ->).
  cbn [mbind option_bind]. by rewrite (run_again_idle DeckA.App.main).
Qed.



Lemma submit_enabled_witness :
  is_Some (act DeckA.App.main DeckA.App.demo_env ClickSubmit T_downloaded).
Proof. apply (submit_enabled DeckA.App.main DeckA.App.demo_env). Defined.

Lemma ask_for_deck_App_witness :
  let topics := DeckA.App.parse_topics (py "a") in
  let deck := DeckA.App.deck_spec (py "T") topics
                (DeckA.App.chunks_of DeckA.App.demo_env (py "T") topics) in
  exists b' data,
    acts DeckA.App.main DeckA.App.demo_env (ask_for (py "T") (py "a")) (landing empty_world) =
      Some b' /\
    received b' = received (landing empty_world) ++ [(DeckA.App.file_name_of (py "T"), data)] /\
    download_App (DeckA.App.file_name_of (py "T")) (disk_of (world b')) = Some data /\
    package_load data = Some deck /\
    ui (world b') = [HEADING].
Proof.
  apply (ask_for_deck_App DeckA.App.demo_env (landing empty_world) (py "T") (py "a"));
    by vm_compute.
Defined.

(** A title with a NUL character, which no file system takes. *)
Lemma ask_for_deck_refused_witness :
  let title := py "a" ++ [0] in
  let topics := DeckA.App.parse_topics (py "x") in
  acts DeckA.App.main DeckA.App.demo_env [TypeTitle title; TypeTopics (py "x"); ClickSubmit]
    (landing empty_world) =
    Some (mkBrowser (mkFields title (py "x")) (mkFields title (py "x"))
            (mkWorld (DeckA.App.main_events_to_save DeckA.App.demo_env title topics) ∅) []) /\
  rerun DeckA.App.main DeckA.App.demo_env (world (landing empty_world))
    (mkForm title (py "x") true) =
    Raised ValueError
      (mkWorld (DeckA.App.main_events_to_save DeckA.App.demo_env title topics) ∅) /\
  acts DeckA.App.main DeckA.App.demo_env (ask_for title (py "x")) (landing empty_world) = None.
Proof.
  apply (ask_for_deck_refused DeckA.App.demo_env (landing empty_world) (py "a" ++ [0])
           (py "x") ValueError); by vm_compute.
Defined.

Lemma two_slides_answered :
  answered (DeckB.App1.env_with (answer (py "**") two_slides [10])) (py "T") (py "a")
    (py "**") two_slides [10].
Proof. repeat split; try done; by_compute. Qed.

Lemma ask_for_deck_App1_witness :
  exists b',
    acts DeckB.App1.main (DeckB.App1.env_with (answer (py "**") two_slides [10]))
      (ask_for (py "T") (py "a")) (landing empty_world) = Some b' /\
    received b' = received (landing empty_world) ++
      [(DeckB.App1.file_name_of (py "T"),
        download_App1 (generate_ppt_stream (answer_deck two_slides)))] /\
    package_load (download_App1 (generate_ppt_stream (answer_deck two_slides))) =
      Some (answer_deck two_slides) /\
    fs (world b') = fs (world (landing empty_world)) /\
    ui (world b') = [HEADING].
Proof.
  apply (ask_for_deck_App1 _ _ _ _ (py "**") two_slides [10]), two_slides_answered.
Defined.

Lemma browser_App_files_witness : map_Forall file_ok (fs (world T_downloaded)).
Proof.
  apply (browser_App_files DeckA.App.demo_env (landing empty_world));
    [apply (acts_steps _ _ _ _ _ T_asked)|apply landing_ok|apply map_Forall_empty].
Defined.

(** What is typed and not submitted does not reach the script: a user
    who changes the title after the submit still downloads the deck of
    the title that was submitted, under its name. *)
Example title_typed_after_submit :
  (fun b' => (typed b', fst <$> received b')) <$>
    acts DeckA.App.main DeckA.App.demo_env [TypeTitle (py "U"); ClickDownload] T_submitted =
  Some (mkFields (py "U") (py "a"), [py "T.pptx"]).
Proof.
  cbn [acts act T_submitted world ui mbind option_bind typed sent received title_field
    topics_field].
  destruct (App_page DeckA.App.demo_env (py "T") [py "a"]) as (_ & _ & ->).
  cbn [mbind option_bind]. by rewrite (run_again_idle DeckA.App.main).
Qed.

(** The text areas of a run of [App1.py] can be edited, to no effect but
    the loss of the page. *)
Example edit_loses_the_page :
  let b := mkBrowser default_fields default_fields
             (mkWorld (answer_events (py "T") (py "**") two_slides [10]) ∅) [] in
  world <$> act DeckB.App1.main (DeckB.App1.env_with []) (EditTextArea (py "Slide 2 Content") [])
              b =
  Some (mkWorld [HEADING] ∅).
Proof. by vm_compute. Qed.

(** The numbers of the slides as the labels have them. *)
Example str_of_nat_12 : DeckB.App1.str_of_nat 12 = py "12" /\ digits_value (py "12") 0 = 12.
Proof. by vm_compute. Qed.
