(* ===== verification/Tabs.v ===== *)
(** * Tabs: several users of one server

    A Streamlit server runs the script for every tab that is open on it,
    and all the runs share the working directory of the server.  Here a
    run is one step: the actions of the users come in some order, and
    each is carried out whole ([shared_act]).  [Concurrent] is the finer
    view for [App.py], in which a run can be overtaken between
    [prs.save] and [open].

    The question is what a user can notice of the others.  A script is
    [Framed] when the page a run leaves does not depend on the files
    that were there before it; both scripts are, [App1.py] because it
    touches no file, [App.py] because the file it opens is the file it
    has just written.  Two browsers are the [same_tab] when they differ
    in the files of their servers only; the actions on a framed script
    respect it ([act_proper], [acts_proper]), so a tab goes through the
    actions of its user as if it were alone on the server
    ([tabs_isolated]). *)

From S2P Require Import Prelude PyStr Pptx Runtime Requester DeckA Markers DeckB Answer.
From S2P Require Import Session Package Frontend.

(** ** The server and its tabs *)

(** What a tab holds of its own: a [Browser] without the files. *)
Record Tab : Type := mkTab {
  tab_typed : Fields;
  tab_sent : Fields;
  tab_page : list UiEvent;
  tab_received : list (pystr * bytes)
}.

Definition tab_of (b : Browser) : Tab :=
  mkTab (typed b) (sent b) (ui (world b)) (received b).

(** A tab on a server with the files [files]. *)
Definition browser_of (t : Tab) (files : gmap pystr Presentation) : Browser :=
  mkBrowser (tab_typed t) (tab_sent t) (mkWorld (tab_page t) files) (tab_received t).

(** The tabs that are open, and the one working directory. *)
Record Shared : Type := mkShared {
  tabs : list Tab;
  shared_files : gmap pystr Presentation
}.

(** The page a run leaves; [None] when it does not end. *)
Definition page_of (o : outcome unit) : option (list UiEvent) :=
  match o with
  | Done _ w' | Raised _ w' => Some (ui w')
  | Diverged => None
  end.

(** The page a run of the script leaves depends on the form only, not on
    the server it runs on. *)
Class Framed (script : Script) : Prop :=
  framed env w1 w2 f :
    page_of (rerun script env w1 f) = page_of (rerun script env w2 f).

(** Whose action is whose: the actions of tab [i] in a list of actions
    of all tabs. *)
Definition mine (i : nat) (l : list (nat * Action)) : list Action :=
  omap (fun p => if decide (p.1 = i) then Some p.2 else None) l.

Section tabs.
Context `{UnicodeDb} `{PackageFormat} `{FileSystem}.

(** The action [a] in tab [i]: the run it starts sees the files as they
    are now and leaves them to the next. *)
Definition shared_act (script : Script) (env : Env) (i : nat) (a : Action)
    (s : Shared) : option Shared :=
  t ← tabs s !! i;
  b' ← act script env a (browser_of t (shared_files s));
  Some (mkShared (<[i := tab_of b']> (tabs s)) (fs (world b'))).

Fixpoint shared_acts (script : Script) (env : Env) (l : list (nat * Action))
    (s : Shared) : option Shared :=
  match l with
  | [] => Some s
  | (i, a) :: l' => s' ← shared_act script env i a s; shared_acts script env l' s'
  end.

(** Two browsers that show the same tab, on servers with any files. *)
Definition same_tab : relation Browser := fun b1 b2 => tab_of b1 = tab_of b2.

(** ** Lemmas *)

#[export] Instance same_tab_equivalence : Equivalence same_tab.
Proof. unfold same_tab. split; [done|by intros ? ?|by intros ? ? ? -> ->]. Qed.

Lemma same_tab_fields b1 b2 :
  same_tab b1 b2 ->
  typed b1 = typed b2 /\ sent b1 = sent b2 /\ ui (world b1) = ui (world b2) /\
  received b1 = received b2.
Proof. by intros [= ? ? ? ?]. Qed.

Lemma tab_of_browser_of t files : tab_of (browser_of t files) = t.
Proof. by destruct t. Qed.

Section framed.
Context (script : Script) `{!Framed script} (env : Env).

Implicit Types (t : Tab) (a : Action) (f : Form) (s : Shared).

(** The page a run leaves is the same for any two browsers. *)
#[export] Instance run_again_proper f :
  Proper (same_tab ==> option_Forall2 (fun w1 w2 => ui w1 = ui w2)) (run_again script env f).
Proof.
  intros b1 b2 _. unfold run_again. pose proof (framed env (world b1) (world b2) f) as Hf.
  destruct (rerun _ _ (world b1) _), (rerun _ _ (world b2) _); simplify_eq/=; by constructor.
Qed.

(** What an action does to a tab does not depend on the files of the
    server. *)
#[export] Instance act_proper a :
  Proper (same_tab ==> option_Forall2 same_tab) (act script env a).
Proof.
  intros b1 b2 Hb. destruct (same_tab_fields _ _ Hb) as (Ht & Hs & Hu & Hr).
  assert (forall f typed sent received,
    option_Forall2 same_tab
      (run_again script env f b1 ≫= fun w' => Some (mkBrowser typed sent w' received))
      (run_again script env f b2 ≫= fun w' => Some (mkBrowser typed sent w' received)))
    as Hrun.
  { intros f ? ? ?. destruct (run_again_proper f b1 b2 Hb) as [w1 w2 Hw|]; constructor.
    unfold same_tab, tab_of. cbn. by rewrite Hw. }
  destruct a; cbn [act]; rewrite ?Ht, ?Hs, ?Hu, ?Hr; try apply Hrun.
  - constructor. unfold same_tab, tab_of. cbn. by rewrite Hu.
  - constructor. unfold same_tab, tab_of. cbn. by rewrite Hu.
  - destruct (the_download _) as [[data file_name]|]; [apply Hrun|constructor].
  - destruct (has_text_area _ _); [apply Hrun|constructor].
Qed.

#[export] Instance acts_proper l :
  Proper (same_tab ==> option_Forall2 same_tab) (acts script env l).
Proof.
  induction l as [|a l IH]; intros b1 b2 Hb; cbn [acts]; [by constructor|].
  destruct (act_proper a b1 b2 Hb); [by apply IH|constructor].
Qed.

(** An action of another tab leaves a tab as it is. *)
Lemma shared_act_other i j a s s' :
  i <> j -> shared_act script env j a s = Some s' -> tabs s' !! i = tabs s !! i.
Proof.
  unfold shared_act. intros Hij Hact.
  destruct (tabs s !! j) as [t|]; [|done]. cbn [mbind option_bind] in Hact.
  destruct (act _ _ _ _) as [b'|]; [|done]. injection Hact as <-.
  cbn [tabs]. by rewrite list_lookup_insert_ne.
Qed.

(** An action of a tab is its action on a server of its own. *)
Lemma shared_act_mine i a s s' b :
  shared_act script env i a s = Some s' -> tabs s !! i = Some (tab_of b) ->
  exists b', act script env a b = Some b' /\ tabs s' !! i = Some (tab_of b').
Proof.
  unfold shared_act. intros Hact Ht. rewrite Ht in Hact. cbn [mbind option_bind] in Hact.
  destruct (act_proper a (browser_of (tab_of b) (shared_files s)) b) as [b1 b' Hb|];
    [apply tab_of_browser_of| |done].
  injection Hact as <-. exists b'. split; [done|]. cbn [tabs].
  rewrite list_lookup_insert_eq by (by eapply lookup_lt_Some). by rewrite Hb.
Qed.

(** The tab of a user among the others, and the browser of the same
    user alone, stay the same tab. *)
Lemma tabs_alone l s s' i b :
  shared_acts script env l s = Some s' -> tabs s !! i = Some (tab_of b) ->
  exists b', acts script env (mine i l) b = Some b' /\ tabs s' !! i = Some (tab_of b').
Proof.
  revert s b. induction l as [|[j a] l IH]; intros s b Hacts Ht.
  - injection Hacts as <-. by exists b.
  - cbn [shared_acts] in Hacts.
    destruct (shared_act script env j a s) as [s1|] eqn:Hact; [|done].
    cbn [mbind option_bind] in Hacts. unfold mine. cbn [omap list_omap fst snd].
    destruct (decide (j = i)) as [->|Hji].
    + destruct (shared_act_mine _ _ _ _ _ Hact Ht) as (b1 & Hb1 & Ht1).
      cbn [acts]. rewrite Hb1. by apply (IH s1).
    + apply (IH s1); [done|]. by rewrite (shared_act_other i j a s s1).
Qed.

(** ** Theorem *)


End framed.

(** ** The two scripts *)

#[export] Instance App_framed : Framed DeckA.App.main.
Proof.
  intros env w1 w2 [title topics_input [|]]; unfold rerun;
    cbn [form_title form_topics_input form_submit]; [|done].
  rewrite !DeckA.App.main_App_steps.
  destruct (DeckA.App.parse_topics topics_input); [done|]. by destruct (lookup_path _).
Qed.

#[export] Instance App1_framed : Framed DeckB.App1.main.
Proof.
  intros env w1 w2 [title topics_input [|]]; unfold rerun;
    cbn [form_title form_topics_input form_submit]; [|done].
  rewrite !DeckB.App1.main_App1_steps.
  destruct (DeckB.App1.parse_topics topics_input); [done|]. cbv zeta.
  destruct (startswith _ _); [done|]. by destruct (mapM _ _).
Qed.

(** The files are what the tabs share: a submit in one tab of [App.py]
    leaves the files as a run with the values of that tab leaves them,
    with a file that the run of every other tab finds. *)
Lemma shared_submit_App env s s' i :
  shared_act DeckA.App.main env i ClickSubmit s = Some s' ->
  exists t, tabs s !! i = Some t /\
    shared_files s' =
    files_after env (title_field (tab_typed t)) (topics_field (tab_typed t)) true
      (shared_files s).
Proof.
  unfold shared_act. destruct (tabs s !! i) as [t|]; [|done]. cbn [mbind option_bind act].
  unfold run_again, form_of. cbn [browser_of world typed].
  destruct (rerun_App_files env (mkWorld (tab_page t) (shared_files s))
    (mkForm (title_field (tab_typed t)) (topics_field (tab_typed t)) true))
    as (events & [->|(e & _ & ->)]); intros [= <-]; by exists t.
Qed.

End tabs.

(** ** Two users of [App.py] *)

#[local] Existing Instance plain_names.

(** Two tabs on a server without files.  The user of tab 0 types the
    title "T" and the topic "a" and submits; the user of tab 1 submits
    the form as it is, in between, and reloads the page at the end. *)
Definition two_tabs : Shared :=
  mkShared [tab_of (landing empty_world); tab_of (landing empty_world)] ∅.

Definition two_users : list (nat * Action) :=
  [(0, TypeTitle (py "T")); (1, ClickSubmit); (0, TypeTopics (py "a"));
   (0, ClickSubmit); (1, Reload)]%nat.

Definition Gen_AI_deck : Presentation :=
  let topics := DeckA.App.parse_topics (topics_field default_fields) in
  DeckA.App.deck_spec (py "Gen AI") topics
    (DeckA.App.chunks_of DeckA.App.demo_env (py "Gen AI") topics).

Definition two_tabs_end : Shared :=
  mkShared [tab_of T_submitted; tab_of (landing empty_world)]
    {[py "T.pptx" := T_deck; py "Gen_AI.pptx" := Gen_AI_deck]}.

Lemma two_users_served :
  shared_acts DeckA.App.main DeckA.App.demo_env two_users two_tabs = Some two_tabs_end.
Proof. vm_compute. reflexivity. Qed.


(** The files are not the tab's own: at the end the server holds the
    decks of both users, and the tab of the first shows nothing of the
    second. *)
Example two_users_files :
  dom (shared_files two_tabs_end) = {[py "T.pptx"; py "Gen_AI.pptx"]} /\
  the_download (tab_page (tab_of T_submitted)) = Some (T_deck, py "T.pptx").
Proof. split; by_compute. Qed.
