(* ===== verification/Concurrent.v ===== *)
(** * Concurrent: sessions of [App.py] over one working directory

    Streamlit runs the script of each session in a thread of its own; the
    threads of one server share the working directory.  A run of
    [App.py] touches it twice: [prs.save(file_name)] in
    [create_presentation] (line 123) and [open(file_name, "rb")] in the
    script (line 149).  Between the two, the run of another session can
    write the same file.

    [main_to_save] and [main_from_open] are the script cut between its
    two accesses; [visit] is what a visitor does next, [site_step] lets
    any visitor go next.  The theorems say what holds for every
    interleaving (a run raises only what the file system answers to its
    own file name, every file and every download is a well-formed deck)
    and what does not: a visitor can be handed the deck of another, when
    the file names of the two stand for one file, and then only. *)

From S2P Require Import Prelude PyStr Segmenter Pptx Runtime Requester DeckA Session.

(** ** The script in two parts *)

Section script.
Context `{UnicodeDb} `{FileSystem}.

(** Lines 129-145: up to the return of [create_presentation]; the name of
    the file written, or [None] when the run ends before. *)
Definition main_to_save (env : Env) (title topics_input : pystr) (submit : bool)
    : M (option pystr) :=
  emit (StTitle (py "AI-Powered Presentation Creator"));;
  if submit then
    let topics := DeckA.App.parse_topics topics_input in
    match topics with
    | [] => emit (StError (py "Please enter at least one topic."));; mret None
    | _ :: _ =>
      emit (StInfo (py "Generating your presentation. Please wait..."));;
      file_name ← DeckA.App.create_presentation env title topics;
      mret (Some file_name)
    end
  else mret None.

(** Lines 146-155: from the success message on. *)
Definition main_from_open (file_name : pystr) : M unit :=
  emit (StSuccess (py "Presentation '" ++ file_name ++ py "' created successfully!"));;
  file ← open_rb file_name;
  emit (StDownloadButton (py "Download Presentation") file file_name DeckA.App.MIME).

(** The script, from its parts. *)
Definition main_in_parts (env : Env) (title topics_input : pystr) (submit : bool) : M unit :=
  saved ← main_to_save env title topics_input submit;
  match saved with
  | Some file_name => main_from_open file_name
  | None => mret tt
  end.

End script.

(** ** Visitors *)

(** Where the run of a visitor is. *)
Inductive Stage : Type :=
| AtStart
| Saved (file_name : pystr)
| Finished
| Crashed (e : pyexn).

(** A visitor: the model and the form of the run, the page, the stage. *)
Record Visitor : Type := mkVisitor {
  v_env : Env;
  v_form : Form;
  v_page : list UiEvent;
  v_stage : Stage
}.

Definition arrive (env : Env) (f : Form) : Visitor := mkVisitor env f [] AtStart.

Definition moved (v : Visitor) (w : World) (stage : Stage) : Visitor * gmap (list N) (list Slide) :=
  (mkVisitor (v_env v) (v_form v) (ui w) stage, fs w).

Section visit.
Context `{UnicodeDb} `{FileSystem}.

(** The next part of the run of [v], on the files as they are. *)
Definition visit (v : Visitor) (files : gmap (list N) (list Slide))
    : Visitor * gmap (list N) (list Slide) :=
  match v_stage v with
  | AtStart =>
    match main_to_save (v_env v) (form_title (v_form v)) (form_topics_input (v_form v))
            (form_submit (v_form v)) (mkWorld [] files) with
    | Done (Some file_name) w => moved v w (Saved file_name)
    | Done None w => moved v w Finished
    | Raised e w => moved v w (Crashed e)
    | Diverged => (v, files)
    end
  | Saved file_name =>
    match main_from_open file_name (mkWorld (v_page v) files) with
    | Done _ w => moved v w Finished
    | Raised e w => moved v w (Crashed e)
    | Diverged => (v, files)
    end
  | Finished | Crashed _ => (v, files)
  end.

End visit.

(** The visitors of a server and its working directory. *)
Record Site : Type := mkSite {
  visitors : list Visitor;
  files : gmap (list N) (list Slide)
}.

Section site.
Context `{UnicodeDb} `{FileSystem}.

(** Visitor [i] goes next. *)
Definition turn (i : nat) (s : Site) : Site :=
  match visitors s !! i with
  | Some v =>
    let '(v', files') := visit v (files s) in
    mkSite (<[i := v']> (visitors s)) files'
  | None => s
  end.

(** A schedule: who goes next, turn by turn. *)
Definition run_schedule (schedule : list nat) (s : Site) : Site :=
  foldl (fun s i => turn i s) s schedule.

Inductive site_step : Site -> Site -> Prop :=
| site_turn i s : site_step s (turn i s).

(** The deck of the run of a visitor, and the deck a visitor was handed
    at the end. *)
Definition own_deck (env : Env) (f : Form) : Presentation :=
  DeckA.App.deck_spec (form_title f) (DeckA.App.parse_topics (form_topics_input f))
    (DeckA.App.chunks_of env (form_title f) (DeckA.App.parse_topics (form_topics_input f))).

Definition download (v : Visitor) : option Presentation :=
  match last (v_page v) with
  | Some (StDownloadButton _ deck _ _) => Some deck
  | _ => None
  end.

(** ** What holds at every moment *)

(** The name under which the run of a visitor saves its deck. *)
Definition v_name (v : Visitor) : pystr := DeckA.App.file_name_of (form_title (v_form v)).

(** A download button carries a deck that a run of [App.py] can have
    written under that name. *)
Definition download_ok (e : UiEvent) : Prop :=
  match e with
  | StDownloadButton _ deck file_name _ =>
    exists path, lookup_path file_name = inr path /\ file_ok path deck
  | _ => True
  end.

(** The file a visitor is about to open is there, its downloads are
    decks, and when its run has raised, it has raised what the file
    system answers to its file name. *)
Definition visitor_ok (files : gmap (list N) (list Slide)) (v : Visitor) : Prop :=
  match v_stage v with
  | Saved file_name =>
    exists path, lookup_path file_name = inr path /\ is_Some (files !! path)
  | Crashed e => lookup_path (v_name v) = inl e
  | _ => True
  end /\ Forall download_ok (v_page v).

Definition site_ok (s : Site) : Prop :=
  map_Forall file_ok (files s) /\ Forall (visitor_ok (files s)) (visitors s).

(** ** A visitor whose file is its own *)

(** The visitor has submitted the form with a topic: the run makes a
    deck. *)
Definition asks (v : Visitor) : Prop :=
  form_submit (v_form v) = true /\
  DeckA.App.parse_topics (form_topics_input (v_form v)) <> [].

(** The turns a visitor still takes. *)
Definition turns_left (v : Visitor) : nat :=
  match v_stage v with
  | AtStart => 2
  | Saved _ => 1
  | Finished | Crashed _ => 0
  end.

(** What holds of a visitor whose file name is taken and whose file no
    other visitor writes: the file it is about to open holds the deck of
    its own run, and so does its download button at the end. *)
Definition own_ok (files : gmap (list N) (list Slide)) (v : Visitor) : Prop :=
  exists path, lookup_path (v_name v) = inr path /\
  match v_stage v with
  | AtStart => True
  | Saved file_name =>
    file_name = v_name v /\ files !! path = Some (own_deck (v_env v) (v_form v))
  | Finished => asks v -> download v = Some (own_deck (v_env v) (v_form v))
  | Crashed _ => False
  end.

(** Visitor [i] is in order and the file name of no other visitor stands
    for its file. *)
Definition private (i : nat) (v : Visitor) (s : Site) : Prop :=
  visitors s !! i = Some v /\ own_ok (files s) v /\
  forall j v', j <> i -> visitors s !! j = Some v' ->
    lookup_path (v_name v') <> lookup_path (v_name v).

(** ** Lemmas: the two parts *)

Lemma main_to_save_steps env title topics_input submit w :
  main_to_save env title topics_input submit w =
  if submit then
    match DeckA.App.parse_topics topics_input with
    | [] =>
      Done None (say w [StTitle (py "AI-Powered Presentation Creator");
                        StError (py "Please enter at least one topic.")])
    | topics =>
      match lookup_path (DeckA.App.file_name_of title) with
      | inr path =>
        Done (Some (DeckA.App.file_name_of title))
          (DeckA.App.world_after env title topics path
             (say w [StTitle (py "AI-Powered Presentation Creator");
                     StInfo (py "Generating your presentation. Please wait...")]))
      | inl e => Raised e (say w (DeckA.App.main_events_to_save env title topics))
      end
    end
  else Done None (say w [StTitle (py "AI-Powered Presentation Creator")]).
Proof.
  unfold main_to_save. rewrite bind_emit_say. destruct submit; [|done].
  destruct (DeckA.App.parse_topics topics_input) as [|topic topics];
    [by autorewrite with py|].
  rewrite bind_emit_say, say_say, bind_run, DeckA.App.create_presentation_steps.
  destruct (lookup_path _); [|done]. by rewrite say_say.
Qed.

Lemma main_from_open_steps file_name w :
  main_from_open file_name w =
  let success :=
    StSuccess (py "Presentation '" ++ file_name ++ py "' created successfully!") in
  match lookup_path file_name with
  | inr path =>
    match fs w !! path with
    | Some deck =>
      Done tt (say w [success;
        StDownloadButton (py "Download Presentation") deck file_name DeckA.App.MIME])
    | None => Raised FileNotFoundError (say w [success])
    end
  | inl e => Raised e (say w [success])
  end.
Proof.
  unfold main_from_open. rewrite bind_emit_say. unfold mbind, M_bind, open_rb.
  cbn [say fs]. destruct (lookup_path file_name) as [e|path]; [done|].
  destruct (fs w !! path); [|done]. by autorewrite with py.
Qed.

(** The two parts, run one after the other, are the
    script: on every input, in every world and in every file system they
    end as [main] does. *)
Lemma main_in_parts_main env title topics_input submit w :
  main_in_parts env title topics_input submit w =
  DeckA.App.main env title topics_input submit w.
Proof.
  unfold main_in_parts. rewrite bind_run, main_to_save_steps. destruct submit; [|done].
  rewrite DeckA.App.main_App_steps.
  destruct (DeckA.App.parse_topics topics_input) as [|topic topics]; [done|].
  destruct (lookup_path (DeckA.App.file_name_of title)) as [e|path] eqn:Hpath; [done|].
  cbv beta iota zeta. rewrite main_from_open_steps, Hpath.
  unfold DeckA.App.world_after, say. cbn [fs ui]. rewrite lookup_insert_eq.
  unfold DeckA.App.main_events, DeckA.App.main_events_to_save. cbn [ui fs].
  by rewrite <- !app_assoc.
Qed.

(** ** Lemmas: one turn *)

Lemma visitor_ok_more files files' v :
  (forall path, is_Some (files !! path) -> is_Some (files' !! path)) ->
  visitor_ok files v -> visitor_ok files' v.
Proof.
  intros Hmore [Hstage Hpage]. split; [|done].
  destruct (v_stage v); [done| |done..]. destruct Hstage as (path & ? & ?). eauto.
Qed.

Lemma requested_download_ok env prompt : Forall download_ok (requested env prompt).2.
Proof.
  destruct (requested_failure env prompt) as [->|(message & -> & _)]; by repeat constructor.
Qed.

Lemma topic_events_download_ok content topics :
  Forall download_ok (DeckA.App.topic_events content topics).
Proof. apply Forall_bind, Forall_true. intros topic. by repeat constructor. Qed.

Lemma assemble_events_download_ok env title topics :
  Forall download_ok (DeckA.App.assemble_events env title topics).
Proof.
  apply Forall_app_2; [apply requested_download_ok|apply topic_events_download_ok].
Qed.

Lemma deck_file_ok env title topics path :
  topics <> [] -> lookup_path (DeckA.App.file_name_of title) = inr path ->
  file_ok path (DeckA.App.deck_spec title topics (DeckA.App.chunks_of env title topics)).
Proof.
  intros Ht Hpath. destruct (chunks_of_ok env title topics).
  eexists _, _, _. eauto 8 using DeckA.App.wf_deck_spec.
Qed.

(** The first turn of a visitor: it keeps what holds of the files,
    removes none, and leaves the visitor with its file written, at its
    end, or with the exception of the file system for its file name. *)
Lemma visit_start v files :
  v_stage v = AtStart -> map_Forall file_ok files ->
  exists page files' stage,
    visit v files = (mkVisitor (v_env v) (v_form v) page stage, files') /\
    map_Forall file_ok files' /\ Forall download_ok page /\
    (forall path, is_Some (files !! path) -> is_Some (files' !! path)) /\
    match stage with
    | AtStart => False
    | Saved file_name =>
      exists path, lookup_path file_name = inr path /\ is_Some (files' !! path)
    | Finished => True
    | Crashed e => lookup_path (v_name v) = inl e
    end.
Proof.
  intros Hs Hfiles. unfold visit. rewrite Hs, main_to_save_steps.
  destruct (form_submit (v_form v)).
  2:{ eexists _, _, _. split; [done|]. by repeat split; repeat constructor. }
  destruct (DeckA.App.parse_topics _) as [|topic topics] eqn:Ht.
  { eexists _, _, _. split; [done|]. by repeat split; repeat constructor. }
  destruct (lookup_path _) as [e|path] eqn:Hpath; eexists _, _, _; (split; [done|]).
  - split; [done|]. split; [|done]. cbn [say ui app].
    apply Forall_cons; split; [done|]. apply Forall_cons; split; [done|].
    apply assemble_events_download_ok.
  - cbn [DeckA.App.world_after say ui fs app]. split; [|split; [|split]].
    + apply map_Forall_insert_2; [by apply deck_file_ok|done].
    + apply Forall_cons; split; [done|]. apply Forall_cons; split; [done|].
      apply assemble_events_download_ok.
    + intros name Hname. rewrite lookup_insert_is_Some'. by right.
    + exists path. split; [done|]. by rewrite lookup_insert_eq.
Qed.

(** The second part finds the file and hands out what it holds. *)
Lemma main_from_open_ok file_name path page files :
  map_Forall file_ok files -> lookup_path file_name = inr path ->
  is_Some (files !! path) -> Forall download_ok page ->
  exists deck page',
    files !! path = Some deck /\
    main_from_open file_name (mkWorld page files) = Done tt (mkWorld page' files) /\
    Forall download_ok page'.
Proof.
  intros Hfiles Hpath [deck Hdeck] Hpage. rewrite main_from_open_steps, Hpath. cbn [fs].
  rewrite Hdeck. eexists _, _. split; [done|]. split; [done|].
  apply Forall_app_2; [done|]. apply Forall_cons; split; [done|].
  apply Forall_cons; split; [|done]. exists path. split; [done|]. by apply (Hfiles path).
Qed.

(** The second turn of a visitor in order: it ends the run. *)
Lemma visit_second v file_name files :
  v_stage v = Saved file_name -> map_Forall file_ok files -> visitor_ok files v ->
  exists page,
    visit v files = (mkVisitor (v_env v) (v_form v) page Finished, files) /\
    Forall download_ok page.
Proof.
  intros Hs Hfiles [Hstage Hpage]. rewrite Hs in Hstage.
  destruct Hstage as (path & Hpath & Hfile).
  destruct (main_from_open_ok file_name path (v_page v) files)
    as (deck & page' & _ & Hrun & ?); [done..|].
  unfold visit. rewrite Hs, Hrun. by exists page'.
Qed.

(** A turn keeps what holds of the files and of the visitor, and removes
    no file. *)
Lemma visit_ok v files :
  map_Forall file_ok files -> visitor_ok files v ->
  map_Forall file_ok (visit v files).2 /\ visitor_ok (visit v files).2 (visit v files).1 /\
  (forall path, is_Some (files !! path) -> is_Some ((visit v files).2 !! path)).
Proof.
  intros Hfiles Hv. destruct (v_stage v) as [|file_name| |e] eqn:Hs.
  - destruct (visit_start v files Hs Hfiles)
      as (page & files' & stage & -> & ? & ? & ? & Hstage).
    split; [done|]. split; [|done]. split; [|done]. by destruct stage.
  - destruct (visit_second v file_name files Hs Hfiles Hv) as (page & -> & ?).
    cbn [fst snd]. split; [done|]. by split.
  - unfold visit. rewrite Hs. cbn [fst snd]. auto.
  - unfold visit. rewrite Hs. cbn [fst snd]. auto.
Qed.

Lemma turn_ok i s : site_ok s -> site_ok (turn i s).
Proof.
  intros [Hfiles Hvs]. unfold turn. destruct (visitors s !! i) as [v|] eqn:Hi; [|done].
  destruct (visit_ok v (files s) Hfiles) as (Hfiles' & Hv' & Hmore);
    [by eapply Forall_lookup_1|].
  destruct (visit v (files s)) as [v' files']. split; [done|]. cbn [visitors files fst snd] in *.
  apply Forall_insert; [|done]. eapply Forall_impl; [exact Hvs|].
  intros v0. by apply visitor_ok_more.
Qed.

(** The two turns of a visitor that has submitted topics, under a file
    name that is taken. *)
Lemma visit_arrive env f path files :
  form_submit f = true -> DeckA.App.parse_topics (form_topics_input f) <> [] ->
  lookup_path (DeckA.App.file_name_of (form_title f)) = inr path ->
  exists page,
    visit (arrive env f) files =
    (mkVisitor env f page (Saved (DeckA.App.file_name_of (form_title f))),
     <[path := own_deck env f]> files).
Proof.
  intros Hsubmit Htopics Hpath. unfold visit, own_deck. cbn [arrive v_stage v_env v_form].
  rewrite main_to_save_steps, Hsubmit, Hpath.
  destruct (DeckA.App.parse_topics (form_topics_input f)); [done|]. by eexists.
Qed.

Lemma visit_saved env f page file_name path deck files :
  lookup_path file_name = inr path -> files !! path = Some deck ->
  exists page',
    visit (mkVisitor env f page (Saved file_name)) files =
      (mkVisitor env f page' Finished, files) /\
    download (mkVisitor env f page' Finished) = Some deck.
Proof.
  intros Hpath Hdeck. unfold visit. cbn [v_stage v_page].
  rewrite main_from_open_steps, Hpath. cbn [fs]. rewrite Hdeck. eexists. split; [done|].
  unfold download. cbn [v_page moved say ui fst]. by rewrite last_app.
Qed.

Lemma run_schedule_steps schedule s : rtc site_step s (run_schedule schedule s).
Proof.
  revert s. induction schedule as [|i schedule IH]; intros s; [done|].
  eapply rtc_l; [apply (site_turn i)|apply IH].
Qed.

Lemma arrivals_ok vs :
  Forall (fun v => v_stage v = AtStart /\ v_page v = []) vs -> site_ok (mkSite vs ∅).
Proof.
  intros Hvs. split; [apply map_Forall_empty|]. eapply Forall_impl; [exact Hvs|].
  intros v [Hstage Hpage]. unfold visitor_ok. rewrite Hstage, Hpage. by split.
Qed.

Lemma turn_first v1 v2 files :
  turn 0 (mkSite [v1; v2] files) = mkSite [(visit v1 files).1; v2] (visit v1 files).2.
Proof. unfold turn. cbn. by destruct (visit v1 files). Qed.

Lemma turn_second v1 v2 files :
  turn 1 (mkSite [v1; v2] files) = mkSite [v1; (visit v2 files).1] (visit v2 files).2.
Proof. unfold turn. cbn. by destruct (visit v2 files). Qed.

(** ** Lemmas: the file of a visitor *)

(** A turn keeps the model and the form of the visitor, hence its file
    name. *)
Lemma visit_same v files :
  v_env (visit v files).1 = v_env v /\ v_form (visit v files).1 = v_form v.
Proof.
  unfold visit. destruct (v_stage v); [| |done..].
  - by destruct (main_to_save _ _ _ _ _) as [[?|] ?|? ?|].
  - by destruct (main_from_open _ _) as [? ?|? ?|].
Qed.

Lemma visit_name v files : v_name (visit v files).1 = v_name v.
Proof. unfold v_name. by destruct (visit_same v files) as [_ ->]. Qed.

(** A turn writes no file but the one of its visitor. *)
Lemma visit_other_files v files path :
  lookup_path (v_name v) <> inr path -> (visit v files).2 !! path = files !! path.
Proof.
  unfold v_name, visit. intros Hname.
  destruct (v_stage v) as [|file_name| |e]; [| |done..].
  - rewrite main_to_save_steps. destruct (form_submit (v_form v)); [|done].
    destruct (DeckA.App.parse_topics _); [done|].
    destruct (lookup_path _) as [e|path']; [done|].
    cbn [moved snd fs DeckA.App.world_after say]. rewrite lookup_insert_ne; [done|].
    congruence.
  - rewrite main_from_open_steps. cbn [fs].
    destruct (lookup_path file_name) as [e|path']; [done|]. by destruct (files !! path').
Qed.

(** The turn of a visitor in order leaves it in order, and one turn
    nearer to its end. *)
Lemma visit_own v files :
  own_ok files v ->
  own_ok (visit v files).2 (visit v files).1 /\
  turns_left (visit v files).1 <= turns_left v - 1.
Proof.
  intros (path & Hpath & Hown). unfold own_ok. rewrite visit_name.
  unfold turns_left, visit, asks, own_deck in *.
  destruct (v_stage v) as [|file_name| |e] eqn:Hstage; [| | |done].
  - rewrite main_to_save_steps. unfold v_name in Hpath. rewrite Hpath.
    destruct (form_submit (v_form v)) eqn:Hsubmit.
    + destruct (DeckA.App.parse_topics _) as [|topic topics] eqn:Htopics.
      * cbn. split; [|lia]. exists path. split; [done|]. intros [_ Hne].
        by rewrite Htopics in Hne.
      * cbn. split; [|lia]. exists path. split; [done|]. split; [done|].
        by rewrite Htopics, lookup_insert_eq.
    + cbn. split; [|lia]. exists path. split; [done|]. intros [Hs _].
      by rewrite Hsubmit in Hs.
  - destruct Hown as [-> Hfile]. rewrite main_from_open_steps, Hpath. cbn [fs].
    rewrite Hfile. cbn. split; [|lia]. exists path. split; [done|]. intros _.
    unfold download. cbn. by rewrite last_app.
  - cbn [fst snd]. rewrite Hstage. split; [|lia]. by exists path.
Qed.

(** What holds of a visitor depends on its own file only. *)
Lemma own_ok_files files files' v :
  (forall path, lookup_path (v_name v) = inr path -> files' !! path = files !! path) ->
  own_ok files v -> own_ok files' v.
Proof.
  unfold own_ok. intros Hsame (path & Hpath & Hown). exists path. split; [done|].
  destruct (v_stage v); [done| |done..]. destruct Hown as [-> Hfile].
  by rewrite Hsame.
Qed.

(** A turn of any visitor keeps a private visitor private. *)
Lemma turn_private i j v s :
  private i v s ->
  exists v', private i v' (turn j s) /\ v_env v' = v_env v /\ v_form v' = v_form v /\
    turns_left v' <= turns_left v - (if decide (j = i) then 1 else 0).
Proof.
  intros (Hi & Hown & Hothers). unfold turn.
  destruct (visitors s !! j) as [vj|] eqn:Hj.
  2:{ exists v. repeat split; [done..|]. destruct (decide (j = i)) as [->|]; [|lia].
      by rewrite Hi in Hj. }
  pose proof (visit_same vj (files s)) as [Henv Hform].
  pose proof (visit_name vj (files s)) as Hname.
  pose proof (visit_other_files vj (files s)) as Hfiles.
  destruct (decide (j = i)) as [->|Hji].
  - simplify_eq. destruct (visit_own v (files s) Hown) as [Hown' Hleft].
    destruct (visit v (files s)) as [v' files']. cbn [fst snd] in *.
    exists v'. split; [split; [|split; [done|]]|done].
    + cbn [visitors]. apply list_lookup_insert_eq. by eapply lookup_lt_Some.
    + intros k vk Hk. cbn [visitors]. rewrite list_lookup_insert_ne by done.
      rewrite Hname. by apply Hothers.
  - destruct (visit vj (files s)) as [vj' files']. cbn [fst snd] in *.
    exists v. split; [split; [|split]|by repeat split; try lia].
    + cbn [visitors]. by rewrite list_lookup_insert_ne.
    + cbn [files]. apply (own_ok_files (files s)); [|done]. intros path Hpath.
      apply Hfiles. rewrite <- Hpath. by apply (Hothers j vj).
    + intros k vk Hk. cbn [visitors]. destruct (decide (k = j)) as [->|Hkj].
      * rewrite list_lookup_insert_eq by (by eapply lookup_lt_Some). intros [= <-].
        rewrite Hname. by apply (Hothers j vj).
      * rewrite list_lookup_insert_ne by done. by apply Hothers.
Qed.

(** The turns of visitor [i] in a schedule. *)
Lemma turns_cons i j (schedule : list nat) :
  length (filter (eq i) (j :: schedule)) =
  (if decide (j = i) then 1 else 0) + length (filter (eq i) schedule).
Proof.
  rewrite filter_cons.
  destruct (decide (j = i)) as [->|]; [by rewrite decide_True|by rewrite decide_False].
Qed.

Lemma run_schedule_private schedule i v s :
  private i v s ->
  exists v', private i v' (run_schedule schedule s) /\
    v_env v' = v_env v /\ v_form v' = v_form v /\
    turns_left v' <= turns_left v - length (filter (eq i) schedule).
Proof.
  revert v s. induction schedule as [|j schedule IH]; intros v s Hv.
  - exists v. repeat split; [apply Hv..|]. cbn. lia.
  - destruct (turn_private i j v s Hv) as (v1 & Hv1 & Henv1 & Hform1 & Hleft1).
    destruct (IH v1 (turn j s) Hv1) as (v' & Hv' & Henv & Hform & Hleft).
    exists v'. split; [done|]. split; [congruence|]. split; [congruence|].
    rewrite turns_cons. lia.
Qed.

(** ** Lemmas: the turns of a visitor *)

(** The turn of a visitor in order brings it one turn nearer to its
    end. *)
Lemma visit_progress v files :
  map_Forall file_ok files -> visitor_ok files v ->
  turns_left (visit v files).1 <= turns_left v - 1.
Proof.
  intros Hfiles Hv. unfold turns_left at 2.
  destruct (v_stage v) as [|file_name| |e] eqn:Hs.
  - destruct (visit_start v files Hs Hfiles) as (page & files' & stage & -> & _ & _ & _ & ?).
    unfold turns_left. cbn. destruct stage; [done|lia..].
  - by destruct (visit_second v file_name files Hs Hfiles Hv) as (page & -> & _).
  - unfold visit, turns_left. rewrite Hs. cbn. by rewrite Hs.
  - unfold visit, turns_left. rewrite Hs. cbn. by rewrite Hs.
Qed.

Lemma turn_progress i j v s :
  site_ok s -> visitors s !! i = Some v ->
  exists v', visitors (turn j s) !! i = Some v' /\ v_name v' = v_name v /\
    turns_left v' <= turns_left v - (if decide (j = i) then 1 else 0).
Proof.
  intros [Hfiles Hvs] Hi. unfold turn.
  destruct (decide (j = i)) as [->|Hji].
  - rewrite Hi. pose proof (visit_progress v (files s) Hfiles) as Hleft.
    pose proof (visit_name v (files s)) as Hname.
    destruct (visit v (files s)) as [v' files']. exists v'. cbn [visitors fst] in *.
    split; [|split; [done|by eapply Hleft, Forall_lookup_1]].
    apply list_lookup_insert_eq. by eapply lookup_lt_Some.
  - exists v. split; [|split; [done|lia]]. destruct (visitors s !! j) as [vj|]; [|done].
    destruct (visit vj (files s)) as [vj' files']. cbn [visitors].
    by rewrite list_lookup_insert_ne.
Qed.

Lemma run_schedule_ok schedule s : site_ok s -> site_ok (run_schedule schedule s).
Proof.
  revert s. induction schedule as [|j schedule IH]; intros s Hs; [done|].
  by apply IH, turn_ok.
Qed.

Lemma run_schedule_progress schedule i v s :
  site_ok s -> visitors s !! i = Some v ->
  exists v', visitors (run_schedule schedule s) !! i = Some v' /\ v_name v' = v_name v /\
    turns_left v' <= turns_left v - length (filter (eq i) schedule).
Proof.
  revert v s. induction schedule as [|j schedule IH]; intros v s Hs Hi.
  - exists v. split; [done|]. split; [done|]. cbn. lia.
  - destruct (turn_progress i j v s Hs Hi) as (v1 & Hi1 & Hname1 & Hleft1).
    destruct (IH v1 (turn j s) (turn_ok j s Hs) Hi1) as (v' & Hi' & Hname & Hleft).
    exists v'. split; [done|]. split; [congruence|]. rewrite turns_cons. lia.
Qed.

(** ** Lemmas: two visitors and one file *)

(** Two visitors whose file names stand for the same file, both with
    topics, in the two orders of their turns. *)
Lemma two_visitors_one_file env1 env2 f1 f2 path files0 :
  form_submit f1 = true -> form_submit f2 = true ->
  DeckA.App.parse_topics (form_topics_input f1) <> [] ->
  DeckA.App.parse_topics (form_topics_input f2) <> [] ->
  lookup_path (DeckA.App.file_name_of (form_title f1)) = inr path ->
  lookup_path (DeckA.App.file_name_of (form_title f2)) = inr path ->
  let s := mkSite [arrive env1 f1; arrive env2 f2] files0 in
  download <$> visitors (run_schedule [0; 0; 1; 1] s)
    = [Some (own_deck env1 f1); Some (own_deck env2 f2)] /\
  download <$> visitors (run_schedule [0; 1; 0; 1] s)
    = [Some (own_deck env2 f2); Some (own_deck env2 f2)].
Proof.
  intros Hs1 Hs2 Ht1 Ht2 Hp1 Hp2 s. unfold run_schedule, s. cbn [foldl].
  set (n1 := DeckA.App.file_name_of (form_title f1)) in *.
  set (n2 := DeckA.App.file_name_of (form_title f2)) in *.
  set (files1 := <[path := own_deck env1 f1]> files0).
  set (files2 := <[path := own_deck env2 f2]> files1).
  destruct (visit_arrive env1 f1 path files0 Hs1 Ht1 Hp1) as [p1 Hv1]. fold n1 files1 in Hv1.
  destruct (visit_arrive env2 f2 path files1 Hs2 Ht2 Hp2) as [p2 Hv2]. fold n2 files2 in Hv2.
  assert (files2 !! path = Some (own_deck env2 f2)) as Hl2 by apply lookup_insert_eq.
  destruct (visit_saved env2 f2 p2 n2 path _ files2 Hp2 Hl2) as (p2' & Hv2' & Hd2).
  split; rewrite turn_first, Hv1; cbn [fst snd].
  - destruct (visit_saved env1 f1 p1 n1 path (own_deck env1 f1) files1 Hp1)
      as (p1' & Hv1' & Hd1); [apply lookup_insert_eq|].
    rewrite turn_first, Hv1'. cbn [fst snd]. rewrite turn_second, Hv2. cbn [fst snd].
    rewrite turn_second, Hv2'. cbn [fst snd visitors fmap list_fmap]. by rewrite Hd1, Hd2.
  - rewrite turn_second, Hv2. cbn [fst snd].
    destruct (visit_saved env1 f1 p1 n1 path _ files2 Hp1 Hl2) as (p1' & Hv1' & Hd1).
    rewrite turn_first, Hv1'. cbn [fst snd].
    rewrite turn_second, Hv2'. cbn [fst snd visitors fmap list_fmap]. by rewrite Hd1, Hd2.
Qed.

(** ** Theorems *)

(** C14 (safety).  Whatever the order in which the runs of the visitors
    take their turns: a run raises only what the file system answers to
    its own file name (the file a run opens is there), every file holds
    a well-formed deck, and every download button carries a deck written
    under the name it shows. *)
Theorem site_safe s s' : rtc site_step s s' -> site_ok s -> site_ok s'.
Proof.
  induction 1 as [|s1 s2 s3 Hstep _ IH]; [done|]. intros Hs. destruct Hstep.
  by apply IH, turn_ok.
Qed.


(** C13 (safety).  Two visitors whose file names stand for the same
    file, both with topics.  When their runs take turns one after the
    other, each is handed the deck of its own run.  When the second
    saves between the save and the open of the first, both are handed
    the deck of the second: the first visitor downloads a deck made for
    another title and other topics. *)
Theorem race_on_file_name env1 env2 f1 f2 path files0 :
  form_submit f1 = true -> form_submit f2 = true ->
  DeckA.App.parse_topics (form_topics_input f1) <> [] ->
  DeckA.App.parse_topics (form_topics_input f2) <> [] ->
  lookup_path (DeckA.App.file_name_of (form_title f1)) = inr path ->
  lookup_path (DeckA.App.file_name_of (form_title f2)) = inr path ->
  let s := mkSite [arrive env1 f1; arrive env2 f2] files0 in
  download <$> visitors (run_schedule [0; 0; 1; 1] s)
    = [Some (own_deck env1 f1); Some (own_deck env2 f2)] /\
  download <$> visitors (run_schedule [0; 1; 0; 1] s)
    = [Some (own_deck env2 f2); Some (own_deck env2 f2)].
Proof. apply two_visitors_one_file. Qed.

(** C29 (safety).  A visitor whose file name is taken, and stands for a
    file that the file name of no other visitor stands for, is handed
    the deck of its own run, in every order of the turns: after two
    turns of its own, whatever turns the others take before, after and
    in between, its run is at its end, and when it has submitted a topic
    its download button carries the deck made for its title, its topics
    and the answer the model gave to it. *)
Theorem own_deck_without_collision schedule i env f s :
  visitors s !! i = Some (arrive env f) ->
  accepted (DeckA.App.file_name_of (form_title f)) ->
  (forall j v', j <> i -> visitors s !! j = Some v' ->
     lookup_path (v_name v') <> lookup_path (DeckA.App.file_name_of (form_title f))) ->
  2 <= length (filter (eq i) schedule) ->
  exists page,
    visitors (run_schedule schedule s) !! i = Some (mkVisitor env f page Finished) /\
    (form_submit f = true -> DeckA.App.parse_topics (form_topics_input f) <> [] ->
     download (mkVisitor env f page Finished) = Some (own_deck env f)).
Proof.
  intros Hi [path Hpath]%accepted_path Hothers Hturns.
  destruct (run_schedule_private schedule i (arrive env f) s)
    as (v' & Hv' & Henv & Hform & Hleft).
  { split; [done|]. split; [by exists path|done]. }
  destruct Hv' as (Hi' & (path' & _ & Hown) & _). destruct v' as [env' f' page stage].
  cbn in *. subst env' f'. unfold turns_left in *. cbn in *.
  destruct stage; [lia|lia| |done]. exists page. split; [done|]. intros ? ?. by apply Hown.
Qed.

(** C31 (liveness).  No visitor waits for another: in every order of the
    turns, a visitor that has had two turns of its own is at the end of
    its run, whatever the other visitors did in between and whatever
    their file names.  The run has ended with a return when the file
    system takes the file name of the visitor (the file it opens is
    there); otherwise with a return or with the exception of the file
    system. *)
Theorem finished_after_two_turns schedule i v s :
  site_ok s -> visitors s !! i = Some v ->
  turns_left v <= length (filter (eq i) schedule) ->
  exists v', visitors (run_schedule schedule s) !! i = Some v' /\
    match lookup_path (v_name v) with
    | inr _ => v_stage v' = Finished
    | inl e => v_stage v' = Finished \/ v_stage v' = Crashed e
    end.
Proof.
  intros Hs Hi Hturns.
  destruct (run_schedule_progress schedule i v s Hs Hi) as (v' & Hi' & Hname & Hleft).
  exists v'. split; [done|].
  destruct (run_schedule_ok schedule s Hs) as [_ Hvs].
  destruct (Forall_lookup_1 _ _ _ _ Hvs Hi') as [Hstage _].
  assert (turns_left v' = 0) as Hzero by lia. unfold turns_left in Hzero.
  rewrite <- Hname. destruct (v_stage v') as [| | |e]; [done..| |].
  - destruct (lookup_path _); auto.
  - rewrite Hstage. by right.
Qed.

End site.

(** ** Two visitors on concrete inputs *)

#[local] Existing Instance plain_names.

(** Two visitors whose titles differ by a space against an underscore;
    the model answers each with a text of its own. *)
Definition answers (text : pystr) : Env := mkEnv (Some (py "key")) (fun _ => ResponseText text).

Definition first_form : Form := mkForm (py "a b") (py "x") true.
Definition second_form : Form := mkForm (py "a_b") (py "y") true.

Definition two_visitors : Site :=
  mkSite [arrive (answers (py "one")) first_form; arrive (answers (py "two")) second_form] ∅.

Lemma site_safe_witness : site_ok (run_schedule [0; 1; 0; 1]%nat two_visitors).
Proof.
  apply (site_safe two_visitors); [apply run_schedule_steps|].
  apply arrivals_ok. by repeat constructor.
Defined.

Lemma race_on_file_name_witness :
  download <$> visitors (run_schedule [0; 0; 1; 1]%nat two_visitors)
    = [Some (own_deck (answers (py "one")) first_form);
       Some (own_deck (answers (py "two")) second_form)] /\
  download <$> visitors (run_schedule [0; 1; 0; 1]%nat two_visitors)
    = [Some (own_deck (answers (py "two")) second_form);
       Some (own_deck (answers (py "two")) second_form)].
Proof.
  apply (race_on_file_name (answers (py "one")) (answers (py "two")) first_form second_form
           (py "a_b.pptx") ∅); by vm_compute.
Defined.

(** The deck the first visitor is handed is not the deck of its run. *)
Example race_hands_out_another_deck :
  own_deck (answers (py "one")) first_form <> own_deck (answers (py "two")) second_form.
Proof. by_compute. Qed.

(** A third visitor, whose title gives another file name: in the order
    of the turns that mixed up the first two, the first visitor and the
    third each get their own deck. *)
Definition third_form : Form := mkForm (py "c") (py "z") true.

Definition apart_visitors : Site :=
  mkSite [arrive (answers (py "one")) first_form; arrive (answers (py "three")) third_form] ∅.

Lemma own_deck_without_collision_witness :
  exists page,
    visitors (run_schedule [0; 1; 0; 1]%nat apart_visitors) !! 0%nat =
      Some (mkVisitor (answers (py "one")) first_form page Finished) /\
    (form_submit first_form = true ->
     DeckA.App.parse_topics (form_topics_input first_form) <> [] ->
     download (mkVisitor (answers (py "one")) first_form page Finished) =
       Some (own_deck (answers (py "one")) first_form)).
Proof.
  apply (own_deck_without_collision [0; 1; 0; 1]%nat 0 (answers (py "one")) first_form
           apart_visitors); [done|by vm_compute| |vm_compute; lia].
  intros [|[|j]] v' Hj; [done| |done]. intros [= <-]. by vm_compute.
Defined.

Lemma finished_after_two_turns_witness :
  exists v', visitors (run_schedule [1; 0; 1; 0]%nat two_visitors) !! 0%nat = Some v' /\
             v_stage v' = Finished.
Proof.
  refine (finished_after_two_turns [1; 0; 1; 0]%nat 0 (arrive (answers (py "one")) first_form)
            two_visitors _ _ _); [|done|vm_compute; lia].
  apply arrivals_ok. by repeat constructor.
Defined.
