(* ===== verification/Paths.v ===== *)
(** * Paths: a file system to run the scripts in

    [App.py] makes the name of the file from the title of the form, with
    the spaces replaced and nothing else (line 122), and hands it to
    [prs.save] and to [open].  What the name stands for is the business
    of the operating system, which [Runtime] keeps behind [FileSystem].
    This file has one file system in full: the names as Linux reads
    them, in a tree whose only directories are those from the root to the
    working directory.  It says what a title does there: which titles
    are refused, which leave the working directory, and which stand for
    the file of another title. *)

From S2P Require Import Prelude PyStr Pptx Runtime Requester DeckA Session Concurrent.

#[local] Open Scope N_scope.

(** ** Names as Linux reads them *)

(** The longest name of one file and the longest path, in bytes, the
    second with its final NUL. *)
Definition NAME_MAX : N := 255.
Definition PATH_MAX : N := 4096.

(** The bytes of one character in the encoding Python uses for file
    names, UTF-8 with [surrogateescape]: a lone surrogate is one byte
    when it stands for one, and is not encoded otherwise. *)
Definition fs_bytes (c : char) : option N :=
  if c <? 0x80 then Some 1
  else if c <? 0x800 then Some 2
  else if (0xDC80 <=? c) && (c <=? 0xDCFF) then Some 1
  else if (0xD800 <=? c) && (c <=? 0xDFFF) then None
  else if c <? 0x10000 then Some 3
  else Some 4.

(** [len(os.fsencode(name))]; [None] for [UnicodeEncodeError]. *)
Fixpoint fs_length (name : pystr) : option N :=
  match name with
  | [] => Some 0
  | c :: name' => n ← fs_bytes c; m ← fs_length name'; Some (n + m)
  end.

(** The directories from the root to the working directory, the root
    first, each by its name. *)
Abbreviation Chain := (list pystr) (only parsing).

(** One step of the walk, from the directory at [depth] below the root:
    an empty name and [.] stay, [..] goes up and stays at the root, the
    name of the next directory of the chain goes down, and any other
    name is an error ([ENOENT], [ENOTDIR] or [ENAMETOOLONG]). *)
Definition walk (chain : Chain) (depth : nat) (dir : pystr) : pyexn + nat :=
  if decide (dir = [] \/ dir = py ".") then inr depth
  else if decide (dir = py "..") then inr (pred depth)
  else if decide (chain !! depth = Some dir) then inr (S depth)
  else inl OSError.

Fixpoint walk_all (chain : Chain) (depth : nat) (dirs : list pystr) : pyexn + nat :=
  match dirs with
  | [] => inr depth
  | dir :: dirs' =>
    match walk chain depth dir with
    | inr depth' => walk_all chain depth' dirs'
    | inl e => inl e
    end
  end.

(** The last component names a file that can be made: it is a name, not
    [.] or [..], of at most [NAME_MAX] bytes, and not the name of a
    directory. *)
Definition file_part_ok (chain : Chain) (depth : nat) (file : pystr) : Prop :=
  file <> [] /\ file <> py "." /\ file <> py ".." /\
  default 0 (fs_length file) <= NAME_MAX /\ chain !! depth <> Some file.

#[export] Instance file_part_ok_dec chain depth file : Decision (file_part_ok chain depth file).
Proof. apply _. Defined.

(** [open(name, mode)] in the working directory at the end of [chain]:
    the absolute path of the file, or the exception. *)
Definition posix_path (chain : Chain) (name : pystr) : pyexn + pystr :=
  match fs_length name with
  | None => inl ValueError
  | Some n =>
    if decide (0 ∈ name) then inl ValueError
    else if decide (name = [] \/ PATH_MAX <= n) then inl OSError
    else
      let parts := split name (py "/") (-1) in
      let start := if startswith name (py "/") then 0%nat else length chain in
      match walk_all chain start (removelast parts) with
      | inl e => inl e
      | inr depth =>
        let file := List.last parts [] in
        if decide (file_part_ok chain depth file)
        then inr (py "/" ++ join (py "/") (take depth chain ++ [file]))
        else inl OSError
      end
  end.

(** A title that gives the name of a file of the working directory: no
    NUL, no slash, and with the five bytes of [.pptx] at most [NAME_MAX]
    bytes. *)
Definition ordinary (title : pystr) : Prop :=
  (0 ∉ title) /\ (47 ∉ title) /\
  match fs_length title with
  | Some n => n + 5 <= NAME_MAX
  | None => False
  end.

#[export] Instance ordinary_dec title : Decision (ordinary title).
Proof. unfold ordinary. destruct (fs_length title); apply _. Defined.

(** The absolute path of a file of the directory at [depth]. *)
Definition path_at (chain : Chain) (depth : nat) (file : pystr) : pystr :=
  py "/" ++ join (py "/") (take depth chain ++ [file]).

(** ** Lemmas: lengths and characters of a file name *)

Lemma fs_length_app a b :
  fs_length (a ++ b) = n ← fs_length a; m ← fs_length b; Some (n + m).
Proof.
  induction a as [|c a IH]; cbn [app fs_length].
  - by destruct (fs_length b).
  - rewrite IH. destruct (fs_bytes c), (fs_length a), (fs_length b); cbn; try done.
    f_equal. lia.
Qed.

Lemma fs_length_fmap (f : char -> char) s :
  (forall c, fs_bytes (f c) = fs_bytes c) -> fs_length (f <$> s) = fs_length s.
Proof. intros Hf. induction s as [|c s IH]; [done|]. cbn. by rewrite Hf, IH. Qed.

Lemma fs_length_file_name title :
  fs_length (DeckA.App.file_name_of title) = n ← fs_length title; Some (n + 5).
Proof.
  unfold DeckA.App.file_name_of. rewrite fs_length_app. change (py " ") with [32].
  change (py "_") with [95]. rewrite replace_char, fs_length_fmap; [done|].
  intros c. by destruct (N.eqb_spec c 32) as [->|].
Qed.

Lemma elem_of_file_name c title :
  c <> 95 -> c ∉ py ".pptx" -> c ∈ DeckA.App.file_name_of title -> c ∈ title.
Proof.
  intros Hc Hext. unfold DeckA.App.file_name_of. change (py " ") with [32].
  change (py "_") with [95]. rewrite replace_char, elem_of_app, list_elem_of_fmap.
  intros [(x & -> & Hx)|?]; [|done]. by destruct (N.eqb_spec x 32).
Qed.

Lemma file_name_prefix pre title :
  32 ∉ pre -> DeckA.App.file_name_of (pre ++ title) = pre ++ DeckA.App.file_name_of title.
Proof.
  intros Hpre. unfold DeckA.App.file_name_of. change (py " ") with [32].
  change (py "_") with [95]. rewrite !replace_char, fmap_app, <- (assoc_L (++)). f_equal.
  rewrite <- (list_fmap_id pre) at 2. apply list_fmap_ext. intros i c Hi. cbn.
  destruct (N.eqb_spec c 32) as [->|]; [|done]. apply list_elem_of_lookup_2 in Hi. done.
Qed.

Lemma file_name_length title :
  length (DeckA.App.file_name_of title) = (length title + 5)%nat.
Proof.
  unfold DeckA.App.file_name_of. change (py " ") with [32]. change (py "_") with [95].
  by rewrite length_app, replace_char_length.
Qed.

Lemma file_name_ends title :
  DeckA.App.file_name_of title <> [] /\ DeckA.App.file_name_of title <> py "." /\
  DeckA.App.file_name_of title <> py "..".
Proof.
  pose proof (file_name_length title) as Hlen.
  repeat split; intros Heq; rewrite Heq in Hlen;
    [change (length [])%nat with 0%nat in Hlen|change (length (py ".")) with 1%nat in Hlen|
     change (length (py "..")) with 2%nat in Hlen]; lia.
Qed.

(** The name made from a title is the title with its spaces replaced,
    part by part. *)
Lemma file_name_app a b :
  DeckA.App.file_name_of (a ++ b) = replace a (py " ") (py "_") ++ DeckA.App.file_name_of b.
Proof.
  unfold DeckA.App.file_name_of. change (py " ") with [32]. change (py "_") with [95].
  by rewrite !replace_char, fmap_app, <- (assoc_L (++)).
Qed.

(** A text without underscore that is a text with its spaces replaced
    is that text. *)
Lemma underscore_back (s t : pystr) : replace s (py " ") (py "_") = t -> 95 ∉ t -> s = t.
Proof.
  change (py " ") with [32]. change (py "_") with [95]. rewrite replace_char.
  revert t. induction s as [|c s IH]; intros [|x t]; cbn; try done.
  intros [= Hc Hs] [Hx Ht]%not_elem_of_cons. f_equal; [|by apply IH].
  by destruct (N.eqb_spec c 32).
Qed.

(** The name of a directory stays one when its spaces are replaced. *)
Lemma directory_name dir :
  dir <> [] -> dir <> py "." -> dir <> py ".." -> 47 ∉ dir ->
  let dir' := replace dir (py " ") (py "_") in
  dir' <> [] /\ dir' <> py "." /\ dir' <> py ".." /\ (47 ∉ dir').
Proof.
  intros Hne Hdot Hdots Hslash dir'. split; [|split; [|split]].
  - intros Heq. apply Hne, (underscore_back _ _ Heq). by_compute.
  - intros Heq. apply Hdot, (underscore_back _ _ Heq). by_compute.
  - intros Heq. apply Hdots, (underscore_back _ _ Heq). by_compute.
  - unfold dir'. change (py " ") with [32]. change (py "_") with [95].
    rewrite replace_char, list_elem_of_fmap. intros (x & Hx & Hin).
    destruct (N.eqb_spec x 32); [done|]. by subst.
Qed.

(** ** Lemmas: the walk *)

Lemma split_go_cut c a b :
  c ∉ a -> split_go [c] None 0 (a ++ c :: b) = a :: split_go [c] None 0 b.
Proof.
  induction a as [|x a IH].
  - intros _. cbn [app split_go can_split startswith andb]. by rewrite N.eqb_refl.
  - intros [Hx Ha]%not_elem_of_cons. cbn [app split_go startswith]. rewrite andb_true_r.
    destruct (N.eqb_spec x c); [congruence|]. rewrite andb_false_r. by rewrite IH.
Qed.

Lemma startswith_slash name : 47 ∉ name -> startswith name (py "/") = false.
Proof.
  destruct name as [|c name]; [done|]. intros [Hc _]%not_elem_of_cons.
  change (py "/") with [47]. cbn [startswith]. rewrite andb_true_r.
  by destruct (N.eqb_spec c 47).
Qed.

Lemma startswith_directory dir rest :
  dir <> [] -> 47 ∉ dir -> startswith (dir ++ 47 :: rest) [47] = false.
Proof.
  destruct dir as [|c dir]; [done|]. intros _ [Hc _]%not_elem_of_cons.
  cbn [app startswith]. rewrite andb_true_r. by destruct (N.eqb_spec c 47).
Qed.

Lemma posix_path_nul chain name : 0 ∈ name -> posix_path chain name = inl ValueError.
Proof.
  intros Hnul. unfold posix_path. destruct (fs_length name); [|done].
  by rewrite decide_True.
Qed.

(** A name without a slash is a file of the working directory. *)
Lemma posix_path_file chain name :
  0 ∉ name -> 47 ∉ name -> fs_length name <> None ->
  file_part_ok chain (length chain) name ->
  posix_path chain name = inr (path_at chain (length chain) name).
Proof.
  intros Hnul Hslash Hlen Hfile. pose proof Hfile as (Hne & _ & _ & Hmax & _).
  unfold posix_path. destruct (fs_length name) as [n|] eqn:Hn; [|done].
  cbn [default from_option id] in Hmax. rewrite decide_False by done.
  rewrite decide_False by (unfold PATH_MAX, NAME_MAX in *; intros [?|?]; [done|lia]).
  cbv zeta. rewrite startswith_slash by done. change (py "/") with [47].
  rewrite split_all, split_go_absent by done.
  cbn [removelast List.last walk_all]. by rewrite decide_True.
Qed.

(** A name with one directory in front. *)
Lemma posix_path_in chain dir file n :
  47 ∉ dir -> 47 ∉ file -> dir <> [] -> 0 ∉ dir ++ py "/" ++ file ->
  fs_length (dir ++ py "/" ++ file) = Some n -> n < PATH_MAX ->
  posix_path chain (dir ++ py "/" ++ file) =
  match walk chain (length chain) dir with
  | inl e => inl e
  | inr depth =>
    if decide (file_part_ok chain depth file) then inr (path_at chain depth file)
    else inl OSError
  end.
Proof.
  intros Hdir Hfile Hne Hnul Hlen Hmax. unfold posix_path. rewrite Hlen.
  rewrite decide_False by done.
  rewrite decide_False by (intros [[? _]%app_eq_nil|?]; [done|lia]).
  cbv zeta. change (py "/") with [47]. cbn [app].
  rewrite split_all, split_go_cut, split_go_absent by done.
  rewrite startswith_directory by done. cbn [removelast List.last walk_all]. by destruct (walk chain (length chain) dir).
Qed.

(** A directory that is not there: the chain ends at the working
    directory. *)
Lemma walk_down chain dir :
  dir <> [] -> dir <> py "." -> dir <> py ".." -> walk chain (length chain) dir = inl OSError.
Proof.
  intros ? ? ?. unfold walk. rewrite decide_False by (intros [?|?]; done).
  rewrite decide_False by done. rewrite decide_False; [done|].
  by rewrite lookup_ge_None_2.
Qed.

Lemma walk_up chain : walk chain (length chain) (py "..") = inr (pred (length chain)).
Proof. done. Qed.

Lemma walk_stay chain : walk chain (length chain) (py ".") = inr (length chain).
Proof. done. Qed.

(** ** The file system, and what a title does in it *)

Section posix.
Context `{UnicodeDb} (chain : Chain).

#[local] Instance posix_names : FileSystem :=
  {| lookup_path := posix_path chain; lookup_path_nul := posix_path_nul chain |}.

Implicit Types (env : Env) (title : pystr) (topics : list pystr) (w : World).

Lemma ordinary_name title :
  ordinary title ->
  (0 ∉ DeckA.App.file_name_of title) /\ (47 ∉ DeckA.App.file_name_of title) /\
  exists n, fs_length (DeckA.App.file_name_of title) = Some n /\ n <= NAME_MAX.
Proof.
  intros (Hnul & Hslash & Hlen). split; [|split].
  - intros Hin. by apply Hnul, (elem_of_file_name 0); [|by_compute|].
  - intros Hin. by apply Hslash, (elem_of_file_name 47); [|by_compute|].
  - rewrite fs_length_file_name. destruct (fs_length title) as [n|]; [|done]. by exists (n + 5).
Qed.

Lemma ordinary_file_part title depth :
  ordinary title -> chain !! depth <> Some (DeckA.App.file_name_of title) ->
  file_part_ok chain depth (DeckA.App.file_name_of title).
Proof.
  intros (_ & _ & n & Hn & Hmax)%ordinary_name Hdir.
  destruct (file_name_ends title) as (? & ? & ?). repeat split; [done..| |done].
  by rewrite Hn.
Qed.

Lemma ordinary_path title :
  ordinary title ->
  lookup_path (DeckA.App.file_name_of title) =
  inr (path_at chain (length chain) (DeckA.App.file_name_of title)).
Proof.
  intros Ht. pose proof (ordinary_name title Ht) as (? & ? & n & Hn & ?).
  apply posix_path_file; [done..|by rewrite Hn|].
  apply ordinary_file_part; [done|]. by rewrite lookup_ge_None_2.
Qed.

(** The name made from a title with a directory in front. *)
Lemma path_in_directory dir title :
  ordinary title -> 32 ∉ dir -> 0 ∉ dir -> 47 ∉ dir -> dir <> [] ->
  (exists n, fs_length dir = Some n /\ n <= NAME_MAX) ->
  lookup_path (DeckA.App.file_name_of (dir ++ py "/" ++ title)) =
  match walk chain (length chain) dir with
  | inl e => inl e
  | inr depth =>
    if decide (file_part_ok chain depth (DeckA.App.file_name_of title))
    then inr (path_at chain depth (DeckA.App.file_name_of title))
    else inl OSError
  end.
Proof.
  intros Ht Hspace Hnul Hslash Hne (m & Hm & Hmax).
  pose proof (ordinary_name title Ht) as (? & ? & n & Hn & ?).
  rewrite (assoc_L (++)), file_name_prefix, <- (assoc_L (++)).
  2:{ rewrite not_elem_of_app. split; [done|by_compute]. }
  apply (posix_path_in chain dir _ (m + (1 + n))); [done..| | |].
  - rewrite !not_elem_of_app. split; [done|]. split; [by_compute|done].
  - rewrite !fs_length_app, Hm, Hn. done.
  - unfold PATH_MAX, NAME_MAX in *. lia.
Qed.

(** ** Theorems *)

(** C33 (functional).  An ordinary title: [create_presentation] writes
    the deck to the file of the working directory that has the name made
    from the title, and returns. *)
Theorem title_ordinary env title topics w :
  ordinary title ->
  DeckA.App.create_presentation env title topics w =
  Done (DeckA.App.file_name_of title)
    (DeckA.App.world_after env title topics
       (path_at chain (length chain) (DeckA.App.file_name_of title)) w).
Proof. intros Ht. by rewrite DeckA.App.create_presentation_steps, ordinary_path. Qed.

(** C32 (bounds).  A title without a slash of more than 250 bytes: the
    name has more than [NAME_MAX] bytes with its [.pptx], and
    [create_presentation] raises [OSError] at [prs.save], with the model
    asked, its answer on the page and no file written.  With
    [title_ordinary]: 250 bytes is the longest title that gets a
    deck. *)
Theorem title_too_long env title topics n w :
  0 ∉ title -> 47 ∉ title -> fs_length title = Some n -> NAME_MAX < n + 5 ->
  DeckA.App.create_presentation env title topics w =
  Raised OSError (say w (DeckA.App.assemble_events env title topics)).
Proof.
  intros Hnul Hslash Hn Hmax. rewrite DeckA.App.create_presentation_steps.
  assert (fs_length (DeckA.App.file_name_of title) = Some (n + 5)) as Hlen
    by by rewrite fs_length_file_name, Hn.
  replace (lookup_path (DeckA.App.file_name_of title)) with (@inl pyexn pystr OSError); [done|].
  symmetry. cbn [lookup_path posix_names]. unfold posix_path. rewrite Hlen.
  rewrite decide_False by (intros Hin; by apply Hnul, (elem_of_file_name 0); [|by_compute|]).
  destruct (decide _); [done|]. cbv zeta.
  assert (47 ∉ DeckA.App.file_name_of title) as Hname
    by (intros Hin; by apply Hslash, (elem_of_file_name 47); [|by_compute|]).
  rewrite startswith_slash by done. change (py "/") with [47].
  rewrite split_all, split_go_absent by done. cbn [removelast List.last walk_all].
  rewrite decide_False; [done|]. intros (_ & _ & _ & Hle & _). rewrite Hlen in Hle.
  cbn [default from_option id] in Hle. lia.
Qed.

(** C15 (error).  A title with a slash after the name of a directory:
    there is no such directory, and [create_presentation] raises at
    [prs.save], with the model asked, its answer on the page and no file
    written. *)
Theorem title_with_directory env dir rest topics w :
  dir <> [] -> dir <> py "." -> dir <> py ".." -> 47 ∉ dir ->
  let title := dir ++ py "/" ++ rest in
  exists e,
    DeckA.App.create_presentation env title topics w =
    Raised e (say w (DeckA.App.assemble_events env title topics)).
Proof.
  intros Hne Hdot Hdots Hslash title. rewrite DeckA.App.create_presentation_steps.
  assert (exists e, lookup_path (DeckA.App.file_name_of title) = inl e) as [e ->];
    [|by exists e].
  destruct (directory_name dir) as (? & ? & ? & ?); [done..|].
  unfold title. rewrite file_name_app, (file_name_prefix (py "/")) by by_compute.
  cbn [lookup_path posix_names]. unfold posix_path.
  destruct (fs_length _); [|by eexists]. destruct (decide _); [by eexists|].
  destruct (decide _); [by eexists|]. cbv zeta. change (py "/") with [47]. cbn [app].
  rewrite startswith_directory, split_all, split_go_cut by done.
  pose proof (split_go_nonempty [47] None 0 (DeckA.App.file_name_of rest)).
  destruct (split_go _ _ _ _) as [|p ps]; [done|]. cbn [removelast walk_all].
  rewrite walk_down by done. by eexists.
Qed.

(** C16 (safety).  A title that starts with [../]: the deck is written to
    the directory above the working directory, under the name made from
    the rest of the title. *)
Theorem title_leaves_directory env parent d title topics w :
  chain = parent ++ [d] -> ordinary title -> d <> DeckA.App.file_name_of title ->
  DeckA.App.create_presentation env (py "../" ++ title) topics w =
  Done (py "../" ++ DeckA.App.file_name_of title)
    (DeckA.App.world_after env (py "../" ++ title) topics
       (py "/" ++ join (py "/") (parent ++ [DeckA.App.file_name_of title])) w).
Proof.
  intros Hchain Ht Hd. rewrite DeckA.App.create_presentation_steps.
  assert (lookup_path (DeckA.App.file_name_of (py "../" ++ title)) =
          inr (py "/" ++ join (py "/") (parent ++ [DeckA.App.file_name_of title]))) as ->.
  { change (py "../" ++ title) with (py ".." ++ py "/" ++ title).
    rewrite path_in_directory; [|done|by_compute..|by exists 2].
    assert (pred (length chain) = length parent) as Hdepth
      by (rewrite Hchain, length_app, Nat.add_1_r; apply Nat.pred_succ).
    rewrite walk_up, Hdepth, decide_True.
    - unfold path_at. by rewrite Hchain, take_app_length.
    - apply ordinary_file_part; [done|]. rewrite Hchain, list_lookup_middle by done.
      congruence. }
  by rewrite (file_name_prefix (py "../")) by by_compute.
Qed.

(** A title that starts with [./] stands for the file of the title
    without it. *)
Lemma dot_path title :
  ordinary title ->
  lookup_path (DeckA.App.file_name_of (py "./" ++ title)) =
  lookup_path (DeckA.App.file_name_of title).
Proof.
  intros Ht. change (py "./" ++ title) with (py "." ++ py "/" ++ title).
  rewrite path_in_directory, ordinary_path; [|done|done|by_compute..|by exists 1].
  rewrite walk_stay, decide_True; [done|].
  apply ordinary_file_part; [done|]. by rewrite lookup_ge_None_2.
Qed.

(** C30 (safety).  Two titles, two file names, one file: a visitor with
    the title [title] and one with the title [./title] save under
    different names, and still the first is handed the deck of the
    second when the second saves between the save and the open of the
    first. *)
Theorem alias_race env1 env2 title input1 input2 :
  ordinary title ->
  DeckA.App.parse_topics input1 <> [] -> DeckA.App.parse_topics input2 <> [] ->
  let f1 := mkForm title input1 true in
  let f2 := mkForm (py "./" ++ title) input2 true in
  DeckA.App.file_name_of (form_title f1) <> DeckA.App.file_name_of (form_title f2) /\
  download <$> visitors (run_schedule [0; 1; 0; 1]%nat
                           (mkSite [arrive env1 f1; arrive env2 f2] ∅)) =
  [Some (own_deck env2 f2); Some (own_deck env2 f2)].
Proof.
  intros Ht Ht1 Ht2 f1 f2. split.
  - intros Heq%(f_equal length). cbn [form_title f1 f2] in Heq.
    rewrite !file_name_length, length_app in Heq. cbn in Heq. lia.
  - apply (two_visitors_one_file env1 env2 f1 f2
             (path_at chain (length chain) (DeckA.App.file_name_of title)) ∅); try done.
    + by apply ordinary_path.
    + cbn [form_title f2]. by rewrite dot_path, ordinary_path.
Qed.

End posix.

(** ** On a concrete server

    The working directory is [/srv/app]; the database is [ascii_db]. *)

Definition srv_app : Chain := [py "srv"; py "app"].

#[local] Instance srv_app_names : FileSystem := posix_names srv_app.

Lemma title_ordinary_witness :
  DeckA.App.create_presentation DeckA.App.demo_env (py "Gen AI") [py "A"] empty_world =
  Done (py "Gen_AI.pptx")
    (DeckA.App.world_after DeckA.App.demo_env (py "Gen AI") [py "A"]
       (py "/srv/app/Gen_AI.pptx") empty_world).
Proof. apply (title_ordinary srv_app). by_compute. Defined.

(** A title of 251 letters. *)
Lemma title_too_long_witness :
  DeckA.App.create_presentation DeckA.App.demo_env (replicate 251 120) [py "A"] empty_world =
  Raised OSError
    (say empty_world
       (DeckA.App.assemble_events DeckA.App.demo_env (replicate 251 120) [py "A"])).
Proof. apply (title_too_long srv_app _ _ _ 251); by_compute. Defined.

Lemma title_with_directory_witness :
  exists e,
    DeckA.App.create_presentation DeckA.App.demo_env (py "AI/ML") [py "A"] empty_world =
    Raised e (say empty_world
                (DeckA.App.assemble_events DeckA.App.demo_env (py "AI/ML") [py "A"])).
Proof.
  apply (title_with_directory srv_app DeckA.App.demo_env (py "AI") (py "ML")); by_compute.
Defined.

Lemma title_leaves_directory_witness :
  DeckA.App.create_presentation DeckA.App.demo_env (py "../T") [py "A"] empty_world =
  Done (py "../T.pptx")
    (DeckA.App.world_after DeckA.App.demo_env (py "../T") [py "A"] (py "/srv/T.pptx")
       empty_world).
Proof.
  apply (title_leaves_directory srv_app DeckA.App.demo_env [py "srv"] (py "app") (py "T"));
    by_compute.
Defined.

Lemma alias_race_witness :
  let f1 := mkForm (py "T") (py "x") true in
  let f2 := mkForm (py "./T") (py "y") true in
  DeckA.App.file_name_of (form_title f1) <> DeckA.App.file_name_of (form_title f2) /\
  download <$> visitors (run_schedule [0; 1; 0; 1]%nat
                           (mkSite [arrive (answers (py "one")) f1;
                                    arrive (answers (py "two")) f2] ∅)) =
  [Some (own_deck (answers (py "two")) f2); Some (own_deck (answers (py "two")) f2)].
Proof.
  apply (alias_race srv_app (answers (py "one")) (answers (py "two")) (py "T")); by_compute.
Defined.

(** The exception of [title_with_directory], on this server. *)
Example title_with_directory_exception :
  lookup_path (DeckA.App.file_name_of (py "AI/ML")) = inl OSError.
Proof. by vm_compute. Qed.

(** A visitor with that title beside a visitor with the title of the
    form: the run of the first ends with the exception at its first turn
    and leaves no file, the second is handed the deck of its own run. *)
Example visitor_with_directory_crashes :
  let f1 := mkForm (py "AI/ML") (py "x") true in
  let f2 := mkForm (py "Gen AI") (py "y") true in
  let s := run_schedule [0; 1; 0; 1]%nat
             (mkSite [arrive (answers (py "one")) f1; arrive (answers (py "two")) f2] ∅) in
  v_stage <$> visitors s = [Crashed OSError; Finished] /\
  download <$> visitors s = [None; Some (own_deck (answers (py "two")) f2)] /\
  dom (files s) = {[py "/srv/app/Gen_AI.pptx"]}.
Proof. by vm_compute. Qed.

(** What [open] answers on a Linux machine with the working directory
    [/tmp/fsq/q1/q2] and no other directory on the way: names for the
    same file, a file above the working directory, the name of a
    directory, a directory that is not there, a name of 256 bytes and a
    surrogate that stands for no byte. *)
Example posix_path_on_linux :
  let chain := [py "tmp"; py "fsq"; py "q1"; py "q2"] in
  posix_path chain (py "a.pptx") = inr (py "/tmp/fsq/q1/q2/a.pptx") /\
  posix_path chain (py ".//a.pptx") = inr (py "/tmp/fsq/q1/q2/a.pptx") /\
  posix_path chain (py "../../q1/q2/../q2/./a.pptx") = inr (py "/tmp/fsq/q1/q2/a.pptx") /\
  posix_path chain (py "../a.pptx") = inr (py "/tmp/fsq/q1/a.pptx") /\
  posix_path chain (py "q2") = inr (py "/tmp/fsq/q1/q2/q2") /\
  posix_path chain (py "../q2") = inl OSError /\
  posix_path chain (py "AI/ML.pptx") = inl OSError /\
  posix_path chain (replicate 256 120) = inl OSError /\
  posix_path chain [0xD800] = inl ValueError.
Proof. by vm_compute. Qed.
