(* ===== verification/Boot.v ===== *)
(** * Boot: the statements a script runs before its functions

    Lines 9-14 of both scripts: [load_dotenv()] copies the bindings of
    the [.env] file into [os.environ], [os.getenv("GOOGLE_API_KEY")]
    reads the credential, and [genai.configure] hands it to the client of
    the hosted model.  Streamlit runs these statements again at every
    rerun, in one server process: [os.environ] outlives a rerun, the
    [.env] file and the hosted model are what they are at that time.

    [module_init] is the three statements; [server_step] is one rerun of
    a script in the process, the statements of this file first and the
    script of [Session] after them.  python-dotenv and the client are
    libraries the scripts only call: a [.env] file is the list of its
    bindings, as python-dotenv parses it, and the hosted model is a
    function of the key it is called with. *)

From S2P Require Import Prelude PyStr Pptx Runtime Requester DeckA Markers DeckB Session.

(** ** The environment of the process *)

(** [os.environ] *)
Abbreviation Environ := (gmap (list N) (list N)) (only parsing).

(** The bindings of a [.env] file, in the order of the file; a name
    without [=] has no value. *)
Abbreviation DotEnv := (list (list N * option (list N))) (only parsing).

(** [DotEnv.dict()]: of two bindings of a name the later one counts. *)
Definition dotenv_values (bindings : DotEnv) : gmap pystr (option pystr) :=
  foldl (fun values kv => <[kv.1 := kv.2]> values) ∅ bindings.

(** What [set_as_environment_variables] leaves for one name, from what
    [os.environ] has ([old]) and what the file binds ([new]): a name that
    is set is kept unless [override]; a binding without a value sets
    nothing. *)
Definition set_variable (override : bool) (old : option pystr) (new : option (option pystr))
    : option pystr :=
  match old, new with
  | Some o, Some (Some v) => Some (if override then v else o)
  | Some o, _ => Some o
  | None, Some (Some v) => Some v
  | None, _ => None
  end.

Definition set_as_environment_variables (override : bool)
    (values : gmap pystr (option pystr)) (environ : Environ) : Environ :=
  merge (set_variable override) environ values.

(** [load_dotenv()], line 10: [file] is the [.env] file found, if any;
    [override] is [False]. *)
Definition load_dotenv (file : option DotEnv) (environ : Environ) : Environ :=
  match file with
  | Some bindings => set_as_environment_variables false (dotenv_values bindings) environ
  | None => environ
  end.

(** [os.getenv(key)] *)
Definition os_getenv (environ : Environ) (key : pystr) : option pystr := environ !! key.

(** Lines 10-14: the environment after [load_dotenv], and the [Env] the
    functions of the script run in.  [service] is the hosted model as a
    function of the key [genai.configure] is given. *)
Definition module_init (file : option DotEnv) (service : option pystr -> pystr -> Response)
    (environ : Environ) : Environ * Env :=
  let environ := load_dotenv file environ in
  let GEMINI_API_KEY := os_getenv environ (py "GOOGLE_API_KEY") in
  (environ, mkEnv GEMINI_API_KEY (service GEMINI_API_KEY)).

(** ** The server process *)

(** What outlives a rerun: [os.environ] and the world. *)
Record Server : Type := mkServer {
  os_environ : gmap (list N) (list N);
  world : World
}.

(** What a rerun finds: the [.env] file and the hosted model as they are
    then, and the values of the form. *)
Record Outside : Type := mkOutside {
  dotenv_file : option (list (list N * option (list N)));
  genai : option pystr -> pystr -> Response;
  form : Form
}.

(** One rerun: the statements of lines 10-14, then the script. *)
Definition boot (script : Script) (s : Server) (o : Outside) : Environ * outcome unit :=
  let '(environ, env) := module_init (dotenv_file o) (genai o) (os_environ s) in
  (environ, rerun script env (world s) (form o)).

Inductive server_step (script : Script) : Server -> Server -> Prop :=
| server_done s o environ w' :
  boot script s o = (environ, Done tt w') -> server_step script s (mkServer environ w')
| server_raised s o environ e w' :
  boot script s o = (environ, Raised e w') -> server_step script s (mkServer environ w').

(** The states of a server started with the environment [environ]. *)
Definition served (script : Script) (environ : Environ) (s : Server) : Prop :=
  rtc (server_step script) (mkServer environ empty_world) s.

(** ** What the file binds *)

(** The last binding of [key] in a file, and its value. *)
Definition last_binding (key : pystr) (bindings : DotEnv) : option (option pystr) :=
  snd <$> last (filter (fun kv => kv.1 = key) bindings).

Definition file_value (file : option DotEnv) (key : pystr) : option pystr :=
  bindings ← file; v ← last_binding key bindings; v.

(** ** Lemmas *)

Lemma foldl_insert_lookup (bindings : DotEnv) (values : gmap pystr (option pystr)) key :
  foldl (fun values kv => <[kv.1 := kv.2]> values) values bindings !! key =
  match last_binding key bindings with
  | Some v => Some v
  | None => values !! key
  end.
Proof.
  revert values. induction bindings as [|[k v] bindings IH]; intros values; [done|].
  cbn [foldl]. rewrite IH. unfold last_binding. rewrite filter_cons. cbn [fst snd].
  destruct (decide (k = key)) as [->|Hk].
  - rewrite last_cons. destruct (last (filter _ bindings)); [done|].
    cbn. by rewrite lookup_insert_eq.
  - destruct (last (filter _ bindings)); [done|]. cbn. by rewrite lookup_insert_ne.
Qed.

Lemma dotenv_values_lookup bindings key :
  dotenv_values bindings !! key = last_binding key bindings.
Proof.
  unfold dotenv_values. rewrite foldl_insert_lookup, lookup_empty.
  by destruct (last_binding key bindings).
Qed.

(** A variable that is set keeps its value; one that is not gets the
    value of the file. *)
Lemma load_dotenv_lookup file environ key :
  load_dotenv file environ !! key =
  match environ !! key with
  | Some v => Some v
  | None => file_value file key
  end.
Proof.
  unfold load_dotenv, file_value. destruct file as [bindings|]; cbn.
  - unfold set_as_environment_variables. rewrite lookup_merge, dotenv_values_lookup.
    by destruct (environ !! key), (last_binding key bindings) as [[?|]|].
  - by destruct (environ !! key).
Qed.

Lemma load_dotenv_keeps file environ key v :
  environ !! key = Some v -> load_dotenv file environ !! key = Some v.
Proof. intros Hv. by rewrite load_dotenv_lookup, Hv. Qed.

Lemma boot_environ script s o :
  (boot script s o).1 = load_dotenv (dotenv_file o) (os_environ s).
Proof. done. Qed.

Lemma server_step_environ script s s' :
  server_step script s s' ->
  exists file, os_environ s' = load_dotenv file (os_environ s).
Proof.
  intros [s0 o environ w' Hb|s0 o environ e w' Hb]; exists (dotenv_file o);
    by rewrite <- (boot_environ script), Hb.
Qed.

(** A rerun in the process is a run of the script in the [Env] that the
    statements of lines 10-14 make. *)
Lemma server_step_step script s s' :
  server_step script s s' -> exists env, step script env (world s) (world s').
Proof.
  intros [s0 o environ w' Hb|s0 o environ e w' Hb]; unfold boot in Hb;
    destruct (module_init _ _ _) as [environ' env]; exists env; simplify_eq.
  - by eapply step_done.
  - by eapply step_raised.
Qed.

Lemma module_init_key file service environ :
  GEMINI_API_KEY (module_init file service environ).2 =
  match environ !! py "GOOGLE_API_KEY" with
  | Some v => Some v
  | None => file_value file (py "GOOGLE_API_KEY")
  end.
Proof. apply load_dotenv_lookup. Qed.

(** ** Theorems *)

(** The credential the functions of a script see is
    the value [GOOGLE_API_KEY] has in the environment of the process,
    also when that value is empty; only when the variable is not set is
    it the value of the last binding of the name in the [.env] file; and
    it is [None] when neither has it. *)
Lemma module_init_credential file service environ :
  GEMINI_API_KEY (module_init file service environ).2 =
  match environ !! py "GOOGLE_API_KEY" with
  | Some v => Some v
  | None => file_value file (py "GOOGLE_API_KEY")
  end.
Proof. apply module_init_key. Qed.

(** A variable of the environment of the server keeps
    its value through every rerun, whatever the [.env] file holds at the
    time: what the first rerun loads, or what was exported with the
    server, is what all later runs see. *)
Lemma environ_sticks script s s' key v :
  rtc (server_step script) s s' ->
  os_environ s !! key = Some v -> os_environ s' !! key = Some v.
Proof.
  induction 1 as [|s1 s2 s3 [file Hfile]%server_step_environ _ IH]; [done|].
  intros Hv. apply IH. rewrite Hfile. by apply load_dotenv_keeps.
Qed.

Section scripts.
Context `{UnicodeDb} `{FileSystem}.

(** In a server that runs [App.py], whatever the
    environment, the [.env] file and the hosted model are at each rerun,
    every file holds a well-formed deck. *)
Lemma served_App_files environ s :
  served DeckA.App.main environ s -> map_Forall file_ok (fs (world s)).
Proof.
  unfold served. revert s. apply rtc_ind_r; [apply map_Forall_empty|].
  intros s s' _ [env Hstep]%server_step_step IH. by eapply step_App_file_ok.
Qed.

(** C37 (error).  When [GOOGLE_API_KEY] is exported empty, a submit in
    [App1.py] ends with the two messages of a missing key and no deck,
    although the [.env] file has the key: [load_dotenv] does not
    override a variable that is set. *)
Theorem empty_variable_shadows_file s o :
  os_environ s !! py "GOOGLE_API_KEY" = Some [] ->
  form_submit (form o) = true ->
  DeckB.App1.parse_topics (form_topics_input (form o)) <> [] ->
  (boot DeckB.App1.main s o).2 =
  Done tt (mkWorld [StTitle (py "AI-Powered Presentation Creator");
                    StInfo (py "Generating your presentation. Please wait...");
                    StError MSG_KEY_NOT_FOUND; StError ERROR_MISSING_KEY]
                   (fs (world s))).
Proof.
  intros Hkey Hsubmit Htopics. unfold boot.
  pose proof (module_init_key (dotenv_file o) (genai o) (os_environ s)) as Hcred.
  rewrite Hkey in Hcred.
  destruct (module_init _ _ _) as [environ env]. cbn [snd] in *.
  unfold rerun. rewrite Hsubmit, DeckB.App1.main_App1_steps.
  destruct (DeckB.App1.parse_topics _) as [|topic topics]; [done|].
  unfold DeckB.App1.content_of, DeckB.App1.failure_of, requested. by rewrite Hcred.
Qed.

End scripts.

(** ** On a concrete server *)

#[local] Existing Instance plain_names.

(** A server started with the key exported, and a [.env] file that binds
    another one. *)
Definition exported : gmap (list N) (list N) := {[py "GOOGLE_API_KEY" := py "old"]}.

Definition edited_file : option (list (list N * option (list N))) :=
  Some [(py "OTHER", None); (py "GOOGLE_API_KEY", Some (py "new"))].

Definition echo (key : option pystr) (prompt : pystr) : Response :=
  ResponseText (default [] key).

Definition first_visit : Outside := mkOutside edited_file echo initial_form.

Definition after_first_visit : Server :=
  mkServer exported (mkWorld [StTitle (py "AI-Powered Presentation Creator")] ∅).

Lemma after_first_visit_served : served DeckA.App.main exported after_first_visit.
Proof. apply rtc_once, (server_done _ _ first_visit). by vm_compute. Qed.

Lemma environ_sticks_witness :
  os_environ after_first_visit !! py "GOOGLE_API_KEY" = Some (py "old").
Proof.
  apply (environ_sticks DeckA.App.main (mkServer exported empty_world));
    [apply after_first_visit_served|by vm_compute].
Defined.

(** The file is read when the variable is not set, and its last binding
    counts. *)
Example module_init_from_file :
  GEMINI_API_KEY
    (module_init (Some [(py "GOOGLE_API_KEY", Some (py "a")); (py "GOOGLE_API_KEY", Some (py "b"))])
       echo ∅).2 = Some (py "b").
Proof. by vm_compute. Qed.

(** A server without a key, after one submit of [App.py]: the deck is
    written all the same. *)
Definition no_key : Env := mkEnv None (echo None).

Definition after_submit_without_key : Server :=
  mkServer ∅ (after_one_submit no_key).

Lemma after_submit_without_key_served :
  served DeckA.App.main ∅ after_submit_without_key.
Proof.
  apply rtc_once, (server_done _ _ (mkOutside None echo one_submit)).
  unfold boot, rerun. cbn. by rewrite DeckA.App.main_App_steps.
Qed.

Lemma served_App_files_witness :
  map_Forall file_ok (fs (world after_submit_without_key)).
Proof. apply (served_App_files ∅), after_submit_without_key_served. Defined.

(** The key exported empty, the key in the file, and a submit. *)
Lemma empty_variable_shadows_file_witness :
  (boot DeckB.App1.main (mkServer {[py "GOOGLE_API_KEY" := []]} empty_world)
     (mkOutside edited_file echo one_submit)).2 =
  Done tt (mkWorld [StTitle (py "AI-Powered Presentation Creator");
                    StInfo (py "Generating your presentation. Please wait...");
                    StError MSG_KEY_NOT_FOUND; StError ERROR_MISSING_KEY] ∅).
Proof.
  apply (empty_variable_shadows_file (mkServer {[py "GOOGLE_API_KEY" := []]} empty_world)
           (mkOutside edited_file echo one_submit)); by vm_compute.
Defined.
